(** * Business-Finder: a shallow embedding of [app.py]

    The development follows the source file from the leaves up: Python
    values and the string operations [has_site] relies on, the HTTP
    environment and the effect monad, the Text Search client
    ([fetch_businesses_v1]), the Place Details client
    ([get_detailed_info_v1]), the enrichment loop
    ([enrich_with_details_v1]), the export helper
    ([dataframe_to_excel_bytes]) and the body of the "Search & Build File"
    button.

    Modelling conventions.
    - A Python [str] is the Rocq [string] of its UTF-8 bytes, which is also
      how Rocq reads a string literal; [chars] cuts it into characters and
      [code_point] gives their code points.  [str.strip], [str.upper],
      [str.lower] and [repr] follow CPython 3.11 on every code point: the
      white space, the case mappings with their one-to-many images, the
      final-sigma rule and the printable ranges are the tables of its
      Unicode database (Unicode 14.0).  A [str] holding a lone surrogate has
      no UTF-8 form and is not a value of the model.
    - JSON numbers are integers ([VInt]); Python floats occur in the source
      as values that are carried through (coordinates, ratings), as the
      progress fraction, which is an exact rational here, and in
      [float(radius_m)]: that conversion is [float_of_int], the rounding to
      binary64 of the Standard Library's specification of IEEE 754, with
      the [OverflowError] of an integer too large for a float.
    - [requests.post] and [requests.get] either get a response or raise;
      whatever they raise (a timeout, a connection error) is the one
      exception [RequestException], which the source never catches.
    - [time.sleep] takes milliseconds.
    - Of the Streamlit calls, those that show a message, a progress bar,
      the table or the download button are events; [st.spinner] only wraps
      a block and leaves no event.
    - Everything the program does to the outside world is an [event]; the
      outside world answers through an [env] that sees the whole history. *)

From Stdlib Require Import String Ascii List ZArith QArith Bool Lia.
From Stdlib Require Import DecimalString.
From Stdlib Require Floats.SpecFloat.
From ExtLib Require Import Structures.Monad.
Import MonadNotation.
Local Open Scope monad_scope.
Import ListNotations.
Local Open Scope string_scope.
Local Open Scope Z_scope.
Set Warnings "-register-all".

(* ===================================================================== *)
(** ** Text: [str.strip], [str.upper], [str.lower], [repr]               *)
(* ===================================================================== *)

Local Open Scope N_scope.

(** [s1 + s2 + ...] *)
Fixpoint cat (l : list string) : string :=
  match l with
  | [] => ""
  | x :: r => x ++ cat r
  end.

(** A continuation byte of UTF-8, [10xxxxxx]. *)
Definition is_cont (b : ascii) : bool :=
  let n := N_of_ascii b in ((0x80 <=? n) && (n <? 0xC0)).

Definition starts_cont (s : string) : bool :=
  match s with
  | String b _ => is_cont b
  | EmptyString => false
  end.

(** The characters of a text, each as its own bytes: a byte together with
    the continuation bytes that follow it. *)
Fixpoint chars (s : string) : list string :=
  match s with
  | EmptyString => []
  | String b r =>
      match chars r with
      | c :: cs => if starts_cont c then String b c :: cs else String b "" :: c :: cs
      | [] => [String b ""]
      end
  end.

(** [len(s)] *)
Definition len (s : string) : nat := length (chars s).

(** The code point a character encodes, [ord(c)]; [None] for bytes that
    are no UTF-8 encoding of a code point (overlong forms and surrogates
    included). *)
Definition code_point (c : string) : option N :=
  match c with
  | String a EmptyString =>
      let a := N_of_ascii a in
      if (a <? 0x80) then Some a else None
  | String a (String b EmptyString) =>
      let a := N_of_ascii a in
      if ((0xC2 <=? a) && (a <=? 0xDF)) && is_cont b
      then Some ((a - 0xC0) * 0x40 + (N_of_ascii b - 0x80))
      else None
  | String a (String b (String c EmptyString)) =>
      let a := N_of_ascii a in
      let n := ((a - 0xE0) * 0x1000 + (N_of_ascii b - 0x80) * 0x40
                + (N_of_ascii c - 0x80)) in
      if ((0xE0 <=? a) && (a <=? 0xEF)) && is_cont b && is_cont c
         && (0x800 <=? n) && negb ((0xD800 <=? n) && (n <=? 0xDFFF))
      then Some n else None
  | String a (String b (String c (String d EmptyString))) =>
      let a := N_of_ascii a in
      let n := ((a - 0xF0) * 0x40000 + (N_of_ascii b - 0x80) * 0x1000
                + (N_of_ascii c - 0x80) * 0x40 + (N_of_ascii d - 0x80)) in
      if ((0xF0 <=? a) && (a <=? 0xF4)) && is_cont b && is_cont c && is_cont d
         && (0x10000 <=? n) && (n <=? 0x10FFFF)
      then Some n else None
  | _ => None
  end.

(** [chr(n)], encoded. *)
Definition utf8 (n : N) : string :=
  let cont (k : N) : ascii := ascii_of_N (0x80 + k mod 0x40) in
  if (n <? 0x80) then String (ascii_of_N n) ""
  else if (n <? 0x800) then
    String (ascii_of_N (0xC0 + n / 0x40)) (String (cont n) "")
  else if (n <? 0x10000) then
    String (ascii_of_N (0xE0 + n / 0x1000)) (String (cont (n / 0x40)) (String (cont n) ""))
  else
    String (ascii_of_N (0xF0 + n / 0x40000))
           (String (cont (n / 0x1000)) (String (cont (n / 0x40)) (String (cont n) ""))).

Definition in_ranges (n : N) (rs : list (N * N)) : bool :=
  existsb (fun r => (fst r <=? n) && (n <=? snd r)) rs.

Definition assoc (n : N) (t : list (N * list N)) : option (list N) :=
  option_map snd (find (fun kv => N.eqb (fst kv) n) t).

Definition whitespace : list N :=
  [ 0x9; 0xA; 0xB; 0xC; 0xD; 0x1C; 0x1D; 0x1E; 0x1F; 0x20; 0x85; 0xA0; 0x1680; 0x2000; 0x2001;
    0x2002; 0x2003; 0x2004; 0x2005; 0x2006; 0x2007; 0x2008; 0x2009; 0x200A; 0x2028; 0x2029;
    0x202F; 0x205F; 0x3000 ].

Definition upper_table : list (N * list N) :=
  [ (0xB5, [0x39C]); (0xDF, [0x53; 0x53]); (0xE0, [0xC0]); (0xE1, [0xC1]); (0xE2, [0xC2]);
    (0xE3, [0xC3]); (0xE4, [0xC4]); (0xE5, [0xC5]); (0xE6, [0xC6]); (0xE7, [0xC7]);
    (0xE8, [0xC8]); (0xE9, [0xC9]); (0xEA, [0xCA]); (0xEB, [0xCB]); (0xEC, [0xCC]);
    (0xED, [0xCD]); (0xEE, [0xCE]); (0xEF, [0xCF]); (0xF0, [0xD0]); (0xF1, [0xD1]);
    (0xF2, [0xD2]); (0xF3, [0xD3]); (0xF4, [0xD4]); (0xF5, [0xD5]); (0xF6, [0xD6]);
    (0xF8, [0xD8]); (0xF9, [0xD9]); (0xFA, [0xDA]); (0xFB, [0xDB]); (0xFC, [0xDC]);
    (0xFD, [0xDD]); (0xFE, [0xDE]); (0xFF, [0x178]); (0x101, [0x100]); (0x103, [0x102]);
    (0x105, [0x104]); (0x107, [0x106]); (0x109, [0x108]); (0x10B, [0x10A]); (0x10D, [0x10C]);
    (0x10F, [0x10E]); (0x111, [0x110]); (0x113, [0x112]); (0x115, [0x114]); (0x117, [0x116]);
    (0x119, [0x118]); (0x11B, [0x11A]); (0x11D, [0x11C]); (0x11F, [0x11E]); (0x121, [0x120]);
    (0x123, [0x122]); (0x125, [0x124]); (0x127, [0x126]); (0x129, [0x128]); (0x12B, [0x12A]);
    (0x12D, [0x12C]); (0x12F, [0x12E]); (0x131, [0x49]); (0x133, [0x132]); (0x135, [0x134]);
    (0x137, [0x136]); (0x13A, [0x139]); (0x13C, [0x13B]); (0x13E, [0x13D]); (0x140, [0x13F]);
    (0x142, [0x141]); (0x144, [0x143]); (0x146, [0x145]); (0x148, [0x147]);
    (0x149, [0x2BC; 0x4E]); (0x14B, [0x14A]); (0x14D, [0x14C]); (0x14F, [0x14E]);
    (0x151, [0x150]); (0x153, [0x152]); (0x155, [0x154]); (0x157, [0x156]); (0x159, [0x158]);
    (0x15B, [0x15A]); (0x15D, [0x15C]); (0x15F, [0x15E]); (0x161, [0x160]); (0x163, [0x162]);
    (0x165, [0x164]); (0x167, [0x166]); (0x169, [0x168]); (0x16B, [0x16A]); (0x16D, [0x16C]);
    (0x16F, [0x16E]); (0x171, [0x170]); (0x173, [0x172]); (0x175, [0x174]); (0x177, [0x176]);
    (0x17A, [0x179]); (0x17C, [0x17B]); (0x17E, [0x17D]); (0x17F, [0x53]); (0x180, [0x243]);
    (0x183, [0x182]); (0x185, [0x184]); (0x188, [0x187]); (0x18C, [0x18B]); (0x192, [0x191]);
    (0x195, [0x1F6]); (0x199, [0x198]); (0x19A, [0x23D]); (0x19E, [0x220]); (0x1A1, [0x1A0]);
    (0x1A3, [0x1A2]); (0x1A5, [0x1A4]); (0x1A8, [0x1A7]); (0x1AD, [0x1AC]); (0x1B0, [0x1AF]);
    (0x1B4, [0x1B3]); (0x1B6, [0x1B5]); (0x1B9, [0x1B8]); (0x1BD, [0x1BC]); (0x1BF, [0x1F7]);
    (0x1C5, [0x1C4]); (0x1C6, [0x1C4]); (0x1C8, [0x1C7]); (0x1C9, [0x1C7]); (0x1CB, [0x1CA]);
    (0x1CC, [0x1CA]); (0x1CE, [0x1CD]); (0x1D0, [0x1CF]); (0x1D2, [0x1D1]); (0x1D4, [0x1D3]);
    (0x1D6, [0x1D5]); (0x1D8, [0x1D7]); (0x1DA, [0x1D9]); (0x1DC, [0x1DB]); (0x1DD, [0x18E]);
    (0x1DF, [0x1DE]); (0x1E1, [0x1E0]); (0x1E3, [0x1E2]); (0x1E5, [0x1E4]); (0x1E7, [0x1E6]);
    (0x1E9, [0x1E8]); (0x1EB, [0x1EA]); (0x1ED, [0x1EC]); (0x1EF, [0x1EE]);
    (0x1F0, [0x4A; 0x30C]); (0x1F2, [0x1F1]); (0x1F3, [0x1F1]); (0x1F5, [0x1F4]);
    (0x1F9, [0x1F8]); (0x1FB, [0x1FA]); (0x1FD, [0x1FC]); (0x1FF, [0x1FE]); (0x201, [0x200]);
    (0x203, [0x202]); (0x205, [0x204]); (0x207, [0x206]); (0x209, [0x208]); (0x20B, [0x20A]);
    (0x20D, [0x20C]); (0x20F, [0x20E]); (0x211, [0x210]); (0x213, [0x212]); (0x215, [0x214]);
    (0x217, [0x216]); (0x219, [0x218]); (0x21B, [0x21A]); (0x21D, [0x21C]); (0x21F, [0x21E]);
    (0x223, [0x222]); (0x225, [0x224]); (0x227, [0x226]); (0x229, [0x228]); (0x22B, [0x22A]);
    (0x22D, [0x22C]); (0x22F, [0x22E]); (0x231, [0x230]); (0x233, [0x232]); (0x23C, [0x23B]);
    (0x23F, [0x2C7E]); (0x240, [0x2C7F]); (0x242, [0x241]); (0x247, [0x246]); (0x249, [0x248]);
    (0x24B, [0x24A]); (0x24D, [0x24C]); (0x24F, [0x24E]); (0x250, [0x2C6F]); (0x251, [0x2C6D]);
    (0x252, [0x2C70]); (0x253, [0x181]); (0x254, [0x186]); (0x256, [0x189]); (0x257, [0x18A]);
    (0x259, [0x18F]); (0x25B, [0x190]); (0x25C, [0xA7AB]); (0x260, [0x193]); (0x261, [0xA7AC]);
    (0x263, [0x194]); (0x265, [0xA78D]); (0x266, [0xA7AA]); (0x268, [0x197]); (0x269, [0x196]);
    (0x26A, [0xA7AE]); (0x26B, [0x2C62]); (0x26C, [0xA7AD]); (0x26F, [0x19C]);
    (0x271, [0x2C6E]); (0x272, [0x19D]); (0x275, [0x19F]); (0x27D, [0x2C64]); (0x280, [0x1A6]);
    (0x282, [0xA7C5]); (0x283, [0x1A9]); (0x287, [0xA7B1]); (0x288, [0x1AE]); (0x289, [0x244]);
    (0x28A, [0x1B1]); (0x28B, [0x1B2]); (0x28C, [0x245]); (0x292, [0x1B7]); (0x29D, [0xA7B2]);
    (0x29E, [0xA7B0]); (0x345, [0x399]); (0x371, [0x370]); (0x373, [0x372]); (0x377, [0x376]);
    (0x37B, [0x3FD]); (0x37C, [0x3FE]); (0x37D, [0x3FF]); (0x390, [0x399; 0x308; 0x301]);
    (0x3AC, [0x386]); (0x3AD, [0x388]); (0x3AE, [0x389]); (0x3AF, [0x38A]);
    (0x3B0, [0x3A5; 0x308; 0x301]); (0x3B1, [0x391]); (0x3B2, [0x392]); (0x3B3, [0x393]);
    (0x3B4, [0x394]); (0x3B5, [0x395]); (0x3B6, [0x396]); (0x3B7, [0x397]); (0x3B8, [0x398]);
    (0x3B9, [0x399]); (0x3BA, [0x39A]); (0x3BB, [0x39B]); (0x3BC, [0x39C]); (0x3BD, [0x39D]);
    (0x3BE, [0x39E]); (0x3BF, [0x39F]); (0x3C0, [0x3A0]); (0x3C1, [0x3A1]); (0x3C2, [0x3A3]);
    (0x3C3, [0x3A3]); (0x3C4, [0x3A4]); (0x3C5, [0x3A5]); (0x3C6, [0x3A6]); (0x3C7, [0x3A7]);
    (0x3C8, [0x3A8]); (0x3C9, [0x3A9]); (0x3CA, [0x3AA]); (0x3CB, [0x3AB]); (0x3CC, [0x38C]);
    (0x3CD, [0x38E]); (0x3CE, [0x38F]); (0x3D0, [0x392]); (0x3D1, [0x398]); (0x3D5, [0x3A6]);
    (0x3D6, [0x3A0]); (0x3D7, [0x3CF]); (0x3D9, [0x3D8]); (0x3DB, [0x3DA]); (0x3DD, [0x3DC]);
    (0x3DF, [0x3DE]); (0x3E1, [0x3E0]); (0x3E3, [0x3E2]); (0x3E5, [0x3E4]); (0x3E7, [0x3E6]);
    (0x3E9, [0x3E8]); (0x3EB, [0x3EA]); (0x3ED, [0x3EC]); (0x3EF, [0x3EE]); (0x3F0, [0x39A]);
    (0x3F1, [0x3A1]); (0x3F2, [0x3F9]); (0x3F3, [0x37F]); (0x3F5, [0x395]); (0x3F8, [0x3F7]);
    (0x3FB, [0x3FA]); (0x430, [0x410]); (0x431, [0x411]); (0x432, [0x412]); (0x433, [0x413]);
    (0x434, [0x414]); (0x435, [0x415]); (0x436, [0x416]); (0x437, [0x417]); (0x438, [0x418]);
    (0x439, [0x419]); (0x43A, [0x41A]); (0x43B, [0x41B]); (0x43C, [0x41C]); (0x43D, [0x41D]);
    (0x43E, [0x41E]); (0x43F, [0x41F]); (0x440, [0x420]); (0x441, [0x421]); (0x442, [0x422]);
    (0x443, [0x423]); (0x444, [0x424]); (0x445, [0x425]); (0x446, [0x426]); (0x447, [0x427]);
    (0x448, [0x428]); (0x449, [0x429]); (0x44A, [0x42A]); (0x44B, [0x42B]); (0x44C, [0x42C]);
    (0x44D, [0x42D]); (0x44E, [0x42E]); (0x44F, [0x42F]); (0x450, [0x400]); (0x451, [0x401]);
    (0x452, [0x402]); (0x453, [0x403]); (0x454, [0x404]); (0x455, [0x405]); (0x456, [0x406]);
    (0x457, [0x407]); (0x458, [0x408]); (0x459, [0x409]); (0x45A, [0x40A]); (0x45B, [0x40B]);
    (0x45C, [0x40C]); (0x45D, [0x40D]); (0x45E, [0x40E]); (0x45F, [0x40F]); (0x461, [0x460]);
    (0x463, [0x462]); (0x465, [0x464]); (0x467, [0x466]); (0x469, [0x468]); (0x46B, [0x46A]);
    (0x46D, [0x46C]); (0x46F, [0x46E]); (0x471, [0x470]); (0x473, [0x472]); (0x475, [0x474]);
    (0x477, [0x476]); (0x479, [0x478]); (0x47B, [0x47A]); (0x47D, [0x47C]); (0x47F, [0x47E]);
    (0x481, [0x480]); (0x48B, [0x48A]); (0x48D, [0x48C]); (0x48F, [0x48E]); (0x491, [0x490]);
    (0x493, [0x492]); (0x495, [0x494]); (0x497, [0x496]); (0x499, [0x498]); (0x49B, [0x49A]);
    (0x49D, [0x49C]); (0x49F, [0x49E]); (0x4A1, [0x4A0]); (0x4A3, [0x4A2]); (0x4A5, [0x4A4]);
    (0x4A7, [0x4A6]); (0x4A9, [0x4A8]); (0x4AB, [0x4AA]); (0x4AD, [0x4AC]); (0x4AF, [0x4AE]);
    (0x4B1, [0x4B0]); (0x4B3, [0x4B2]); (0x4B5, [0x4B4]); (0x4B7, [0x4B6]); (0x4B9, [0x4B8]);
    (0x4BB, [0x4BA]); (0x4BD, [0x4BC]); (0x4BF, [0x4BE]); (0x4C2, [0x4C1]); (0x4C4, [0x4C3]);
    (0x4C6, [0x4C5]); (0x4C8, [0x4C7]); (0x4CA, [0x4C9]); (0x4CC, [0x4CB]); (0x4CE, [0x4CD]);
    (0x4CF, [0x4C0]); (0x4D1, [0x4D0]); (0x4D3, [0x4D2]); (0x4D5, [0x4D4]); (0x4D7, [0x4D6]);
    (0x4D9, [0x4D8]); (0x4DB, [0x4DA]); (0x4DD, [0x4DC]); (0x4DF, [0x4DE]); (0x4E1, [0x4E0]);
    (0x4E3, [0x4E2]); (0x4E5, [0x4E4]); (0x4E7, [0x4E6]); (0x4E9, [0x4E8]); (0x4EB, [0x4EA]);
    (0x4ED, [0x4EC]); (0x4EF, [0x4EE]); (0x4F1, [0x4F0]); (0x4F3, [0x4F2]); (0x4F5, [0x4F4]);
    (0x4F7, [0x4F6]); (0x4F9, [0x4F8]); (0x4FB, [0x4FA]); (0x4FD, [0x4FC]); (0x4FF, [0x4FE]);
    (0x501, [0x500]); (0x503, [0x502]); (0x505, [0x504]); (0x507, [0x506]); (0x509, [0x508]);
    (0x50B, [0x50A]); (0x50D, [0x50C]); (0x50F, [0x50E]); (0x511, [0x510]); (0x513, [0x512]);
    (0x515, [0x514]); (0x517, [0x516]); (0x519, [0x518]); (0x51B, [0x51A]); (0x51D, [0x51C]);
    (0x51F, [0x51E]); (0x521, [0x520]); (0x523, [0x522]); (0x525, [0x524]); (0x527, [0x526]);
    (0x529, [0x528]); (0x52B, [0x52A]); (0x52D, [0x52C]); (0x52F, [0x52E]); (0x561, [0x531]);
    (0x562, [0x532]); (0x563, [0x533]); (0x564, [0x534]); (0x565, [0x535]); (0x566, [0x536]);
    (0x567, [0x537]); (0x568, [0x538]); (0x569, [0x539]); (0x56A, [0x53A]); (0x56B, [0x53B]);
    (0x56C, [0x53C]); (0x56D, [0x53D]); (0x56E, [0x53E]); (0x56F, [0x53F]); (0x570, [0x540]);
    (0x571, [0x541]); (0x572, [0x542]); (0x573, [0x543]); (0x574, [0x544]); (0x575, [0x545]);
    (0x576, [0x546]); (0x577, [0x547]); (0x578, [0x548]); (0x579, [0x549]); (0x57A, [0x54A]);
    (0x57B, [0x54B]); (0x57C, [0x54C]); (0x57D, [0x54D]); (0x57E, [0x54E]); (0x57F, [0x54F]);
    (0x580, [0x550]); (0x581, [0x551]); (0x582, [0x552]); (0x583, [0x553]); (0x584, [0x554]);
    (0x585, [0x555]); (0x586, [0x556]); (0x587, [0x535; 0x552]); (0x10D0, [0x1C90]);
    (0x10D1, [0x1C91]); (0x10D2, [0x1C92]); (0x10D3, [0x1C93]); (0x10D4, [0x1C94]);
    (0x10D5, [0x1C95]); (0x10D6, [0x1C96]); (0x10D7, [0x1C97]); (0x10D8, [0x1C98]);
    (0x10D9, [0x1C99]); (0x10DA, [0x1C9A]); (0x10DB, [0x1C9B]); (0x10DC, [0x1C9C]);
    (0x10DD, [0x1C9D]); (0x10DE, [0x1C9E]); (0x10DF, [0x1C9F]); (0x10E0, [0x1CA0]);
    (0x10E1, [0x1CA1]); (0x10E2, [0x1CA2]); (0x10E3, [0x1CA3]); (0x10E4, [0x1CA4]);
    (0x10E5, [0x1CA5]); (0x10E6, [0x1CA6]); (0x10E7, [0x1CA7]); (0x10E8, [0x1CA8]);
    (0x10E9, [0x1CA9]); (0x10EA, [0x1CAA]); (0x10EB, [0x1CAB]); (0x10EC, [0x1CAC]);
    (0x10ED, [0x1CAD]); (0x10EE, [0x1CAE]); (0x10EF, [0x1CAF]); (0x10F0, [0x1CB0]);
    (0x10F1, [0x1CB1]); (0x10F2, [0x1CB2]); (0x10F3, [0x1CB3]); (0x10F4, [0x1CB4]);
    (0x10F5, [0x1CB5]); (0x10F6, [0x1CB6]); (0x10F7, [0x1CB7]); (0x10F8, [0x1CB8]);
    (0x10F9, [0x1CB9]); (0x10FA, [0x1CBA]); (0x10FD, [0x1CBD]); (0x10FE, [0x1CBE]);
    (0x10FF, [0x1CBF]); (0x13F8, [0x13F0]); (0x13F9, [0x13F1]); (0x13FA, [0x13F2]);
    (0x13FB, [0x13F3]); (0x13FC, [0x13F4]); (0x13FD, [0x13F5]); (0x1C80, [0x412]);
    (0x1C81, [0x414]); (0x1C82, [0x41E]); (0x1C83, [0x421]); (0x1C84, [0x422]);
    (0x1C85, [0x422]); (0x1C86, [0x42A]); (0x1C87, [0x462]); (0x1C88, [0xA64A]);
    (0x1D79, [0xA77D]); (0x1D7D, [0x2C63]); (0x1D8E, [0xA7C6]); (0x1E01, [0x1E00]);
    (0x1E03, [0x1E02]); (0x1E05, [0x1E04]); (0x1E07, [0x1E06]); (0x1E09, [0x1E08]);
    (0x1E0B, [0x1E0A]); (0x1E0D, [0x1E0C]); (0x1E0F, [0x1E0E]); (0x1E11, [0x1E10]);
    (0x1E13, [0x1E12]); (0x1E15, [0x1E14]); (0x1E17, [0x1E16]); (0x1E19, [0x1E18]);
    (0x1E1B, [0x1E1A]); (0x1E1D, [0x1E1C]); (0x1E1F, [0x1E1E]); (0x1E21, [0x1E20]);
    (0x1E23, [0x1E22]); (0x1E25, [0x1E24]); (0x1E27, [0x1E26]); (0x1E29, [0x1E28]);
    (0x1E2B, [0x1E2A]); (0x1E2D, [0x1E2C]); (0x1E2F, [0x1E2E]); (0x1E31, [0x1E30]);
    (0x1E33, [0x1E32]); (0x1E35, [0x1E34]); (0x1E37, [0x1E36]); (0x1E39, [0x1E38]);
    (0x1E3B, [0x1E3A]); (0x1E3D, [0x1E3C]); (0x1E3F, [0x1E3E]); (0x1E41, [0x1E40]);
    (0x1E43, [0x1E42]); (0x1E45, [0x1E44]); (0x1E47, [0x1E46]); (0x1E49, [0x1E48]);
    (0x1E4B, [0x1E4A]); (0x1E4D, [0x1E4C]); (0x1E4F, [0x1E4E]); (0x1E51, [0x1E50]);
    (0x1E53, [0x1E52]); (0x1E55, [0x1E54]); (0x1E57, [0x1E56]); (0x1E59, [0x1E58]);
    (0x1E5B, [0x1E5A]); (0x1E5D, [0x1E5C]); (0x1E5F, [0x1E5E]); (0x1E61, [0x1E60]);
    (0x1E63, [0x1E62]); (0x1E65, [0x1E64]); (0x1E67, [0x1E66]); (0x1E69, [0x1E68]);
    (0x1E6B, [0x1E6A]); (0x1E6D, [0x1E6C]); (0x1E6F, [0x1E6E]); (0x1E71, [0x1E70]);
    (0x1E73, [0x1E72]); (0x1E75, [0x1E74]); (0x1E77, [0x1E76]); (0x1E79, [0x1E78]);
    (0x1E7B, [0x1E7A]); (0x1E7D, [0x1E7C]); (0x1E7F, [0x1E7E]); (0x1E81, [0x1E80]);
    (0x1E83, [0x1E82]); (0x1E85, [0x1E84]); (0x1E87, [0x1E86]); (0x1E89, [0x1E88]);
    (0x1E8B, [0x1E8A]); (0x1E8D, [0x1E8C]); (0x1E8F, [0x1E8E]); (0x1E91, [0x1E90]);
    (0x1E93, [0x1E92]); (0x1E95, [0x1E94]); (0x1E96, [0x48; 0x331]); (0x1E97, [0x54; 0x308]);
    (0x1E98, [0x57; 0x30A]); (0x1E99, [0x59; 0x30A]); (0x1E9A, [0x41; 0x2BE]);
    (0x1E9B, [0x1E60]); (0x1EA1, [0x1EA0]); (0x1EA3, [0x1EA2]); (0x1EA5, [0x1EA4]);
    (0x1EA7, [0x1EA6]); (0x1EA9, [0x1EA8]); (0x1EAB, [0x1EAA]); (0x1EAD, [0x1EAC]);
    (0x1EAF, [0x1EAE]); (0x1EB1, [0x1EB0]); (0x1EB3, [0x1EB2]); (0x1EB5, [0x1EB4]);
    (0x1EB7, [0x1EB6]); (0x1EB9, [0x1EB8]); (0x1EBB, [0x1EBA]); (0x1EBD, [0x1EBC]);
    (0x1EBF, [0x1EBE]); (0x1EC1, [0x1EC0]); (0x1EC3, [0x1EC2]); (0x1EC5, [0x1EC4]);
    (0x1EC7, [0x1EC6]); (0x1EC9, [0x1EC8]); (0x1ECB, [0x1ECA]); (0x1ECD, [0x1ECC]);
    (0x1ECF, [0x1ECE]); (0x1ED1, [0x1ED0]); (0x1ED3, [0x1ED2]); (0x1ED5, [0x1ED4]);
    (0x1ED7, [0x1ED6]); (0x1ED9, [0x1ED8]); (0x1EDB, [0x1EDA]); (0x1EDD, [0x1EDC]);
    (0x1EDF, [0x1EDE]); (0x1EE1, [0x1EE0]); (0x1EE3, [0x1EE2]); (0x1EE5, [0x1EE4]);
    (0x1EE7, [0x1EE6]); (0x1EE9, [0x1EE8]); (0x1EEB, [0x1EEA]); (0x1EED, [0x1EEC]);
    (0x1EEF, [0x1EEE]); (0x1EF1, [0x1EF0]); (0x1EF3, [0x1EF2]); (0x1EF5, [0x1EF4]);
    (0x1EF7, [0x1EF6]); (0x1EF9, [0x1EF8]); (0x1EFB, [0x1EFA]); (0x1EFD, [0x1EFC]);
    (0x1EFF, [0x1EFE]); (0x1F00, [0x1F08]); (0x1F01, [0x1F09]); (0x1F02, [0x1F0A]);
    (0x1F03, [0x1F0B]); (0x1F04, [0x1F0C]); (0x1F05, [0x1F0D]); (0x1F06, [0x1F0E]);
    (0x1F07, [0x1F0F]); (0x1F10, [0x1F18]); (0x1F11, [0x1F19]); (0x1F12, [0x1F1A]);
    (0x1F13, [0x1F1B]); (0x1F14, [0x1F1C]); (0x1F15, [0x1F1D]); (0x1F20, [0x1F28]);
    (0x1F21, [0x1F29]); (0x1F22, [0x1F2A]); (0x1F23, [0x1F2B]); (0x1F24, [0x1F2C]);
    (0x1F25, [0x1F2D]); (0x1F26, [0x1F2E]); (0x1F27, [0x1F2F]); (0x1F30, [0x1F38]);
    (0x1F31, [0x1F39]); (0x1F32, [0x1F3A]); (0x1F33, [0x1F3B]); (0x1F34, [0x1F3C]);
    (0x1F35, [0x1F3D]); (0x1F36, [0x1F3E]); (0x1F37, [0x1F3F]); (0x1F40, [0x1F48]);
    (0x1F41, [0x1F49]); (0x1F42, [0x1F4A]); (0x1F43, [0x1F4B]); (0x1F44, [0x1F4C]);
    (0x1F45, [0x1F4D]); (0x1F50, [0x3A5; 0x313]); (0x1F51, [0x1F59]);
    (0x1F52, [0x3A5; 0x313; 0x300]); (0x1F53, [0x1F5B]); (0x1F54, [0x3A5; 0x313; 0x301]);
    (0x1F55, [0x1F5D]); (0x1F56, [0x3A5; 0x313; 0x342]); (0x1F57, [0x1F5F]); (0x1F60, [0x1F68]);
    (0x1F61, [0x1F69]); (0x1F62, [0x1F6A]); (0x1F63, [0x1F6B]); (0x1F64, [0x1F6C]);
    (0x1F65, [0x1F6D]); (0x1F66, [0x1F6E]); (0x1F67, [0x1F6F]); (0x1F70, [0x1FBA]);
    (0x1F71, [0x1FBB]); (0x1F72, [0x1FC8]); (0x1F73, [0x1FC9]); (0x1F74, [0x1FCA]);
    (0x1F75, [0x1FCB]); (0x1F76, [0x1FDA]); (0x1F77, [0x1FDB]); (0x1F78, [0x1FF8]);
    (0x1F79, [0x1FF9]); (0x1F7A, [0x1FEA]); (0x1F7B, [0x1FEB]); (0x1F7C, [0x1FFA]);
    (0x1F7D, [0x1FFB]); (0x1F80, [0x1F08; 0x399]); (0x1F81, [0x1F09; 0x399]);
    (0x1F82, [0x1F0A; 0x399]); (0x1F83, [0x1F0B; 0x399]); (0x1F84, [0x1F0C; 0x399]);
    (0x1F85, [0x1F0D; 0x399]); (0x1F86, [0x1F0E; 0x399]); (0x1F87, [0x1F0F; 0x399]);
    (0x1F88, [0x1F08; 0x399]); (0x1F89, [0x1F09; 0x399]); (0x1F8A, [0x1F0A; 0x399]);
    (0x1F8B, [0x1F0B; 0x399]); (0x1F8C, [0x1F0C; 0x399]); (0x1F8D, [0x1F0D; 0x399]);
    (0x1F8E, [0x1F0E; 0x399]); (0x1F8F, [0x1F0F; 0x399]); (0x1F90, [0x1F28; 0x399]);
    (0x1F91, [0x1F29; 0x399]); (0x1F92, [0x1F2A; 0x399]); (0x1F93, [0x1F2B; 0x399]);
    (0x1F94, [0x1F2C; 0x399]); (0x1F95, [0x1F2D; 0x399]); (0x1F96, [0x1F2E; 0x399]);
    (0x1F97, [0x1F2F; 0x399]); (0x1F98, [0x1F28; 0x399]); (0x1F99, [0x1F29; 0x399]);
    (0x1F9A, [0x1F2A; 0x399]); (0x1F9B, [0x1F2B; 0x399]); (0x1F9C, [0x1F2C; 0x399]);
    (0x1F9D, [0x1F2D; 0x399]); (0x1F9E, [0x1F2E; 0x399]); (0x1F9F, [0x1F2F; 0x399]);
    (0x1FA0, [0x1F68; 0x399]); (0x1FA1, [0x1F69; 0x399]); (0x1FA2, [0x1F6A; 0x399]);
    (0x1FA3, [0x1F6B; 0x399]); (0x1FA4, [0x1F6C; 0x399]); (0x1FA5, [0x1F6D; 0x399]);
    (0x1FA6, [0x1F6E; 0x399]); (0x1FA7, [0x1F6F; 0x399]); (0x1FA8, [0x1F68; 0x399]);
    (0x1FA9, [0x1F69; 0x399]); (0x1FAA, [0x1F6A; 0x399]); (0x1FAB, [0x1F6B; 0x399]);
    (0x1FAC, [0x1F6C; 0x399]); (0x1FAD, [0x1F6D; 0x399]); (0x1FAE, [0x1F6E; 0x399]);
    (0x1FAF, [0x1F6F; 0x399]); (0x1FB0, [0x1FB8]); (0x1FB1, [0x1FB9]);
    (0x1FB2, [0x1FBA; 0x399]); (0x1FB3, [0x391; 0x399]); (0x1FB4, [0x386; 0x399]);
    (0x1FB6, [0x391; 0x342]); (0x1FB7, [0x391; 0x342; 0x399]); (0x1FBC, [0x391; 0x399]);
    (0x1FBE, [0x399]); (0x1FC2, [0x1FCA; 0x399]); (0x1FC3, [0x397; 0x399]);
    (0x1FC4, [0x389; 0x399]); (0x1FC6, [0x397; 0x342]); (0x1FC7, [0x397; 0x342; 0x399]);
    (0x1FCC, [0x397; 0x399]); (0x1FD0, [0x1FD8]); (0x1FD1, [0x1FD9]);
    (0x1FD2, [0x399; 0x308; 0x300]); (0x1FD3, [0x399; 0x308; 0x301]); (0x1FD6, [0x399; 0x342]);
    (0x1FD7, [0x399; 0x308; 0x342]); (0x1FE0, [0x1FE8]); (0x1FE1, [0x1FE9]);
    (0x1FE2, [0x3A5; 0x308; 0x300]); (0x1FE3, [0x3A5; 0x308; 0x301]); (0x1FE4, [0x3A1; 0x313]);
    (0x1FE5, [0x1FEC]); (0x1FE6, [0x3A5; 0x342]); (0x1FE7, [0x3A5; 0x308; 0x342]);
    (0x1FF2, [0x1FFA; 0x399]); (0x1FF3, [0x3A9; 0x399]); (0x1FF4, [0x38F; 0x399]);
    (0x1FF6, [0x3A9; 0x342]); (0x1FF7, [0x3A9; 0x342; 0x399]); (0x1FFC, [0x3A9; 0x399]);
    (0x214E, [0x2132]); (0x2170, [0x2160]); (0x2171, [0x2161]); (0x2172, [0x2162]);
    (0x2173, [0x2163]); (0x2174, [0x2164]); (0x2175, [0x2165]); (0x2176, [0x2166]);
    (0x2177, [0x2167]); (0x2178, [0x2168]); (0x2179, [0x2169]); (0x217A, [0x216A]);
    (0x217B, [0x216B]); (0x217C, [0x216C]); (0x217D, [0x216D]); (0x217E, [0x216E]);
    (0x217F, [0x216F]); (0x2184, [0x2183]); (0x24D0, [0x24B6]); (0x24D1, [0x24B7]);
    (0x24D2, [0x24B8]); (0x24D3, [0x24B9]); (0x24D4, [0x24BA]); (0x24D5, [0x24BB]);
    (0x24D6, [0x24BC]); (0x24D7, [0x24BD]); (0x24D8, [0x24BE]); (0x24D9, [0x24BF]);
    (0x24DA, [0x24C0]); (0x24DB, [0x24C1]); (0x24DC, [0x24C2]); (0x24DD, [0x24C3]);
    (0x24DE, [0x24C4]); (0x24DF, [0x24C5]); (0x24E0, [0x24C6]); (0x24E1, [0x24C7]);
    (0x24E2, [0x24C8]); (0x24E3, [0x24C9]); (0x24E4, [0x24CA]); (0x24E5, [0x24CB]);
    (0x24E6, [0x24CC]); (0x24E7, [0x24CD]); (0x24E8, [0x24CE]); (0x24E9, [0x24CF]);
    (0x2C30, [0x2C00]); (0x2C31, [0x2C01]); (0x2C32, [0x2C02]); (0x2C33, [0x2C03]);
    (0x2C34, [0x2C04]); (0x2C35, [0x2C05]); (0x2C36, [0x2C06]); (0x2C37, [0x2C07]);
    (0x2C38, [0x2C08]); (0x2C39, [0x2C09]); (0x2C3A, [0x2C0A]); (0x2C3B, [0x2C0B]);
    (0x2C3C, [0x2C0C]); (0x2C3D, [0x2C0D]); (0x2C3E, [0x2C0E]); (0x2C3F, [0x2C0F]);
    (0x2C40, [0x2C10]); (0x2C41, [0x2C11]); (0x2C42, [0x2C12]); (0x2C43, [0x2C13]);
    (0x2C44, [0x2C14]); (0x2C45, [0x2C15]); (0x2C46, [0x2C16]); (0x2C47, [0x2C17]);
    (0x2C48, [0x2C18]); (0x2C49, [0x2C19]); (0x2C4A, [0x2C1A]); (0x2C4B, [0x2C1B]);
    (0x2C4C, [0x2C1C]); (0x2C4D, [0x2C1D]); (0x2C4E, [0x2C1E]); (0x2C4F, [0x2C1F]);
    (0x2C50, [0x2C20]); (0x2C51, [0x2C21]); (0x2C52, [0x2C22]); (0x2C53, [0x2C23]);
    (0x2C54, [0x2C24]); (0x2C55, [0x2C25]); (0x2C56, [0x2C26]); (0x2C57, [0x2C27]);
    (0x2C58, [0x2C28]); (0x2C59, [0x2C29]); (0x2C5A, [0x2C2A]); (0x2C5B, [0x2C2B]);
    (0x2C5C, [0x2C2C]); (0x2C5D, [0x2C2D]); (0x2C5E, [0x2C2E]); (0x2C5F, [0x2C2F]);
    (0x2C61, [0x2C60]); (0x2C65, [0x23A]); (0x2C66, [0x23E]); (0x2C68, [0x2C67]);
    (0x2C6A, [0x2C69]); (0x2C6C, [0x2C6B]); (0x2C73, [0x2C72]); (0x2C76, [0x2C75]);
    (0x2C81, [0x2C80]); (0x2C83, [0x2C82]); (0x2C85, [0x2C84]); (0x2C87, [0x2C86]);
    (0x2C89, [0x2C88]); (0x2C8B, [0x2C8A]); (0x2C8D, [0x2C8C]); (0x2C8F, [0x2C8E]);
    (0x2C91, [0x2C90]); (0x2C93, [0x2C92]); (0x2C95, [0x2C94]); (0x2C97, [0x2C96]);
    (0x2C99, [0x2C98]); (0x2C9B, [0x2C9A]); (0x2C9D, [0x2C9C]); (0x2C9F, [0x2C9E]);
    (0x2CA1, [0x2CA0]); (0x2CA3, [0x2CA2]); (0x2CA5, [0x2CA4]); (0x2CA7, [0x2CA6]);
    (0x2CA9, [0x2CA8]); (0x2CAB, [0x2CAA]); (0x2CAD, [0x2CAC]); (0x2CAF, [0x2CAE]);
    (0x2CB1, [0x2CB0]); (0x2CB3, [0x2CB2]); (0x2CB5, [0x2CB4]); (0x2CB7, [0x2CB6]);
    (0x2CB9, [0x2CB8]); (0x2CBB, [0x2CBA]); (0x2CBD, [0x2CBC]); (0x2CBF, [0x2CBE]);
    (0x2CC1, [0x2CC0]); (0x2CC3, [0x2CC2]); (0x2CC5, [0x2CC4]); (0x2CC7, [0x2CC6]);
    (0x2CC9, [0x2CC8]); (0x2CCB, [0x2CCA]); (0x2CCD, [0x2CCC]); (0x2CCF, [0x2CCE]);
    (0x2CD1, [0x2CD0]); (0x2CD3, [0x2CD2]); (0x2CD5, [0x2CD4]); (0x2CD7, [0x2CD6]);
    (0x2CD9, [0x2CD8]); (0x2CDB, [0x2CDA]); (0x2CDD, [0x2CDC]); (0x2CDF, [0x2CDE]);
    (0x2CE1, [0x2CE0]); (0x2CE3, [0x2CE2]); (0x2CEC, [0x2CEB]); (0x2CEE, [0x2CED]);
    (0x2CF3, [0x2CF2]); (0x2D00, [0x10A0]); (0x2D01, [0x10A1]); (0x2D02, [0x10A2]);
    (0x2D03, [0x10A3]); (0x2D04, [0x10A4]); (0x2D05, [0x10A5]); (0x2D06, [0x10A6]);
    (0x2D07, [0x10A7]); (0x2D08, [0x10A8]); (0x2D09, [0x10A9]); (0x2D0A, [0x10AA]);
    (0x2D0B, [0x10AB]); (0x2D0C, [0x10AC]); (0x2D0D, [0x10AD]); (0x2D0E, [0x10AE]);
    (0x2D0F, [0x10AF]); (0x2D10, [0x10B0]); (0x2D11, [0x10B1]); (0x2D12, [0x10B2]);
    (0x2D13, [0x10B3]); (0x2D14, [0x10B4]); (0x2D15, [0x10B5]); (0x2D16, [0x10B6]);
    (0x2D17, [0x10B7]); (0x2D18, [0x10B8]); (0x2D19, [0x10B9]); (0x2D1A, [0x10BA]);
    (0x2D1B, [0x10BB]); (0x2D1C, [0x10BC]); (0x2D1D, [0x10BD]); (0x2D1E, [0x10BE]);
    (0x2D1F, [0x10BF]); (0x2D20, [0x10C0]); (0x2D21, [0x10C1]); (0x2D22, [0x10C2]);
    (0x2D23, [0x10C3]); (0x2D24, [0x10C4]); (0x2D25, [0x10C5]); (0x2D27, [0x10C7]);
    (0x2D2D, [0x10CD]); (0xA641, [0xA640]); (0xA643, [0xA642]); (0xA645, [0xA644]);
    (0xA647, [0xA646]); (0xA649, [0xA648]); (0xA64B, [0xA64A]); (0xA64D, [0xA64C]);
    (0xA64F, [0xA64E]); (0xA651, [0xA650]); (0xA653, [0xA652]); (0xA655, [0xA654]);
    (0xA657, [0xA656]); (0xA659, [0xA658]); (0xA65B, [0xA65A]); (0xA65D, [0xA65C]);
    (0xA65F, [0xA65E]); (0xA661, [0xA660]); (0xA663, [0xA662]); (0xA665, [0xA664]);
    (0xA667, [0xA666]); (0xA669, [0xA668]); (0xA66B, [0xA66A]); (0xA66D, [0xA66C]);
    (0xA681, [0xA680]); (0xA683, [0xA682]); (0xA685, [0xA684]); (0xA687, [0xA686]);
    (0xA689, [0xA688]); (0xA68B, [0xA68A]); (0xA68D, [0xA68C]); (0xA68F, [0xA68E]);
    (0xA691, [0xA690]); (0xA693, [0xA692]); (0xA695, [0xA694]); (0xA697, [0xA696]);
    (0xA699, [0xA698]); (0xA69B, [0xA69A]); (0xA723, [0xA722]); (0xA725, [0xA724]);
    (0xA727, [0xA726]); (0xA729, [0xA728]); (0xA72B, [0xA72A]); (0xA72D, [0xA72C]);
    (0xA72F, [0xA72E]); (0xA733, [0xA732]); (0xA735, [0xA734]); (0xA737, [0xA736]);
    (0xA739, [0xA738]); (0xA73B, [0xA73A]); (0xA73D, [0xA73C]); (0xA73F, [0xA73E]);
    (0xA741, [0xA740]); (0xA743, [0xA742]); (0xA745, [0xA744]); (0xA747, [0xA746]);
    (0xA749, [0xA748]); (0xA74B, [0xA74A]); (0xA74D, [0xA74C]); (0xA74F, [0xA74E]);
    (0xA751, [0xA750]); (0xA753, [0xA752]); (0xA755, [0xA754]); (0xA757, [0xA756]);
    (0xA759, [0xA758]); (0xA75B, [0xA75A]); (0xA75D, [0xA75C]); (0xA75F, [0xA75E]);
    (0xA761, [0xA760]); (0xA763, [0xA762]); (0xA765, [0xA764]); (0xA767, [0xA766]);
    (0xA769, [0xA768]); (0xA76B, [0xA76A]); (0xA76D, [0xA76C]); (0xA76F, [0xA76E]);
    (0xA77A, [0xA779]); (0xA77C, [0xA77B]); (0xA77F, [0xA77E]); (0xA781, [0xA780]);
    (0xA783, [0xA782]); (0xA785, [0xA784]); (0xA787, [0xA786]); (0xA78C, [0xA78B]);
    (0xA791, [0xA790]); (0xA793, [0xA792]); (0xA794, [0xA7C4]); (0xA797, [0xA796]);
    (0xA799, [0xA798]); (0xA79B, [0xA79A]); (0xA79D, [0xA79C]); (0xA79F, [0xA79E]);
    (0xA7A1, [0xA7A0]); (0xA7A3, [0xA7A2]); (0xA7A5, [0xA7A4]); (0xA7A7, [0xA7A6]);
    (0xA7A9, [0xA7A8]); (0xA7B5, [0xA7B4]); (0xA7B7, [0xA7B6]); (0xA7B9, [0xA7B8]);
    (0xA7BB, [0xA7BA]); (0xA7BD, [0xA7BC]); (0xA7BF, [0xA7BE]); (0xA7C1, [0xA7C0]);
    (0xA7C3, [0xA7C2]); (0xA7C8, [0xA7C7]); (0xA7CA, [0xA7C9]); (0xA7D1, [0xA7D0]);
    (0xA7D7, [0xA7D6]); (0xA7D9, [0xA7D8]); (0xA7F6, [0xA7F5]); (0xAB53, [0xA7B3]);
    (0xAB70, [0x13A0]); (0xAB71, [0x13A1]); (0xAB72, [0x13A2]); (0xAB73, [0x13A3]);
    (0xAB74, [0x13A4]); (0xAB75, [0x13A5]); (0xAB76, [0x13A6]); (0xAB77, [0x13A7]);
    (0xAB78, [0x13A8]); (0xAB79, [0x13A9]); (0xAB7A, [0x13AA]); (0xAB7B, [0x13AB]);
    (0xAB7C, [0x13AC]); (0xAB7D, [0x13AD]); (0xAB7E, [0x13AE]); (0xAB7F, [0x13AF]);
    (0xAB80, [0x13B0]); (0xAB81, [0x13B1]); (0xAB82, [0x13B2]); (0xAB83, [0x13B3]);
    (0xAB84, [0x13B4]); (0xAB85, [0x13B5]); (0xAB86, [0x13B6]); (0xAB87, [0x13B7]);
    (0xAB88, [0x13B8]); (0xAB89, [0x13B9]); (0xAB8A, [0x13BA]); (0xAB8B, [0x13BB]);
    (0xAB8C, [0x13BC]); (0xAB8D, [0x13BD]); (0xAB8E, [0x13BE]); (0xAB8F, [0x13BF]);
    (0xAB90, [0x13C0]); (0xAB91, [0x13C1]); (0xAB92, [0x13C2]); (0xAB93, [0x13C3]);
    (0xAB94, [0x13C4]); (0xAB95, [0x13C5]); (0xAB96, [0x13C6]); (0xAB97, [0x13C7]);
    (0xAB98, [0x13C8]); (0xAB99, [0x13C9]); (0xAB9A, [0x13CA]); (0xAB9B, [0x13CB]);
    (0xAB9C, [0x13CC]); (0xAB9D, [0x13CD]); (0xAB9E, [0x13CE]); (0xAB9F, [0x13CF]);
    (0xABA0, [0x13D0]); (0xABA1, [0x13D1]); (0xABA2, [0x13D2]); (0xABA3, [0x13D3]);
    (0xABA4, [0x13D4]); (0xABA5, [0x13D5]); (0xABA6, [0x13D6]); (0xABA7, [0x13D7]);
    (0xABA8, [0x13D8]); (0xABA9, [0x13D9]); (0xABAA, [0x13DA]); (0xABAB, [0x13DB]);
    (0xABAC, [0x13DC]); (0xABAD, [0x13DD]); (0xABAE, [0x13DE]); (0xABAF, [0x13DF]);
    (0xABB0, [0x13E0]); (0xABB1, [0x13E1]); (0xABB2, [0x13E2]); (0xABB3, [0x13E3]);
    (0xABB4, [0x13E4]); (0xABB5, [0x13E5]); (0xABB6, [0x13E6]); (0xABB7, [0x13E7]);
    (0xABB8, [0x13E8]); (0xABB9, [0x13E9]); (0xABBA, [0x13EA]); (0xABBB, [0x13EB]);
    (0xABBC, [0x13EC]); (0xABBD, [0x13ED]); (0xABBE, [0x13EE]); (0xABBF, [0x13EF]);
    (0xFB00, [0x46; 0x46]); (0xFB01, [0x46; 0x49]); (0xFB02, [0x46; 0x4C]);
    (0xFB03, [0x46; 0x46; 0x49]); (0xFB04, [0x46; 0x46; 0x4C]); (0xFB05, [0x53; 0x54]);
    (0xFB06, [0x53; 0x54]); (0xFB13, [0x544; 0x546]); (0xFB14, [0x544; 0x535]);
    (0xFB15, [0x544; 0x53B]); (0xFB16, [0x54E; 0x546]); (0xFB17, [0x544; 0x53D]);
    (0xFF41, [0xFF21]); (0xFF42, [0xFF22]); (0xFF43, [0xFF23]); (0xFF44, [0xFF24]);
    (0xFF45, [0xFF25]); (0xFF46, [0xFF26]); (0xFF47, [0xFF27]); (0xFF48, [0xFF28]);
    (0xFF49, [0xFF29]); (0xFF4A, [0xFF2A]); (0xFF4B, [0xFF2B]); (0xFF4C, [0xFF2C]);
    (0xFF4D, [0xFF2D]); (0xFF4E, [0xFF2E]); (0xFF4F, [0xFF2F]); (0xFF50, [0xFF30]);
    (0xFF51, [0xFF31]); (0xFF52, [0xFF32]); (0xFF53, [0xFF33]); (0xFF54, [0xFF34]);
    (0xFF55, [0xFF35]); (0xFF56, [0xFF36]); (0xFF57, [0xFF37]); (0xFF58, [0xFF38]);
    (0xFF59, [0xFF39]); (0xFF5A, [0xFF3A]); (0x10428, [0x10400]); (0x10429, [0x10401]);
    (0x1042A, [0x10402]); (0x1042B, [0x10403]); (0x1042C, [0x10404]); (0x1042D, [0x10405]);
    (0x1042E, [0x10406]); (0x1042F, [0x10407]); (0x10430, [0x10408]); (0x10431, [0x10409]);
    (0x10432, [0x1040A]); (0x10433, [0x1040B]); (0x10434, [0x1040C]); (0x10435, [0x1040D]);
    (0x10436, [0x1040E]); (0x10437, [0x1040F]); (0x10438, [0x10410]); (0x10439, [0x10411]);
    (0x1043A, [0x10412]); (0x1043B, [0x10413]); (0x1043C, [0x10414]); (0x1043D, [0x10415]);
    (0x1043E, [0x10416]); (0x1043F, [0x10417]); (0x10440, [0x10418]); (0x10441, [0x10419]);
    (0x10442, [0x1041A]); (0x10443, [0x1041B]); (0x10444, [0x1041C]); (0x10445, [0x1041D]);
    (0x10446, [0x1041E]); (0x10447, [0x1041F]); (0x10448, [0x10420]); (0x10449, [0x10421]);
    (0x1044A, [0x10422]); (0x1044B, [0x10423]); (0x1044C, [0x10424]); (0x1044D, [0x10425]);
    (0x1044E, [0x10426]); (0x1044F, [0x10427]); (0x104D8, [0x104B0]); (0x104D9, [0x104B1]);
    (0x104DA, [0x104B2]); (0x104DB, [0x104B3]); (0x104DC, [0x104B4]); (0x104DD, [0x104B5]);
    (0x104DE, [0x104B6]); (0x104DF, [0x104B7]); (0x104E0, [0x104B8]); (0x104E1, [0x104B9]);
    (0x104E2, [0x104BA]); (0x104E3, [0x104BB]); (0x104E4, [0x104BC]); (0x104E5, [0x104BD]);
    (0x104E6, [0x104BE]); (0x104E7, [0x104BF]); (0x104E8, [0x104C0]); (0x104E9, [0x104C1]);
    (0x104EA, [0x104C2]); (0x104EB, [0x104C3]); (0x104EC, [0x104C4]); (0x104ED, [0x104C5]);
    (0x104EE, [0x104C6]); (0x104EF, [0x104C7]); (0x104F0, [0x104C8]); (0x104F1, [0x104C9]);
    (0x104F2, [0x104CA]); (0x104F3, [0x104CB]); (0x104F4, [0x104CC]); (0x104F5, [0x104CD]);
    (0x104F6, [0x104CE]); (0x104F7, [0x104CF]); (0x104F8, [0x104D0]); (0x104F9, [0x104D1]);
    (0x104FA, [0x104D2]); (0x104FB, [0x104D3]); (0x10597, [0x10570]); (0x10598, [0x10571]);
    (0x10599, [0x10572]); (0x1059A, [0x10573]); (0x1059B, [0x10574]); (0x1059C, [0x10575]);
    (0x1059D, [0x10576]); (0x1059E, [0x10577]); (0x1059F, [0x10578]); (0x105A0, [0x10579]);
    (0x105A1, [0x1057A]); (0x105A3, [0x1057C]); (0x105A4, [0x1057D]); (0x105A5, [0x1057E]);
    (0x105A6, [0x1057F]); (0x105A7, [0x10580]); (0x105A8, [0x10581]); (0x105A9, [0x10582]);
    (0x105AA, [0x10583]); (0x105AB, [0x10584]); (0x105AC, [0x10585]); (0x105AD, [0x10586]);
    (0x105AE, [0x10587]); (0x105AF, [0x10588]); (0x105B0, [0x10589]); (0x105B1, [0x1058A]);
    (0x105B3, [0x1058C]); (0x105B4, [0x1058D]); (0x105B5, [0x1058E]); (0x105B6, [0x1058F]);
    (0x105B7, [0x10590]); (0x105B8, [0x10591]); (0x105B9, [0x10592]); (0x105BB, [0x10594]);
    (0x105BC, [0x10595]); (0x10CC0, [0x10C80]); (0x10CC1, [0x10C81]); (0x10CC2, [0x10C82]);
    (0x10CC3, [0x10C83]); (0x10CC4, [0x10C84]); (0x10CC5, [0x10C85]); (0x10CC6, [0x10C86]);
    (0x10CC7, [0x10C87]); (0x10CC8, [0x10C88]); (0x10CC9, [0x10C89]); (0x10CCA, [0x10C8A]);
    (0x10CCB, [0x10C8B]); (0x10CCC, [0x10C8C]); (0x10CCD, [0x10C8D]); (0x10CCE, [0x10C8E]);
    (0x10CCF, [0x10C8F]); (0x10CD0, [0x10C90]); (0x10CD1, [0x10C91]); (0x10CD2, [0x10C92]);
    (0x10CD3, [0x10C93]); (0x10CD4, [0x10C94]); (0x10CD5, [0x10C95]); (0x10CD6, [0x10C96]);
    (0x10CD7, [0x10C97]); (0x10CD8, [0x10C98]); (0x10CD9, [0x10C99]); (0x10CDA, [0x10C9A]);
    (0x10CDB, [0x10C9B]); (0x10CDC, [0x10C9C]); (0x10CDD, [0x10C9D]); (0x10CDE, [0x10C9E]);
    (0x10CDF, [0x10C9F]); (0x10CE0, [0x10CA0]); (0x10CE1, [0x10CA1]); (0x10CE2, [0x10CA2]);
    (0x10CE3, [0x10CA3]); (0x10CE4, [0x10CA4]); (0x10CE5, [0x10CA5]); (0x10CE6, [0x10CA6]);
    (0x10CE7, [0x10CA7]); (0x10CE8, [0x10CA8]); (0x10CE9, [0x10CA9]); (0x10CEA, [0x10CAA]);
    (0x10CEB, [0x10CAB]); (0x10CEC, [0x10CAC]); (0x10CED, [0x10CAD]); (0x10CEE, [0x10CAE]);
    (0x10CEF, [0x10CAF]); (0x10CF0, [0x10CB0]); (0x10CF1, [0x10CB1]); (0x10CF2, [0x10CB2]);
    (0x118C0, [0x118A0]); (0x118C1, [0x118A1]); (0x118C2, [0x118A2]); (0x118C3, [0x118A3]);
    (0x118C4, [0x118A4]); (0x118C5, [0x118A5]); (0x118C6, [0x118A6]); (0x118C7, [0x118A7]);
    (0x118C8, [0x118A8]); (0x118C9, [0x118A9]); (0x118CA, [0x118AA]); (0x118CB, [0x118AB]);
    (0x118CC, [0x118AC]); (0x118CD, [0x118AD]); (0x118CE, [0x118AE]); (0x118CF, [0x118AF]);
    (0x118D0, [0x118B0]); (0x118D1, [0x118B1]); (0x118D2, [0x118B2]); (0x118D3, [0x118B3]);
    (0x118D4, [0x118B4]); (0x118D5, [0x118B5]); (0x118D6, [0x118B6]); (0x118D7, [0x118B7]);
    (0x118D8, [0x118B8]); (0x118D9, [0x118B9]); (0x118DA, [0x118BA]); (0x118DB, [0x118BB]);
    (0x118DC, [0x118BC]); (0x118DD, [0x118BD]); (0x118DE, [0x118BE]); (0x118DF, [0x118BF]);
    (0x16E60, [0x16E40]); (0x16E61, [0x16E41]); (0x16E62, [0x16E42]); (0x16E63, [0x16E43]);
    (0x16E64, [0x16E44]); (0x16E65, [0x16E45]); (0x16E66, [0x16E46]); (0x16E67, [0x16E47]);
    (0x16E68, [0x16E48]); (0x16E69, [0x16E49]); (0x16E6A, [0x16E4A]); (0x16E6B, [0x16E4B]);
    (0x16E6C, [0x16E4C]); (0x16E6D, [0x16E4D]); (0x16E6E, [0x16E4E]); (0x16E6F, [0x16E4F]);
    (0x16E70, [0x16E50]); (0x16E71, [0x16E51]); (0x16E72, [0x16E52]); (0x16E73, [0x16E53]);
    (0x16E74, [0x16E54]); (0x16E75, [0x16E55]); (0x16E76, [0x16E56]); (0x16E77, [0x16E57]);
    (0x16E78, [0x16E58]); (0x16E79, [0x16E59]); (0x16E7A, [0x16E5A]); (0x16E7B, [0x16E5B]);
    (0x16E7C, [0x16E5C]); (0x16E7D, [0x16E5D]); (0x16E7E, [0x16E5E]); (0x16E7F, [0x16E5F]);
    (0x1E922, [0x1E900]); (0x1E923, [0x1E901]); (0x1E924, [0x1E902]); (0x1E925, [0x1E903]);
    (0x1E926, [0x1E904]); (0x1E927, [0x1E905]); (0x1E928, [0x1E906]); (0x1E929, [0x1E907]);
    (0x1E92A, [0x1E908]); (0x1E92B, [0x1E909]); (0x1E92C, [0x1E90A]); (0x1E92D, [0x1E90B]);
    (0x1E92E, [0x1E90C]); (0x1E92F, [0x1E90D]); (0x1E930, [0x1E90E]); (0x1E931, [0x1E90F]);
    (0x1E932, [0x1E910]); (0x1E933, [0x1E911]); (0x1E934, [0x1E912]); (0x1E935, [0x1E913]);
    (0x1E936, [0x1E914]); (0x1E937, [0x1E915]); (0x1E938, [0x1E916]); (0x1E939, [0x1E917]);
    (0x1E93A, [0x1E918]); (0x1E93B, [0x1E919]); (0x1E93C, [0x1E91A]); (0x1E93D, [0x1E91B]);
    (0x1E93E, [0x1E91C]); (0x1E93F, [0x1E91D]); (0x1E940, [0x1E91E]); (0x1E941, [0x1E91F]);
    (0x1E942, [0x1E920]); (0x1E943, [0x1E921]) ].

Definition lower_table : list (N * list N) :=
  [ (0xC0, [0xE0]); (0xC1, [0xE1]); (0xC2, [0xE2]); (0xC3, [0xE3]); (0xC4, [0xE4]);
    (0xC5, [0xE5]); (0xC6, [0xE6]); (0xC7, [0xE7]); (0xC8, [0xE8]); (0xC9, [0xE9]);
    (0xCA, [0xEA]); (0xCB, [0xEB]); (0xCC, [0xEC]); (0xCD, [0xED]); (0xCE, [0xEE]);
    (0xCF, [0xEF]); (0xD0, [0xF0]); (0xD1, [0xF1]); (0xD2, [0xF2]); (0xD3, [0xF3]);
    (0xD4, [0xF4]); (0xD5, [0xF5]); (0xD6, [0xF6]); (0xD8, [0xF8]); (0xD9, [0xF9]);
    (0xDA, [0xFA]); (0xDB, [0xFB]); (0xDC, [0xFC]); (0xDD, [0xFD]); (0xDE, [0xFE]);
    (0x100, [0x101]); (0x102, [0x103]); (0x104, [0x105]); (0x106, [0x107]); (0x108, [0x109]);
    (0x10A, [0x10B]); (0x10C, [0x10D]); (0x10E, [0x10F]); (0x110, [0x111]); (0x112, [0x113]);
    (0x114, [0x115]); (0x116, [0x117]); (0x118, [0x119]); (0x11A, [0x11B]); (0x11C, [0x11D]);
    (0x11E, [0x11F]); (0x120, [0x121]); (0x122, [0x123]); (0x124, [0x125]); (0x126, [0x127]);
    (0x128, [0x129]); (0x12A, [0x12B]); (0x12C, [0x12D]); (0x12E, [0x12F]);
    (0x130, [0x69; 0x307]); (0x132, [0x133]); (0x134, [0x135]); (0x136, [0x137]);
    (0x139, [0x13A]); (0x13B, [0x13C]); (0x13D, [0x13E]); (0x13F, [0x140]); (0x141, [0x142]);
    (0x143, [0x144]); (0x145, [0x146]); (0x147, [0x148]); (0x14A, [0x14B]); (0x14C, [0x14D]);
    (0x14E, [0x14F]); (0x150, [0x151]); (0x152, [0x153]); (0x154, [0x155]); (0x156, [0x157]);
    (0x158, [0x159]); (0x15A, [0x15B]); (0x15C, [0x15D]); (0x15E, [0x15F]); (0x160, [0x161]);
    (0x162, [0x163]); (0x164, [0x165]); (0x166, [0x167]); (0x168, [0x169]); (0x16A, [0x16B]);
    (0x16C, [0x16D]); (0x16E, [0x16F]); (0x170, [0x171]); (0x172, [0x173]); (0x174, [0x175]);
    (0x176, [0x177]); (0x178, [0xFF]); (0x179, [0x17A]); (0x17B, [0x17C]); (0x17D, [0x17E]);
    (0x181, [0x253]); (0x182, [0x183]); (0x184, [0x185]); (0x186, [0x254]); (0x187, [0x188]);
    (0x189, [0x256]); (0x18A, [0x257]); (0x18B, [0x18C]); (0x18E, [0x1DD]); (0x18F, [0x259]);
    (0x190, [0x25B]); (0x191, [0x192]); (0x193, [0x260]); (0x194, [0x263]); (0x196, [0x269]);
    (0x197, [0x268]); (0x198, [0x199]); (0x19C, [0x26F]); (0x19D, [0x272]); (0x19F, [0x275]);
    (0x1A0, [0x1A1]); (0x1A2, [0x1A3]); (0x1A4, [0x1A5]); (0x1A6, [0x280]); (0x1A7, [0x1A8]);
    (0x1A9, [0x283]); (0x1AC, [0x1AD]); (0x1AE, [0x288]); (0x1AF, [0x1B0]); (0x1B1, [0x28A]);
    (0x1B2, [0x28B]); (0x1B3, [0x1B4]); (0x1B5, [0x1B6]); (0x1B7, [0x292]); (0x1B8, [0x1B9]);
    (0x1BC, [0x1BD]); (0x1C4, [0x1C6]); (0x1C5, [0x1C6]); (0x1C7, [0x1C9]); (0x1C8, [0x1C9]);
    (0x1CA, [0x1CC]); (0x1CB, [0x1CC]); (0x1CD, [0x1CE]); (0x1CF, [0x1D0]); (0x1D1, [0x1D2]);
    (0x1D3, [0x1D4]); (0x1D5, [0x1D6]); (0x1D7, [0x1D8]); (0x1D9, [0x1DA]); (0x1DB, [0x1DC]);
    (0x1DE, [0x1DF]); (0x1E0, [0x1E1]); (0x1E2, [0x1E3]); (0x1E4, [0x1E5]); (0x1E6, [0x1E7]);
    (0x1E8, [0x1E9]); (0x1EA, [0x1EB]); (0x1EC, [0x1ED]); (0x1EE, [0x1EF]); (0x1F1, [0x1F3]);
    (0x1F2, [0x1F3]); (0x1F4, [0x1F5]); (0x1F6, [0x195]); (0x1F7, [0x1BF]); (0x1F8, [0x1F9]);
    (0x1FA, [0x1FB]); (0x1FC, [0x1FD]); (0x1FE, [0x1FF]); (0x200, [0x201]); (0x202, [0x203]);
    (0x204, [0x205]); (0x206, [0x207]); (0x208, [0x209]); (0x20A, [0x20B]); (0x20C, [0x20D]);
    (0x20E, [0x20F]); (0x210, [0x211]); (0x212, [0x213]); (0x214, [0x215]); (0x216, [0x217]);
    (0x218, [0x219]); (0x21A, [0x21B]); (0x21C, [0x21D]); (0x21E, [0x21F]); (0x220, [0x19E]);
    (0x222, [0x223]); (0x224, [0x225]); (0x226, [0x227]); (0x228, [0x229]); (0x22A, [0x22B]);
    (0x22C, [0x22D]); (0x22E, [0x22F]); (0x230, [0x231]); (0x232, [0x233]); (0x23A, [0x2C65]);
    (0x23B, [0x23C]); (0x23D, [0x19A]); (0x23E, [0x2C66]); (0x241, [0x242]); (0x243, [0x180]);
    (0x244, [0x289]); (0x245, [0x28C]); (0x246, [0x247]); (0x248, [0x249]); (0x24A, [0x24B]);
    (0x24C, [0x24D]); (0x24E, [0x24F]); (0x370, [0x371]); (0x372, [0x373]); (0x376, [0x377]);
    (0x37F, [0x3F3]); (0x386, [0x3AC]); (0x388, [0x3AD]); (0x389, [0x3AE]); (0x38A, [0x3AF]);
    (0x38C, [0x3CC]); (0x38E, [0x3CD]); (0x38F, [0x3CE]); (0x391, [0x3B1]); (0x392, [0x3B2]);
    (0x393, [0x3B3]); (0x394, [0x3B4]); (0x395, [0x3B5]); (0x396, [0x3B6]); (0x397, [0x3B7]);
    (0x398, [0x3B8]); (0x399, [0x3B9]); (0x39A, [0x3BA]); (0x39B, [0x3BB]); (0x39C, [0x3BC]);
    (0x39D, [0x3BD]); (0x39E, [0x3BE]); (0x39F, [0x3BF]); (0x3A0, [0x3C0]); (0x3A1, [0x3C1]);
    (0x3A3, [0x3C3]); (0x3A4, [0x3C4]); (0x3A5, [0x3C5]); (0x3A6, [0x3C6]); (0x3A7, [0x3C7]);
    (0x3A8, [0x3C8]); (0x3A9, [0x3C9]); (0x3AA, [0x3CA]); (0x3AB, [0x3CB]); (0x3CF, [0x3D7]);
    (0x3D8, [0x3D9]); (0x3DA, [0x3DB]); (0x3DC, [0x3DD]); (0x3DE, [0x3DF]); (0x3E0, [0x3E1]);
    (0x3E2, [0x3E3]); (0x3E4, [0x3E5]); (0x3E6, [0x3E7]); (0x3E8, [0x3E9]); (0x3EA, [0x3EB]);
    (0x3EC, [0x3ED]); (0x3EE, [0x3EF]); (0x3F4, [0x3B8]); (0x3F7, [0x3F8]); (0x3F9, [0x3F2]);
    (0x3FA, [0x3FB]); (0x3FD, [0x37B]); (0x3FE, [0x37C]); (0x3FF, [0x37D]); (0x400, [0x450]);
    (0x401, [0x451]); (0x402, [0x452]); (0x403, [0x453]); (0x404, [0x454]); (0x405, [0x455]);
    (0x406, [0x456]); (0x407, [0x457]); (0x408, [0x458]); (0x409, [0x459]); (0x40A, [0x45A]);
    (0x40B, [0x45B]); (0x40C, [0x45C]); (0x40D, [0x45D]); (0x40E, [0x45E]); (0x40F, [0x45F]);
    (0x410, [0x430]); (0x411, [0x431]); (0x412, [0x432]); (0x413, [0x433]); (0x414, [0x434]);
    (0x415, [0x435]); (0x416, [0x436]); (0x417, [0x437]); (0x418, [0x438]); (0x419, [0x439]);
    (0x41A, [0x43A]); (0x41B, [0x43B]); (0x41C, [0x43C]); (0x41D, [0x43D]); (0x41E, [0x43E]);
    (0x41F, [0x43F]); (0x420, [0x440]); (0x421, [0x441]); (0x422, [0x442]); (0x423, [0x443]);
    (0x424, [0x444]); (0x425, [0x445]); (0x426, [0x446]); (0x427, [0x447]); (0x428, [0x448]);
    (0x429, [0x449]); (0x42A, [0x44A]); (0x42B, [0x44B]); (0x42C, [0x44C]); (0x42D, [0x44D]);
    (0x42E, [0x44E]); (0x42F, [0x44F]); (0x460, [0x461]); (0x462, [0x463]); (0x464, [0x465]);
    (0x466, [0x467]); (0x468, [0x469]); (0x46A, [0x46B]); (0x46C, [0x46D]); (0x46E, [0x46F]);
    (0x470, [0x471]); (0x472, [0x473]); (0x474, [0x475]); (0x476, [0x477]); (0x478, [0x479]);
    (0x47A, [0x47B]); (0x47C, [0x47D]); (0x47E, [0x47F]); (0x480, [0x481]); (0x48A, [0x48B]);
    (0x48C, [0x48D]); (0x48E, [0x48F]); (0x490, [0x491]); (0x492, [0x493]); (0x494, [0x495]);
    (0x496, [0x497]); (0x498, [0x499]); (0x49A, [0x49B]); (0x49C, [0x49D]); (0x49E, [0x49F]);
    (0x4A0, [0x4A1]); (0x4A2, [0x4A3]); (0x4A4, [0x4A5]); (0x4A6, [0x4A7]); (0x4A8, [0x4A9]);
    (0x4AA, [0x4AB]); (0x4AC, [0x4AD]); (0x4AE, [0x4AF]); (0x4B0, [0x4B1]); (0x4B2, [0x4B3]);
    (0x4B4, [0x4B5]); (0x4B6, [0x4B7]); (0x4B8, [0x4B9]); (0x4BA, [0x4BB]); (0x4BC, [0x4BD]);
    (0x4BE, [0x4BF]); (0x4C0, [0x4CF]); (0x4C1, [0x4C2]); (0x4C3, [0x4C4]); (0x4C5, [0x4C6]);
    (0x4C7, [0x4C8]); (0x4C9, [0x4CA]); (0x4CB, [0x4CC]); (0x4CD, [0x4CE]); (0x4D0, [0x4D1]);
    (0x4D2, [0x4D3]); (0x4D4, [0x4D5]); (0x4D6, [0x4D7]); (0x4D8, [0x4D9]); (0x4DA, [0x4DB]);
    (0x4DC, [0x4DD]); (0x4DE, [0x4DF]); (0x4E0, [0x4E1]); (0x4E2, [0x4E3]); (0x4E4, [0x4E5]);
    (0x4E6, [0x4E7]); (0x4E8, [0x4E9]); (0x4EA, [0x4EB]); (0x4EC, [0x4ED]); (0x4EE, [0x4EF]);
    (0x4F0, [0x4F1]); (0x4F2, [0x4F3]); (0x4F4, [0x4F5]); (0x4F6, [0x4F7]); (0x4F8, [0x4F9]);
    (0x4FA, [0x4FB]); (0x4FC, [0x4FD]); (0x4FE, [0x4FF]); (0x500, [0x501]); (0x502, [0x503]);
    (0x504, [0x505]); (0x506, [0x507]); (0x508, [0x509]); (0x50A, [0x50B]); (0x50C, [0x50D]);
    (0x50E, [0x50F]); (0x510, [0x511]); (0x512, [0x513]); (0x514, [0x515]); (0x516, [0x517]);
    (0x518, [0x519]); (0x51A, [0x51B]); (0x51C, [0x51D]); (0x51E, [0x51F]); (0x520, [0x521]);
    (0x522, [0x523]); (0x524, [0x525]); (0x526, [0x527]); (0x528, [0x529]); (0x52A, [0x52B]);
    (0x52C, [0x52D]); (0x52E, [0x52F]); (0x531, [0x561]); (0x532, [0x562]); (0x533, [0x563]);
    (0x534, [0x564]); (0x535, [0x565]); (0x536, [0x566]); (0x537, [0x567]); (0x538, [0x568]);
    (0x539, [0x569]); (0x53A, [0x56A]); (0x53B, [0x56B]); (0x53C, [0x56C]); (0x53D, [0x56D]);
    (0x53E, [0x56E]); (0x53F, [0x56F]); (0x540, [0x570]); (0x541, [0x571]); (0x542, [0x572]);
    (0x543, [0x573]); (0x544, [0x574]); (0x545, [0x575]); (0x546, [0x576]); (0x547, [0x577]);
    (0x548, [0x578]); (0x549, [0x579]); (0x54A, [0x57A]); (0x54B, [0x57B]); (0x54C, [0x57C]);
    (0x54D, [0x57D]); (0x54E, [0x57E]); (0x54F, [0x57F]); (0x550, [0x580]); (0x551, [0x581]);
    (0x552, [0x582]); (0x553, [0x583]); (0x554, [0x584]); (0x555, [0x585]); (0x556, [0x586]);
    (0x10A0, [0x2D00]); (0x10A1, [0x2D01]); (0x10A2, [0x2D02]); (0x10A3, [0x2D03]);
    (0x10A4, [0x2D04]); (0x10A5, [0x2D05]); (0x10A6, [0x2D06]); (0x10A7, [0x2D07]);
    (0x10A8, [0x2D08]); (0x10A9, [0x2D09]); (0x10AA, [0x2D0A]); (0x10AB, [0x2D0B]);
    (0x10AC, [0x2D0C]); (0x10AD, [0x2D0D]); (0x10AE, [0x2D0E]); (0x10AF, [0x2D0F]);
    (0x10B0, [0x2D10]); (0x10B1, [0x2D11]); (0x10B2, [0x2D12]); (0x10B3, [0x2D13]);
    (0x10B4, [0x2D14]); (0x10B5, [0x2D15]); (0x10B6, [0x2D16]); (0x10B7, [0x2D17]);
    (0x10B8, [0x2D18]); (0x10B9, [0x2D19]); (0x10BA, [0x2D1A]); (0x10BB, [0x2D1B]);
    (0x10BC, [0x2D1C]); (0x10BD, [0x2D1D]); (0x10BE, [0x2D1E]); (0x10BF, [0x2D1F]);
    (0x10C0, [0x2D20]); (0x10C1, [0x2D21]); (0x10C2, [0x2D22]); (0x10C3, [0x2D23]);
    (0x10C4, [0x2D24]); (0x10C5, [0x2D25]); (0x10C7, [0x2D27]); (0x10CD, [0x2D2D]);
    (0x13A0, [0xAB70]); (0x13A1, [0xAB71]); (0x13A2, [0xAB72]); (0x13A3, [0xAB73]);
    (0x13A4, [0xAB74]); (0x13A5, [0xAB75]); (0x13A6, [0xAB76]); (0x13A7, [0xAB77]);
    (0x13A8, [0xAB78]); (0x13A9, [0xAB79]); (0x13AA, [0xAB7A]); (0x13AB, [0xAB7B]);
    (0x13AC, [0xAB7C]); (0x13AD, [0xAB7D]); (0x13AE, [0xAB7E]); (0x13AF, [0xAB7F]);
    (0x13B0, [0xAB80]); (0x13B1, [0xAB81]); (0x13B2, [0xAB82]); (0x13B3, [0xAB83]);
    (0x13B4, [0xAB84]); (0x13B5, [0xAB85]); (0x13B6, [0xAB86]); (0x13B7, [0xAB87]);
    (0x13B8, [0xAB88]); (0x13B9, [0xAB89]); (0x13BA, [0xAB8A]); (0x13BB, [0xAB8B]);
    (0x13BC, [0xAB8C]); (0x13BD, [0xAB8D]); (0x13BE, [0xAB8E]); (0x13BF, [0xAB8F]);
    (0x13C0, [0xAB90]); (0x13C1, [0xAB91]); (0x13C2, [0xAB92]); (0x13C3, [0xAB93]);
    (0x13C4, [0xAB94]); (0x13C5, [0xAB95]); (0x13C6, [0xAB96]); (0x13C7, [0xAB97]);
    (0x13C8, [0xAB98]); (0x13C9, [0xAB99]); (0x13CA, [0xAB9A]); (0x13CB, [0xAB9B]);
    (0x13CC, [0xAB9C]); (0x13CD, [0xAB9D]); (0x13CE, [0xAB9E]); (0x13CF, [0xAB9F]);
    (0x13D0, [0xABA0]); (0x13D1, [0xABA1]); (0x13D2, [0xABA2]); (0x13D3, [0xABA3]);
    (0x13D4, [0xABA4]); (0x13D5, [0xABA5]); (0x13D6, [0xABA6]); (0x13D7, [0xABA7]);
    (0x13D8, [0xABA8]); (0x13D9, [0xABA9]); (0x13DA, [0xABAA]); (0x13DB, [0xABAB]);
    (0x13DC, [0xABAC]); (0x13DD, [0xABAD]); (0x13DE, [0xABAE]); (0x13DF, [0xABAF]);
    (0x13E0, [0xABB0]); (0x13E1, [0xABB1]); (0x13E2, [0xABB2]); (0x13E3, [0xABB3]);
    (0x13E4, [0xABB4]); (0x13E5, [0xABB5]); (0x13E6, [0xABB6]); (0x13E7, [0xABB7]);
    (0x13E8, [0xABB8]); (0x13E9, [0xABB9]); (0x13EA, [0xABBA]); (0x13EB, [0xABBB]);
    (0x13EC, [0xABBC]); (0x13ED, [0xABBD]); (0x13EE, [0xABBE]); (0x13EF, [0xABBF]);
    (0x13F0, [0x13F8]); (0x13F1, [0x13F9]); (0x13F2, [0x13FA]); (0x13F3, [0x13FB]);
    (0x13F4, [0x13FC]); (0x13F5, [0x13FD]); (0x1C90, [0x10D0]); (0x1C91, [0x10D1]);
    (0x1C92, [0x10D2]); (0x1C93, [0x10D3]); (0x1C94, [0x10D4]); (0x1C95, [0x10D5]);
    (0x1C96, [0x10D6]); (0x1C97, [0x10D7]); (0x1C98, [0x10D8]); (0x1C99, [0x10D9]);
    (0x1C9A, [0x10DA]); (0x1C9B, [0x10DB]); (0x1C9C, [0x10DC]); (0x1C9D, [0x10DD]);
    (0x1C9E, [0x10DE]); (0x1C9F, [0x10DF]); (0x1CA0, [0x10E0]); (0x1CA1, [0x10E1]);
    (0x1CA2, [0x10E2]); (0x1CA3, [0x10E3]); (0x1CA4, [0x10E4]); (0x1CA5, [0x10E5]);
    (0x1CA6, [0x10E6]); (0x1CA7, [0x10E7]); (0x1CA8, [0x10E8]); (0x1CA9, [0x10E9]);
    (0x1CAA, [0x10EA]); (0x1CAB, [0x10EB]); (0x1CAC, [0x10EC]); (0x1CAD, [0x10ED]);
    (0x1CAE, [0x10EE]); (0x1CAF, [0x10EF]); (0x1CB0, [0x10F0]); (0x1CB1, [0x10F1]);
    (0x1CB2, [0x10F2]); (0x1CB3, [0x10F3]); (0x1CB4, [0x10F4]); (0x1CB5, [0x10F5]);
    (0x1CB6, [0x10F6]); (0x1CB7, [0x10F7]); (0x1CB8, [0x10F8]); (0x1CB9, [0x10F9]);
    (0x1CBA, [0x10FA]); (0x1CBD, [0x10FD]); (0x1CBE, [0x10FE]); (0x1CBF, [0x10FF]);
    (0x1E00, [0x1E01]); (0x1E02, [0x1E03]); (0x1E04, [0x1E05]); (0x1E06, [0x1E07]);
    (0x1E08, [0x1E09]); (0x1E0A, [0x1E0B]); (0x1E0C, [0x1E0D]); (0x1E0E, [0x1E0F]);
    (0x1E10, [0x1E11]); (0x1E12, [0x1E13]); (0x1E14, [0x1E15]); (0x1E16, [0x1E17]);
    (0x1E18, [0x1E19]); (0x1E1A, [0x1E1B]); (0x1E1C, [0x1E1D]); (0x1E1E, [0x1E1F]);
    (0x1E20, [0x1E21]); (0x1E22, [0x1E23]); (0x1E24, [0x1E25]); (0x1E26, [0x1E27]);
    (0x1E28, [0x1E29]); (0x1E2A, [0x1E2B]); (0x1E2C, [0x1E2D]); (0x1E2E, [0x1E2F]);
    (0x1E30, [0x1E31]); (0x1E32, [0x1E33]); (0x1E34, [0x1E35]); (0x1E36, [0x1E37]);
    (0x1E38, [0x1E39]); (0x1E3A, [0x1E3B]); (0x1E3C, [0x1E3D]); (0x1E3E, [0x1E3F]);
    (0x1E40, [0x1E41]); (0x1E42, [0x1E43]); (0x1E44, [0x1E45]); (0x1E46, [0x1E47]);
    (0x1E48, [0x1E49]); (0x1E4A, [0x1E4B]); (0x1E4C, [0x1E4D]); (0x1E4E, [0x1E4F]);
    (0x1E50, [0x1E51]); (0x1E52, [0x1E53]); (0x1E54, [0x1E55]); (0x1E56, [0x1E57]);
    (0x1E58, [0x1E59]); (0x1E5A, [0x1E5B]); (0x1E5C, [0x1E5D]); (0x1E5E, [0x1E5F]);
    (0x1E60, [0x1E61]); (0x1E62, [0x1E63]); (0x1E64, [0x1E65]); (0x1E66, [0x1E67]);
    (0x1E68, [0x1E69]); (0x1E6A, [0x1E6B]); (0x1E6C, [0x1E6D]); (0x1E6E, [0x1E6F]);
    (0x1E70, [0x1E71]); (0x1E72, [0x1E73]); (0x1E74, [0x1E75]); (0x1E76, [0x1E77]);
    (0x1E78, [0x1E79]); (0x1E7A, [0x1E7B]); (0x1E7C, [0x1E7D]); (0x1E7E, [0x1E7F]);
    (0x1E80, [0x1E81]); (0x1E82, [0x1E83]); (0x1E84, [0x1E85]); (0x1E86, [0x1E87]);
    (0x1E88, [0x1E89]); (0x1E8A, [0x1E8B]); (0x1E8C, [0x1E8D]); (0x1E8E, [0x1E8F]);
    (0x1E90, [0x1E91]); (0x1E92, [0x1E93]); (0x1E94, [0x1E95]); (0x1E9E, [0xDF]);
    (0x1EA0, [0x1EA1]); (0x1EA2, [0x1EA3]); (0x1EA4, [0x1EA5]); (0x1EA6, [0x1EA7]);
    (0x1EA8, [0x1EA9]); (0x1EAA, [0x1EAB]); (0x1EAC, [0x1EAD]); (0x1EAE, [0x1EAF]);
    (0x1EB0, [0x1EB1]); (0x1EB2, [0x1EB3]); (0x1EB4, [0x1EB5]); (0x1EB6, [0x1EB7]);
    (0x1EB8, [0x1EB9]); (0x1EBA, [0x1EBB]); (0x1EBC, [0x1EBD]); (0x1EBE, [0x1EBF]);
    (0x1EC0, [0x1EC1]); (0x1EC2, [0x1EC3]); (0x1EC4, [0x1EC5]); (0x1EC6, [0x1EC7]);
    (0x1EC8, [0x1EC9]); (0x1ECA, [0x1ECB]); (0x1ECC, [0x1ECD]); (0x1ECE, [0x1ECF]);
    (0x1ED0, [0x1ED1]); (0x1ED2, [0x1ED3]); (0x1ED4, [0x1ED5]); (0x1ED6, [0x1ED7]);
    (0x1ED8, [0x1ED9]); (0x1EDA, [0x1EDB]); (0x1EDC, [0x1EDD]); (0x1EDE, [0x1EDF]);
    (0x1EE0, [0x1EE1]); (0x1EE2, [0x1EE3]); (0x1EE4, [0x1EE5]); (0x1EE6, [0x1EE7]);
    (0x1EE8, [0x1EE9]); (0x1EEA, [0x1EEB]); (0x1EEC, [0x1EED]); (0x1EEE, [0x1EEF]);
    (0x1EF0, [0x1EF1]); (0x1EF2, [0x1EF3]); (0x1EF4, [0x1EF5]); (0x1EF6, [0x1EF7]);
    (0x1EF8, [0x1EF9]); (0x1EFA, [0x1EFB]); (0x1EFC, [0x1EFD]); (0x1EFE, [0x1EFF]);
    (0x1F08, [0x1F00]); (0x1F09, [0x1F01]); (0x1F0A, [0x1F02]); (0x1F0B, [0x1F03]);
    (0x1F0C, [0x1F04]); (0x1F0D, [0x1F05]); (0x1F0E, [0x1F06]); (0x1F0F, [0x1F07]);
    (0x1F18, [0x1F10]); (0x1F19, [0x1F11]); (0x1F1A, [0x1F12]); (0x1F1B, [0x1F13]);
    (0x1F1C, [0x1F14]); (0x1F1D, [0x1F15]); (0x1F28, [0x1F20]); (0x1F29, [0x1F21]);
    (0x1F2A, [0x1F22]); (0x1F2B, [0x1F23]); (0x1F2C, [0x1F24]); (0x1F2D, [0x1F25]);
    (0x1F2E, [0x1F26]); (0x1F2F, [0x1F27]); (0x1F38, [0x1F30]); (0x1F39, [0x1F31]);
    (0x1F3A, [0x1F32]); (0x1F3B, [0x1F33]); (0x1F3C, [0x1F34]); (0x1F3D, [0x1F35]);
    (0x1F3E, [0x1F36]); (0x1F3F, [0x1F37]); (0x1F48, [0x1F40]); (0x1F49, [0x1F41]);
    (0x1F4A, [0x1F42]); (0x1F4B, [0x1F43]); (0x1F4C, [0x1F44]); (0x1F4D, [0x1F45]);
    (0x1F59, [0x1F51]); (0x1F5B, [0x1F53]); (0x1F5D, [0x1F55]); (0x1F5F, [0x1F57]);
    (0x1F68, [0x1F60]); (0x1F69, [0x1F61]); (0x1F6A, [0x1F62]); (0x1F6B, [0x1F63]);
    (0x1F6C, [0x1F64]); (0x1F6D, [0x1F65]); (0x1F6E, [0x1F66]); (0x1F6F, [0x1F67]);
    (0x1F88, [0x1F80]); (0x1F89, [0x1F81]); (0x1F8A, [0x1F82]); (0x1F8B, [0x1F83]);
    (0x1F8C, [0x1F84]); (0x1F8D, [0x1F85]); (0x1F8E, [0x1F86]); (0x1F8F, [0x1F87]);
    (0x1F98, [0x1F90]); (0x1F99, [0x1F91]); (0x1F9A, [0x1F92]); (0x1F9B, [0x1F93]);
    (0x1F9C, [0x1F94]); (0x1F9D, [0x1F95]); (0x1F9E, [0x1F96]); (0x1F9F, [0x1F97]);
    (0x1FA8, [0x1FA0]); (0x1FA9, [0x1FA1]); (0x1FAA, [0x1FA2]); (0x1FAB, [0x1FA3]);
    (0x1FAC, [0x1FA4]); (0x1FAD, [0x1FA5]); (0x1FAE, [0x1FA6]); (0x1FAF, [0x1FA7]);
    (0x1FB8, [0x1FB0]); (0x1FB9, [0x1FB1]); (0x1FBA, [0x1F70]); (0x1FBB, [0x1F71]);
    (0x1FBC, [0x1FB3]); (0x1FC8, [0x1F72]); (0x1FC9, [0x1F73]); (0x1FCA, [0x1F74]);
    (0x1FCB, [0x1F75]); (0x1FCC, [0x1FC3]); (0x1FD8, [0x1FD0]); (0x1FD9, [0x1FD1]);
    (0x1FDA, [0x1F76]); (0x1FDB, [0x1F77]); (0x1FE8, [0x1FE0]); (0x1FE9, [0x1FE1]);
    (0x1FEA, [0x1F7A]); (0x1FEB, [0x1F7B]); (0x1FEC, [0x1FE5]); (0x1FF8, [0x1F78]);
    (0x1FF9, [0x1F79]); (0x1FFA, [0x1F7C]); (0x1FFB, [0x1F7D]); (0x1FFC, [0x1FF3]);
    (0x2126, [0x3C9]); (0x212A, [0x6B]); (0x212B, [0xE5]); (0x2132, [0x214E]);
    (0x2160, [0x2170]); (0x2161, [0x2171]); (0x2162, [0x2172]); (0x2163, [0x2173]);
    (0x2164, [0x2174]); (0x2165, [0x2175]); (0x2166, [0x2176]); (0x2167, [0x2177]);
    (0x2168, [0x2178]); (0x2169, [0x2179]); (0x216A, [0x217A]); (0x216B, [0x217B]);
    (0x216C, [0x217C]); (0x216D, [0x217D]); (0x216E, [0x217E]); (0x216F, [0x217F]);
    (0x2183, [0x2184]); (0x24B6, [0x24D0]); (0x24B7, [0x24D1]); (0x24B8, [0x24D2]);
    (0x24B9, [0x24D3]); (0x24BA, [0x24D4]); (0x24BB, [0x24D5]); (0x24BC, [0x24D6]);
    (0x24BD, [0x24D7]); (0x24BE, [0x24D8]); (0x24BF, [0x24D9]); (0x24C0, [0x24DA]);
    (0x24C1, [0x24DB]); (0x24C2, [0x24DC]); (0x24C3, [0x24DD]); (0x24C4, [0x24DE]);
    (0x24C5, [0x24DF]); (0x24C6, [0x24E0]); (0x24C7, [0x24E1]); (0x24C8, [0x24E2]);
    (0x24C9, [0x24E3]); (0x24CA, [0x24E4]); (0x24CB, [0x24E5]); (0x24CC, [0x24E6]);
    (0x24CD, [0x24E7]); (0x24CE, [0x24E8]); (0x24CF, [0x24E9]); (0x2C00, [0x2C30]);
    (0x2C01, [0x2C31]); (0x2C02, [0x2C32]); (0x2C03, [0x2C33]); (0x2C04, [0x2C34]);
    (0x2C05, [0x2C35]); (0x2C06, [0x2C36]); (0x2C07, [0x2C37]); (0x2C08, [0x2C38]);
    (0x2C09, [0x2C39]); (0x2C0A, [0x2C3A]); (0x2C0B, [0x2C3B]); (0x2C0C, [0x2C3C]);
    (0x2C0D, [0x2C3D]); (0x2C0E, [0x2C3E]); (0x2C0F, [0x2C3F]); (0x2C10, [0x2C40]);
    (0x2C11, [0x2C41]); (0x2C12, [0x2C42]); (0x2C13, [0x2C43]); (0x2C14, [0x2C44]);
    (0x2C15, [0x2C45]); (0x2C16, [0x2C46]); (0x2C17, [0x2C47]); (0x2C18, [0x2C48]);
    (0x2C19, [0x2C49]); (0x2C1A, [0x2C4A]); (0x2C1B, [0x2C4B]); (0x2C1C, [0x2C4C]);
    (0x2C1D, [0x2C4D]); (0x2C1E, [0x2C4E]); (0x2C1F, [0x2C4F]); (0x2C20, [0x2C50]);
    (0x2C21, [0x2C51]); (0x2C22, [0x2C52]); (0x2C23, [0x2C53]); (0x2C24, [0x2C54]);
    (0x2C25, [0x2C55]); (0x2C26, [0x2C56]); (0x2C27, [0x2C57]); (0x2C28, [0x2C58]);
    (0x2C29, [0x2C59]); (0x2C2A, [0x2C5A]); (0x2C2B, [0x2C5B]); (0x2C2C, [0x2C5C]);
    (0x2C2D, [0x2C5D]); (0x2C2E, [0x2C5E]); (0x2C2F, [0x2C5F]); (0x2C60, [0x2C61]);
    (0x2C62, [0x26B]); (0x2C63, [0x1D7D]); (0x2C64, [0x27D]); (0x2C67, [0x2C68]);
    (0x2C69, [0x2C6A]); (0x2C6B, [0x2C6C]); (0x2C6D, [0x251]); (0x2C6E, [0x271]);
    (0x2C6F, [0x250]); (0x2C70, [0x252]); (0x2C72, [0x2C73]); (0x2C75, [0x2C76]);
    (0x2C7E, [0x23F]); (0x2C7F, [0x240]); (0x2C80, [0x2C81]); (0x2C82, [0x2C83]);
    (0x2C84, [0x2C85]); (0x2C86, [0x2C87]); (0x2C88, [0x2C89]); (0x2C8A, [0x2C8B]);
    (0x2C8C, [0x2C8D]); (0x2C8E, [0x2C8F]); (0x2C90, [0x2C91]); (0x2C92, [0x2C93]);
    (0x2C94, [0x2C95]); (0x2C96, [0x2C97]); (0x2C98, [0x2C99]); (0x2C9A, [0x2C9B]);
    (0x2C9C, [0x2C9D]); (0x2C9E, [0x2C9F]); (0x2CA0, [0x2CA1]); (0x2CA2, [0x2CA3]);
    (0x2CA4, [0x2CA5]); (0x2CA6, [0x2CA7]); (0x2CA8, [0x2CA9]); (0x2CAA, [0x2CAB]);
    (0x2CAC, [0x2CAD]); (0x2CAE, [0x2CAF]); (0x2CB0, [0x2CB1]); (0x2CB2, [0x2CB3]);
    (0x2CB4, [0x2CB5]); (0x2CB6, [0x2CB7]); (0x2CB8, [0x2CB9]); (0x2CBA, [0x2CBB]);
    (0x2CBC, [0x2CBD]); (0x2CBE, [0x2CBF]); (0x2CC0, [0x2CC1]); (0x2CC2, [0x2CC3]);
    (0x2CC4, [0x2CC5]); (0x2CC6, [0x2CC7]); (0x2CC8, [0x2CC9]); (0x2CCA, [0x2CCB]);
    (0x2CCC, [0x2CCD]); (0x2CCE, [0x2CCF]); (0x2CD0, [0x2CD1]); (0x2CD2, [0x2CD3]);
    (0x2CD4, [0x2CD5]); (0x2CD6, [0x2CD7]); (0x2CD8, [0x2CD9]); (0x2CDA, [0x2CDB]);
    (0x2CDC, [0x2CDD]); (0x2CDE, [0x2CDF]); (0x2CE0, [0x2CE1]); (0x2CE2, [0x2CE3]);
    (0x2CEB, [0x2CEC]); (0x2CED, [0x2CEE]); (0x2CF2, [0x2CF3]); (0xA640, [0xA641]);
    (0xA642, [0xA643]); (0xA644, [0xA645]); (0xA646, [0xA647]); (0xA648, [0xA649]);
    (0xA64A, [0xA64B]); (0xA64C, [0xA64D]); (0xA64E, [0xA64F]); (0xA650, [0xA651]);
    (0xA652, [0xA653]); (0xA654, [0xA655]); (0xA656, [0xA657]); (0xA658, [0xA659]);
    (0xA65A, [0xA65B]); (0xA65C, [0xA65D]); (0xA65E, [0xA65F]); (0xA660, [0xA661]);
    (0xA662, [0xA663]); (0xA664, [0xA665]); (0xA666, [0xA667]); (0xA668, [0xA669]);
    (0xA66A, [0xA66B]); (0xA66C, [0xA66D]); (0xA680, [0xA681]); (0xA682, [0xA683]);
    (0xA684, [0xA685]); (0xA686, [0xA687]); (0xA688, [0xA689]); (0xA68A, [0xA68B]);
    (0xA68C, [0xA68D]); (0xA68E, [0xA68F]); (0xA690, [0xA691]); (0xA692, [0xA693]);
    (0xA694, [0xA695]); (0xA696, [0xA697]); (0xA698, [0xA699]); (0xA69A, [0xA69B]);
    (0xA722, [0xA723]); (0xA724, [0xA725]); (0xA726, [0xA727]); (0xA728, [0xA729]);
    (0xA72A, [0xA72B]); (0xA72C, [0xA72D]); (0xA72E, [0xA72F]); (0xA732, [0xA733]);
    (0xA734, [0xA735]); (0xA736, [0xA737]); (0xA738, [0xA739]); (0xA73A, [0xA73B]);
    (0xA73C, [0xA73D]); (0xA73E, [0xA73F]); (0xA740, [0xA741]); (0xA742, [0xA743]);
    (0xA744, [0xA745]); (0xA746, [0xA747]); (0xA748, [0xA749]); (0xA74A, [0xA74B]);
    (0xA74C, [0xA74D]); (0xA74E, [0xA74F]); (0xA750, [0xA751]); (0xA752, [0xA753]);
    (0xA754, [0xA755]); (0xA756, [0xA757]); (0xA758, [0xA759]); (0xA75A, [0xA75B]);
    (0xA75C, [0xA75D]); (0xA75E, [0xA75F]); (0xA760, [0xA761]); (0xA762, [0xA763]);
    (0xA764, [0xA765]); (0xA766, [0xA767]); (0xA768, [0xA769]); (0xA76A, [0xA76B]);
    (0xA76C, [0xA76D]); (0xA76E, [0xA76F]); (0xA779, [0xA77A]); (0xA77B, [0xA77C]);
    (0xA77D, [0x1D79]); (0xA77E, [0xA77F]); (0xA780, [0xA781]); (0xA782, [0xA783]);
    (0xA784, [0xA785]); (0xA786, [0xA787]); (0xA78B, [0xA78C]); (0xA78D, [0x265]);
    (0xA790, [0xA791]); (0xA792, [0xA793]); (0xA796, [0xA797]); (0xA798, [0xA799]);
    (0xA79A, [0xA79B]); (0xA79C, [0xA79D]); (0xA79E, [0xA79F]); (0xA7A0, [0xA7A1]);
    (0xA7A2, [0xA7A3]); (0xA7A4, [0xA7A5]); (0xA7A6, [0xA7A7]); (0xA7A8, [0xA7A9]);
    (0xA7AA, [0x266]); (0xA7AB, [0x25C]); (0xA7AC, [0x261]); (0xA7AD, [0x26C]);
    (0xA7AE, [0x26A]); (0xA7B0, [0x29E]); (0xA7B1, [0x287]); (0xA7B2, [0x29D]);
    (0xA7B3, [0xAB53]); (0xA7B4, [0xA7B5]); (0xA7B6, [0xA7B7]); (0xA7B8, [0xA7B9]);
    (0xA7BA, [0xA7BB]); (0xA7BC, [0xA7BD]); (0xA7BE, [0xA7BF]); (0xA7C0, [0xA7C1]);
    (0xA7C2, [0xA7C3]); (0xA7C4, [0xA794]); (0xA7C5, [0x282]); (0xA7C6, [0x1D8E]);
    (0xA7C7, [0xA7C8]); (0xA7C9, [0xA7CA]); (0xA7D0, [0xA7D1]); (0xA7D6, [0xA7D7]);
    (0xA7D8, [0xA7D9]); (0xA7F5, [0xA7F6]); (0xFF21, [0xFF41]); (0xFF22, [0xFF42]);
    (0xFF23, [0xFF43]); (0xFF24, [0xFF44]); (0xFF25, [0xFF45]); (0xFF26, [0xFF46]);
    (0xFF27, [0xFF47]); (0xFF28, [0xFF48]); (0xFF29, [0xFF49]); (0xFF2A, [0xFF4A]);
    (0xFF2B, [0xFF4B]); (0xFF2C, [0xFF4C]); (0xFF2D, [0xFF4D]); (0xFF2E, [0xFF4E]);
    (0xFF2F, [0xFF4F]); (0xFF30, [0xFF50]); (0xFF31, [0xFF51]); (0xFF32, [0xFF52]);
    (0xFF33, [0xFF53]); (0xFF34, [0xFF54]); (0xFF35, [0xFF55]); (0xFF36, [0xFF56]);
    (0xFF37, [0xFF57]); (0xFF38, [0xFF58]); (0xFF39, [0xFF59]); (0xFF3A, [0xFF5A]);
    (0x10400, [0x10428]); (0x10401, [0x10429]); (0x10402, [0x1042A]); (0x10403, [0x1042B]);
    (0x10404, [0x1042C]); (0x10405, [0x1042D]); (0x10406, [0x1042E]); (0x10407, [0x1042F]);
    (0x10408, [0x10430]); (0x10409, [0x10431]); (0x1040A, [0x10432]); (0x1040B, [0x10433]);
    (0x1040C, [0x10434]); (0x1040D, [0x10435]); (0x1040E, [0x10436]); (0x1040F, [0x10437]);
    (0x10410, [0x10438]); (0x10411, [0x10439]); (0x10412, [0x1043A]); (0x10413, [0x1043B]);
    (0x10414, [0x1043C]); (0x10415, [0x1043D]); (0x10416, [0x1043E]); (0x10417, [0x1043F]);
    (0x10418, [0x10440]); (0x10419, [0x10441]); (0x1041A, [0x10442]); (0x1041B, [0x10443]);
    (0x1041C, [0x10444]); (0x1041D, [0x10445]); (0x1041E, [0x10446]); (0x1041F, [0x10447]);
    (0x10420, [0x10448]); (0x10421, [0x10449]); (0x10422, [0x1044A]); (0x10423, [0x1044B]);
    (0x10424, [0x1044C]); (0x10425, [0x1044D]); (0x10426, [0x1044E]); (0x10427, [0x1044F]);
    (0x104B0, [0x104D8]); (0x104B1, [0x104D9]); (0x104B2, [0x104DA]); (0x104B3, [0x104DB]);
    (0x104B4, [0x104DC]); (0x104B5, [0x104DD]); (0x104B6, [0x104DE]); (0x104B7, [0x104DF]);
    (0x104B8, [0x104E0]); (0x104B9, [0x104E1]); (0x104BA, [0x104E2]); (0x104BB, [0x104E3]);
    (0x104BC, [0x104E4]); (0x104BD, [0x104E5]); (0x104BE, [0x104E6]); (0x104BF, [0x104E7]);
    (0x104C0, [0x104E8]); (0x104C1, [0x104E9]); (0x104C2, [0x104EA]); (0x104C3, [0x104EB]);
    (0x104C4, [0x104EC]); (0x104C5, [0x104ED]); (0x104C6, [0x104EE]); (0x104C7, [0x104EF]);
    (0x104C8, [0x104F0]); (0x104C9, [0x104F1]); (0x104CA, [0x104F2]); (0x104CB, [0x104F3]);
    (0x104CC, [0x104F4]); (0x104CD, [0x104F5]); (0x104CE, [0x104F6]); (0x104CF, [0x104F7]);
    (0x104D0, [0x104F8]); (0x104D1, [0x104F9]); (0x104D2, [0x104FA]); (0x104D3, [0x104FB]);
    (0x10570, [0x10597]); (0x10571, [0x10598]); (0x10572, [0x10599]); (0x10573, [0x1059A]);
    (0x10574, [0x1059B]); (0x10575, [0x1059C]); (0x10576, [0x1059D]); (0x10577, [0x1059E]);
    (0x10578, [0x1059F]); (0x10579, [0x105A0]); (0x1057A, [0x105A1]); (0x1057C, [0x105A3]);
    (0x1057D, [0x105A4]); (0x1057E, [0x105A5]); (0x1057F, [0x105A6]); (0x10580, [0x105A7]);
    (0x10581, [0x105A8]); (0x10582, [0x105A9]); (0x10583, [0x105AA]); (0x10584, [0x105AB]);
    (0x10585, [0x105AC]); (0x10586, [0x105AD]); (0x10587, [0x105AE]); (0x10588, [0x105AF]);
    (0x10589, [0x105B0]); (0x1058A, [0x105B1]); (0x1058C, [0x105B3]); (0x1058D, [0x105B4]);
    (0x1058E, [0x105B5]); (0x1058F, [0x105B6]); (0x10590, [0x105B7]); (0x10591, [0x105B8]);
    (0x10592, [0x105B9]); (0x10594, [0x105BB]); (0x10595, [0x105BC]); (0x10C80, [0x10CC0]);
    (0x10C81, [0x10CC1]); (0x10C82, [0x10CC2]); (0x10C83, [0x10CC3]); (0x10C84, [0x10CC4]);
    (0x10C85, [0x10CC5]); (0x10C86, [0x10CC6]); (0x10C87, [0x10CC7]); (0x10C88, [0x10CC8]);
    (0x10C89, [0x10CC9]); (0x10C8A, [0x10CCA]); (0x10C8B, [0x10CCB]); (0x10C8C, [0x10CCC]);
    (0x10C8D, [0x10CCD]); (0x10C8E, [0x10CCE]); (0x10C8F, [0x10CCF]); (0x10C90, [0x10CD0]);
    (0x10C91, [0x10CD1]); (0x10C92, [0x10CD2]); (0x10C93, [0x10CD3]); (0x10C94, [0x10CD4]);
    (0x10C95, [0x10CD5]); (0x10C96, [0x10CD6]); (0x10C97, [0x10CD7]); (0x10C98, [0x10CD8]);
    (0x10C99, [0x10CD9]); (0x10C9A, [0x10CDA]); (0x10C9B, [0x10CDB]); (0x10C9C, [0x10CDC]);
    (0x10C9D, [0x10CDD]); (0x10C9E, [0x10CDE]); (0x10C9F, [0x10CDF]); (0x10CA0, [0x10CE0]);
    (0x10CA1, [0x10CE1]); (0x10CA2, [0x10CE2]); (0x10CA3, [0x10CE3]); (0x10CA4, [0x10CE4]);
    (0x10CA5, [0x10CE5]); (0x10CA6, [0x10CE6]); (0x10CA7, [0x10CE7]); (0x10CA8, [0x10CE8]);
    (0x10CA9, [0x10CE9]); (0x10CAA, [0x10CEA]); (0x10CAB, [0x10CEB]); (0x10CAC, [0x10CEC]);
    (0x10CAD, [0x10CED]); (0x10CAE, [0x10CEE]); (0x10CAF, [0x10CEF]); (0x10CB0, [0x10CF0]);
    (0x10CB1, [0x10CF1]); (0x10CB2, [0x10CF2]); (0x118A0, [0x118C0]); (0x118A1, [0x118C1]);
    (0x118A2, [0x118C2]); (0x118A3, [0x118C3]); (0x118A4, [0x118C4]); (0x118A5, [0x118C5]);
    (0x118A6, [0x118C6]); (0x118A7, [0x118C7]); (0x118A8, [0x118C8]); (0x118A9, [0x118C9]);
    (0x118AA, [0x118CA]); (0x118AB, [0x118CB]); (0x118AC, [0x118CC]); (0x118AD, [0x118CD]);
    (0x118AE, [0x118CE]); (0x118AF, [0x118CF]); (0x118B0, [0x118D0]); (0x118B1, [0x118D1]);
    (0x118B2, [0x118D2]); (0x118B3, [0x118D3]); (0x118B4, [0x118D4]); (0x118B5, [0x118D5]);
    (0x118B6, [0x118D6]); (0x118B7, [0x118D7]); (0x118B8, [0x118D8]); (0x118B9, [0x118D9]);
    (0x118BA, [0x118DA]); (0x118BB, [0x118DB]); (0x118BC, [0x118DC]); (0x118BD, [0x118DD]);
    (0x118BE, [0x118DE]); (0x118BF, [0x118DF]); (0x16E40, [0x16E60]); (0x16E41, [0x16E61]);
    (0x16E42, [0x16E62]); (0x16E43, [0x16E63]); (0x16E44, [0x16E64]); (0x16E45, [0x16E65]);
    (0x16E46, [0x16E66]); (0x16E47, [0x16E67]); (0x16E48, [0x16E68]); (0x16E49, [0x16E69]);
    (0x16E4A, [0x16E6A]); (0x16E4B, [0x16E6B]); (0x16E4C, [0x16E6C]); (0x16E4D, [0x16E6D]);
    (0x16E4E, [0x16E6E]); (0x16E4F, [0x16E6F]); (0x16E50, [0x16E70]); (0x16E51, [0x16E71]);
    (0x16E52, [0x16E72]); (0x16E53, [0x16E73]); (0x16E54, [0x16E74]); (0x16E55, [0x16E75]);
    (0x16E56, [0x16E76]); (0x16E57, [0x16E77]); (0x16E58, [0x16E78]); (0x16E59, [0x16E79]);
    (0x16E5A, [0x16E7A]); (0x16E5B, [0x16E7B]); (0x16E5C, [0x16E7C]); (0x16E5D, [0x16E7D]);
    (0x16E5E, [0x16E7E]); (0x16E5F, [0x16E7F]); (0x1E900, [0x1E922]); (0x1E901, [0x1E923]);
    (0x1E902, [0x1E924]); (0x1E903, [0x1E925]); (0x1E904, [0x1E926]); (0x1E905, [0x1E927]);
    (0x1E906, [0x1E928]); (0x1E907, [0x1E929]); (0x1E908, [0x1E92A]); (0x1E909, [0x1E92B]);
    (0x1E90A, [0x1E92C]); (0x1E90B, [0x1E92D]); (0x1E90C, [0x1E92E]); (0x1E90D, [0x1E92F]);
    (0x1E90E, [0x1E930]); (0x1E90F, [0x1E931]); (0x1E910, [0x1E932]); (0x1E911, [0x1E933]);
    (0x1E912, [0x1E934]); (0x1E913, [0x1E935]); (0x1E914, [0x1E936]); (0x1E915, [0x1E937]);
    (0x1E916, [0x1E938]); (0x1E917, [0x1E939]); (0x1E918, [0x1E93A]); (0x1E919, [0x1E93B]);
    (0x1E91A, [0x1E93C]); (0x1E91B, [0x1E93D]); (0x1E91C, [0x1E93E]); (0x1E91D, [0x1E93F]);
    (0x1E91E, [0x1E940]); (0x1E91F, [0x1E941]); (0x1E920, [0x1E942]); (0x1E921, [0x1E943]) ].

Definition cased_ranges : list (N * N) :=
  [ (0xAA, 0xAA); (0xB5, 0xB5); (0xBA, 0xBA); (0xC0, 0xD6); (0xD8, 0xF6); (0xF8, 0x1BA);
    (0x1BC, 0x1BF); (0x1C4, 0x293); (0x295, 0x2B8); (0x2C0, 0x2C1); (0x2E0, 0x2E4);
    (0x345, 0x345); (0x370, 0x373); (0x376, 0x377); (0x37A, 0x37D); (0x37F, 0x37F);
    (0x386, 0x386); (0x388, 0x38A); (0x38C, 0x38C); (0x38E, 0x3A1); (0x3A3, 0x3F5);
    (0x3F7, 0x481); (0x48A, 0x52F); (0x531, 0x556); (0x560, 0x588); (0x10A0, 0x10C5);
    (0x10C7, 0x10C7); (0x10CD, 0x10CD); (0x10D0, 0x10FA); (0x10FD, 0x10FF); (0x13A0, 0x13F5);
    (0x13F8, 0x13FD); (0x1C80, 0x1C88); (0x1C90, 0x1CBA); (0x1CBD, 0x1CBF); (0x1D00, 0x1DBF);
    (0x1E00, 0x1F15); (0x1F18, 0x1F1D); (0x1F20, 0x1F45); (0x1F48, 0x1F4D); (0x1F50, 0x1F57);
    (0x1F59, 0x1F59); (0x1F5B, 0x1F5B); (0x1F5D, 0x1F5D); (0x1F5F, 0x1F7D); (0x1F80, 0x1FB4);
    (0x1FB6, 0x1FBC); (0x1FBE, 0x1FBE); (0x1FC2, 0x1FC4); (0x1FC6, 0x1FCC); (0x1FD0, 0x1FD3);
    (0x1FD6, 0x1FDB); (0x1FE0, 0x1FEC); (0x1FF2, 0x1FF4); (0x1FF6, 0x1FFC); (0x2071, 0x2071);
    (0x207F, 0x207F); (0x2090, 0x209C); (0x2102, 0x2102); (0x2107, 0x2107); (0x210A, 0x2113);
    (0x2115, 0x2115); (0x2119, 0x211D); (0x2124, 0x2124); (0x2126, 0x2126); (0x2128, 0x2128);
    (0x212A, 0x212D); (0x212F, 0x2134); (0x2139, 0x2139); (0x213C, 0x213F); (0x2145, 0x2149);
    (0x214E, 0x214E); (0x2160, 0x217F); (0x2183, 0x2184); (0x24B6, 0x24E9); (0x2C00, 0x2CE4);
    (0x2CEB, 0x2CEE); (0x2CF2, 0x2CF3); (0x2D00, 0x2D25); (0x2D27, 0x2D27); (0x2D2D, 0x2D2D);
    (0xA640, 0xA66D); (0xA680, 0xA69D); (0xA722, 0xA787); (0xA78B, 0xA78E); (0xA790, 0xA7CA);
    (0xA7D0, 0xA7D1); (0xA7D3, 0xA7D3); (0xA7D5, 0xA7D9); (0xA7F5, 0xA7F6); (0xA7F8, 0xA7FA);
    (0xAB30, 0xAB5A); (0xAB5C, 0xAB68); (0xAB70, 0xABBF); (0xFB00, 0xFB06); (0xFB13, 0xFB17);
    (0xFF21, 0xFF3A); (0xFF41, 0xFF5A); (0x10400, 0x1044F); (0x104B0, 0x104D3);
    (0x104D8, 0x104FB); (0x10570, 0x1057A); (0x1057C, 0x1058A); (0x1058C, 0x10592);
    (0x10594, 0x10595); (0x10597, 0x105A1); (0x105A3, 0x105B1); (0x105B3, 0x105B9);
    (0x105BB, 0x105BC); (0x10780, 0x10780); (0x10783, 0x10785); (0x10787, 0x107B0);
    (0x107B2, 0x107BA); (0x10C80, 0x10CB2); (0x10CC0, 0x10CF2); (0x118A0, 0x118DF);
    (0x16E40, 0x16E7F); (0x1D400, 0x1D454); (0x1D456, 0x1D49C); (0x1D49E, 0x1D49F);
    (0x1D4A2, 0x1D4A2); (0x1D4A5, 0x1D4A6); (0x1D4A9, 0x1D4AC); (0x1D4AE, 0x1D4B9);
    (0x1D4BB, 0x1D4BB); (0x1D4BD, 0x1D4C3); (0x1D4C5, 0x1D505); (0x1D507, 0x1D50A);
    (0x1D50D, 0x1D514); (0x1D516, 0x1D51C); (0x1D51E, 0x1D539); (0x1D53B, 0x1D53E);
    (0x1D540, 0x1D544); (0x1D546, 0x1D546); (0x1D54A, 0x1D550); (0x1D552, 0x1D6A5);
    (0x1D6A8, 0x1D6C0); (0x1D6C2, 0x1D6DA); (0x1D6DC, 0x1D6FA); (0x1D6FC, 0x1D714);
    (0x1D716, 0x1D734); (0x1D736, 0x1D74E); (0x1D750, 0x1D76E); (0x1D770, 0x1D788);
    (0x1D78A, 0x1D7A8); (0x1D7AA, 0x1D7C2); (0x1D7C4, 0x1D7CB); (0x1DF00, 0x1DF09);
    (0x1DF0B, 0x1DF1E); (0x1E900, 0x1E943); (0x1F130, 0x1F149); (0x1F150, 0x1F169);
    (0x1F170, 0x1F189) ].

Definition case_ignorable_ranges : list (N * N) :=
  [ (0xA8, 0xA8); (0xAD, 0xAD); (0xAF, 0xAF); (0xB4, 0xB4); (0xB7, 0xB8); (0x2B0, 0x36F);
    (0x374, 0x375); (0x37A, 0x37A); (0x384, 0x385); (0x387, 0x387); (0x483, 0x489);
    (0x559, 0x559); (0x55F, 0x55F); (0x591, 0x5BD); (0x5BF, 0x5BF); (0x5C1, 0x5C2);
    (0x5C4, 0x5C5); (0x5C7, 0x5C7); (0x5F4, 0x5F4); (0x600, 0x605); (0x610, 0x61A);
    (0x61C, 0x61C); (0x640, 0x640); (0x64B, 0x65F); (0x670, 0x670); (0x6D6, 0x6DD);
    (0x6DF, 0x6E8); (0x6EA, 0x6ED); (0x70F, 0x70F); (0x711, 0x711); (0x730, 0x74A);
    (0x7A6, 0x7B0); (0x7EB, 0x7F5); (0x7FA, 0x7FA); (0x7FD, 0x7FD); (0x816, 0x82D);
    (0x859, 0x85B); (0x888, 0x888); (0x890, 0x891); (0x898, 0x89F); (0x8C9, 0x902);
    (0x93A, 0x93A); (0x93C, 0x93C); (0x941, 0x948); (0x94D, 0x94D); (0x951, 0x957);
    (0x962, 0x963); (0x971, 0x971); (0x981, 0x981); (0x9BC, 0x9BC); (0x9C1, 0x9C4);
    (0x9CD, 0x9CD); (0x9E2, 0x9E3); (0x9FE, 0x9FE); (0xA01, 0xA02); (0xA3C, 0xA3C);
    (0xA41, 0xA42); (0xA47, 0xA48); (0xA4B, 0xA4D); (0xA51, 0xA51); (0xA70, 0xA71);
    (0xA75, 0xA75); (0xA81, 0xA82); (0xABC, 0xABC); (0xAC1, 0xAC5); (0xAC7, 0xAC8);
    (0xACD, 0xACD); (0xAE2, 0xAE3); (0xAFA, 0xAFF); (0xB01, 0xB01); (0xB3C, 0xB3C);
    (0xB3F, 0xB3F); (0xB41, 0xB44); (0xB4D, 0xB4D); (0xB55, 0xB56); (0xB62, 0xB63);
    (0xB82, 0xB82); (0xBC0, 0xBC0); (0xBCD, 0xBCD); (0xC00, 0xC00); (0xC04, 0xC04);
    (0xC3C, 0xC3C); (0xC3E, 0xC40); (0xC46, 0xC48); (0xC4A, 0xC4D); (0xC55, 0xC56);
    (0xC62, 0xC63); (0xC81, 0xC81); (0xCBC, 0xCBC); (0xCBF, 0xCBF); (0xCC6, 0xCC6);
    (0xCCC, 0xCCD); (0xCE2, 0xCE3); (0xD00, 0xD01); (0xD3B, 0xD3C); (0xD41, 0xD44);
    (0xD4D, 0xD4D); (0xD62, 0xD63); (0xD81, 0xD81); (0xDCA, 0xDCA); (0xDD2, 0xDD4);
    (0xDD6, 0xDD6); (0xE31, 0xE31); (0xE34, 0xE3A); (0xE46, 0xE4E); (0xEB1, 0xEB1);
    (0xEB4, 0xEBC); (0xEC6, 0xEC6); (0xEC8, 0xECD); (0xF18, 0xF19); (0xF35, 0xF35);
    (0xF37, 0xF37); (0xF39, 0xF39); (0xF71, 0xF7E); (0xF80, 0xF84); (0xF86, 0xF87);
    (0xF8D, 0xF97); (0xF99, 0xFBC); (0xFC6, 0xFC6); (0x102D, 0x1030); (0x1032, 0x1037);
    (0x1039, 0x103A); (0x103D, 0x103E); (0x1058, 0x1059); (0x105E, 0x1060); (0x1071, 0x1074);
    (0x1082, 0x1082); (0x1085, 0x1086); (0x108D, 0x108D); (0x109D, 0x109D); (0x10FC, 0x10FC);
    (0x135D, 0x135F); (0x1712, 0x1714); (0x1732, 0x1733); (0x1752, 0x1753); (0x1772, 0x1773);
    (0x17B4, 0x17B5); (0x17B7, 0x17BD); (0x17C6, 0x17C6); (0x17C9, 0x17D3); (0x17D7, 0x17D7);
    (0x17DD, 0x17DD); (0x180B, 0x180F); (0x1843, 0x1843); (0x1885, 0x1886); (0x18A9, 0x18A9);
    (0x1920, 0x1922); (0x1927, 0x1928); (0x1932, 0x1932); (0x1939, 0x193B); (0x1A17, 0x1A18);
    (0x1A1B, 0x1A1B); (0x1A56, 0x1A56); (0x1A58, 0x1A5E); (0x1A60, 0x1A60); (0x1A62, 0x1A62);
    (0x1A65, 0x1A6C); (0x1A73, 0x1A7C); (0x1A7F, 0x1A7F); (0x1AA7, 0x1AA7); (0x1AB0, 0x1ACE);
    (0x1B00, 0x1B03); (0x1B34, 0x1B34); (0x1B36, 0x1B3A); (0x1B3C, 0x1B3C); (0x1B42, 0x1B42);
    (0x1B6B, 0x1B73); (0x1B80, 0x1B81); (0x1BA2, 0x1BA5); (0x1BA8, 0x1BA9); (0x1BAB, 0x1BAD);
    (0x1BE6, 0x1BE6); (0x1BE8, 0x1BE9); (0x1BED, 0x1BED); (0x1BEF, 0x1BF1); (0x1C2C, 0x1C33);
    (0x1C36, 0x1C37); (0x1C78, 0x1C7D); (0x1CD0, 0x1CD2); (0x1CD4, 0x1CE0); (0x1CE2, 0x1CE8);
    (0x1CED, 0x1CED); (0x1CF4, 0x1CF4); (0x1CF8, 0x1CF9); (0x1D2C, 0x1D6A); (0x1D78, 0x1D78);
    (0x1D9B, 0x1DFF); (0x1FBD, 0x1FBD); (0x1FBF, 0x1FC1); (0x1FCD, 0x1FCF); (0x1FDD, 0x1FDF);
    (0x1FED, 0x1FEF); (0x1FFD, 0x1FFE); (0x200B, 0x200F); (0x2018, 0x2019); (0x2024, 0x2024);
    (0x2027, 0x2027); (0x202A, 0x202E); (0x2060, 0x2064); (0x2066, 0x206F); (0x2071, 0x2071);
    (0x207F, 0x207F); (0x2090, 0x209C); (0x20D0, 0x20F0); (0x2C7C, 0x2C7D); (0x2CEF, 0x2CF1);
    (0x2D6F, 0x2D6F); (0x2D7F, 0x2D7F); (0x2DE0, 0x2DFF); (0x2E2F, 0x2E2F); (0x3005, 0x3005);
    (0x302A, 0x302D); (0x3031, 0x3035); (0x303B, 0x303B); (0x3099, 0x309E); (0x30FC, 0x30FE);
    (0xA015, 0xA015); (0xA4F8, 0xA4FD); (0xA60C, 0xA60C); (0xA66F, 0xA672); (0xA674, 0xA67D);
    (0xA67F, 0xA67F); (0xA69C, 0xA69F); (0xA6F0, 0xA6F1); (0xA700, 0xA721); (0xA770, 0xA770);
    (0xA788, 0xA78A); (0xA7F2, 0xA7F4); (0xA7F8, 0xA7F9); (0xA802, 0xA802); (0xA806, 0xA806);
    (0xA80B, 0xA80B); (0xA825, 0xA826); (0xA82C, 0xA82C); (0xA8C4, 0xA8C5); (0xA8E0, 0xA8F1);
    (0xA8FF, 0xA8FF); (0xA926, 0xA92D); (0xA947, 0xA951); (0xA980, 0xA982); (0xA9B3, 0xA9B3);
    (0xA9B6, 0xA9B9); (0xA9BC, 0xA9BD); (0xA9CF, 0xA9CF); (0xA9E5, 0xA9E6); (0xAA29, 0xAA2E);
    (0xAA31, 0xAA32); (0xAA35, 0xAA36); (0xAA43, 0xAA43); (0xAA4C, 0xAA4C); (0xAA70, 0xAA70);
    (0xAA7C, 0xAA7C); (0xAAB0, 0xAAB0); (0xAAB2, 0xAAB4); (0xAAB7, 0xAAB8); (0xAABE, 0xAABF);
    (0xAAC1, 0xAAC1); (0xAADD, 0xAADD); (0xAAEC, 0xAAED); (0xAAF3, 0xAAF4); (0xAAF6, 0xAAF6);
    (0xAB5B, 0xAB5F); (0xAB69, 0xAB6B); (0xABE5, 0xABE5); (0xABE8, 0xABE8); (0xABED, 0xABED);
    (0xFB1E, 0xFB1E); (0xFBB2, 0xFBC2); (0xFE00, 0xFE0F); (0xFE13, 0xFE13); (0xFE20, 0xFE2F);
    (0xFE52, 0xFE52); (0xFE55, 0xFE55); (0xFEFF, 0xFEFF); (0xFF07, 0xFF07); (0xFF0E, 0xFF0E);
    (0xFF1A, 0xFF1A); (0xFF3E, 0xFF3E); (0xFF40, 0xFF40); (0xFF70, 0xFF70); (0xFF9E, 0xFF9F);
    (0xFFE3, 0xFFE3); (0xFFF9, 0xFFFB); (0x101FD, 0x101FD); (0x102E0, 0x102E0);
    (0x10376, 0x1037A); (0x10780, 0x10785); (0x10787, 0x107B0); (0x107B2, 0x107BA);
    (0x10A01, 0x10A03); (0x10A05, 0x10A06); (0x10A0C, 0x10A0F); (0x10A38, 0x10A3A);
    (0x10A3F, 0x10A3F); (0x10AE5, 0x10AE6); (0x10D24, 0x10D27); (0x10EAB, 0x10EAC);
    (0x10F46, 0x10F50); (0x10F82, 0x10F85); (0x11001, 0x11001); (0x11038, 0x11046);
    (0x11070, 0x11070); (0x11073, 0x11074); (0x1107F, 0x11081); (0x110B3, 0x110B6);
    (0x110B9, 0x110BA); (0x110BD, 0x110BD); (0x110C2, 0x110C2); (0x110CD, 0x110CD);
    (0x11100, 0x11102); (0x11127, 0x1112B); (0x1112D, 0x11134); (0x11173, 0x11173);
    (0x11180, 0x11181); (0x111B6, 0x111BE); (0x111C9, 0x111CC); (0x111CF, 0x111CF);
    (0x1122F, 0x11231); (0x11234, 0x11234); (0x11236, 0x11237); (0x1123E, 0x1123E);
    (0x112DF, 0x112DF); (0x112E3, 0x112EA); (0x11300, 0x11301); (0x1133B, 0x1133C);
    (0x11340, 0x11340); (0x11366, 0x1136C); (0x11370, 0x11374); (0x11438, 0x1143F);
    (0x11442, 0x11444); (0x11446, 0x11446); (0x1145E, 0x1145E); (0x114B3, 0x114B8);
    (0x114BA, 0x114BA); (0x114BF, 0x114C0); (0x114C2, 0x114C3); (0x115B2, 0x115B5);
    (0x115BC, 0x115BD); (0x115BF, 0x115C0); (0x115DC, 0x115DD); (0x11633, 0x1163A);
    (0x1163D, 0x1163D); (0x1163F, 0x11640); (0x116AB, 0x116AB); (0x116AD, 0x116AD);
    (0x116B0, 0x116B5); (0x116B7, 0x116B7); (0x1171D, 0x1171F); (0x11722, 0x11725);
    (0x11727, 0x1172B); (0x1182F, 0x11837); (0x11839, 0x1183A); (0x1193B, 0x1193C);
    (0x1193E, 0x1193E); (0x11943, 0x11943); (0x119D4, 0x119D7); (0x119DA, 0x119DB);
    (0x119E0, 0x119E0); (0x11A01, 0x11A0A); (0x11A33, 0x11A38); (0x11A3B, 0x11A3E);
    (0x11A47, 0x11A47); (0x11A51, 0x11A56); (0x11A59, 0x11A5B); (0x11A8A, 0x11A96);
    (0x11A98, 0x11A99); (0x11C30, 0x11C36); (0x11C38, 0x11C3D); (0x11C3F, 0x11C3F);
    (0x11C92, 0x11CA7); (0x11CAA, 0x11CB0); (0x11CB2, 0x11CB3); (0x11CB5, 0x11CB6);
    (0x11D31, 0x11D36); (0x11D3A, 0x11D3A); (0x11D3C, 0x11D3D); (0x11D3F, 0x11D45);
    (0x11D47, 0x11D47); (0x11D90, 0x11D91); (0x11D95, 0x11D95); (0x11D97, 0x11D97);
    (0x11EF3, 0x11EF4); (0x13430, 0x13438); (0x16AF0, 0x16AF4); (0x16B30, 0x16B36);
    (0x16B40, 0x16B43); (0x16F4F, 0x16F4F); (0x16F8F, 0x16F9F); (0x16FE0, 0x16FE1);
    (0x16FE3, 0x16FE4); (0x1AFF0, 0x1AFF3); (0x1AFF5, 0x1AFFB); (0x1AFFD, 0x1AFFE);
    (0x1BC9D, 0x1BC9E); (0x1BCA0, 0x1BCA3); (0x1CF00, 0x1CF2D); (0x1CF30, 0x1CF46);
    (0x1D167, 0x1D169); (0x1D173, 0x1D182); (0x1D185, 0x1D18B); (0x1D1AA, 0x1D1AD);
    (0x1D242, 0x1D244); (0x1DA00, 0x1DA36); (0x1DA3B, 0x1DA6C); (0x1DA75, 0x1DA75);
    (0x1DA84, 0x1DA84); (0x1DA9B, 0x1DA9F); (0x1DAA1, 0x1DAAF); (0x1E000, 0x1E006);
    (0x1E008, 0x1E018); (0x1E01B, 0x1E021); (0x1E023, 0x1E024); (0x1E026, 0x1E02A);
    (0x1E130, 0x1E13D); (0x1E2AE, 0x1E2AE); (0x1E2EC, 0x1E2EF); (0x1E8D0, 0x1E8D6);
    (0x1E944, 0x1E94B); (0x1F3FB, 0x1F3FF); (0xE0001, 0xE0001); (0xE0020, 0xE007F);
    (0xE0100, 0xE01EF) ].

Definition printable_ranges : list (N * N) :=
  [ (0xA1, 0xAC); (0xAE, 0x377); (0x37A, 0x37F); (0x384, 0x38A); (0x38C, 0x38C); (0x38E, 0x3A1);
    (0x3A3, 0x52F); (0x531, 0x556); (0x559, 0x58A); (0x58D, 0x58F); (0x591, 0x5C7);
    (0x5D0, 0x5EA); (0x5EF, 0x5F4); (0x606, 0x61B); (0x61D, 0x6DC); (0x6DE, 0x70D);
    (0x710, 0x74A); (0x74D, 0x7B1); (0x7C0, 0x7FA); (0x7FD, 0x82D); (0x830, 0x83E);
    (0x840, 0x85B); (0x85E, 0x85E); (0x860, 0x86A); (0x870, 0x88E); (0x898, 0x8E1);
    (0x8E3, 0x983); (0x985, 0x98C); (0x98F, 0x990); (0x993, 0x9A8); (0x9AA, 0x9B0);
    (0x9B2, 0x9B2); (0x9B6, 0x9B9); (0x9BC, 0x9C4); (0x9C7, 0x9C8); (0x9CB, 0x9CE);
    (0x9D7, 0x9D7); (0x9DC, 0x9DD); (0x9DF, 0x9E3); (0x9E6, 0x9FE); (0xA01, 0xA03);
    (0xA05, 0xA0A); (0xA0F, 0xA10); (0xA13, 0xA28); (0xA2A, 0xA30); (0xA32, 0xA33);
    (0xA35, 0xA36); (0xA38, 0xA39); (0xA3C, 0xA3C); (0xA3E, 0xA42); (0xA47, 0xA48);
    (0xA4B, 0xA4D); (0xA51, 0xA51); (0xA59, 0xA5C); (0xA5E, 0xA5E); (0xA66, 0xA76);
    (0xA81, 0xA83); (0xA85, 0xA8D); (0xA8F, 0xA91); (0xA93, 0xAA8); (0xAAA, 0xAB0);
    (0xAB2, 0xAB3); (0xAB5, 0xAB9); (0xABC, 0xAC5); (0xAC7, 0xAC9); (0xACB, 0xACD);
    (0xAD0, 0xAD0); (0xAE0, 0xAE3); (0xAE6, 0xAF1); (0xAF9, 0xAFF); (0xB01, 0xB03);
    (0xB05, 0xB0C); (0xB0F, 0xB10); (0xB13, 0xB28); (0xB2A, 0xB30); (0xB32, 0xB33);
    (0xB35, 0xB39); (0xB3C, 0xB44); (0xB47, 0xB48); (0xB4B, 0xB4D); (0xB55, 0xB57);
    (0xB5C, 0xB5D); (0xB5F, 0xB63); (0xB66, 0xB77); (0xB82, 0xB83); (0xB85, 0xB8A);
    (0xB8E, 0xB90); (0xB92, 0xB95); (0xB99, 0xB9A); (0xB9C, 0xB9C); (0xB9E, 0xB9F);
    (0xBA3, 0xBA4); (0xBA8, 0xBAA); (0xBAE, 0xBB9); (0xBBE, 0xBC2); (0xBC6, 0xBC8);
    (0xBCA, 0xBCD); (0xBD0, 0xBD0); (0xBD7, 0xBD7); (0xBE6, 0xBFA); (0xC00, 0xC0C);
    (0xC0E, 0xC10); (0xC12, 0xC28); (0xC2A, 0xC39); (0xC3C, 0xC44); (0xC46, 0xC48);
    (0xC4A, 0xC4D); (0xC55, 0xC56); (0xC58, 0xC5A); (0xC5D, 0xC5D); (0xC60, 0xC63);
    (0xC66, 0xC6F); (0xC77, 0xC8C); (0xC8E, 0xC90); (0xC92, 0xCA8); (0xCAA, 0xCB3);
    (0xCB5, 0xCB9); (0xCBC, 0xCC4); (0xCC6, 0xCC8); (0xCCA, 0xCCD); (0xCD5, 0xCD6);
    (0xCDD, 0xCDE); (0xCE0, 0xCE3); (0xCE6, 0xCEF); (0xCF1, 0xCF2); (0xD00, 0xD0C);
    (0xD0E, 0xD10); (0xD12, 0xD44); (0xD46, 0xD48); (0xD4A, 0xD4F); (0xD54, 0xD63);
    (0xD66, 0xD7F); (0xD81, 0xD83); (0xD85, 0xD96); (0xD9A, 0xDB1); (0xDB3, 0xDBB);
    (0xDBD, 0xDBD); (0xDC0, 0xDC6); (0xDCA, 0xDCA); (0xDCF, 0xDD4); (0xDD6, 0xDD6);
    (0xDD8, 0xDDF); (0xDE6, 0xDEF); (0xDF2, 0xDF4); (0xE01, 0xE3A); (0xE3F, 0xE5B);
    (0xE81, 0xE82); (0xE84, 0xE84); (0xE86, 0xE8A); (0xE8C, 0xEA3); (0xEA5, 0xEA5);
    (0xEA7, 0xEBD); (0xEC0, 0xEC4); (0xEC6, 0xEC6); (0xEC8, 0xECD); (0xED0, 0xED9);
    (0xEDC, 0xEDF); (0xF00, 0xF47); (0xF49, 0xF6C); (0xF71, 0xF97); (0xF99, 0xFBC);
    (0xFBE, 0xFCC); (0xFCE, 0xFDA); (0x1000, 0x10C5); (0x10C7, 0x10C7); (0x10CD, 0x10CD);
    (0x10D0, 0x1248); (0x124A, 0x124D); (0x1250, 0x1256); (0x1258, 0x1258); (0x125A, 0x125D);
    (0x1260, 0x1288); (0x128A, 0x128D); (0x1290, 0x12B0); (0x12B2, 0x12B5); (0x12B8, 0x12BE);
    (0x12C0, 0x12C0); (0x12C2, 0x12C5); (0x12C8, 0x12D6); (0x12D8, 0x1310); (0x1312, 0x1315);
    (0x1318, 0x135A); (0x135D, 0x137C); (0x1380, 0x1399); (0x13A0, 0x13F5); (0x13F8, 0x13FD);
    (0x1400, 0x167F); (0x1681, 0x169C); (0x16A0, 0x16F8); (0x1700, 0x1715); (0x171F, 0x1736);
    (0x1740, 0x1753); (0x1760, 0x176C); (0x176E, 0x1770); (0x1772, 0x1773); (0x1780, 0x17DD);
    (0x17E0, 0x17E9); (0x17F0, 0x17F9); (0x1800, 0x180D); (0x180F, 0x1819); (0x1820, 0x1878);
    (0x1880, 0x18AA); (0x18B0, 0x18F5); (0x1900, 0x191E); (0x1920, 0x192B); (0x1930, 0x193B);
    (0x1940, 0x1940); (0x1944, 0x196D); (0x1970, 0x1974); (0x1980, 0x19AB); (0x19B0, 0x19C9);
    (0x19D0, 0x19DA); (0x19DE, 0x1A1B); (0x1A1E, 0x1A5E); (0x1A60, 0x1A7C); (0x1A7F, 0x1A89);
    (0x1A90, 0x1A99); (0x1AA0, 0x1AAD); (0x1AB0, 0x1ACE); (0x1B00, 0x1B4C); (0x1B50, 0x1B7E);
    (0x1B80, 0x1BF3); (0x1BFC, 0x1C37); (0x1C3B, 0x1C49); (0x1C4D, 0x1C88); (0x1C90, 0x1CBA);
    (0x1CBD, 0x1CC7); (0x1CD0, 0x1CFA); (0x1D00, 0x1F15); (0x1F18, 0x1F1D); (0x1F20, 0x1F45);
    (0x1F48, 0x1F4D); (0x1F50, 0x1F57); (0x1F59, 0x1F59); (0x1F5B, 0x1F5B); (0x1F5D, 0x1F5D);
    (0x1F5F, 0x1F7D); (0x1F80, 0x1FB4); (0x1FB6, 0x1FC4); (0x1FC6, 0x1FD3); (0x1FD6, 0x1FDB);
    (0x1FDD, 0x1FEF); (0x1FF2, 0x1FF4); (0x1FF6, 0x1FFE); (0x2010, 0x2027); (0x2030, 0x205E);
    (0x2070, 0x2071); (0x2074, 0x208E); (0x2090, 0x209C); (0x20A0, 0x20C0); (0x20D0, 0x20F0);
    (0x2100, 0x218B); (0x2190, 0x2426); (0x2440, 0x244A); (0x2460, 0x2B73); (0x2B76, 0x2B95);
    (0x2B97, 0x2CF3); (0x2CF9, 0x2D25); (0x2D27, 0x2D27); (0x2D2D, 0x2D2D); (0x2D30, 0x2D67);
    (0x2D6F, 0x2D70); (0x2D7F, 0x2D96); (0x2DA0, 0x2DA6); (0x2DA8, 0x2DAE); (0x2DB0, 0x2DB6);
    (0x2DB8, 0x2DBE); (0x2DC0, 0x2DC6); (0x2DC8, 0x2DCE); (0x2DD0, 0x2DD6); (0x2DD8, 0x2DDE);
    (0x2DE0, 0x2E5D); (0x2E80, 0x2E99); (0x2E9B, 0x2EF3); (0x2F00, 0x2FD5); (0x2FF0, 0x2FFB);
    (0x3001, 0x303F); (0x3041, 0x3096); (0x3099, 0x30FF); (0x3105, 0x312F); (0x3131, 0x318E);
    (0x3190, 0x31E3); (0x31F0, 0x321E); (0x3220, 0xA48C); (0xA490, 0xA4C6); (0xA4D0, 0xA62B);
    (0xA640, 0xA6F7); (0xA700, 0xA7CA); (0xA7D0, 0xA7D1); (0xA7D3, 0xA7D3); (0xA7D5, 0xA7D9);
    (0xA7F2, 0xA82C); (0xA830, 0xA839); (0xA840, 0xA877); (0xA880, 0xA8C5); (0xA8CE, 0xA8D9);
    (0xA8E0, 0xA953); (0xA95F, 0xA97C); (0xA980, 0xA9CD); (0xA9CF, 0xA9D9); (0xA9DE, 0xA9FE);
    (0xAA00, 0xAA36); (0xAA40, 0xAA4D); (0xAA50, 0xAA59); (0xAA5C, 0xAAC2); (0xAADB, 0xAAF6);
    (0xAB01, 0xAB06); (0xAB09, 0xAB0E); (0xAB11, 0xAB16); (0xAB20, 0xAB26); (0xAB28, 0xAB2E);
    (0xAB30, 0xAB6B); (0xAB70, 0xABED); (0xABF0, 0xABF9); (0xAC00, 0xD7A3); (0xD7B0, 0xD7C6);
    (0xD7CB, 0xD7FB); (0xF900, 0xFA6D); (0xFA70, 0xFAD9); (0xFB00, 0xFB06); (0xFB13, 0xFB17);
    (0xFB1D, 0xFB36); (0xFB38, 0xFB3C); (0xFB3E, 0xFB3E); (0xFB40, 0xFB41); (0xFB43, 0xFB44);
    (0xFB46, 0xFBC2); (0xFBD3, 0xFD8F); (0xFD92, 0xFDC7); (0xFDCF, 0xFDCF); (0xFDF0, 0xFE19);
    (0xFE20, 0xFE52); (0xFE54, 0xFE66); (0xFE68, 0xFE6B); (0xFE70, 0xFE74); (0xFE76, 0xFEFC);
    (0xFF01, 0xFFBE); (0xFFC2, 0xFFC7); (0xFFCA, 0xFFCF); (0xFFD2, 0xFFD7); (0xFFDA, 0xFFDC);
    (0xFFE0, 0xFFE6); (0xFFE8, 0xFFEE); (0xFFFC, 0xFFFD); (0x10000, 0x1000B);
    (0x1000D, 0x10026); (0x10028, 0x1003A); (0x1003C, 0x1003D); (0x1003F, 0x1004D);
    (0x10050, 0x1005D); (0x10080, 0x100FA); (0x10100, 0x10102); (0x10107, 0x10133);
    (0x10137, 0x1018E); (0x10190, 0x1019C); (0x101A0, 0x101A0); (0x101D0, 0x101FD);
    (0x10280, 0x1029C); (0x102A0, 0x102D0); (0x102E0, 0x102FB); (0x10300, 0x10323);
    (0x1032D, 0x1034A); (0x10350, 0x1037A); (0x10380, 0x1039D); (0x1039F, 0x103C3);
    (0x103C8, 0x103D5); (0x10400, 0x1049D); (0x104A0, 0x104A9); (0x104B0, 0x104D3);
    (0x104D8, 0x104FB); (0x10500, 0x10527); (0x10530, 0x10563); (0x1056F, 0x1057A);
    (0x1057C, 0x1058A); (0x1058C, 0x10592); (0x10594, 0x10595); (0x10597, 0x105A1);
    (0x105A3, 0x105B1); (0x105B3, 0x105B9); (0x105BB, 0x105BC); (0x10600, 0x10736);
    (0x10740, 0x10755); (0x10760, 0x10767); (0x10780, 0x10785); (0x10787, 0x107B0);
    (0x107B2, 0x107BA); (0x10800, 0x10805); (0x10808, 0x10808); (0x1080A, 0x10835);
    (0x10837, 0x10838); (0x1083C, 0x1083C); (0x1083F, 0x10855); (0x10857, 0x1089E);
    (0x108A7, 0x108AF); (0x108E0, 0x108F2); (0x108F4, 0x108F5); (0x108FB, 0x1091B);
    (0x1091F, 0x10939); (0x1093F, 0x1093F); (0x10980, 0x109B7); (0x109BC, 0x109CF);
    (0x109D2, 0x10A03); (0x10A05, 0x10A06); (0x10A0C, 0x10A13); (0x10A15, 0x10A17);
    (0x10A19, 0x10A35); (0x10A38, 0x10A3A); (0x10A3F, 0x10A48); (0x10A50, 0x10A58);
    (0x10A60, 0x10A9F); (0x10AC0, 0x10AE6); (0x10AEB, 0x10AF6); (0x10B00, 0x10B35);
    (0x10B39, 0x10B55); (0x10B58, 0x10B72); (0x10B78, 0x10B91); (0x10B99, 0x10B9C);
    (0x10BA9, 0x10BAF); (0x10C00, 0x10C48); (0x10C80, 0x10CB2); (0x10CC0, 0x10CF2);
    (0x10CFA, 0x10D27); (0x10D30, 0x10D39); (0x10E60, 0x10E7E); (0x10E80, 0x10EA9);
    (0x10EAB, 0x10EAD); (0x10EB0, 0x10EB1); (0x10F00, 0x10F27); (0x10F30, 0x10F59);
    (0x10F70, 0x10F89); (0x10FB0, 0x10FCB); (0x10FE0, 0x10FF6); (0x11000, 0x1104D);
    (0x11052, 0x11075); (0x1107F, 0x110BC); (0x110BE, 0x110C2); (0x110D0, 0x110E8);
    (0x110F0, 0x110F9); (0x11100, 0x11134); (0x11136, 0x11147); (0x11150, 0x11176);
    (0x11180, 0x111DF); (0x111E1, 0x111F4); (0x11200, 0x11211); (0x11213, 0x1123E);
    (0x11280, 0x11286); (0x11288, 0x11288); (0x1128A, 0x1128D); (0x1128F, 0x1129D);
    (0x1129F, 0x112A9); (0x112B0, 0x112EA); (0x112F0, 0x112F9); (0x11300, 0x11303);
    (0x11305, 0x1130C); (0x1130F, 0x11310); (0x11313, 0x11328); (0x1132A, 0x11330);
    (0x11332, 0x11333); (0x11335, 0x11339); (0x1133B, 0x11344); (0x11347, 0x11348);
    (0x1134B, 0x1134D); (0x11350, 0x11350); (0x11357, 0x11357); (0x1135D, 0x11363);
    (0x11366, 0x1136C); (0x11370, 0x11374); (0x11400, 0x1145B); (0x1145D, 0x11461);
    (0x11480, 0x114C7); (0x114D0, 0x114D9); (0x11580, 0x115B5); (0x115B8, 0x115DD);
    (0x11600, 0x11644); (0x11650, 0x11659); (0x11660, 0x1166C); (0x11680, 0x116B9);
    (0x116C0, 0x116C9); (0x11700, 0x1171A); (0x1171D, 0x1172B); (0x11730, 0x11746);
    (0x11800, 0x1183B); (0x118A0, 0x118F2); (0x118FF, 0x11906); (0x11909, 0x11909);
    (0x1190C, 0x11913); (0x11915, 0x11916); (0x11918, 0x11935); (0x11937, 0x11938);
    (0x1193B, 0x11946); (0x11950, 0x11959); (0x119A0, 0x119A7); (0x119AA, 0x119D7);
    (0x119DA, 0x119E4); (0x11A00, 0x11A47); (0x11A50, 0x11AA2); (0x11AB0, 0x11AF8);
    (0x11C00, 0x11C08); (0x11C0A, 0x11C36); (0x11C38, 0x11C45); (0x11C50, 0x11C6C);
    (0x11C70, 0x11C8F); (0x11C92, 0x11CA7); (0x11CA9, 0x11CB6); (0x11D00, 0x11D06);
    (0x11D08, 0x11D09); (0x11D0B, 0x11D36); (0x11D3A, 0x11D3A); (0x11D3C, 0x11D3D);
    (0x11D3F, 0x11D47); (0x11D50, 0x11D59); (0x11D60, 0x11D65); (0x11D67, 0x11D68);
    (0x11D6A, 0x11D8E); (0x11D90, 0x11D91); (0x11D93, 0x11D98); (0x11DA0, 0x11DA9);
    (0x11EE0, 0x11EF8); (0x11FB0, 0x11FB0); (0x11FC0, 0x11FF1); (0x11FFF, 0x12399);
    (0x12400, 0x1246E); (0x12470, 0x12474); (0x12480, 0x12543); (0x12F90, 0x12FF2);
    (0x13000, 0x1342E); (0x14400, 0x14646); (0x16800, 0x16A38); (0x16A40, 0x16A5E);
    (0x16A60, 0x16A69); (0x16A6E, 0x16ABE); (0x16AC0, 0x16AC9); (0x16AD0, 0x16AED);
    (0x16AF0, 0x16AF5); (0x16B00, 0x16B45); (0x16B50, 0x16B59); (0x16B5B, 0x16B61);
    (0x16B63, 0x16B77); (0x16B7D, 0x16B8F); (0x16E40, 0x16E9A); (0x16F00, 0x16F4A);
    (0x16F4F, 0x16F87); (0x16F8F, 0x16F9F); (0x16FE0, 0x16FE4); (0x16FF0, 0x16FF1);
    (0x17000, 0x187F7); (0x18800, 0x18CD5); (0x18D00, 0x18D08); (0x1AFF0, 0x1AFF3);
    (0x1AFF5, 0x1AFFB); (0x1AFFD, 0x1AFFE); (0x1B000, 0x1B122); (0x1B150, 0x1B152);
    (0x1B164, 0x1B167); (0x1B170, 0x1B2FB); (0x1BC00, 0x1BC6A); (0x1BC70, 0x1BC7C);
    (0x1BC80, 0x1BC88); (0x1BC90, 0x1BC99); (0x1BC9C, 0x1BC9F); (0x1CF00, 0x1CF2D);
    (0x1CF30, 0x1CF46); (0x1CF50, 0x1CFC3); (0x1D000, 0x1D0F5); (0x1D100, 0x1D126);
    (0x1D129, 0x1D172); (0x1D17B, 0x1D1EA); (0x1D200, 0x1D245); (0x1D2E0, 0x1D2F3);
    (0x1D300, 0x1D356); (0x1D360, 0x1D378); (0x1D400, 0x1D454); (0x1D456, 0x1D49C);
    (0x1D49E, 0x1D49F); (0x1D4A2, 0x1D4A2); (0x1D4A5, 0x1D4A6); (0x1D4A9, 0x1D4AC);
    (0x1D4AE, 0x1D4B9); (0x1D4BB, 0x1D4BB); (0x1D4BD, 0x1D4C3); (0x1D4C5, 0x1D505);
    (0x1D507, 0x1D50A); (0x1D50D, 0x1D514); (0x1D516, 0x1D51C); (0x1D51E, 0x1D539);
    (0x1D53B, 0x1D53E); (0x1D540, 0x1D544); (0x1D546, 0x1D546); (0x1D54A, 0x1D550);
    (0x1D552, 0x1D6A5); (0x1D6A8, 0x1D7CB); (0x1D7CE, 0x1DA8B); (0x1DA9B, 0x1DA9F);
    (0x1DAA1, 0x1DAAF); (0x1DF00, 0x1DF1E); (0x1E000, 0x1E006); (0x1E008, 0x1E018);
    (0x1E01B, 0x1E021); (0x1E023, 0x1E024); (0x1E026, 0x1E02A); (0x1E100, 0x1E12C);
    (0x1E130, 0x1E13D); (0x1E140, 0x1E149); (0x1E14E, 0x1E14F); (0x1E290, 0x1E2AE);
    (0x1E2C0, 0x1E2F9); (0x1E2FF, 0x1E2FF); (0x1E7E0, 0x1E7E6); (0x1E7E8, 0x1E7EB);
    (0x1E7ED, 0x1E7EE); (0x1E7F0, 0x1E7FE); (0x1E800, 0x1E8C4); (0x1E8C7, 0x1E8D6);
    (0x1E900, 0x1E94B); (0x1E950, 0x1E959); (0x1E95E, 0x1E95F); (0x1EC71, 0x1ECB4);
    (0x1ED01, 0x1ED3D); (0x1EE00, 0x1EE03); (0x1EE05, 0x1EE1F); (0x1EE21, 0x1EE22);
    (0x1EE24, 0x1EE24); (0x1EE27, 0x1EE27); (0x1EE29, 0x1EE32); (0x1EE34, 0x1EE37);
    (0x1EE39, 0x1EE39); (0x1EE3B, 0x1EE3B); (0x1EE42, 0x1EE42); (0x1EE47, 0x1EE47);
    (0x1EE49, 0x1EE49); (0x1EE4B, 0x1EE4B); (0x1EE4D, 0x1EE4F); (0x1EE51, 0x1EE52);
    (0x1EE54, 0x1EE54); (0x1EE57, 0x1EE57); (0x1EE59, 0x1EE59); (0x1EE5B, 0x1EE5B);
    (0x1EE5D, 0x1EE5D); (0x1EE5F, 0x1EE5F); (0x1EE61, 0x1EE62); (0x1EE64, 0x1EE64);
    (0x1EE67, 0x1EE6A); (0x1EE6C, 0x1EE72); (0x1EE74, 0x1EE77); (0x1EE79, 0x1EE7C);
    (0x1EE7E, 0x1EE7E); (0x1EE80, 0x1EE89); (0x1EE8B, 0x1EE9B); (0x1EEA1, 0x1EEA3);
    (0x1EEA5, 0x1EEA9); (0x1EEAB, 0x1EEBB); (0x1EEF0, 0x1EEF1); (0x1F000, 0x1F02B);
    (0x1F030, 0x1F093); (0x1F0A0, 0x1F0AE); (0x1F0B1, 0x1F0BF); (0x1F0C1, 0x1F0CF);
    (0x1F0D1, 0x1F0F5); (0x1F100, 0x1F1AD); (0x1F1E6, 0x1F202); (0x1F210, 0x1F23B);
    (0x1F240, 0x1F248); (0x1F250, 0x1F251); (0x1F260, 0x1F265); (0x1F300, 0x1F6D7);
    (0x1F6DD, 0x1F6EC); (0x1F6F0, 0x1F6FC); (0x1F700, 0x1F773); (0x1F780, 0x1F7D8);
    (0x1F7E0, 0x1F7EB); (0x1F7F0, 0x1F7F0); (0x1F800, 0x1F80B); (0x1F810, 0x1F847);
    (0x1F850, 0x1F859); (0x1F860, 0x1F887); (0x1F890, 0x1F8AD); (0x1F8B0, 0x1F8B1);
    (0x1F900, 0x1FA53); (0x1FA60, 0x1FA6D); (0x1FA70, 0x1FA74); (0x1FA78, 0x1FA7C);
    (0x1FA80, 0x1FA86); (0x1FA90, 0x1FAAC); (0x1FAB0, 0x1FABA); (0x1FAC0, 0x1FAC5);
    (0x1FAD0, 0x1FAD9); (0x1FAE0, 0x1FAE7); (0x1FAF0, 0x1FAF6); (0x1FB00, 0x1FB92);
    (0x1FB94, 0x1FBCA); (0x1FBF0, 0x1FBF9); (0x20000, 0x2A6DF); (0x2A700, 0x2B738);
    (0x2B740, 0x2B81D); (0x2B820, 0x2CEA1); (0x2CEB0, 0x2EBE0); (0x2F800, 0x2FA1D);
    (0x30000, 0x3134A); (0xE0100, 0xE01EF) ].

(** [c.isspace()] *)
Definition is_space (c : string) : bool :=
  match code_point c with
  | Some n => existsb (N.eqb n) whitespace
  | None => false
  end.

Fixpoint drop_while {A : Type} (p : A -> bool) (l : list A) : list A :=
  match l with
  | [] => []
  | x :: r => if p x then drop_while p r else l
  end.

(** White space removed at both ends of a list of characters. *)
Definition trim (cs : list string) : list string :=
  rev (drop_while is_space (rev (drop_while is_space cs))).

(** [s.strip()] *)
Definition strip (s : string) : string := cat (trim (chars s)).

(** [s == "" or s.isspace()] *)
Definition all_space (s : string) : bool := forallb is_space (chars s).

(** The full upper-case mapping of a code point, where it is not the code
    point itself. *)
Definition to_upper (n : N) : option (list N) :=
  if ((0x61 <=? n) && (n <=? 0x7A)) then Some [(n - 0x20)]
  else if (n <? 0x80) then None
  else assoc n upper_table.

Definition to_lower (n : N) : option (list N) :=
  if ((0x41 <=? n) && (n <=? 0x5A)) then Some [(n + 0x20)]
  else if (n <? 0x80) then None
  else assoc n lower_table.

(** One character under a case mapping. *)
Definition map_char (f : N -> option (list N)) (c : string) : list string :=
  match code_point c with
  | Some n =>
      match f n with
      | Some l => map utf8 l
      | None => [c]
      end
  | None => [c]
  end.

(** [s.upper()] *)
Definition upper (s : string) : string := cat (flat_map (map_char to_upper) (chars s)).

Definition is_cased (c : string) : bool :=
  match code_point c with
  | Some n =>
      if (n <? 0x80)
      then (((0x41 <=? n) && (n <=? 0x5A)) || ((0x61 <=? n) && (n <=? 0x7A)))
      else in_ranges n cased_ranges
  | None => false
  end.

Definition is_case_ignorable (c : string) : bool :=
  match code_point c with
  | Some n =>
      if (n <? 0x80)
      then existsb (N.eqb n) [0x27; 0x2E; 0x3A; 0x5E; 0x60]
      else in_ranges n case_ignorable_ranges
  | None => false
  end.

Definition capital_sigma : string := utf8 0x3A3.
Definition small_sigma : string := utf8 0x3C3.
Definition final_sigma : string := utf8 0x3C2.

(** Whether a capital sigma stands at the end of a word: the characters
    before it (nearest first), skipping the case-ignorable ones, reach a
    cased one, and the characters after it do not. *)
Definition at_word_end (before after : list string) : bool :=
  match drop_while is_case_ignorable before with
  | c :: _ =>
      is_cased c
      && match drop_while is_case_ignorable after with
         | d :: _ => negb (is_cased d)
         | [] => true
         end
  | [] => false
  end.

Fixpoint lower_chars (before cs : list string) : list string :=
  match cs with
  | [] => []
  | c :: r =>
      ((if String.eqb c capital_sigma
        then [if at_word_end before r then final_sigma else small_sigma]
        else map_char to_lower c)
       ++ lower_chars (c :: before) r)%list
  end.

(** [s.lower()] *)
Definition lower (s : string) : string := cat (lower_chars [] (chars s)).

Fixpoint contains_char (c : ascii) (s : string) : bool :=
  match s with
  | EmptyString => false
  | String a r => Ascii.eqb a c || contains_char c r
  end.

Definition dquote : ascii := "034"%char.
Definition backslash : ascii := "092"%char.

Definition hex_digit (n : N) : ascii :=
  if n <? 10 then ascii_of_N (48 + n) else ascii_of_N (87 + n).

(** [n] in [width] hexadecimal digits *)
Fixpoint hex (width : nat) (n : N) : string :=
  match width with
  | O => ""
  | S w => hex w (n / 16) ++ String (hex_digit (n mod 16)) ""
  end.

(** [chr(n).isprintable()] *)
Definition is_printable (n : N) : bool :=
  if n <? 0x80 then (0x20 <=? n) && (n <? 0x7F) else in_ranges n printable_ranges.

(** One character of [repr(s)], given the quote that encloses it. *)
Definition repr_char (quote : ascii) (c : string) : string :=
  match code_point c with
  | Some n =>
      if (n =? N_of_ascii quote) || (n =? N_of_ascii backslash) then String backslash c
      else if n =? 9 then String backslash "t"
      else if n =? 10 then String backslash "n"
      else if n =? 13 then String backslash "r"
      else if is_printable n then c
      else if n <? 0x100 then String backslash (String "x" (hex 2 n))
      else if n <? 0x10000 then String backslash (String "u" (hex 4 n))
      else String backslash (String "U" (hex 8 n))
  | None => c
  end.

Definition repr_body (quote : ascii) (s : string) : string :=
  cat (map (repr_char quote) (chars s)).

(** [repr(s)] for a [str]: single quotes, unless the text holds a single
    quote and no double quote. *)
Definition repr_str (s : string) : string :=
  let quote : ascii :=
    if contains_char "'" s && negb (contains_char dquote s) then dquote else "'"%char in
  String quote (repr_body quote s ++ String quote "").

Local Close Scope N_scope.

(** [str(n)] for an [int] *)
Definition str_int (z : Z) : string := NilZero.string_of_int (Z.to_int z).

(* ===================================================================== *)
(** ** Python values                                                     *)
(* ===================================================================== *)

(** The values that travel through the program: [None], booleans,
    integers, strings, lists, and dicts with string keys.  A dict keeps its
    keys in insertion order, so it is an association list. *)
Inductive pyval : Type :=
| VNone
| VBool (b : bool)
| VInt (z : Z)
| VStr (s : string)
| VList (l : list pyval)
| VDict (d : list (string * pyval)).

Definition dict : Type := list (string * pyval).

(** [repr(v)] *)
Fixpoint repr (v : pyval) : string :=
  match v with
  | VNone => "None"
  | VBool true => "True"
  | VBool false => "False"
  | VInt z => str_int z
  | VStr s => repr_str s
  | VList l =>
      "[" ++
      (fix items (l : list pyval) : string :=
         match l with
         | [] => ""
         | x :: r => repr x ++ match r with [] => "" | _ => ", " ++ items r end
         end) l ++ "]"
  | VDict d =>
      "{" ++
      (fix items (d : list (string * pyval)) : string :=
         match d with
         | [] => ""
         | (k, x) :: r =>
             repr_str k ++ ": " ++ repr x ++
             match r with [] => "" | _ => ", " ++ items r end
         end) d ++ "}"
  end.

(** [str(v)]: the text itself for a [str], [repr] for the rest. *)
Definition str (v : pyval) : string :=
  match v with
  | VStr s => s
  | _ => repr v
  end.

(** Truth value of [v], as [if v:], [not v] and [v or w] test it. *)
Definition truthy (v : pyval) : bool :=
  match v with
  | VNone => false
  | VBool b => b
  | VInt z => negb (z =? 0)
  | VStr s => negb (String.eqb s "")
  | VList l => match l with [] => false | _ => true end
  | VDict d => match d with [] => false | _ => true end
  end.

(** [a or b] *)
Definition py_or (a b : pyval) : pyval := if truthy a then a else b.

Fixpoint lookup (k : string) (d : dict) : option pyval :=
  match d with
  | [] => None
  | (k', v) :: r => if String.eqb k' k then Some v else lookup k r
  end.

(** [d.get(k, default)] and [d.get(k)] on a dict *)
Definition get_default (d : dict) (k : string) (default : pyval) : pyval :=
  match lookup k d with
  | Some v => v
  | None => default
  end.

Definition get (d : dict) (k : string) : pyval := get_default d k VNone.

(* ===================================================================== *)
(** ** The website-presence predicate                                    *)
(* ===================================================================== *)

Definition sentinels : list string := ["N/A"; "NA"; "NONE"; "NULL"].

(** [x in {...}] for a set of strings *)
Definition mem_string (s : string) (l : list string) : bool :=
  existsb (String.eqb s) l.

(** [has_site], app.py lines 372-382. *)
Definition has_site (x : pyval) : bool :=
  match x with
  | VNone => false
  | _ =>
      let s := strip (str x) in
      if String.eqb s "" then false
      else negb (mem_string (upper s) sentinels)
  end.

(* ===================================================================== *)
(** ** Vocabulary of the statements on texts                             *)
(* ===================================================================== *)

(** *** Characters *)

Fixpoint all_cont (s : string) : bool :=
  match s with
  | EmptyString => true
  | String b r => is_cont b && all_cont r
  end.

(** One character: a byte and the continuation bytes read with it. *)
Definition chunk (c : string) : bool :=
  match c with
  | String _ t => all_cont t
  | EmptyString => false
  end.

(** A character that does not start with a continuation byte. *)
Definition clean (c : string) : bool := chunk c && negb (starts_cont c).

(** A list of characters as [chars] gives it. *)
Definition canonical (cs : list string) : bool :=
  match cs with
  | [] => true
  | c :: r => chunk c && forallb clean r
  end.

Definition head_ok {A : Type} (p : A -> bool) (l : list A) : bool :=
  match l with
  | x :: _ => negb (p x)
  | [] => true
  end.

(** Neither end is white space. *)
Definition tight (l : list string) : bool :=
  head_ok is_space l && head_ok is_space (rev l).

Definition null {A : Type} (l : list A) : bool :=
  match l with
  | [] => true
  | _ => false
  end.

(** The continuation bytes a text starts with, and what follows them. *)
Fixpoint cont_prefix (s : string) : string :=
  match s with
  | String b r => if is_cont b then String b (cont_prefix r) else ""
  | EmptyString => ""
  end.

Fixpoint cont_rest (s : string) : string :=
  match s with
  | String b r => if is_cont b then cont_rest r else s
  | EmptyString => ""
  end.

(** *** Plain ASCII case, and the letters of the sentinels *)

Definition ascii_upper_char (b : ascii) : ascii :=
  let n := N_of_ascii b in
  if ((0x61 <=? n) && (n <=? 0x7A))%N then ascii_of_N (n - 0x20) else b.

Definition ascii_lower_char (b : ascii) : ascii :=
  let n := N_of_ascii b in
  if ((0x41 <=? n) && (n <=? 0x5A))%N then ascii_of_N (n + 0x20) else b.

Fixpoint map_bytes (f : ascii -> ascii) (s : string) : string :=
  match s with
  | EmptyString => EmptyString
  | String b r => String (f b) (map_bytes f r)
  end.

Definition ascii_upper : string -> string := map_bytes ascii_upper_char.

(** The letters the sentinels are written with. *)
Definition sentinel_letters : list ascii := ["N"; "/"; "A"; "O"; "E"; "U"; "L"]%char.

Definition sentinel_byte (b : ascii) : bool :=
  existsb (Ascii.eqb (ascii_upper_char b)) sentinel_letters.

(** A text written with letters of the sentinels only, in either case. *)
Fixpoint plain (s : string) : bool :=
  match s with
  | EmptyString => true
  | String b r => sentinel_byte b && plain r
  end.

(** Two texts that are equal, or that both hold a byte no sentinel has. *)
Definition sim (x y : string) : Prop := x = y \/ (plain x = false /\ plain y = false).

(** *** Case mappings, character by character *)

(** What the statements need of the image of one character: it is the
    character itself, or the character is no white space and starts a
    code point, its image is a non-empty run of such characters, and both
    spell the same sentinel letters, if any. *)
Definition good (c : string) (img : list string) : Prop :=
  img = [c]
  \/ (clean c = true /\ is_space c = false /\ img <> []
      /\ forallb (fun d => clean d && negb (is_space d)) img = true
      /\ sim (ascii_upper (cat img)) (ascii_upper c)).

(** The check an entry of a case table has to pass. *)
Definition image_ok (kv : N * list N) : bool :=
  negb (existsb (N.eqb (fst kv)) whitespace)
  && match snd kv with [] => false | _ => true end
  && forallb (fun m => clean (utf8 m) && negb (is_space (utf8 m))) (snd kv)
  && negb (plain (cat (map utf8 (snd kv)))).

(** A character that lower-casing leaves alone. *)
Definition lower_fixed (d : string) : bool :=
  negb (String.eqb d capital_sigma)
  && match map_char to_lower d with
     | [x] => String.eqb x d
     | _ => false
     end.

(** *** White space and casings, as the specification speaks of them *)

(** The white-space characters of Python, encoded. *)
Definition white_space : list string := map utf8 whitespace.

(** A text made of white space only (the empty text included). *)
Inductive blank : string -> Prop :=
| blank_empty : blank ""
| blank_more (w s : string) : In w white_space -> blank s -> blank (w ++ s).

(** Every way of writing a word in upper-case and lower-case ASCII
    letters. *)
Fixpoint casings (w : string) : list string :=
  match w with
  | EmptyString => [""]
  | String c r =>
      flat_map (fun t => [String c t; String (ascii_lower_char c) t]) (casings r)
  end.

(** A text that is, white space at both ends apart, one of the sentinels
    in some casing. *)
Definition sentinel_variant (s : string) : Prop :=
  exists pre t post w,
    s = pre ++ t ++ post /\ blank pre /\ blank post
    /\ In w sentinels /\ In t (casings w).

Definition all_casings : list string := flat_map casings sentinels.

(** *** Texts and the case of ASCII letters *)

(** Every character of [s] encodes a code point: [s] is the UTF-8 form of
    a Python [str]. *)
Definition decodes (c : string) : bool :=
  match code_point c with
  | Some _ => true
  | None => false
  end.

Definition is_text (s : string) : bool := forallb decodes (chars s).

(** What lower-casing looks at is the same for an ASCII letter in either
    case. *)
Definition same_for_lower (c d : string) : bool :=
  Bool.eqb (is_space d) (is_space c)
  && Bool.eqb (is_cased d) (is_cased c)
  && Bool.eqb (is_case_ignorable d) (is_case_ignorable c)
  && Bool.eqb (String.eqb d capital_sigma) (String.eqb c capital_sigma)
  && match map_char to_lower c, map_char to_lower d with
     | [x], [y] => String.eqb x y
     | _, _ => false
     end.

(** For lower-casing, a character with its ASCII letter upper-cased is
    the same character. *)
Definition alike (c d : string) : Prop :=
  is_space d = is_space c /\ is_cased d = is_cased c
  /\ is_case_ignorable d = is_case_ignorable c
  /\ String.eqb d capital_sigma = String.eqb c capital_sigma
  /\ map_char to_lower d = map_char to_lower c.

Definition inv_ok (b c : ascii) : bool :=
  Bool.eqb (Ascii.eqb (ascii_upper_char b) c)
           (Ascii.eqb b c || Ascii.eqb b (ascii_lower_char c)).

Fixpoint bytes_in (l : list ascii) (s : string) : bool :=
  match s with
  | EmptyString => true
  | String b r => existsb (Ascii.eqb b) l && bytes_in l r
  end.

(* ===================================================================== *)
(** ** Outcomes, events and the effect monad                             *)
(* ===================================================================== *)

Inductive exn : Type :=
| AttributeError | TypeError | KeyError | ZeroDivisionError | OverflowError
| JSONDecodeError | RequestException.

(** How a piece of Python ends: with a value, with an exception, with
    [st.stop()], or (for a loop run on fuel) without an answer. *)
Inductive outcome (A : Type) : Type :=
| Ok (a : A)
| Raise (e : exn)
| Halt
| Diverge.
Arguments Ok {A} a.
Arguments Raise {A} e.
Arguments Halt {A}.
Arguments Diverge {A}.

#[export] Instance Monad_outcome : Monad outcome :=
  {| ret := fun _ a => Ok a;
     bind := fun _ _ m f =>
       match m with
       | Ok a => f a
       | Raise e => Raise e
       | Halt => Halt
       | Diverge => Diverge
       end |}.

Definition raise {A : Type} (e : exn) : outcome A := Raise e.

(** [v.get]: only a dict has the method. *)
Definition as_dict (v : pyval) : outcome dict :=
  match v with
  | VDict d => ret d
  | _ => raise AttributeError
  end.

(** [d[k]] *)
Definition subscript (d : dict) (k : string) : outcome pyval :=
  match lookup k d with
  | Some v => ret v
  | None => raise KeyError
  end.

(** The items a [for] loop draws from [v]. *)
Definition py_iter (v : pyval) : outcome (list pyval) :=
  match v with
  | VList l => ret l
  | VDict d => ret (map (fun kv => VStr (fst kv)) d)
  | VStr s => ret (map VStr (chars s))
  | _ => raise TypeError
  end.

(** [a / b] on two ints *)
Definition truediv (a b : Z) : outcome Q :=
  if b =? 0 then raise ZeroDivisionError else ret (inject_Z a / inject_Z b)%Q.

(** [float(n)] on an int: the nearest binary64 number, ties to even, as
    the Standard Library specifies IEEE 754; a result beyond the largest
    float is an OverflowError.  The float is held by its exact value. *)
Definition float_of_int (n : Z) : outcome Q :=
  match SpecFloat.binary_normalize 53 1024 n 0 false with
  | SpecFloat.S754_zero _ => ret 0%Q
  | SpecFloat.S754_finite s m e =>
      let v := Z.shiftl (Z.pos m) e in
      ret (inject_Z (if s then - v else v))
  | _ => raise OverflowError
  end.

Fixpoint join (sep : string) (l : list string) : string :=
  match l with
  | [] => ""
  | [x] => x
  | x :: r => x ++ sep ++ join sep r
  end.

(** *** The outside world *)

Record response : Type :=
  { status_code : Z;
    text : string;
    json : option pyval  (* [None]: the body is not JSON, [.json()] raises *) }.

(** The JSON body of a Text Search request: the fixed payload and, from
    the second page on, the page token. *)
Record search_body : Type :=
  { textQuery : string;
    latitude : Q;
    longitude : Q;
    radius : Q;
    pageSize : Z;
    pageToken : option pyval }.

Definition headers : Type := list (string * string).

Inductive msg_kind : Type :=
| Error | Info | Success | Warning | Subheader | Caption.

Record export_file : Type :=
  { bytes : list Byte.byte;
    mime : string;
    filename : string }.

Inductive event : Type :=
| EvPost (url : string) (hd : headers) (body : search_body)
| EvGet (url : string) (hd : headers)
| EvSleep (ms : Z)
| EvMessage (kind : msg_kind) (msg : string)
| EvProgressNew (fraction : Q) (caption : string)
| EvProgress (fraction : Q) (caption : string)
| EvProgressEmpty
| EvDataframe (rows : list dict)
| EvDownload (label : string) (file : export_file).

(** The spreadsheet engines of the installation.  A writer answers [None]
    when importing or running it raises. *)
Record backends : Type :=
  { openpyxl : list dict -> option (list Byte.byte);
    xlsxwriter : list dict -> option (list Byte.byte);
    to_csv : list dict -> string }.

(** The environment answers a request knowing everything that happened up
    to and including that request; [None] is a transport failure
    ([requests] raises).  The clock is read the same way. *)
Record env : Type :=
  { http : list event -> option response;
    utcnow : list event -> string;
    excel : backends }.

(** A computation reads the environment and the history so far, and yields
    an outcome and the events it added, oldest first. *)
Definition M (A : Type) : Type := env -> list event -> outcome A * list event.

#[export] Instance Monad_M : Monad M :=
  {| ret := fun _ a => fun _ _ => (Ok a, []);
     bind := fun _ _ m f => fun e h =>
       let (r, t1) := m e h in
       match r with
       | Ok a => let (r2, t2) := f a e (h ++ t1)%list in (r2, (t1 ++ t2)%list)
       | Raise x => (Raise x, t1)
       | Halt => (Halt, t1)
       | Diverge => (Diverge, t1)
       end |}.

Definition lift {A : Type} (o : outcome A) : M A := fun _ _ => (o, []).
Definition emit (ev : event) : M unit := fun _ _ => (Ok tt, [ev]).

(** A request either gets a response or raises: [requests] raises a
    subclass of [RequestException] on a timeout or a failed connection. *)
Definition send (ev : event) : M response :=
  fun e h =>
    match http e (h ++ [ev])%list with
    | Some r => (Ok r, [ev])
    | None => (Raise RequestException, [ev])
    end.

Definition requests_post (url : string) (hd : headers) (body : search_body) : M response :=
  send (EvPost url hd body).
Definition requests_get (url : string) (hd : headers) : M response :=
  send (EvGet url hd).
Definition sleep (ms : Z) : M unit := emit (EvSleep ms).
Definition st_message (k : msg_kind) (msg : string) : M unit := emit (EvMessage k msg).
Definition st_stop {A : Type} : M A := fun _ _ => (Halt, []).
Definition now : M string := fun e h => (Ok (utcnow e h), []).
Definition installed : M backends := fun e _ => (Ok (excel e), []).

(** [resp.json()] *)
Definition resp_json (r : response) : outcome pyval :=
  match json r with
  | Some v => ret v
  | None => raise JSONDecodeError
  end.

(* ===================================================================== *)
(** ** Places Text Search client                                         *)
(* ===================================================================== *)

Definition PLACES_TEXT_URL : string :=
  "https://places.googleapis.com/v1/places:searchText".

(** [PLACES_DETAILS_URL_TPL.format(place_id=place_id)] *)
Definition PLACES_DETAILS_URL_TPL (place_id : pyval) : string :=
  "https://places.googleapis.com/v1/places/" ++ str place_id.

Definition newline : string := String "010"%char "".

Definition text_search_headers (api_key : string) : headers :=
  [ ("Content-Type", "application/json");
    ("X-Goog-Api-Key", api_key);
    ("X-Goog-FieldMask",
     join "," [ "places.id"; "places.displayName"; "places.formattedAddress";
                "places.rating"; "places.userRatingCount"; "places.businessStatus";
                "places.websiteUri"; "nextPageToken" ]) ].

(** One SearchResult from one entry [p] of the response's ["places"]. *)
Definition search_result (p : pyval) : outcome dict :=
  pd <- as_dict p ;;
  display <- as_dict (py_or (get pd "displayName") (VDict [])) ;;
  ret [ ("name", get_default display "text" (VStr "N/A"));
        ("address", get_default pd "formattedAddress" (VStr "N/A"));
        ("rating", get_default pd "rating" (VStr "N/A"));
        ("user_ratings_total", get_default pd "userRatingCount" (VInt 0));
        ("business_status", get_default pd "businessStatus" (VStr "N/A"));
        ("place_id", get pd "id");
        ("website", py_or (get pd "websiteUri") (VStr "")) ].

(** [for p in ...: results.append({...})] *)
Fixpoint append_results (results : list dict) (ps : list pyval) : outcome (list dict) :=
  match ps with
  | [] => ret results
  | p :: ps' =>
      row <- search_result p ;;
      append_results (results ++ [row])%list ps'
  end.

(** What one iteration does with a 200 response: the grown result list and
    the response's [nextPageToken]. *)
Definition read_page (results : list dict) (resp : response) : outcome (list dict * pyval) :=
  data <- resp_json resp ;;
  data <- as_dict data ;;
  ps <- py_iter (get_default data "places" (VList [])) ;;
  results' <- append_results results ps ;;
  ret (results', get data "nextPageToken").

Definition with_page_token (payload : search_body) (page_token : pyval) : search_body :=
  {| textQuery := textQuery payload;
     latitude := latitude payload;
     longitude := longitude payload;
     radius := radius payload;
     pageSize := pageSize payload;
     pageToken := Some page_token |}.

(** The [while True:] loop of [fetch_businesses_v1], on fuel. *)
Fixpoint fetch_loop (fuel : nat) (hd : headers) (payload : search_body) (max_pages : Z)
    (results : list dict) (pages_fetched : Z) (page_token : pyval) : M (list dict) :=
  match fuel with
  | O => lift Diverge
  | S fuel' =>
      let body := if truthy page_token then with_page_token payload page_token else payload in
      resp <- requests_post PLACES_TEXT_URL hd body ;;
      if negb (status_code resp =? 200) then
        st_message Error ("Text Search HTTP error: " ++ str_int (status_code resp)
                          ++ newline ++ text resp) ;;
        ret results
      else
        rp <- lift (read_page results resp) ;;
        let results' := fst rp in
        let page_token' := snd rp in
        let pages_fetched' := pages_fetched + 1 in
        if negb (truthy page_token') || (max_pages <=? pages_fetched') then ret results'
        else
          sleep 1000 ;;
          fetch_loop fuel' hd payload max_pages results' pages_fetched' page_token'
  end.

(** [fetch_businesses_v1], app.py lines 93-167.  The payload is built
    first, with [float(radius_m)]; the loop runs at most [max 1 max_pages]
    times, which is the fuel it gets. *)
Definition fetch_businesses_v1 (api_key query : string) (lat lng : Q) (radius_m : Z)
    (max_pages : Z) : M (list dict) :=
  radius <- lift (float_of_int radius_m) ;;
  let payload :=
    {| textQuery := query; latitude := lat; longitude := lng; radius := radius;
       pageSize := 20; pageToken := None |} in
  fetch_loop (Z.to_nat (Z.max 1 max_pages)) (text_search_headers api_key) payload
             max_pages [] 0 VNone.

(* ===================================================================== *)
(** ** Place Details client                                              *)
(* ===================================================================== *)

Definition details_headers (api_key : string) : headers :=
  [ ("X-Goog-Api-Key", api_key);
    ("X-Goog-FieldMask",
     join "," [ "id"; "displayName"; "formattedAddress"; "internationalPhoneNumber";
                "nationalPhoneNumber"; "websiteUri"; "googleMapsUri"; "rating";
                "userRatingCount"; "businessStatus" ]) ].

(** [for _ in range(retries):] with [n] rounds left. *)
Fixpoint details_attempts (n : nat) (url : string) (hd : headers) : M pyval :=
  match n with
  | O => ret (VDict [])
  | S n' =>
      r <- requests_get url hd ;;
      if status_code r =? 200 then lift (resp_json r)
      else
        sleep 1200 ;;
        details_attempts n' url hd
  end.

(** [get_detailed_info_v1], app.py lines 197-226. *)
Definition get_detailed_info_v1 (api_key : string) (place_id : pyval) (retries : Z) : M pyval :=
  details_attempts (Z.to_nat retries) (PLACES_DETAILS_URL_TPL place_id)
                   (details_headers api_key).

Definition default_retries : Z := 3.

(* ===================================================================== *)
(** ** Enrichment                                                        *)
(* ===================================================================== *)

(** The DetailedRecord built from the details response [d] and the
    SearchResult [b]. *)
Definition detailed_record (d b : dict) (fetched_at : string) : outcome dict :=
  let national := get d "nationalPhoneNumber" in
  let international := get d "internationalPhoneNumber" in
  let phone := py_or national (py_or international (VStr "N/A")) in
  let website := py_or (get d "websiteUri") (py_or (get b "website") (VStr "")) in
  display <- as_dict (py_or (get d "displayName") (VDict [])) ;;
  name <- (let t := get display "text" in
           if truthy t then ret t else subscript b "name") ;;
  address <- subscript b "address" ;;
  place_id <- subscript b "place_id" ;;
  ret [ ("Name", name);
        ("Address", get_default d "formattedAddress" address);
        ("Rating", get_default d "rating" (get b "rating"));
        ("User Ratings", get_default d "userRatingCount" (get b "user_ratings_total"));
        ("Business Status", get_default d "businessStatus" (get b "business_status"));
        ("Phone (national)", py_or national (VStr ""));
        ("Phone (intl)", py_or international (VStr ""));
        ("Phone", phone);
        ("Website", website);
        ("Google Maps URL", get_default d "googleMapsUri" (VStr "N/A"));
        ("Place ID", get_default d "id" place_id);
        ("Fetched At", VStr fetched_at) ].

Definition progress_caption (i total : Z) : string :=
  "Fetching place details… (" ++ str_int i ++ "/" ++ str_int total ++ ")".

(** [for i, b in enumerate(raw_places, start=1):] with [total] standing for
    [len(raw_places)]. *)
Fixpoint enrich_loop (api_key : string) (total : Z) (i : Z) (rest : list dict)
    (enriched : list dict) : M (list dict) :=
  match rest with
  | [] => ret enriched
  | b :: rest' =>
      place_id <- lift (subscript b "place_id") ;;
      dv <- get_detailed_info_v1 api_key place_id default_retries ;;
      d <- lift (as_dict dv) ;;
      fetched_at <- now ;;
      row <- lift (detailed_record d b fetched_at) ;;
      fraction <- lift (truediv i total) ;;
      emit (EvProgress fraction (progress_caption i total)) ;;
      enrich_loop api_key total (i + 1) rest' (enriched ++ [row])%list
  end.

(** [enrich_with_details_v1], app.py lines 229-272. *)
Definition enrich_with_details_v1 (api_key : string) (raw_places : list dict) : M (list dict) :=
  match raw_places with
  | [] => ret []
  | _ =>
      emit (EvProgressNew 0 "Fetching place details…") ;;
      enriched <- enrich_loop api_key (Z.of_nat (length raw_places)) 1 raw_places [] ;;
      emit EvProgressEmpty ;;
      ret enriched
  end.

(* ===================================================================== *)
(** ** File export helper                                                *)
(* ===================================================================== *)

Definition XLSX_MIME : string :=
  "application/vnd.openxmlformats-officedocument.spreadsheetml.sheet".

Definition utf8_bom : list Byte.byte := [Byte.xef; Byte.xbb; Byte.xbf].

(** [s.encode("utf-8-sig")] *)
Definition encode_utf8_sig (s : string) : list Byte.byte :=
  (utf8_bom ++ list_byte_of_string s)%list.

(** [dataframe_to_excel_bytes], app.py lines 278-312. *)
Definition dataframe_to_excel_bytes (bk : backends) (df : list dict) : export_file :=
  match openpyxl bk df with
  | Some buf =>
      {| bytes := buf; mime := XLSX_MIME; filename := "business_list.xlsx" |}
  | None =>
      match xlsxwriter bk df with
      | Some buf =>
          {| bytes := buf; mime := XLSX_MIME; filename := "business_list.xlsx" |}
      | None =>
          {| bytes := encode_utf8_sig (to_csv bk df);
             mime := "text/csv";
             filename := "business_list.csv" |}
      end
  end.

(* ===================================================================== *)
(** ** The "Search & Build File" run                                     *)
(* ===================================================================== *)

Definition str_len {A : Type} (l : list A) : string := str_int (Z.of_nat (length l)).

(** The body of [if run_btn:], app.py lines 362-419.  It yields the rows of
    the final table [df]. *)
Definition run (api_key query : string) (lat lng : Q) (radius_m max_pages : Z)
    (only_no_website : bool) : M (list dict) :=
  (if String.eqb api_key "" then
     st_message Error "Please add your Google Maps API key." ;; st_stop
   else ret tt) ;;
  places <- fetch_businesses_v1 api_key query lat lng radius_m max_pages ;;
  st_message Success ("Search results: " ++ str_len places ++ " places total.") ;;
  places_no_site <-
    (if only_no_website then
       let kept := filter (fun p => negb (has_site (get p "website"))) places in
       st_message Info ("Filtering out places with websites → " ++ str_len kept
                        ++ " left for enrichment.") ;;
       ret kept
     else ret places) ;;
  (match places_no_site with
   | [] => st_message Warning "No places without websites were found for the given search." ;;
           st_stop
   | _ => ret tt
   end) ;;
  enriched <- enrich_with_details_v1 api_key places_no_site ;;
  let enriched :=
    if only_no_website then filter (fun row => negb (has_site (get row "Website"))) enriched
    else enriched in
  st_message Subheader "Preview" ;;
  emit (EvDataframe enriched) ;;
  bk <- installed ;;
  let out := dataframe_to_excel_bytes bk enriched in
  emit (EvDownload "📥 Download results" out) ;;
  st_message Caption
    "If no Excel engine is installed, a CSV is provided. Install openpyxl or xlsxwriter for XLSX." ;;
  ret enriched.

(* ===================================================================== *)
(** ** Vocabulary of the statements                                      *)
(* ===================================================================== *)

Definition is_post (ev : event) : bool :=
  match ev with EvPost _ _ _ => true | _ => false end.

Definition is_get (ev : event) : bool :=
  match ev with EvGet _ _ => true | _ => false end.

Definition count_posts (tr : list event) : Z := Z.of_nat (length (filter is_post tr)).
Definition count_gets (tr : list event) : Z := Z.of_nat (length (filter is_get tr)).

(** The value of [float(radius_m)], where it is a float. *)
Definition float_value (n : Z) : Q :=
  match float_of_int n with
  | Ok q => q
  | _ => 0%Q
  end.

(** The body of the Text Search request that carries [tok]. *)
Definition search_payload (query : string) (lat lng : Q) (radius_m : Z)
    (tok : option pyval) : search_body :=
  {| textQuery := query; latitude := lat; longitude := lng;
     radius := float_value radius_m; pageSize := 20; pageToken := tok |}.

(** [k] failed attempts of the details client: each a request [g] and the
    1.2 s pause after it. *)
Fixpoint failed_attempts (g : event) (k : nat) : list event :=
  match k with
  | O => []
  | S k' => g :: EvSleep 1200 :: failed_attempts g k'
  end.

(** The answer to attempt number [k] (from 0) of the details client when
    all earlier attempts failed, and what it is for that attempt to fail: an
    HTTP response whose status is not 200. *)
Definition answer (url : string) (hd : headers) (e : env) (h : list event) (k : nat)
    : option response :=
  http e (h ++ failed_attempts (EvGet url hd) k ++ [EvGet url hd])%list.

Definition failing (url : string) (hd : headers) (e : env) (h : list event) (k : nat) : Prop :=
  exists r, answer url hd e h k = Some r /\ status_code r <> 200.

(** *** Reasoning about computations *)

(** [wp m e h Q]: run from history [h] in environment [e], [m] ends with an
    outcome and a list of new events that satisfy [Q]. *)
Definition wp {A : Type} (m : M A) (e : env) (h : list event)
    (Q : outcome A -> list event -> Prop) : Prop :=
  Q (fst (m e h)) (snd (m e h)).

(** What [Q] asks of [m >>= f] once [m] has ended with [o] and added [t1]. *)
Definition wp_then {A B : Type} (f : A -> M B) (e : env) (h : list event)
    (Q : outcome B -> list event -> Prop) (o : outcome A) (t1 : list event) : Prop :=
  match o with
  | Ok a => wp (f a) e (h ++ t1)%list (fun o2 t2 => Q o2 (t1 ++ t2)%list)
  | Raise x => Q (Raise x) t1
  | Halt => Q Halt t1
  | Diverge => Q Diverge t1
  end.

Fixpoint ends_with (suffix s : string) : bool :=
  String.eqb s suffix ||
  match s with
  | EmptyString => false
  | String _ r => ends_with suffix r
  end.

(** A progress update carries a fraction in (0, 1]. *)
Definition progress_in_range (ev : event) : Prop :=
  match ev with
  | EvProgress q _ => (0 < q /\ q <= 1)%Q
  | _ => True
  end.

(** The exceptions a pure step of the enrichment may raise. *)
Definition lookup_failure {A : Type} (o : outcome A) : Prop :=
  match o with
  | Ok _ => True
  | Raise x => x = AttributeError \/ x = KeyError
  | _ => False
  end.

(** The exceptions the details client may raise. *)
Definition transport_failure {A : Type} (o : outcome A) : Prop :=
  match o with
  | Ok _ => True
  | Raise x => x = RequestException \/ x = JSONDecodeError
  | _ => False
  end.

(** [d] is a dict that the details client, called at some point of a run
    with the place id of the SearchResult [b], returned. *)
Definition details_answer (api_key : string) (e : env) (b d : dict) : Prop :=
  exists pid h t,
    subscript b "place_id" = Ok pid
    /\ get_detailed_info_v1 api_key pid default_retries e h = (Ok (VDict d), t).

(** [row] is the DetailedRecord of the SearchResult [b]: built from [b] and
    from a dict that the details client returned for [b]'s place id. *)
Definition enriched_from (api_key : string) (e : env) (b row : dict) : Prop :=
  exists d ts, details_answer api_key e b d /\ detailed_record d b ts = Ok row.

(** If [ev] is a details request, it asks for the place id of one of
    [places]. *)
Definition details_only_for (places : list dict) (ev : event) : Prop :=
  match ev with
  | EvGet url _ =>
      exists b pid, In b places /\ subscript b "place_id" = Ok pid
                    /\ url = PLACES_DETAILS_URL_TPL pid
  | _ => True
  end.

(** [v] is [a] when [a] is present, else [b] when [b] is present, else the
    text [fallback].  A value is present when Python takes it for true:
    neither missing, nor [None], nor empty. *)
Definition prefers (v a b : pyval) (fallback : string) : Prop :=
  (truthy a = true -> v = a)
  /\ (truthy a = false -> truthy b = true -> v = b)
  /\ (truthy a = false -> truthy b = false -> v = VStr fallback).

(** [v] is [a] when [a] is present, else the text [fallback]. *)
Definition defaults_to (v a : pyval) (fallback : string) : Prop :=
  (truthy a = true -> v = a) /\ (truthy a = false -> v = VStr fallback).

(** [pd] is an entry of the places listed in the response [r]. *)
Definition place_of_response (r : response) (pd : dict) : Prop :=
  exists data ps,
    json r = Some (VDict data)
    /\ py_iter (get_default data "places" (VList [])) = Ok ps
    /\ In (VDict pd) ps.

(** What the enrichment loop guarantees for the places [rest] still to do,
    starting from the rows [enriched0]. *)
Definition enrich_post (api_key : string) (e : env) (rest enriched0 : list dict)
    (o : outcome (list dict)) (tr : list event) : Prop :=
  o <> Raise ZeroDivisionError /\ o <> Diverge /\ o <> Halt
  /\ Forall progress_in_range tr
  /\ Forall (details_only_for rest) tr
  /\ forall enriched, o = Ok enriched ->
       exists rows, enriched = (enriched0 ++ rows)%list
                    /\ Forall2 (enriched_from api_key e) rest rows.

(** *** Pagination *)

(** The Text Search request that carries the page token [tok]; a token
    that is [None] or empty is not sent. *)
Definition page_request (hd : headers) (payload : search_body) (tok : pyval) : event :=
  EvPost PLACES_TEXT_URL hd
         (if truthy tok then with_page_token payload tok else payload).

(** The message [st.error] shows for a response that is not a 200. *)
Definition search_error_message (r : response) : event :=
  EvMessage Error ("Text Search HTTP error: " ++ str_int (status_code r)
                   ++ newline ++ text r).

(** The events of a paginated search that is at history [h], has fetched
    [n] pages and holds the token [tok].  It sends one request.  The search
    ends there when the request gets no response or a response that cannot
    be read as a page (the exception leaves the loop), with an error message
    when the response is not a 200, and when the page read carries no token
    or was page number [max_pages] or more.  Otherwise, and only then, it
    pauses for one second and goes on with the token of the page read. *)
Inductive pagination (e : env) (hd : headers) (payload : search_body) (max_pages : Z)
  : list event -> Z -> pyval -> list event -> Prop :=
| pg_no_response (h : list event) (n : Z) (tok : pyval) :
    http e (h ++ [page_request hd payload tok])%list = None ->
    pagination e hd payload max_pages h n tok [page_request hd payload tok]
| pg_error (h : list event) (n : Z) (tok : pyval) (r : response) :
    http e (h ++ [page_request hd payload tok])%list = Some r ->
    status_code r <> 200 ->
    pagination e hd payload max_pages h n tok
               [page_request hd payload tok; search_error_message r]
| pg_unreadable (h : list event) (n : Z) (tok : pyval) (r : response) (x : exn) :
    http e (h ++ [page_request hd payload tok])%list = Some r ->
    status_code r = 200 ->
    read_page [] r = Raise x ->
    pagination e hd payload max_pages h n tok [page_request hd payload tok]
| pg_last (h : list event) (n : Z) (tok : pyval) (r : response) (data : dict)
    (rows : list dict) :
    http e (h ++ [page_request hd payload tok])%list = Some r ->
    status_code r = 200 ->
    json r = Some (VDict data) ->
    read_page [] r = Ok (rows, get data "nextPageToken") ->
    truthy (get data "nextPageToken") = false \/ max_pages <= n + 1 ->
    pagination e hd payload max_pages h n tok [page_request hd payload tok]
| pg_next (h : list event) (n : Z) (tok : pyval) (r : response) (data : dict)
    (rows : list dict) (rest : list event) :
    http e (h ++ [page_request hd payload tok])%list = Some r ->
    status_code r = 200 ->
    json r = Some (VDict data) ->
    read_page [] r = Ok (rows, get data "nextPageToken") ->
    truthy (get data "nextPageToken") = true ->
    n + 1 < max_pages ->
    pagination e hd payload max_pages
               (h ++ [page_request hd payload tok; EvSleep 1000])%list (n + 1)
               (get data "nextPageToken") rest ->
    pagination e hd payload max_pages h n tok
               (page_request hd payload tok :: EvSleep 1000 :: rest).

(** Sent at history [h], the request [req] is answered with a 200 whose
    body is a page with the SearchResults [rows] and the next-page token
    [tok]. *)
Definition page_answer (e : env) (h : list event) (req : event) (rows : list dict)
    (tok : pyval) : Prop :=
  exists r data,
    http e (h ++ [req])%list = Some r /\ status_code r = 200
    /\ json r = Some (VDict data) /\ tok = get data "nextPageToken"
    /\ read_page [] r = Ok (rows, tok).

(** The responses to the Text Search requests of the trace [tr], which
    starts at history [h], in the order they were received. *)
Fixpoint responses_of (e : env) (h tr : list event) : list response :=
  match tr with
  | [] => []
  | ev :: tr' =>
      ((if is_post ev
        then match http e (h ++ [ev])%list with Some r => [r] | None => [] end
        else []) ++ responses_of e (h ++ [ev])%list tr')%list
  end.

(** The SearchResults that one response contributes. *)
Definition rows_of_response (r : response) : list dict :=
  if status_code r =? 200
  then match read_page [] r with Ok rp => fst rp | _ => [] end
  else [].

(** What the pagination loop guarantees when entered at history [h] with
    [results], [pages_fetched] and [page_token]. *)
Definition fetch_post (e : env) (hd : headers) (payload : search_body) (max_pages : Z)
    (h : list event) (results : list dict) (pages_fetched : Z) (page_token : pyval)
    (o : outcome (list dict)) (tr : list event) : Prop :=
  o <> Diverge /\ o <> Halt
  /\ pagination e hd payload max_pages h pages_fetched page_token tr
  /\ count_posts tr <= Z.max 1 (max_pages - pages_fetched)
  /\ Forall (fun ev => is_get ev = false) tr
  /\ forall rs, o = Ok rs ->
       rs = (results ++ flat_map rows_of_response (responses_of e h tr))%list.

(** What a search guarantees: nothing is sent when the radius is too large
    for a float; otherwise what the pagination loop guarantees from the
    start. *)
Definition search_post (e : env) (api_key query : string) (lat lng : Q)
    (radius_m max_pages : Z) (h : list event) (o : outcome (list dict))
    (tr : list event) : Prop :=
  match float_of_int radius_m with
  | Ok _ =>
      fetch_post e (text_search_headers api_key)
                 (search_payload query lat lng radius_m None) max_pages h [] 0 VNone o tr
  | _ => o = Raise OverflowError /\ tr = []
  end.

(** *** Mocked environments *)

(** A no-break space, U+00A0. *)
Definition nbsp : string := utf8 0xA0.

Definition is_request (ev : event) : bool := is_post ev || is_get ev.

(** The [k]-th request of a run is answered with the [k]-th response of
    the list; past its end the transport fails. *)
Definition mock_http (rs : list response) (h : list event) : option response :=
  nth_error rs (length (filter is_request h) - 1).

Definition no_backends : backends :=
  {| openpyxl := fun _ => None; xlsxwriter := fun _ => None; to_csv := fun _ => "" |}.

Definition mock_env (rs : list response) : env :=
  {| http := mock_http rs;
     utcnow := fun _ => "2024-01-01 00:00:00 UTC";
     excel := no_backends |}.

Definition ok_json (v : pyval) : response :=
  {| status_code := 200; text := ""; json := Some v |}.

Definition http_error (code : Z) : response :=
  {| status_code := code; text := "error"; json := None |}.

(** *** A mocked search: five places on three pages, tokens A, B, none *)

Definition place (id name : string) (website : option string) : pyval :=
  VDict ([("id", VStr id); ("displayName", VDict [("text", VStr name)])]
         ++ match website with Some w => [("websiteUri", VStr w)] | None => [] end)%list.

Definition page (places : list pyval) (tok : option string) : response :=
  ok_json (VDict (("places", VList places)
                  :: match tok with Some t => [("nextPageToken", VStr t)] | None => [] end)).

Definition scenario_pages : list response :=
  [ page [place "p1" "One" None; place "p2" "Two" (Some "https://two.example")] (Some "A");
    page [place "p3" "Three" None] (Some "B");
    page [place "p4" "Four" (Some "https://four.example"); place "p5" "Five" None] None ].

(** The SearchResult of a place that has only an id, a name and maybe a
    website. *)
Definition search_row (id name website : string) : dict :=
  [ ("name", VStr name); ("address", VStr "N/A"); ("rating", VStr "N/A");
    ("user_ratings_total", VInt 0); ("business_status", VStr "N/A");
    ("place_id", VStr id); ("website", VStr website) ].

(** *** The mocked enrichment of the three places without website *)

Definition no_site_rows : list dict :=
  [ search_row "p1" "One" ""; search_row "p3" "Three" ""; search_row "p5" "Five" "" ].

Definition scenario_details : list response :=
  [ ok_json (VDict [ ("id", VStr "p1"); ("nationalPhoneNumber", VStr "011-123");
                     ("internationalPhoneNumber", VStr "+27-11-123") ]);
    ok_json (VDict [ ("id", VStr "p3"); ("internationalPhoneNumber", VStr "+27-11-456") ]);
    ok_json (VDict [ ("id", VStr "p5") ]) ].

(** *** The run *)

(** The places the search of a run returned. *)
Definition searched (e : env) (h : list event) (api_key query : string) (lat lng : Q)
    (radius_m max_pages : Z) : list dict :=
  match fst (fetch_businesses_v1 api_key query lat lng radius_m max_pages e h) with
  | Ok places => places
  | _ => []
  end.

(** The places handed to the enrichment, and the rows of the final table. *)
Definition kept (only_no_website : bool) (places : list dict) : list dict :=
  if only_no_website then filter (fun p => negb (has_site (get p "website"))) places
  else places.

Definition final (only_no_website : bool) (enriched : list dict) : list dict :=
  if only_no_website then filter (fun row => negb (has_site (get row "Website"))) enriched
  else enriched.

(** What a run guarantees: it ends; it asks for details only of places
    that the search returned and the pre-filter kept; and the table it
    yields is the enrichment of those places, filtered once more. *)
Definition run_post (api_key : string) (only_no_website : bool) (e : env)
    (places : list dict) (o : outcome (list dict)) (tr : list event) : Prop :=
  o <> Diverge
  /\ Forall (details_only_for (kept only_no_website places)) tr
  /\ forall df, o = Ok df ->
       exists h' enriched t,
         enrich_with_details_v1 api_key (kept only_no_website places) e h'
         = (Ok enriched, t)
         /\ df = final only_no_website enriched.

(** *** Mocked runs *)

(** The whole scenario: the three search pages, then the details of the
    three places without website. *)
Definition scenario_env : env := mock_env (scenario_pages ++ scenario_details)%list.

(** One place without website in the search, whose details give the
    website as the text N/A. *)
Definition na_env : env :=
  mock_env [ page [place "p1" "One" None] None;
             ok_json (VDict [("id", VStr "p1"); ("websiteUri", VStr "N/A")]) ].

(** One place with a website in the search. *)
Definition site_env : env :=
  mock_env [ page [place "p2" "Two" (Some "https://two.example")] None;
             ok_json (VDict [("id", VStr "p2")]) ].

(* ===================================================================== *)
(** ** Vocabulary of the further properties                              *)
(* ===================================================================== *)

(** *** Text Search *)

(** The keys of a SearchResult, in the order of the dict literal. *)
Definition search_keys : list string :=
  [ "name"; "address"; "rating"; "user_ratings_total"; "business_status";
    "place_id"; "website" ].

Definition keys (d : dict) : list string := map fst d.

(** The exceptions the pagination loop lets through, and those of the
    search: the conversion of the radius comes first. *)
Definition loop_exn (x : exn) : Prop :=
  x = RequestException \/ x = JSONDecodeError \/ x = AttributeError \/ x = TypeError.

Definition search_exn (x : exn) : Prop := x = OverflowError \/ loop_exn x.

(** The events of a search: a POST to the Text Search URL with the given
    headers and the payload (whatever the page token), a pause of one
    second, an error message. *)
Definition search_event (hd : headers) (payload : search_body) (ev : event) : Prop :=
  match ev with
  | EvPost url hd' body =>
      url = PLACES_TEXT_URL /\ hd' = hd
      /\ textQuery body = textQuery payload
      /\ latitude body = latitude payload /\ longitude body = longitude payload
      /\ radius body = radius payload /\ pageSize body = pageSize payload
  | EvSleep ms => ms = 1000
  | EvMessage kind _ => kind = Error
  | _ => False
  end.

(** An environment in which the search never runs out of pages: every
    request is answered by a readable 200 that carries a page token. *)
Definition always_more (e : env) : Prop :=
  forall h, exists r rp,
    http e h = Some r /\ status_code r = 200
    /\ read_page [] r = Ok rp /\ truthy (snd rp) = true.

Definition endless_env : env :=
  {| http := fun _ => Some (page [place "p" "Place" None] (Some "more"));
     utcnow := fun _ => "2024-01-01 00:00:00 UTC";
     excel := no_backends |}.


(** *** Enrichment *)

(** The columns of a DetailedRecord, in the order of the dict literal. *)
Definition record_keys : list string :=
  [ "Name"; "Address"; "Rating"; "User Ratings"; "Business Status";
    "Phone (national)"; "Phone (intl)"; "Phone"; "Website"; "Google Maps URL";
    "Place ID"; "Fetched At" ].

(** What one turn of the enrichment loop computes once the details client
    has answered [dv]: the row and the progress fraction. *)
Definition enrich_step (i total : Z) (b : dict) (dv : pyval) (ts : string)
    : outcome (dict * Q) :=
  d <- as_dict dv ;;
  row <- detailed_record d b ts ;;
  q <- truediv i total ;;
  ret (row, q).

Definition is_progress (ev : event) : bool :=
  match ev with
  | EvProgressNew _ _ | EvProgress _ _ | EvProgressEmpty => true
  | _ => false
  end.

(** The progress updates number [i], [i+1], ... ([k] of them) out of
    [total]. *)
Fixpoint progress_updates (total i : Z) (k : nat) : list event :=
  match k with
  | O => []
  | S k' =>
      EvProgress (inject_Z i / inject_Z total) (progress_caption i total)
      :: progress_updates total (i + 1) k'
  end.

(** The events of an enrichment: a GET of some place's details with the
    details headers, a pause of 1.2 s, the progress bar. *)
Definition enrich_event (api_key : string) (ev : event) : Prop :=
  match ev with
  | EvGet url hd => hd = details_headers api_key /\ exists pid, url = PLACES_DETAILS_URL_TPL pid
  | EvSleep ms => ms = 1200
  | EvProgressNew _ _ | EvProgress _ _ | EvProgressEmpty => True
  | _ => False
  end.

(** The exceptions the enrichment of well-formed SearchResults lets
    through. *)
Definition enrich_exn (x : exn) : Prop :=
  x = RequestException \/ x = JSONDecodeError \/ x = AttributeError.

(** An environment whose every answer is an HTTP error. *)
Definition details_down (e : env) : Prop :=
  forall h, exists r, http e h = Some r /\ status_code r <> 200.

Definition down_env : env :=
  {| http := fun _ => Some (http_error 503);
     utcnow := fun _ => "2024-01-01 00:00:00 UTC";
     excel := no_backends |}.

(** The record of a place whose details could not be had: search data
    only. *)
Definition degraded_record (b : dict) (ts : string) : dict :=
  [ ("Name", get b "name");
    ("Address", get b "address");
    ("Rating", get b "rating");
    ("User Ratings", get b "user_ratings_total");
    ("Business Status", get b "business_status");
    ("Phone (national)", VStr "");
    ("Phone (intl)", VStr "");
    ("Phone", VStr "N/A");
    ("Website", py_or (get b "website") (VStr ""));
    ("Google Maps URL", VStr "N/A");
    ("Place ID", get b "place_id");
    ("Fetched At", VStr ts) ].


(** *** The run, piece by piece *)

(** The messages between the search and the enrichment. *)
Definition run_messages (only_no_website : bool) (places : list dict) : list event :=
  EvMessage Success ("Search results: " ++ str_len places ++ " places total.")
  :: (if only_no_website
      then [EvMessage Info ("Filtering out places with websites → "
                            ++ str_len (kept true places) ++ " left for enrichment.")]
      else []).

Definition no_places_warning : event :=
  EvMessage Warning "No places without websites were found for the given search.".

(** The end of a complete run: the preview of the table [df] and the
    download button for its export. *)
Definition delivery (e : env) (df : list dict) : list event :=
  [ EvMessage Subheader "Preview";
    EvDataframe df;
    EvDownload "📥 Download results" (dataframe_to_excel_bytes (excel e) df);
    EvMessage Caption
      "If no Excel engine is installed, a CSV is provided. Install openpyxl or xlsxwriter for XLSX." ].

(** An event that shows the table or offers the file. *)
Definition is_delivery (ev : event) : bool :=
  match ev with
  | EvDataframe _ | EvDownload _ _ => true
  | _ => false
  end.

(** A request that carries the API key [api_key]. *)
Definition carries_key (api_key : string) (ev : event) : Prop :=
  match ev with
  | EvPost _ hd _ | EvGet _ hd => In ("X-Goog-Api-Key", api_key) hd
  | _ => True
  end.


(** The five ways a run can end, with what is known of its two phases. *)
Inductive run_shape (api_key query : string) (lat lng : Q) (radius_m max_pages : Z)
    (only_no_website : bool) (e : env) (h : list event)
  : outcome (list dict) * list event -> Prop :=
| run_no_key :
    api_key = "" ->
    run_shape api_key query lat lng radius_m max_pages only_no_website e h
              (Halt, [EvMessage Error "Please add your Google Maps API key."])
| run_search_failed (x : exn) (t1 : list event) :
    api_key <> "" ->
    fetch_businesses_v1 api_key query lat lng radius_m max_pages e h = (Raise x, t1) ->
    search_exn x ->
    Forall (search_event (text_search_headers api_key)
                         (search_payload query lat lng radius_m None)) t1 ->
    run_shape api_key query lat lng radius_m max_pages only_no_website e h (Raise x, t1)
| run_nothing_left (places : list dict) (t1 : list event) :
    api_key <> "" ->
    fetch_businesses_v1 api_key query lat lng radius_m max_pages e h = (Ok places, t1) ->
    Forall (search_event (text_search_headers api_key)
                         (search_payload query lat lng radius_m None)) t1 ->
    kept only_no_website places = [] ->
    run_shape api_key query lat lng radius_m max_pages only_no_website e h
              (Halt, (t1 ++ run_messages only_no_website places ++ [no_places_warning])%list)
| run_enrich_failed (places : list dict) (t1 : list event) (x : exn) (t2 : list event) :
    api_key <> "" ->
    fetch_businesses_v1 api_key query lat lng radius_m max_pages e h = (Ok places, t1) ->
    Forall (search_event (text_search_headers api_key)
                         (search_payload query lat lng radius_m None)) t1 ->
    kept only_no_website places <> [] ->
    enrich_with_details_v1 api_key (kept only_no_website places) e
      (h ++ t1 ++ run_messages only_no_website places)%list = (Raise x, t2) ->
    enrich_exn x ->
    Forall (enrich_event api_key) t2 ->
    run_shape api_key query lat lng radius_m max_pages only_no_website e h
              (Raise x, (t1 ++ run_messages only_no_website places ++ t2)%list)
| run_done (places : list dict) (t1 : list event) (enriched : list dict) (t2 : list event) :
    api_key <> "" ->
    fetch_businesses_v1 api_key query lat lng radius_m max_pages e h = (Ok places, t1) ->
    Forall (search_event (text_search_headers api_key)
                         (search_payload query lat lng radius_m None)) t1 ->
    kept only_no_website places <> [] ->
    enrich_with_details_v1 api_key (kept only_no_website places) e
      (h ++ t1 ++ run_messages only_no_website places)%list = (Ok enriched, t2) ->
    length enriched = length (kept only_no_website places) ->
    Forall (enrich_event api_key) t2 ->
    run_shape api_key query lat lng radius_m max_pages only_no_website e h
              (Ok (final only_no_website enriched),
               (t1 ++ run_messages only_no_website places ++ t2
                   ++ delivery e (final only_no_website enriched))%list).


(* ===================================================================== *)
(** ** Login and API key                                                 *)
(* ===================================================================== *)

(** What the host gives the script besides the network: the environment
    variables; the Streamlit secrets, or the exception that reading them
    raises; the answer [(name, auth_status, username)] of the
    authenticator's login widget to the credentials and cookie settings it
    is built with; and what is typed into the key field. *)
Record host : Type :=
  { getenv : string -> option string;
    secrets : exn + dict;
    login : pyval -> pyval -> pyval -> pyval -> pyval * pyval * pyval;
    typed_key : string }.

(** [st.secrets], read. *)
Definition read_secrets (hst : host) : outcome dict :=
  match secrets hst with
  | inr s => ret s
  | inl x => raise x
  end.

(** [get_maps_api_key], app.py lines 75-87: the key and the label of its
    source. *)
Definition get_maps_api_key (hst : host) : pyval * option string :=
  let from_secrets :=
    match read_secrets hst with
    | Ok s =>
        match lookup "GOOGLE_MAPS_API_KEY" s with
        | Some v => (v, Some "(loaded from st.secrets)")
        | None => (VStr "", None)
        end
    | _ => (VStr "", None)
    end in
  match getenv hst "GOOGLE_MAPS_API_KEY" with
  | Some key =>
      if negb (String.eqb key "") then (VStr key, Some "(loaded from environment)")
      else from_secrets
  | None => from_secrets
  end.

(** The key the sidebar ends with, app.py lines 329-338: the loaded one, or
    else what the user typed. *)
Definition sidebar_api_key (hst : host) : pyval :=
  let (api_key, source) := get_maps_api_key hst in
  if truthy api_key then api_key else VStr (typed_key hst).

(** [d[k] = v] *)
Fixpoint dict_set (k : string) (v : pyval) (d : dict) : dict :=
  match d with
  | [] => [(k, v)]
  | (k', v') :: r =>
      if String.eqb k' k then (k', v) :: r else (k', v') :: dict_set k v r
  end.

(** [(u["username"] or "").strip().lower()] *)
Definition normalize_username (v : pyval) : outcome string :=
  match py_or v (VStr "") with
  | VStr s => ret (lower (strip s))
  | _ => raise AttributeError
  end.

(** The dict comprehension of [require_login], app.py lines 24-31, over
    the users still to visit. *)
Fixpoint credentials_usernames (acc : dict) (users : list pyval) : outcome dict :=
  match users with
  | [] => ret acc
  | u :: rest =>
      ud <- as_dict u ;;
      if truthy (get ud "username") && truthy (get ud "password") then
        raw <- subscript ud "username" ;;
        username <- normalize_username raw ;;
        name <- subscript ud "name" ;;
        password <- subscript ud "password" ;;
        credentials_usernames
          (dict_set username (VDict [("name", name); ("password", password)]) acc) rest
      else credentials_usernames acc rest
  end.

(** [cfg[k]] for a value that may not be a mapping. *)
Definition subscript_value (v : pyval) (k : string) : outcome pyval :=
  match v with
  | VDict d => subscript d k
  | _ => raise TypeError
  end.

(** [require_login], app.py lines 17-59.  The logout button that the
    authenticator draws in the sidebar leaves no event. *)
Definition require_login (hst : host) : M unit :=
  all <- lift (read_secrets hst) ;;
  cfg <- lift (subscript all "auth") ;;
  users <- lift (subscript_value cfg "users") ;;
  items <- lift (py_iter users) ;;
  usernames <- lift (credentials_usernames [] items) ;;
  let credentials := VDict [("usernames", VDict usernames)] in
  cookie_name <- lift (subscript_value cfg "cookie_name") ;;
  cookie_key <- lift (subscript_value cfg "cookie_key") ;;
  expiry <- lift (d <- as_dict cfg ;; ret (get_default d "cookie_expiry_days" (VInt 7))) ;;
  let '(name, auth_status, username) := login hst credentials cookie_name cookie_key expiry in
  match auth_status with
  | VBool false => st_message Error "Username/password is incorrect" ;; st_stop
  | VNone => st_message Info "Please log in to continue." ;; st_stop
  | _ => st_message Caption ("Signed in as **" ++ str name ++ "**")
  end.


(** Three users of a secrets file: the first two differ only in case and
    blanks, the third has no username. *)
Definition example_users : list pyval :=
  [ VDict [("name", VStr "Bob"); ("username", VStr " Bob "); ("password", VStr "hash1")];
    VDict [("name", VStr "Eve"); ("username", VStr ""); ("password", VStr "hash2")];
    VDict [("name", VStr "Robert"); ("username", VStr "bob"); ("password", VStr "hash3")] ].

Definition example_host (status : pyval) : host :=
  {| getenv := fun _ => None;
     secrets := inr [ ("auth", VDict [ ("users", VList example_users);
                                       ("cookie_name", VStr "c");
                                       ("cookie_key", VStr "k") ]) ];
     login := fun _ _ _ _ => (VStr "Bob", status, VStr "bob");
     typed_key := "typed" |}.


(** What [require_login] computes before it asks the authenticator: the
    credentials, the cookie name, the cookie key and the cookie lifetime. *)
Definition login_inputs (hst : host) : outcome (pyval * pyval * pyval * pyval) :=
  all <- read_secrets hst ;;
  cfg <- subscript all "auth" ;;
  users <- subscript_value cfg "users" ;;
  items <- py_iter users ;;
  usernames <- credentials_usernames [] items ;;
  cookie_name <- subscript_value cfg "cookie_name" ;;
  cookie_key <- subscript_value cfg "cookie_key" ;;
  d <- as_dict cfg ;;
  ret (VDict [("usernames", VDict usernames)], cookie_name, cookie_key,
       get_default d "cookie_expiry_days" (VInt 7)).


(* ===================================================================== *)
(** * Properties                                                         *)
(* ===================================================================== *)

(** ** Strings *)

Example str_examples :
  str (VInt 0) = "0" /\ str (VInt (-42)) = "-42" /\ str (VBool false) = "False"
  /\ str (VStr "N/A") = "N/A"
  /\ str (VDict [("a", VStr "x y"); ("b", VList [VInt 1; VNone])])
     = "{'a': 'x y', 'b': [1, None]}"
  /\ repr (VStr "it's") = String dquote ("it's" ++ String dquote "")
  /\ repr (VStr (String "010" "a")) = String "'" (String backslash "na'")
  /\ strip "  n/a  " = "n/a" /\ upper "n/a" = "N/A" /\ strip (String "009" " ") = "".
Proof. repeat split; reflexivity. Qed.

(** ** Characters of a text *)

Lemma append_assoc (a b c : string) : (a ++ b) ++ c = a ++ (b ++ c).
Proof. induction a as [|x a IH]; cbn; [|rewrite IH]; reflexivity. Qed.

Lemma cat_app (l1 l2 : list string) : cat (l1 ++ l2) = cat l1 ++ cat l2.
Proof.
  induction l1 as [|x l1 IH]; cbn; [reflexivity|].
  rewrite IH, append_assoc. reflexivity.
Qed.

Lemma append_nil_r (s : string) : s ++ "" = s.
Proof. induction s as [|c s IH]; cbn; [|rewrite IH]; reflexivity. Qed.

Lemma chars_cons (b : ascii) (r : string) :
  chars (String b r)
  = match chars r with
    | c :: cs => if starts_cont c then String b c :: cs else String b "" :: c :: cs
    | [] => [String b ""]
    end.
Proof. reflexivity. Qed.

Lemma cat_chars (s : string) : cat (chars s) = s.
Proof.
  induction s as [|b r IH]; [reflexivity|].
  rewrite chars_cons. destruct (chars r) as [|c cs].
  - cbn in *. rewrite <- IH. reflexivity.
  - destruct (starts_cont c); cbn in *; rewrite <- IH; reflexivity.
Qed.

Lemma chars_nil (s : string) : chars s = [] -> s = "".
Proof. intros H. rewrite <- (cat_chars s), H. reflexivity. Qed.

(** The first character starts with the first byte. *)
Lemma chars_starts (s : string) :
  match chars s with
  | c :: _ => starts_cont c = starts_cont s /\ c <> ""
  | [] => s = ""
  end.
Proof.
  destruct s as [|b r]; [reflexivity|].
  rewrite chars_cons. destruct (chars r) as [|c cs]; [split; [reflexivity|discriminate]|].
  destruct (starts_cont c); split; try reflexivity; discriminate.
Qed.

Lemma chars_canonical (s : string) : canonical (chars s) = true.
Proof.
  induction s as [|b r IH]; [reflexivity|].
  rewrite chars_cons. destruct (chars r) as [|c cs]; [reflexivity|].
  cbn [canonical] in IH. apply andb_true_iff in IH as [Hc Hcs].
  destruct (starts_cont c) eqn:Ec; cbn [canonical chunk].
  - destruct c as [|a t]; [discriminate|]. cbn [starts_cont chunk] in Ec, Hc.
    cbn [all_cont]. rewrite Ec, Hc, Hcs. reflexivity.
  - cbn [all_cont forallb]. unfold clean at 1. rewrite Hc, Ec, Hcs. reflexivity.
Qed.

(** A character followed by text that does not start with a continuation
    byte is read as that character. *)
Lemma chars_chunk_app (t rest : string) (b : ascii) :
  all_cont t = true -> starts_cont rest = false ->
  chars (String b (t ++ rest)) = String b t :: chars rest.
Proof.
  revert b. induction t as [|a t IH]; intros b Ht Hrest.
  - cbn [append]. rewrite chars_cons. pose proof (chars_starts rest) as Hs.
    destruct (chars rest) as [|c cs]; [reflexivity|].
    destruct Hs as [Hs _]. rewrite Hs, Hrest. reflexivity.
  - cbn [all_cont] in Ht. apply andb_true_iff in Ht as [Ha Ht].
    cbn [append]. rewrite chars_cons, (IH a Ht Hrest). cbn [starts_cont].
    rewrite Ha. reflexivity.
Qed.

Lemma starts_cont_cat (cs : list string) :
  forallb clean cs = true -> starts_cont (cat cs) = false.
Proof.
  destruct cs as [|c cs]; [reflexivity|]. cbn. intros H.
  apply andb_true_iff in H as [Hc _]. unfold clean in Hc.
  apply andb_true_iff in Hc as [Hk Hs]. destruct c; [discriminate|].
  cbn in *. now apply negb_true_iff.
Qed.

Lemma chars_cat (cs : list string) : canonical cs = true -> chars (cat cs) = cs.
Proof.
  assert (G : forall cs, forallb clean cs = true -> chars (cat cs) = cs).
  { induction cs0 as [|c cs0 IH]; [reflexivity|]. cbn [forallb cat]. intros H.
    apply andb_true_iff in H as [Hc Hcs]. unfold clean in Hc.
    apply andb_true_iff in Hc as [Hk _]. destruct c as [|b t]; [discriminate|].
    cbn [append]. rewrite (chars_chunk_app t (cat cs0) b Hk (starts_cont_cat _ Hcs)).
    rewrite (IH Hcs). reflexivity. }
  destruct cs as [|c cs]; [reflexivity|]. cbn [canonical cat]. intros H.
  apply andb_true_iff in H as [Hk Hcs]. destruct c as [|b t]; [discriminate|].
  cbn [append]. rewrite (chars_chunk_app t (cat cs) b Hk (starts_cont_cat _ Hcs)).
  rewrite (G _ Hcs). reflexivity.
Qed.

Lemma chars_clean (s : string) : starts_cont s = false -> forallb clean (chars s) = true.
Proof.
  intros Hs. pose proof (chars_canonical s) as Hc. pose proof (chars_starts s) as Hh.
  destruct (chars s) as [|c cs]; [reflexivity|]. destruct Hh as [Hh _].
  cbn [canonical] in Hc. apply andb_true_iff in Hc as [Hk Hcs]. cbn [forallb].
  unfold clean at 1. rewrite Hk, Hh, Hs, Hcs. reflexivity.
Qed.

Lemma canonical_app (l1 l2 : list string) :
  canonical l1 = true -> forallb clean l2 = true -> canonical (l1 ++ l2) = true.
Proof.
  destruct l1 as [|c l1]; cbn [app canonical].
  - intros _ H. destruct l2 as [|d l2]; [reflexivity|]. cbn [forallb canonical] in *.
    apply andb_true_iff in H as [Hd Hl]. unfold clean in Hd.
    apply andb_true_iff in Hd as [Hk _]. rewrite Hk, Hl. reflexivity.
  - intros H1 H2. apply andb_true_iff in H1 as [Hk Hl]. cbn [app canonical].
    rewrite Hk, forallb_app, Hl, H2. reflexivity.
Qed.

(** Texts are read one after the other when the second does not start
    inside a character. *)
Lemma chars_app (a b : string) :
  starts_cont b = false -> chars (a ++ b) = (chars a ++ chars b)%list.
Proof.
  intros Hb. rewrite <- (cat_chars a) at 1. rewrite <- (cat_chars b) at 1.
  rewrite <- cat_app. apply chars_cat.
  apply canonical_app; [apply chars_canonical | apply chars_clean; exact Hb].
Qed.

(** ** Trimming *)

Section DropWhile.
Context {A : Type} (p : A -> bool).

Lemma drop_while_all (pre l : list A) :
  forallb p pre = true -> drop_while p (pre ++ l) = drop_while p l.
Proof.
  induction pre as [|x pre IH]; cbn; [reflexivity|].
  intros H. apply andb_true_iff in H as [Hx Hpre]. rewrite Hx. exact (IH Hpre).
Qed.

Lemma drop_while_nil (l : list A) : drop_while p l = [] <-> forallb p l = true.
Proof.
  induction l as [|x l IH]; cbn; [tauto|].
  destruct (p x); cbn; [exact IH|]. split; discriminate.
Qed.

Lemma drop_while_split (l : list A) :
  exists pre, l = (pre ++ drop_while p l)%list /\ forallb p pre = true.
Proof.
  induction l as [|x l [pre [E H]]]; [exists []; split; reflexivity|].
  cbn. destruct (p x) eqn:Ex.
  - exists (x :: pre). cbn. rewrite Ex, H, <- E. split; reflexivity.
  - exists []. split; reflexivity.
Qed.

Lemma drop_while_some (l m : list A) :
  forallb p l = false -> drop_while p (l ++ m) = (drop_while p l ++ m)%list.
Proof.
  induction l as [|x l IH]; cbn; [discriminate|].
  destruct (p x); cbn; [exact IH | reflexivity].
Qed.

Lemma drop_while_snoc (l : list A) (x : A) :
  p x = false -> drop_while p (l ++ [x]) = (drop_while p l ++ [x])%list.
Proof.
  intros Hx. induction l as [|y l IH]; cbn; [rewrite Hx; reflexivity|].
  destruct (p y); [exact IH | reflexivity].
Qed.

Lemma head_ok_drop_while (l : list A) : head_ok p (drop_while p l) = true.
Proof.
  induction l as [|x l IH]; cbn; [reflexivity|].
  destruct (p x) eqn:Ex; [exact IH|]. cbn. rewrite Ex. reflexivity.
Qed.

Lemma drop_while_fix (l : list A) : head_ok p l = true -> drop_while p l = l.
Proof.
  destruct l as [|x l]; cbn; [reflexivity|]. intros H.
  apply negb_true_iff in H. rewrite H. reflexivity.
Qed.

End DropWhile.

Lemma trim_tight (cs : list string) : tight (trim cs) = true.
Proof.
  unfold tight, trim. rewrite rev_involutive, head_ok_drop_while, andb_true_r.
  pose proof (head_ok_drop_while is_space cs) as H.
  destruct (drop_while is_space cs) as [|x l]; [reflexivity|].
  cbn [head_ok] in H. apply negb_true_iff in H.
  cbn [rev]. rewrite (drop_while_snoc _ _ _ H), rev_app_distr. cbn. rewrite H. reflexivity.
Qed.

Lemma trim_fix (l : list string) : tight l = true -> trim l = l.
Proof.
  unfold tight, trim. intros H. apply andb_true_iff in H as [H1 H2].
  rewrite (drop_while_fix _ _ H1), (drop_while_fix _ _ H2). apply rev_involutive.
Qed.

Lemma forallb_rev {A : Type} (p : A -> bool) (l : list A) :
  forallb p (rev l) = forallb p l.
Proof.
  induction l as [|x l IH]; [reflexivity|].
  cbn. rewrite forallb_app, IH. cbn. rewrite andb_true_r. apply andb_comm.
Qed.

Lemma trim_app (pre l post : list string) :
  forallb is_space pre = true -> forallb is_space post = true ->
  trim (pre ++ l ++ post) = trim l.
Proof.
  intros Hpre Hpost. unfold trim. rewrite (drop_while_all _ _ _ Hpre).
  destruct (forallb is_space l) eqn:El.
  - assert (E : forallb is_space (l ++ post) = true) by (rewrite forallb_app, El; exact Hpost).
    rewrite (proj2 (drop_while_nil _ _) E), (proj2 (drop_while_nil _ _) El). reflexivity.
  - rewrite (drop_while_some _ _ _ El), rev_app_distr, drop_while_all; [reflexivity|].
    rewrite forallb_rev. exact Hpost.
Qed.

Lemma trim_split (cs : list string) :
  exists pre post,
    cs = (pre ++ trim cs ++ post)%list
    /\ forallb is_space pre = true /\ forallb is_space post = true.
Proof.
  destruct (drop_while_split is_space cs) as [pre [E Hpre]].
  destruct (drop_while_split is_space (rev (drop_while is_space cs))) as [q [F Hq]].
  exists pre, (rev q). split; [|split; [exact Hpre | rewrite forallb_rev; exact Hq]].
  unfold trim. rewrite <- rev_app_distr, <- F, rev_involutive. exact E.
Qed.

Lemma trim_nil (cs : list string) : trim cs = [] <-> forallb is_space cs = true.
Proof.
  split.
  - intros H. destruct (trim_split cs) as (pre & post & E & Hpre & Hpost).
    rewrite E, H, !forallb_app, Hpre, Hpost. reflexivity.
  - intros H. unfold trim. rewrite (proj2 (drop_while_nil _ _) H). reflexivity.
Qed.

(** Trimming keeps every character that is not white space. *)
Lemma trim_keeps (cs : list string) (c : string) :
  In c cs -> is_space c = false -> In c (trim cs).
Proof.
  intros Hin Hc. destruct (trim_split cs) as (pre & post & E & Hpre & Hpost).
  rewrite E in Hin. rewrite forallb_forall in Hpre, Hpost.
  apply in_app_or in Hin as [H|H]; [apply Hpre in H; congruence|].
  apply in_app_or in H as [H|H]; [exact H | apply Hpost in H; congruence].
Qed.

Lemma trim_unique (pre t post : list string) :
  forallb is_space pre = true -> forallb is_space post = true -> tight t = true ->
  trim (pre ++ t ++ post) = t.
Proof. intros Hpre Hpost Ht. rewrite (trim_app _ _ _ Hpre Hpost). exact (trim_fix _ Ht). Qed.

Lemma trim_idem (cs : list string) : trim (trim cs) = trim cs.
Proof. apply trim_fix, trim_tight. Qed.

Lemma canonical_sub (pre l post : list string) :
  canonical (pre ++ l ++ post) = true -> canonical l = true.
Proof.
  assert (G : forall l, forallb clean l = true -> canonical l = true).
  { intros [|c r]; cbn; [reflexivity|]. intros H. apply andb_true_iff in H as [Hc Hr].
    unfold clean in Hc. apply andb_true_iff in Hc as [Hk _]. rewrite Hk, Hr. reflexivity. }
  destruct pre as [|c pre]; cbn [app canonical].
  - destruct l as [|d l]; [reflexivity|]. cbn [app canonical]. intros H.
    apply andb_true_iff in H as [Hk Hr]. rewrite forallb_app in Hr.
    apply andb_true_iff in Hr as [Hl _]. rewrite Hk, Hl. reflexivity.
  - intros H. apply andb_true_iff in H as [_ Hr]. rewrite !forallb_app in Hr.
    apply andb_true_iff in Hr as [_ Hr]. apply andb_true_iff in Hr as [Hl _]. exact (G _ Hl).
Qed.

Lemma trim_canonical (cs : list string) : canonical cs = true -> canonical (trim cs) = true.
Proof.
  intros H. destruct (trim_split cs) as (pre & post & E & _ & _).
  rewrite E in H. exact (canonical_sub _ _ _ H).
Qed.

(** The characters of the trimmed text are the trimmed characters. *)
Lemma chars_strip (s : string) : chars (strip s) = trim (chars s).
Proof. apply chars_cat, trim_canonical, chars_canonical. Qed.

Lemma cat_nil (cs : list string) : canonical cs = true -> cat cs = "" -> cs = [].
Proof.
  destruct cs as [|c cs]; [reflexivity|]. cbn. intros H.
  apply andb_true_iff in H as [Hk _]. destruct c; [discriminate|]. discriminate.
Qed.

Lemma strip_empty (s : string) : strip s = "" <-> all_space s = true.
Proof.
  unfold all_space. rewrite <- trim_nil. unfold strip. split.
  - apply cat_nil, trim_canonical, chars_canonical.
  - intros ->. reflexivity.
Qed.

Lemma strip_idem (s : string) : strip (strip s) = strip s.
Proof. unfold strip at 1. rewrite chars_strip, trim_idem. reflexivity. Qed.

(** ** Code points *)

Ltac each_ascii c :=
  destruct c as [[|] [|] [|] [|] [|] [|] [|] [|]].

Ltac bools :=
  repeat match goal with
         | H : _ && _ = true |- _ => apply andb_true_iff in H; destruct H
         | H : negb _ = true |- _ => apply negb_true_iff in H
         | H : (_ <=? _)%N = true |- _ => apply N.leb_le in H
         | H : (_ <? _)%N = true |- _ => apply N.ltb_lt in H
         | H : (_ <=? _)%N = false |- _ => apply N.leb_gt in H
         | H : (_ <? _)%N = false |- _ => apply N.ltb_ge in H
         end.

Lemma is_cont_range (b : ascii) :
  is_cont b = true <-> (0x80 <= N_of_ascii b < 0xC0)%N.
Proof.
  unfold is_cont. rewrite andb_true_iff, N.leb_le, N.ltb_lt. reflexivity.
Qed.

Lemma byte_range (b : ascii) : (N_of_ascii b < 256)%N.
Proof. apply N_ascii_bounded. Qed.

(** What [code_point] accepts, byte by byte. *)
Lemma code_point_cases (c : string) (n : N) :
  code_point c = Some n ->
  (exists a, c = String a "" /\ n = N_of_ascii a /\ (n < 0x80)%N)
  \/ (exists a b, c = String a (String b "")
        /\ (0xC2 <= N_of_ascii a <= 0xDF)%N /\ is_cont b = true
        /\ n = ((N_of_ascii a - 0xC0) * 0x40 + (N_of_ascii b - 0x80))%N)
  \/ (exists a b d, c = String a (String b (String d ""))
        /\ (0xE0 <= N_of_ascii a <= 0xEF)%N /\ is_cont b = true /\ is_cont d = true
        /\ n = ((N_of_ascii a - 0xE0) * 0x1000 + (N_of_ascii b - 0x80) * 0x40
                + (N_of_ascii d - 0x80))%N
        /\ (0x800 <= n)%N)
  \/ (exists a b d e, c = String a (String b (String d (String e "")))
        /\ (0xF0 <= N_of_ascii a <= 0xF4)%N
        /\ is_cont b = true /\ is_cont d = true /\ is_cont e = true
        /\ n = ((N_of_ascii a - 0xF0) * 0x40000 + (N_of_ascii b - 0x80) * 0x1000
                + (N_of_ascii d - 0x80) * 0x40 + (N_of_ascii e - 0x80))%N
        /\ (0x10000 <= n)%N).
Proof.
  destruct c as [|a [|b [|d [|e [|f r]]]]]; unfold code_point; try discriminate.
  - destruct (N_of_ascii a <? 0x80)%N eqn:E; [|discriminate].
    intros H. injection H as <-. left. exists a. bools. auto.
  - match goal with |- (if ?t then _ else _) = _ -> _ => destruct t eqn:E end; [|discriminate].
    intros H. injection H as <-. right; left. exists a, b. bools. auto.
  - match goal with |- (if ?t then _ else _) = _ -> _ => destruct t eqn:E end; [|discriminate].
    intros H. injection H as <-. right; right; left. exists a, b, d. bools. repeat split; auto.
  - match goal with |- (if ?t then _ else _) = _ -> _ => destruct t eqn:E end; [|discriminate].
    intros H. injection H as <-. right; right; right. exists a, b, d, e. bools.
    repeat split; auto.
Qed.

Lemma code_point_clean (c : string) (n : N) : code_point c = Some n -> clean c = true.
Proof.
  intros H. unfold clean.
  destruct (code_point_cases _ _ H)
    as [(a & -> & -> & Ha)|[(a & b & -> & Ha & Hb & _)|[(a & b & d & -> & Ha & Hb & Hd & _)
        |(a & b & d & e & -> & Ha & Hb & Hd & He & _)]]];
    cbn [chunk all_cont starts_cont]; rewrite ?Hb, ?Hd, ?He; cbn [andb];
    apply negb_true_iff; apply not_true_iff_false; rewrite is_cont_range; lia.
Qed.

Lemma code_point_ascii (c : string) (n : N) :
  code_point c = Some n -> (n < 0x80)%N -> c = String (ascii_of_N n) "".
Proof.
  intros H Hn.
  destruct (code_point_cases _ _ H)
    as [(a & -> & -> & Ha)|[(a & b & -> & Ha & Hb & ->)|[(a & b & d & -> & _ & _ & _ & _ & Hm)
        |(a & b & d & e & -> & _ & _ & _ & _ & _ & Hm)]]]; try lia.
  rewrite ascii_N_embedding. reflexivity.
Qed.

(** A character above the ASCII range has a continuation byte. *)
Lemma code_point_high (c : string) (n : N) :
  code_point c = Some n -> (0x80 <= n)%N ->
  exists a b r, c = String a (String b r) /\ is_cont b = true.
Proof.
  intros H Hn.
  destruct (code_point_cases _ _ H)
    as [(a & -> & -> & Ha)|[(a & b & -> & Ha & Hb & ->)|[(a & b & d & -> & _ & Hb & _)
        |(a & b & d & e & -> & _ & Hb & _)]]]; try lia; eauto.
Qed.

Lemma ascii_of_N_inj_byte (a : ascii) (m : N) : m = N_of_ascii a -> ascii_of_N m = a.
Proof. intros ->. apply ascii_N_embedding. Qed.

(** Encoding gives back the character that was decoded. *)
Lemma utf8_code_point (c : string) (n : N) : code_point c = Some n -> utf8 n = c.
Proof.
  intros H.
  destruct (code_point_cases _ _ H)
    as [(a & -> & -> & Ha)|[(a & b & -> & Ha & Hb & ->)|[(a & b & d & -> & Ha & Hb & Hd & -> & Hm)
        |(a & b & d & e & -> & Ha & Hb & Hd & He & -> & Hm)]]];
    rewrite ?is_cont_range in *; unfold utf8.
  - apply N.ltb_lt in Ha. rewrite Ha, ascii_N_embedding. reflexivity.
  - set (x := N_of_ascii a) in *. set (y := N_of_ascii b) in *.
    destruct (N.ltb_spec ((x - 0xC0) * 0x40 + (y - 0x80)) 0x80); [lia|].
    destruct (N.ltb_spec ((x - 0xC0) * 0x40 + (y - 0x80)) 0x800); [|lia].
    assert (E1 : (((x - 0xC0) * 0x40 + (y - 0x80)) / 0x40 = x - 0xC0)%N).
    { symmetry. apply (N.div_unique _ 0x40 _ (y - 0x80)); lia. }
    assert (E2 : (((x - 0xC0) * 0x40 + (y - 0x80)) mod 0x40 = y - 0x80)%N).
    { symmetry. apply (N.mod_unique _ 0x40 (x - 0xC0) (y - 0x80)); lia. }
    f_equal; [|f_equal]; apply ascii_of_N_inj_byte; subst x y; lia.
  - set (x := N_of_ascii a) in *. set (y := N_of_ascii b) in *. set (z := N_of_ascii d) in *.
    set (n := ((x - 0xE0) * 0x1000 + (y - 0x80) * 0x40 + (z - 0x80))%N) in *.
    destruct (N.ltb_spec n 0x80); [lia|]. destruct (N.ltb_spec n 0x800); [lia|].
    destruct (N.ltb_spec n 0x10000); [|lia].
    assert (E1 : (n / 0x40 = (x - 0xE0) * 0x40 + (y - 0x80))%N).
    { symmetry. apply (N.div_unique n 0x40 _ (z - 0x80)); lia. }
    assert (E2 : (n mod 0x40 = z - 0x80)%N).
    { symmetry. apply (N.mod_unique n 0x40 ((x - 0xE0) * 0x40 + (y - 0x80)) (z - 0x80)); lia. }
    assert (E3 : (n / 0x1000 = x - 0xE0)%N).
    { symmetry. apply (N.div_unique n 0x1000 _ ((y - 0x80) * 0x40 + (z - 0x80))); lia. }
    assert (E4 : ((n / 0x40) mod 0x40 = y - 0x80)%N).
    { rewrite E1. symmetry. apply (N.mod_unique _ 0x40 (x - 0xE0) (y - 0x80)); lia. }
    f_equal; [|f_equal; [|f_equal]]; apply ascii_of_N_inj_byte; subst x y z; lia.
  - set (x := N_of_ascii a) in *. set (y := N_of_ascii b) in *. set (z := N_of_ascii d) in *.
    set (u := N_of_ascii e) in *.
    set (n := ((x - 0xF0) * 0x40000 + (y - 0x80) * 0x1000 + (z - 0x80) * 0x40
               + (u - 0x80))%N) in *.
    destruct (N.ltb_spec n 0x80); [lia|]. destruct (N.ltb_spec n 0x800); [lia|].
    destruct (N.ltb_spec n 0x10000); [lia|].
    assert (E1 : (n / 0x40 = (x - 0xF0) * 0x1000 + (y - 0x80) * 0x40 + (z - 0x80))%N).
    { symmetry. apply (N.div_unique n 0x40 _ (u - 0x80)); lia. }
    assert (E2 : (n mod 0x40 = u - 0x80)%N).
    { symmetry. apply (N.mod_unique n 0x40 ((x - 0xF0) * 0x1000 + (y - 0x80) * 0x40
                                             + (z - 0x80)) (u - 0x80)); lia. }
    assert (E3 : (n / 0x1000 = (x - 0xF0) * 0x40 + (y - 0x80))%N).
    { symmetry. apply (N.div_unique n 0x1000 _ ((z - 0x80) * 0x40 + (u - 0x80))); lia. }
    assert (E4 : ((n / 0x40) mod 0x40 = z - 0x80)%N).
    { rewrite E1. symmetry.
      apply (N.mod_unique _ 0x40 ((x - 0xF0) * 0x40 + (y - 0x80)) (z - 0x80)); lia. }
    assert (E5 : ((n / 0x1000) mod 0x40 = y - 0x80)%N).
    { rewrite E3. symmetry. apply (N.mod_unique _ 0x40 (x - 0xF0) (y - 0x80)); lia. }
    assert (E6 : (n / 0x40000 = x - 0xF0)%N).
    { symmetry. apply (N.div_unique n 0x40000 _ ((y - 0x80) * 0x1000 + (z - 0x80) * 0x40
                                                  + (u - 0x80))); lia. }
    f_equal; [|f_equal; [|f_equal; [|f_equal]]]; apply ascii_of_N_inj_byte; subst x y z u; lia.
Qed.

(** A character with more bytes glued to it is no character. *)
Lemma code_point_longer (w x : string) (n : N) :
  code_point w = Some n -> x <> "" -> code_point (w ++ x) = None.
Proof.
  intros H Hx. destruct x as [|p x]; [contradiction|].
  destruct (code_point_cases _ _ H)
    as [(a & -> & -> & Ha)|[(a & b & -> & Ha & _)|[(a & b & d & -> & Ha & _)
        |(a & b & d & e & -> & _)]]]; cbn [append]; unfold code_point.
  - destruct x as [|q [|q' [|? ?]]]; try reflexivity;
      match goal with |- (if ?t then _ else _) = _ => destruct t eqn:E end;
      try reflexivity; bools; lia.
  - destruct x as [|q [|? ?]]; try reflexivity;
      match goal with |- (if ?t then _ else _) = _ => destruct t eqn:E end;
      try reflexivity; bools; lia.
  - destruct x as [|? ?]; try reflexivity;
      match goal with |- (if ?t then _ else _) = _ => destruct t eqn:E end;
      try reflexivity; bools; lia.
  - reflexivity.
Qed.

(** ** Texts written with the letters of the sentinels *)

Lemma plain_app (a b : string) : plain (a ++ b) = plain a && plain b.
Proof.
  induction a as [|x a IH]; [reflexivity|]. cbn [append plain]. rewrite IH. apply andb_assoc.
Qed.

Lemma plain_cat (l : list string) : plain (cat l) = forallb plain l.
Proof.
  induction l as [|x l IH]; [reflexivity|]. cbn [cat forallb]. rewrite plain_app, IH. reflexivity.
Qed.

Lemma sentinel_byte_upper (b : ascii) : sentinel_byte (ascii_upper_char b) = sentinel_byte b.
Proof. each_ascii b; reflexivity. Qed.

Lemma plain_upper (s : string) : plain (ascii_upper s) = plain s.
Proof.
  unfold ascii_upper. induction s as [|b s IH]; [reflexivity|].
  cbn [map_bytes plain]. rewrite sentinel_byte_upper, IH. reflexivity.
Qed.

Lemma ascii_upper_app (a b : string) : ascii_upper (a ++ b) = ascii_upper a ++ ascii_upper b.
Proof.
  unfold ascii_upper. induction a as [|x a IH]; [reflexivity|].
  cbn [append map_bytes]. f_equal. exact IH.
Qed.

Lemma ascii_upper_cat (l : list string) : ascii_upper (cat l) = cat (map ascii_upper l).
Proof.
  induction l as [|x l IH]; [reflexivity|]. cbn [cat map]. rewrite ascii_upper_app.
  f_equal. exact IH.
Qed.

Lemma cont_not_sentinel (b : ascii) : is_cont b = true -> sentinel_byte b = false.
Proof. each_ascii b; vm_compute; intros H; first [reflexivity | discriminate H]. Qed.

Lemma high_not_sentinel (b : ascii) : code_point (String b "") = None -> sentinel_byte b = false.
Proof. each_ascii b; vm_compute; intros H; first [reflexivity | discriminate H]. Qed.

Lemma mem_string_In (s : string) (l : list string) :
  mem_string s l = true <-> In s l.
Proof.
  unfold mem_string. rewrite existsb_exists. split.
  - intros [t [Hin Heq]]. apply String.eqb_eq in Heq. subst. exact Hin.
  - intros Hin. exists s. split; [exact Hin | apply String.eqb_refl].
Qed.

Lemma sentinels_plain (w : string) : In w sentinels -> plain w = true.
Proof. cbn. intros [<-|[<-|[<-|[<-|[]]]]]; reflexivity. Qed.

Lemma not_plain_not_sentinel (x : string) : plain x = false -> mem_string x sentinels = false.
Proof.
  intros H. apply not_true_iff_false. rewrite mem_string_In. intros Hin.
  rewrite (sentinels_plain _ Hin) in H. discriminate.
Qed.

Lemma sim_refl (x : string) : sim x x.
Proof. now left. Qed.

Lemma sim_trans (x y z : string) : sim x y -> sim y z -> sim x z.
Proof.
  intros [->|[Hx Hy]] [->|[Hy' Hz]]; [now left | now right | now right | now right].
Qed.

Lemma sim_app (a b c d : string) : sim a b -> sim c d -> sim (a ++ c) (b ++ d).
Proof.
  intros [->|[Ha Hb]] [->|[Hc Hd]]; [now left | right | right | right];
    rewrite !plain_app, ?Ha, ?Hb, ?Hc, ?Hd, ?andb_false_r; split; reflexivity.
Qed.

Lemma sim_mem (x y : string) : sim x y -> mem_string x sentinels = mem_string y sentinels.
Proof.
  intros [->|[Hx Hy]]; [reflexivity|].
  rewrite (not_plain_not_sentinel _ Hx), (not_plain_not_sentinel _ Hy). reflexivity.
Qed.

Lemma sim_upper (x y : string) : sim x y -> sim (ascii_upper x) (ascii_upper y).
Proof.
  intros [->|[Hx Hy]]; [now left | right]. rewrite !plain_upper. now split.
Qed.

(** A character that is no code point, or one above the ASCII range, has a
    byte no sentinel has. *)
Lemma chunk_undecoded (c : string) :
  chunk c = true -> code_point c = None -> plain c = false.
Proof.
  destruct c as [|b [|a t]]; [discriminate| |].
  - intros _ H. cbn [plain]. rewrite (high_not_sentinel _ H). reflexivity.
  - intros H _. cbn [chunk all_cont] in H. apply andb_true_iff in H as [Ha _].
    cbn [plain]. rewrite (cont_not_sentinel _ Ha), andb_false_r. reflexivity.
Qed.

Lemma high_not_plain (c : string) (n : N) :
  code_point c = Some n -> (0x80 <= n)%N -> plain c = false.
Proof.
  intros H Hn. destruct (code_point_high _ _ H Hn) as (a & b & r & -> & Hb).
  cbn [plain]. rewrite (cont_not_sentinel _ Hb), andb_false_r. reflexivity.
Qed.

(** ** Case mappings, character by character *)

Lemma upper_table_ok : forallb image_ok upper_table = true.
Proof. vm_compute. reflexivity. Qed.

Lemma lower_table_ok : forallb image_ok lower_table = true.
Proof. vm_compute. reflexivity. Qed.

Lemma assoc_In (n : N) (t : list (N * list N)) (l : list N) :
  assoc n t = Some l -> In (n, l) t.
Proof.
  unfold assoc. destruct (find _ t) as [[k v]|] eqn:E; [|discriminate].
  cbn. intros H. injection H as <-. apply find_some in E as [Hin Hk].
  cbn in Hk. apply N.eqb_eq in Hk. subst. exact Hin.
Qed.

Ltac good_byte :=
  first [ left; reflexivity
        | right; repeat split; try reflexivity; try discriminate; left; reflexivity
        | right; repeat split; try reflexivity; try discriminate; right; split; reflexivity ].

Lemma upper_byte_good (b : ascii) : good (String b "") (map_char to_upper (String b "")).
Proof. each_ascii b; vm_compute; good_byte. Qed.

Lemma lower_byte_good (b : ascii) : good (String b "") (map_char to_lower (String b "")).
Proof. each_ascii b; vm_compute; good_byte. Qed.

Lemma upper_byte_sim (b : ascii) :
  sim (cat (map_char to_upper (String b ""))) (ascii_upper (String b "")).
Proof. each_ascii b; vm_compute; first [left; reflexivity | right; split; reflexivity]. Qed.

Lemma forallb_map {A B : Type} (g : A -> B) (p : B -> bool) (l : list A) :
  forallb p (map g l) = forallb (fun x => p (g x)) l.
Proof. induction l as [|x l IH]; [reflexivity|]. cbn. rewrite IH. reflexivity. Qed.

Section Table.
Variable f : N -> option (list N).
Variable table : list (N * list N).
Hypothesis f_high : forall n, (0x80 <= n)%N -> f n = assoc n table.
Hypothesis table_ok : forallb image_ok table = true.
Hypothesis f_byte : forall b, good (String b "") (map_char f (String b "")).

Lemma table_entry (n : N) (l : list N) :
  (0x80 <= n)%N -> f n = Some l ->
  existsb (N.eqb n) whitespace = false
  /\ l <> []
  /\ forallb (fun m => clean (utf8 m) && negb (is_space (utf8 m))) l = true
  /\ plain (cat (map utf8 l)) = false.
Proof.
  intros Hn Hf. rewrite (f_high n Hn) in Hf. apply assoc_In in Hf.
  rewrite forallb_forall in table_ok. specialize (table_ok _ Hf).
  unfold image_ok in table_ok. cbn [fst snd] in table_ok.
  apply andb_true_iff in table_ok as [H H4]. apply andb_true_iff in H as [H H3].
  apply andb_true_iff in H as [H1 H2].
  apply negb_true_iff in H1, H4. repeat split; auto.
  intros ->. discriminate.
Qed.

Lemma map_char_good (c : string) : good c (map_char f c).
Proof.
  unfold map_char. destruct (code_point c) as [n|] eqn:E; [|now left].
  destruct (N.ltb_spec n 0x80) as [Hn|Hn].
  - pose proof (code_point_ascii _ _ E Hn) as ->.
    pose proof (f_byte (ascii_of_N n)) as G. unfold map_char in G. rewrite E in G. exact G.
  - destruct (f n) as [l|] eqn:Ef; [|now left].
    destruct (table_entry n l Hn Ef) as (H1 & H2 & H3 & H4).
    right. split; [exact (code_point_clean _ _ E)|].
    split; [unfold is_space; rewrite E; exact H1|].
    split; [destruct l; [contradiction | discriminate]|].
    split; [rewrite forallb_map; exact H3|].
    right. rewrite !plain_upper. split; [exact H4 | exact (high_not_plain _ _ E Hn)].
Qed.

End Table.

Lemma upper_char_good (c : string) : good c (map_char to_upper c).
Proof.
  apply (map_char_good to_upper upper_table).
  - intros n Hn. unfold to_upper.
    destruct (N.leb_spec 0x61 n); destruct (N.leb_spec n 0x7A); cbn [andb]; try lia;
      destruct (N.ltb_spec n 0x80); try lia; reflexivity.
  - exact upper_table_ok.
  - exact upper_byte_good.
Qed.

Lemma lower_char_good (c : string) : good c (map_char to_lower c).
Proof.
  apply (map_char_good to_lower lower_table).
  - intros n Hn. unfold to_lower.
    destruct (N.leb_spec 0x41 n); destruct (N.leb_spec n 0x5A); cbn [andb]; try lia;
      destruct (N.ltb_spec n 0x80); try lia; reflexivity.
  - exact lower_table_ok.
  - exact lower_byte_good.
Qed.

(** Upper-casing one character agrees with the ASCII upper-casing of its
    bytes as far as the sentinels can tell. *)
Lemma upper_char_sim (c : string) :
  chunk c = true -> sim (cat (map_char to_upper c)) (ascii_upper c).
Proof.
  intros Hc. unfold map_char. destruct (code_point c) as [n|] eqn:E.
  - destruct (N.ltb_spec n 0x80) as [Hn|Hn].
    + pose proof (code_point_ascii _ _ E Hn) as ->.
      pose proof (upper_byte_sim (ascii_of_N n)) as G. unfold map_char in G.
      rewrite E in G. exact G.
    + pose proof (high_not_plain _ _ E Hn) as Hp. right. rewrite plain_upper.
      split; [|exact Hp]. destruct (to_upper n) as [l|] eqn:Ef.
      * refine (proj2 (proj2 (proj2 (table_entry to_upper upper_table _ upper_table_ok n l Hn Ef)))).
        intros m Hm. unfold to_upper.
        destruct (N.leb_spec 0x61 m); destruct (N.leb_spec m 0x7A); cbn [andb]; try lia;
          destruct (N.ltb_spec m 0x80); try lia; reflexivity.
      * cbn. rewrite append_nil_r. exact Hp.
  - pose proof (chunk_undecoded _ Hc E) as Hp. right. cbn. rewrite append_nil_r, plain_upper.
    now split.
Qed.

Lemma canonical_chunks (cs : list string) :
  canonical cs = true -> Forall (fun c => chunk c = true) cs.
Proof.
  destruct cs as [|c cs]; [constructor|]. cbn [canonical]. intros H.
  apply andb_true_iff in H as [Hk Hr]. constructor; [exact Hk|].
  apply Forall_forall. intros d Hd. rewrite forallb_forall in Hr.
  specialize (Hr d Hd). unfold clean in Hr. now apply andb_true_iff in Hr as [Hr _].
Qed.

Lemma chars_chunks (s : string) : Forall (fun c => chunk c = true) (chars s).
Proof. apply canonical_chunks, chars_canonical. Qed.

Lemma clean_canonical (l : list string) : forallb clean l = true -> canonical l = true.
Proof.
  destruct l as [|c r]; [reflexivity|]. cbn [forallb canonical]. intros H.
  apply andb_true_iff in H as [Hc Hr].
  unfold clean in Hc. apply andb_true_iff in Hc as [Hk _]. rewrite Hk, Hr. reflexivity.
Qed.

(** As far as the sentinels can tell, [upper] is the ASCII upper-casing. *)
Lemma upper_sim (t : string) : sim (upper t) (ascii_upper t).
Proof.
  unfold upper. rewrite <- (cat_chars t) at 2.
  pose proof (chars_chunks t) as H. induction H as [|c cs Hc _ IH]; [now left|].
  cbn [flat_map cat]. rewrite cat_app, ascii_upper_app.
  apply sim_app; [exact (upper_char_sim c Hc) | exact IH].
Qed.

Lemma has_site_str (s : string) :
  has_site (VStr s)
  = if String.eqb (strip s) "" then false else negb (mem_string (upper (strip s)) sentinels).
Proof. reflexivity. Qed.

(** The predicate on texts, read off the characters. *)
Lemma has_site_chars (s : string) :
  has_site (VStr s)
  = negb (null (trim (chars s)))
    && negb (mem_string (ascii_upper (cat (trim (chars s)))) sentinels).
Proof.
  rewrite has_site_str, (sim_mem _ _ (upper_sim (strip s))).
  unfold strip. destruct (trim (chars s)) as [|c r] eqn:E; [reflexivity|].
  destruct (String.eqb_spec (cat (c :: r)) "") as [H|_]; [|reflexivity].
  apply cat_nil in H; [discriminate|]. rewrite <- E.
  apply trim_canonical, chars_canonical.
Qed.

(** ** Texts rewritten character by character *)

Lemma good_space (c : string) (img : list string) :
  good c img -> is_space c = true -> img = [c].
Proof. intros [H|(_ & H & _)] Hc; [exact H | congruence]. Qed.

Lemma good_not_space (c : string) (img : list string) :
  good c img -> is_space c = false ->
  img <> [] /\ forallb (fun d => negb (is_space d)) img = true.
Proof.
  intros [->|(_ & _ & H1 & H2 & _)] Hc.
  - split; [discriminate|]. cbn. rewrite Hc. reflexivity.
  - split; [exact H1|]. apply forallb_forall. intros d Hd.
    rewrite forallb_forall in H2. specialize (H2 d Hd). now apply andb_true_iff in H2 as [_ H2].
Qed.

Lemma good_clean (c : string) (img : list string) :
  good c img -> clean c = true -> forallb clean img = true.
Proof.
  intros [->|(_ & _ & _ & H2 & _)] Hc.
  - cbn. rewrite Hc. reflexivity.
  - apply forallb_forall. intros d Hd.
    rewrite forallb_forall in H2. specialize (H2 d Hd). now apply andb_true_iff in H2 as [H2 _].
Qed.

Lemma good_canonical (c : string) (img : list string) :
  good c img -> chunk c = true -> canonical img = true.
Proof.
  intros [->|(_ & _ & _ & H2 & _)] Hc.
  - cbn. rewrite Hc. reflexivity.
  - apply clean_canonical. apply forallb_forall. intros d Hd.
    rewrite forallb_forall in H2. specialize (H2 d Hd). now apply andb_true_iff in H2 as [H2 _].
Qed.

Lemma good_sim (c : string) (img : list string) :
  good c img -> sim (ascii_upper (cat img)) (ascii_upper c).
Proof.
  intros [->|(_ & _ & _ & _ & H)]; [|exact H]. cbn. rewrite append_nil_r. now left.
Qed.

Section Images.
Variables (cs : list string) (imgs : list (list string)).

Lemma images_clean :
  Forall2 good cs imgs -> forallb clean cs = true -> forallb clean (concat imgs) = true.
Proof.
  induction 1 as [|c img cs' imgs' Hg _ IH]; [reflexivity|].
  cbn [forallb concat]. intros H. apply andb_true_iff in H as [Hc Hcs].
  rewrite forallb_app, (good_clean _ _ Hg Hc), (IH Hcs). reflexivity.
Qed.

Lemma images_all_space :
  Forall2 good cs imgs -> forallb is_space cs = true -> concat imgs = cs.
Proof.
  induction 1 as [|c img cs' imgs' Hg _ IH]; [reflexivity|].
  cbn [forallb concat]. intros H. apply andb_true_iff in H as [Hc Hcs].
  rewrite (good_space _ _ Hg Hc), (IH Hcs). reflexivity.
Qed.

Lemma images_head :
  Forall2 good cs imgs -> head_ok is_space cs = true ->
  head_ok is_space (concat imgs) = true.
Proof.
  intros [|c img cs' imgs' Hg _]; [reflexivity|]. cbn [head_ok concat]. intros Hc.
  apply negb_true_iff in Hc. destruct (good_not_space _ _ Hg Hc) as [Hne Hall].
  destruct img as [|d img]; [contradiction|]. cbn in *.
  now apply andb_true_iff in Hall as [Hd _].
Qed.

Lemma images_nil : Forall2 good cs imgs -> (concat imgs = [] <-> cs = []).
Proof.
  intros [|c img cs' imgs' Hg _]; [tauto|]. split; [|discriminate].
  cbn. intros H. apply app_eq_nil in H as [H _]. subst.
  destruct Hg as [H|(_ & _ & H & _)]; [discriminate | contradiction].
Qed.

Lemma images_sim :
  Forall2 good cs imgs -> sim (ascii_upper (cat (concat imgs))) (ascii_upper (cat cs)).
Proof.
  induction 1 as [|c img cs' imgs' Hg _ IH]; [now left|].
  cbn [concat cat]. rewrite cat_app, !ascii_upper_app.
  apply sim_app; [exact (good_sim _ _ Hg) | exact IH].
Qed.

End Images.

Lemma images_canonical (cs : list string) (imgs : list (list string)) :
  Forall2 good cs imgs -> canonical cs = true -> canonical (concat imgs) = true.
Proof.
  intros [|c img cs' imgs' Hg Hrest]; [reflexivity|]. cbn [canonical concat]. intros H.
  apply andb_true_iff in H as [Hk Hcs].
  apply canonical_app; [exact (good_canonical _ _ Hg Hk)|].
  exact (images_clean _ _ Hrest Hcs).
Qed.

Lemma images_last (cs : list string) : forall imgs,
  Forall2 good cs imgs -> head_ok is_space (rev cs) = true ->
  head_ok is_space (rev (concat imgs)) = true.
Proof.
  induction cs as [|c cs' _] using rev_ind; intros imgs H.
  - inversion H; subst. reflexivity.
  - apply Forall2_app_inv_l in H as (i1 & i2 & H1 & H2 & ->).
    inversion H2 as [|? img ? ? Hg Hnil]; subst. inversion Hnil; subst.
    rewrite rev_app_distr. cbn [rev app head_ok]. intros Hc. apply negb_true_iff in Hc.
    destruct (good_not_space _ _ Hg Hc) as [Hne Hall].
    rewrite concat_app. cbn [concat]. rewrite app_nil_r, rev_app_distr.
    rewrite <- forallb_rev in Hall. destruct (rev img) as [|d r] eqn:Er.
    + apply (f_equal (@rev string)) in Er. rewrite rev_involutive in Er. contradiction.
    + cbn in *. now apply andb_true_iff in Hall as [Hd _].
Qed.

(** Trimming the rewritten text is rewriting the trimmed text. *)
Lemma images_trim (cs : list string) (imgs : list (list string)) :
  Forall2 good cs imgs ->
  exists mid, Forall2 good (trim cs) mid /\ trim (concat imgs) = concat mid.
Proof.
  intros H. destruct (trim_split cs) as (pre & post & E & Hpre & Hpost).
  rewrite E in H. apply Forall2_app_inv_l in H as (i1 & i23 & H1 & H23 & ->).
  apply Forall2_app_inv_l in H23 as (i2 & i3 & H2 & H3 & ->).
  exists i2. split; [exact H2|].
  rewrite !concat_app, (images_all_space _ _ H1 Hpre), (images_all_space _ _ H3 Hpost).
  apply trim_unique; [exact Hpre | exact Hpost|].
  pose proof (trim_tight cs) as Ht. unfold tight in *.
  apply andb_true_iff in Ht as [Ha Hb].
  rewrite (images_head _ _ H2 Ha), (images_last _ _ H2 Hb). reflexivity.
Qed.

(** The predicate does not see a rewriting of this kind. *)
Lemma has_site_images (s : string) (imgs : list (list string)) :
  Forall2 good (chars s) imgs ->
  has_site (VStr (cat (concat imgs))) = has_site (VStr s).
Proof.
  intros H. rewrite !has_site_chars.
  rewrite (chars_cat _ (images_canonical _ _ H (chars_canonical s))).
  destruct (images_trim _ _ H) as (mid & Hmid & ->).
  rewrite (sim_mem _ _ (images_sim _ _ Hmid)). f_equal.
  pose proof (images_nil _ _ Hmid) as Hn.
  destruct (concat mid); destruct (trim (chars s)); try reflexivity.
  - discriminate (proj1 Hn eq_refl).
  - discriminate (proj2 Hn eq_refl).
Qed.

Lemma upper_images (cs : list string) : Forall2 good cs (map (map_char to_upper) cs).
Proof.
  induction cs as [|c cs IH]; constructor; [apply upper_char_good | exact IH].
Qed.

Lemma sigma_good :
  good capital_sigma [small_sigma] /\ good capital_sigma [final_sigma].
Proof. split; vm_compute; right; repeat split; try discriminate; right; split; reflexivity. Qed.

Lemma lower_images (cs : list string) : forall before,
  exists imgs, lower_chars before cs = concat imgs /\ Forall2 good cs imgs.
Proof.
  induction cs as [|c cs IH]; intros before; [exists []; split; [reflexivity | constructor]|].
  destruct (IH (c :: before)) as (imgs & E & H). cbn [lower_chars]. rewrite E.
  eexists (_ :: imgs). split; [reflexivity|]. constructor; [|exact H].
  destruct (String.eqb_spec c capital_sigma) as [->|_]; [|apply lower_char_good].
  destruct (at_word_end before cs); apply sigma_good.
Qed.

(** ** White space around a text *)

Lemma is_space_clean (c : string) : is_space c = true -> clean c = true.
Proof.
  unfold is_space. destruct (code_point c) as [n|] eqn:E; [|discriminate].
  intros _. exact (code_point_clean _ _ E).
Qed.

Lemma clean_starts (c : string) : clean c = true -> starts_cont c = false /\ c <> "".
Proof.
  unfold clean. intros H. apply andb_true_iff in H as [Hk Hs].
  apply negb_true_iff in Hs. split; [exact Hs|]. intros ->. discriminate.
Qed.

Lemma all_space_starts (s : string) : all_space s = true -> starts_cont s = false.
Proof.
  unfold all_space. intros H. pose proof (chars_starts s) as Hs.
  destruct (chars s) as [|c cs]; [subst; reflexivity|].
  destruct Hs as [<- _]. cbn in H. apply andb_true_iff in H as [Hc _].
  exact (proj1 (clean_starts _ (is_space_clean _ Hc))).
Qed.

Lemma starts_cont_app (a b : string) :
  starts_cont (a ++ b) = match a with EmptyString => starts_cont b | _ => starts_cont a end.
Proof. destruct a; reflexivity. Qed.

Lemma strip_app_blank (pre s post : string) :
  starts_cont s = false -> all_space pre = true -> all_space post = true ->
  strip (pre ++ s ++ post) = strip s.
Proof.
  intros Hs Hpre Hpost. unfold strip.
  assert (H : starts_cont (s ++ post) = false).
  { rewrite starts_cont_app. destruct s; [exact (all_space_starts _ Hpost) | exact Hs]. }
  rewrite (chars_app _ _ H), (chars_app _ _ (all_space_starts _ Hpost)).
  rewrite (trim_app _ _ _ Hpre Hpost). reflexivity.
Qed.

(** A character that is neither white space nor written with sentinel
    letters makes the text a website. *)
Lemma has_site_witness (t c : string) :
  In c (chars t) -> is_space c = false -> plain c = false -> has_site (VStr t) = true.
Proof.
  intros Hin Hs Hp. rewrite has_site_chars.
  pose proof (trim_keeps _ _ Hin Hs) as Hk.
  destruct (trim (chars t)) as [|d r] eqn:E; [destruct Hk|]. cbn [null negb andb].
  apply negb_true_iff, not_plain_not_sentinel. rewrite plain_upper, plain_cat.
  apply not_true_iff_false. rewrite forallb_forall. intros H.
  rewrite (H c Hk) in Hp. discriminate.
Qed.

Lemma cont_split (s : string) :
  s = cont_prefix s ++ cont_rest s
  /\ all_cont (cont_prefix s) = true /\ starts_cont (cont_rest s) = false.
Proof.
  induction s as [|b r (E & H1 & H2)]; [repeat split|].
  cbn. destruct (is_cont b) eqn:Eb; cbn; rewrite ?Eb; repeat split; auto.
  f_equal. exact E.
Qed.

Lemma all_cont_app (a b : string) : all_cont (a ++ b) = all_cont a && all_cont b.
Proof. induction a as [|x a IH]; [reflexivity|]. cbn. rewrite IH. apply andb_assoc. Qed.

(** A text that starts inside a character is a website. *)
Lemma has_site_dirty (pre s : string) :
  all_space pre = true -> starts_cont s = true -> has_site (VStr (pre ++ s)) = true.
Proof.
  intros Hpre Hs. destruct (cont_split s) as (E & H1 & H2).
  assert (Hne : cont_prefix s <> "").
  { destruct s as [|b r]; [discriminate|]. cbn [starts_cont cont_prefix] in *.
    rewrite Hs. discriminate. }
  assert (Hnp : plain (cont_prefix s) = false).
  { destruct s as [|b r]; [discriminate|]. cbn [starts_cont cont_prefix] in *.
    rewrite Hs. cbn [plain]. rewrite (cont_not_sentinel _ Hs). reflexivity. }
  unfold all_space in Hpre. pose proof (cat_chars pre) as Ep.
  destruct (chars pre) as [|w ws] eqn:Ew using rev_ind.
  - cbn in Ep. subst pre. cbn [append]. pose proof (chars_starts s) as Hc.
    destruct (chars s) as [|c cs] eqn:Ec; [rewrite Hc in Hs; discriminate Hs|].
    destruct Hc as [Hc _].
    apply (has_site_witness s c); [rewrite Ec; now left| |].
    + destruct (is_space c) eqn:Es; [|reflexivity].
      apply is_space_clean, clean_starts in Es as [Es _]. congruence.
    + destruct c as [|b t]; [cbn in Hc; congruence|]. cbn [starts_cont] in Hc.
      rewrite Hs in Hc.
      cbn [plain]. rewrite (cont_not_sentinel _ Hc). reflexivity.
  - clear IHws. rewrite forallb_app in Hpre. apply andb_true_iff in Hpre as [_ Hw].
    cbn in Hw. rewrite andb_true_r in Hw.
    rewrite cat_app in Ep. cbn in Ep. rewrite append_nil_r in Ep. subst pre.
    pose proof (is_space_clean _ Hw) as Hcl.
    destruct (clean_starts _ Hcl) as [Hst Hwne].
    unfold clean in Hcl. apply andb_true_iff in Hcl as [Hk _].
    destruct w as [|a t]; [contradiction|]. cbn [chunk] in Hk.
    assert (Hch : chars (String a t ++ s)
                  = String a (t ++ cont_prefix s) :: chars (cont_rest s)).
    { rewrite E at 1. cbn [append]. rewrite <- append_assoc.
      apply chars_chunk_app; [rewrite all_cont_app, Hk, H1; reflexivity | exact H2]. }
    apply (has_site_witness _ (String a t ++ cont_prefix s)).
    + rewrite append_assoc, chars_app by (cbn; exact Hst).
      apply in_or_app. right. rewrite Hch. now left.
    + unfold is_space in *. destruct (code_point (String a t)) as [n|] eqn:En; [|discriminate].
      rewrite (code_point_longer _ _ _ En Hne). reflexivity.
    + rewrite plain_app, Hnp, andb_false_r. reflexivity.
Qed.

(** ** Long texts *)

Lemma map_bytes_length (f : ascii -> ascii) (s : string) :
  String.length (map_bytes f s) = String.length s.
Proof. induction s as [|c s IH]; cbn; [|rewrite IH]; reflexivity. Qed.

Lemma length_append (a b : string) :
  String.length (a ++ b) = (String.length a + String.length b)%nat.
Proof. induction a as [|c a IH]; cbn; [|rewrite IH]; reflexivity. Qed.

Lemma plain_chunk (c : string) : chunk c = true -> plain c = true -> String.length c = 1%nat.
Proof.
  destruct c as [|b [|a t]]; [discriminate|reflexivity|]. cbn [chunk all_cont plain].
  intros H Hp. apply andb_true_iff in H as [Ha _].
  rewrite (cont_not_sentinel _ Ha), andb_false_r in Hp. discriminate.
Qed.

Lemma plain_length (cs : list string) :
  Forall (fun c => chunk c = true) cs -> plain (cat cs) = true ->
  String.length (cat cs) = length cs.
Proof.
  induction 1 as [|c cs Hc _ IH]; [reflexivity|]. cbn [cat]. rewrite plain_app.
  intros H. apply andb_true_iff in H as [H1 H2].
  rewrite length_append, (plain_chunk _ Hc H1), (IH H2). reflexivity.
Qed.

Lemma sentinels_short (t : string) : In t sentinels -> (String.length t <= 4)%nat.
Proof. cbn. intros [<-|[<-|[<-|[<-|[]]]]]; cbn; lia. Qed.

(** ** The claim's vocabulary against the code's *)

Lemma white_space_all : forallb is_space white_space = true.
Proof. vm_compute. reflexivity. Qed.

Lemma chars_single (c : string) : chunk c = true -> chars c = [c].
Proof.
  destruct c as [|b t]; [discriminate|]. cbn [chunk]. intros H.
  rewrite <- (append_nil_r t) at 1. exact (chars_chunk_app t "" b H eq_refl).
Qed.

Lemma white_space_char (w : string) :
  In w white_space -> is_space w = true /\ chars w = [w] /\ starts_cont w = false.
Proof.
  intros H. pose proof white_space_all as A. rewrite forallb_forall in A.
  specialize (A w H). split; [exact A|].
  pose proof (is_space_clean _ A) as Hc. split; [|exact (proj1 (clean_starts _ Hc))].
  apply chars_single. unfold clean in Hc. now apply andb_true_iff in Hc as [Hk _].
Qed.

Lemma blank_all_space (s : string) : blank s -> all_space s = true.
Proof.
  induction 1 as [|w s Hw _ IH]; [reflexivity|].
  destruct (white_space_char _ Hw) as (H1 & H2 & H3).
  unfold all_space in *. rewrite (chars_app _ _ (all_space_starts _ IH)), H2.
  cbn. rewrite H1. exact IH.
Qed.

Lemma space_white (c : string) : is_space c = true -> In c white_space.
Proof.
  unfold is_space. destruct (code_point c) as [n|] eqn:E; [|discriminate].
  rewrite existsb_exists. intros [m [Hin Hm]]. apply N.eqb_eq in Hm. subst m.
  rewrite <- (utf8_code_point _ _ E). apply in_map. exact Hin.
Qed.

Lemma blank_cat (cs : list string) : forallb is_space cs = true -> blank (cat cs).
Proof.
  induction cs as [|c cs IH]; cbn; [constructor|]. intros H.
  apply andb_true_iff in H as [Hc Hcs].
  constructor; [exact (space_white _ Hc) | exact (IH Hcs)].
Qed.

Lemma all_space_blank (s : string) : all_space s = true <-> blank s.
Proof.
  split; [|apply blank_all_space]. intros H. rewrite <- (cat_chars s). exact (blank_cat _ H).
Qed.

(** The text is its trimmed form with white space around it. *)
Lemma strip_split (s : string) :
  exists pre post, s = pre ++ strip s ++ post /\ blank pre /\ blank post.
Proof.
  destruct (trim_split (chars s)) as (p & q & E & Hp & Hq).
  exists (cat p), (cat q). split; [|split; apply blank_cat; assumption].
  unfold strip. rewrite <- !cat_app, <- E. symmetry. apply cat_chars.
Qed.

Lemma inv_ok_all (b : ascii) : forallb (inv_ok b) sentinel_letters = true.
Proof. each_ascii b; reflexivity. Qed.

Lemma upper_char_inv (b c : ascii) :
  In c sentinel_letters ->
  (ascii_upper_char b = c <-> b = c \/ b = ascii_lower_char c).
Proof.
  intros Hc. pose proof (inv_ok_all b) as H. rewrite forallb_forall in H.
  specialize (H c Hc). unfold inv_ok in H. apply Bool.eqb_prop in H.
  rewrite <- Ascii.eqb_eq, H, orb_true_iff, !Ascii.eqb_eq. reflexivity.
Qed.

(** The casings of an upper-case word are the texts that upper-case to
    it. *)
Lemma casings_upper (w : string) :
  bytes_in sentinel_letters w = true ->
  forall t, In t (casings w) <-> ascii_upper t = w.
Proof.
  unfold ascii_upper.
  induction w as [|c w IH]; intros Hw t.
  - cbn. destruct t; cbn; split; intros H; try discriminate; auto.
    destruct H as [H|[]]; discriminate.
  - cbn [bytes_in] in Hw. apply andb_true_iff in Hw as [Hc Hw].
    apply existsb_exists in Hc as [c' [Hc' E]]. apply Ascii.eqb_eq in E. subst c'.
    cbn [casings]. rewrite in_flat_map. split.
    + intros [t' [Hin [<-|[<-|[]]]]]; cbn [map_bytes]; f_equal;
        try (apply (IH Hw); exact Hin); apply (upper_char_inv _ c Hc'); auto.
    + destruct t as [|b t]; [discriminate|]. cbn [map_bytes]. intros H.
      injection H as Hb Ht. exists t. split; [apply (IH Hw); exact Ht|].
      apply (upper_char_inv _ c Hc') in Hb as [->| ->]; cbn; auto.
Qed.

Lemma sentinels_letters (w : string) :
  In w sentinels -> bytes_in sentinel_letters w = true.
Proof. cbn. intros [<-|[<-|[<-|[<-|[]]]]]; reflexivity. Qed.

Lemma all_casings_ok :
  forallb (fun t => negb (starts_cont t) && tight (chars t)) all_casings = true.
Proof. vm_compute. reflexivity. Qed.

(** A text is a sentinel in some casing, white space apart, exactly when
    the code finds a sentinel. *)
Lemma sentinel_variant_iff (s : string) :
  sentinel_variant s <-> In (upper (strip s)) sentinels.
Proof.
  split.
  - intros (pre & t & post & w & -> & Hpre & Hpost & Hw & Ht).
    apply all_space_blank in Hpre, Hpost.
    assert (Hall : In t all_casings) by (apply in_flat_map; eauto).
    pose proof all_casings_ok as A. rewrite forallb_forall in A. specialize (A t Hall).
    apply andb_true_iff in A as [A1 A2]. apply negb_true_iff in A1.
    assert (E : strip (pre ++ t ++ post) = t).
    { rewrite (strip_app_blank _ _ _ A1 Hpre Hpost). unfold strip.
      rewrite (trim_fix _ A2). apply cat_chars. }
    rewrite E. apply mem_string_In. rewrite (sim_mem _ _ (upper_sim t)).
    apply mem_string_In. apply (casings_upper w (sentinels_letters w Hw)) in Ht.
    rewrite Ht. exact Hw.
  - intros H. apply mem_string_In in H. rewrite (sim_mem _ _ (upper_sim (strip s))) in H.
    apply mem_string_In in H. destruct (strip_split s) as (pre & post & E & Hpre & Hpost).
    exists pre, (strip s), post, (ascii_upper (strip s)).
    split; [exact E|]. split; [exact Hpre|]. split; [exact Hpost|]. split; [exact H|].
    apply (casings_upper _ (sentinels_letters _ H)). reflexivity.
Qed.

Lemma blank_strip (s : string) : blank s <-> strip s = "".
Proof. rewrite strip_empty. symmetry. apply all_space_blank. Qed.

(** ** Lower-casing twice *)

Lemma lower_table_fixed :
  forallb (fun kv => forallb (fun m => lower_fixed (utf8 m)) (snd kv)) lower_table = true.
Proof. vm_compute. reflexivity. Qed.

Lemma lower_byte_fixed (b : ascii) :
  forallb lower_fixed (map_char to_lower (String b "")) = true.
Proof. each_ascii b; reflexivity. Qed.

Lemma sigma_fixed : lower_fixed small_sigma = true /\ lower_fixed final_sigma = true.
Proof. split; reflexivity. Qed.

Lemma to_lower_high (n : N) : (0x80 <= n)%N -> to_lower n = assoc n lower_table.
Proof.
  intros Hn. unfold to_lower.
  destruct (N.leb_spec 0x41 n); destruct (N.leb_spec n 0x5A); cbn [andb]; try lia;
    destruct (N.ltb_spec n 0x80); try lia; reflexivity.
Qed.

Lemma lower_char_fixed (c : string) :
  String.eqb c capital_sigma = false -> forallb lower_fixed (map_char to_lower c) = true.
Proof.
  intros Hs. unfold map_char at 1. destruct (code_point c) as [n|] eqn:E.
  - destruct (N.ltb_spec n 0x80) as [Hn|Hn].
    + pose proof (code_point_ascii _ _ E Hn) as ->.
      pose proof (lower_byte_fixed (ascii_of_N n)) as G. unfold map_char at 1 in G.
      rewrite E in G. exact G.
    + destruct (to_lower n) as [l|] eqn:Ef.
      * rewrite (to_lower_high n Hn) in Ef. apply assoc_In in Ef.
        pose proof lower_table_fixed as T. rewrite forallb_forall in T.
        specialize (T _ Ef). cbn [snd] in T. rewrite forallb_map. exact T.
      * cbn. unfold lower_fixed, map_char. rewrite Hs, E, Ef, String.eqb_refl. reflexivity.
  - cbn. unfold lower_fixed, map_char. rewrite Hs, E, String.eqb_refl. reflexivity.
Qed.

Lemma lower_chars_fixed (ds : list string) : forall before,
  forallb lower_fixed ds = true -> lower_chars before ds = ds.
Proof.
  induction ds as [|d ds IH]; intros before; [reflexivity|]. cbn [forallb lower_chars].
  intros H. apply andb_true_iff in H as [Hd Hds]. unfold lower_fixed in Hd.
  apply andb_true_iff in Hd as [H1 H2]. apply negb_true_iff in H1. rewrite H1.
  destruct (map_char to_lower d) as [|x [|y r]]; try discriminate.
  apply String.eqb_eq in H2. subst x. cbn. f_equal. exact (IH _ Hds).
Qed.

Lemma lower_chars_images (cs : list string) : forall before,
  forallb lower_fixed (lower_chars before cs) = true.
Proof.
  induction cs as [|c cs IH]; intros before; [reflexivity|].
  cbn [lower_chars]. rewrite forallb_app, IH, andb_true_r.
  destruct (String.eqb c capital_sigma) eqn:E; [|exact (lower_char_fixed c E)].
  destruct (at_word_end before cs); reflexivity.
Qed.

Lemma chars_lower (t : string) : chars (lower t) = lower_chars [] (chars t).
Proof.
  unfold lower. destruct (lower_images (chars t) []) as (imgs & E & H). rewrite E.
  exact (chars_cat _ (images_canonical _ _ H (chars_canonical t))).
Qed.

Lemma lower_idem (t : string) : lower (lower t) = lower t.
Proof.
  unfold lower at 1. rewrite chars_lower, lower_chars_fixed; [reflexivity|].
  apply lower_chars_images.
Qed.

(** Lower-casing a trimmed text leaves it trimmed. *)
Lemma strip_lower_strip (s : string) : strip (lower (strip s)) = lower (strip s).
Proof.
  unfold strip at 1. rewrite chars_lower, chars_strip.
  destruct (lower_images (trim (chars s)) []) as (imgs & E & H).
  unfold lower. rewrite chars_strip, E. f_equal. apply trim_fix.
  pose proof (trim_tight (chars s)) as Ht. unfold tight in *.
  apply andb_true_iff in Ht as [Ha Hb].
  rewrite (images_head _ _ H Ha), (images_last _ _ H Hb). reflexivity.
Qed.

(** ** [has_site] *)

Lemma has_site_false (x : pyval) :
  has_site x = false <->
  x = VNone \/ strip (str x) = "" \/ In (upper (strip (str x))) sentinels.
Proof.
  assert (G : forall s,
             (if String.eqb s "" then false else negb (mem_string (upper s) sentinels)) = false
             <-> s = "" \/ In (upper s) sentinels).
  { intros s. destruct (String.eqb_spec s "") as [->|Hne].
    - split; [now left | reflexivity].
    - rewrite negb_false_iff, mem_string_In. split; [now right|].
      intros [E|I]; [contradiction | exact I]. }
  destruct x; cbn [has_site]; try (rewrite G; split; [now right | intros [E|H]; [discriminate | exact H]]).
  split; [now left | reflexivity].
Qed.

(** C1. The website-presence predicate answers false exactly for [None],
    for a value whose text is empty or made of white space only, and for a
    value whose text is, white space at both ends apart, one of N/A, NA,
    NONE, NULL in some casing; every other value, whose trimmed text is
    then non-empty, is answered true. *)
Theorem has_site_spec (x : pyval) :
  (has_site x = false <->
     x = VNone \/ blank (str x) \/ sentinel_variant (str x))
  /\ (has_site x = true <->
        x <> VNone /\ ~ blank (str x) /\ ~ sentinel_variant (str x)).
Proof.
  assert (F : has_site x = false <->
              x = VNone \/ blank (str x) \/ sentinel_variant (str x)).
  { rewrite has_site_false, blank_strip, sentinel_variant_iff. reflexivity. }
  split; [exact F|]. rewrite <- not_false_iff_true, F. tauto.
Qed.

Example has_site_examples :
  has_site VNone = false /\ has_site (VStr "") = false /\ has_site (VStr "   ") = false
  /\ has_site (VStr " n/a ") = false /\ has_site (VStr "Null") = false
  /\ has_site (VStr "nOnE") = false /\ has_site (VStr "na") = false
  /\ has_site (VStr "https://example.com") = true /\ has_site (VStr "N / A") = true
  /\ has_site (VInt 0) = true /\ has_site (VBool false) = true
  /\ has_site (VStr nbsp) = false /\ has_site (VStr (nbsp ++ nbsp ++ "N/A")) = false
  /\ has_site (VStr "ﬁ") = true /\ has_site (VStr "ñ/a") = true.
Proof. repeat split; vm_compute; reflexivity. Qed.

Lemma has_site_bool (b : bool) : has_site (VBool b) = true.
Proof. destruct b; reflexivity. Qed.

(** C9, as claimed, fails: the predicate answers false on [None] and true
    on that answer. *)
Lemma has_site_not_idempotent :
  has_site (VBool (has_site VNone)) <> has_site VNone.
Proof. cbn. discriminate. Qed.

(** C9, amended. Applied to its own answer the predicate always says true
    (the texts "True" and "False" are neither blank nor sentinels), so the
    second application agrees with the first exactly on the values the
    predicate accepts. *)
Theorem has_site_twice (x : pyval) :
  has_site (VBool (has_site x)) = true
  /\ (has_site (VBool (has_site x)) = has_site x <-> has_site x = true).
Proof.
  rewrite has_site_bool. split; [reflexivity|]. split; intros H; congruence.
Qed.

(** Filtering a list by the predicate is idempotent all the same. *)
Lemma filter_no_site_twice (f : dict -> pyval) (l : list dict) :
  let keep := fun p => negb (has_site (f p)) in
  filter keep (filter keep l) = filter keep l.
Proof.
  cbn. induction l as [|p l IH]; [reflexivity|].
  cbn. destruct (negb (has_site (f p))) eqn:E; cbn; [rewrite E, IH|]; auto.
Qed.

(** ** The program logic *)

Lemma wp_bind {A B : Type} (m : M A) (f : A -> M B) (e : env) (h : list event)
    (Q : outcome B -> list event -> Prop) :
  wp m e h (wp_then f e h Q) -> wp (bind m f) e h Q.
Proof.
  unfold wp_then, wp. cbn. destruct (m e h) as [o t1]. cbn.
  destruct o; cbn; auto.
  destruct (f a e (h ++ t1)%list) as [o2 t2]. cbn. auto.
Qed.

Lemma wp_ret {A : Type} (a : A) (e : env) (h : list event)
    (Q : outcome A -> list event -> Prop) :
  Q (Ok a) [] -> wp (ret a) e h Q.
Proof. exact (fun H => H). Qed.

Lemma wp_lift {A : Type} (o : outcome A) (e : env) (h : list event)
    (Q : outcome A -> list event -> Prop) :
  Q o [] -> wp (lift o) e h Q.
Proof. exact (fun H => H). Qed.

Lemma wp_emit (ev : event) (e : env) (h : list event)
    (Q : outcome unit -> list event -> Prop) :
  Q (Ok tt) [ev] -> wp (emit ev) e h Q.
Proof. exact (fun H => H). Qed.

Lemma wp_send (ev : event) (e : env) (h : list event)
    (Q : outcome response -> list event -> Prop) :
  (forall r, http e (h ++ [ev])%list = Some r -> Q (Ok r) [ev]) ->
  (http e (h ++ [ev])%list = None -> Q (Raise RequestException) [ev]) ->
  wp (send ev) e h Q.
Proof.
  unfold wp, send. intros HS HN.
  destruct (http e (h ++ [ev])%list) as [r|]; cbn; auto.
Qed.

Lemma wp_conseq {A : Type} (m : M A) (e : env) (h : list event)
    (Q Q' : outcome A -> list event -> Prop) :
  (forall o t, Q o t -> Q' o t) -> wp m e h Q -> wp m e h Q'.
Proof. unfold wp. auto. Qed.

Lemma wp_then_conseq {A B : Type} (f : A -> M B) (e : env) (h : list event)
    (Q Q' : outcome B -> list event -> Prop) (o : outcome A) (t1 : list event) :
  (forall o2 t, Q o2 t -> Q' o2 t) -> wp_then f e h Q o t1 -> wp_then f e h Q' o t1.
Proof.
  intros HQ. destruct o; cbn [wp_then]; auto.
  apply wp_conseq. intros o2 t2. apply HQ.
Qed.

Lemma wp_run {A : Type} (m : M A) (e : env) (h : list event)
    (Q : outcome A -> list event -> Prop) (o : outcome A) (t : list event) :
  wp m e h Q -> m e h = (o, t) -> Q o t.
Proof. unfold wp. intros H E. rewrite E in H. exact H. Qed.

(** ** Place Details client *)

Lemma details_attempts_S (n : nat) (url : string) (hd : headers) (e : env) (h : list event) :
  details_attempts (S n) url hd e h =
  let g := EvGet url hd in
  match http e (h ++ [g])%list with
  | None => (Raise RequestException, [g])
  | Some r =>
      if status_code r =? 200 then (resp_json r, [g])
      else
        let (o, tr) := details_attempts n url hd e (h ++ [g; EvSleep 1200])%list in
        (o, g :: EvSleep 1200 :: tr)
  end.
Proof.
  cbn. unfold requests_get, send.
  destruct (http e (h ++ [EvGet url hd])%list) as [r|]; [|reflexivity].
  destruct (status_code r =? 200).
  - cbn. destruct (resp_json r); reflexivity.
  - cbn. rewrite <- app_assoc. cbn.
    destruct (details_attempts n url hd e (h ++ [EvGet url hd; EvSleep 1200])%list) as [o tr].
    destruct o; reflexivity.
Qed.

Section DetailsAttempts.
Variables (url : string) (hd : headers) (e : env).
Local Abbreviation g := (EvGet url hd).


Lemma answer_shift (h : list event) (k : nat) :
  answer url hd e (h ++ [g; EvSleep 1200])%list k = answer url hd e h (S k).
Proof. unfold answer. cbn. rewrite <- app_assoc. reflexivity. Qed.

Lemma details_attempts_all_fail (n : nat) : forall h,
  (forall j, (j < n)%nat -> failing url hd e h j) ->
  details_attempts n url hd e h = (Ok (VDict []), failed_attempts g n).
Proof.
  induction n as [|n IH]; intros h Hfail; [reflexivity|].
  rewrite details_attempts_S. cbn zeta.
  destruct (Hfail 0%nat ltac:(lia)) as [r [Hr Hs]].
  unfold answer in Hr. cbn in Hr. rewrite Hr.
  destruct (Z.eqb_spec (status_code r) 200) as [E|_]; [contradiction|].
  rewrite IH; [reflexivity|].
  intros j Hj. unfold failing. rewrite answer_shift. apply Hfail. lia.
Qed.

Lemma details_attempts_first_ok (n : nat) : forall k h r,
  (k < n)%nat ->
  (forall j, (j < k)%nat -> failing url hd e h j) ->
  answer url hd e h k = Some r -> status_code r = 200 ->
  details_attempts n url hd e h = (resp_json r, (failed_attempts g k ++ [g])%list).
Proof.
  induction n as [|n IH]; intros k h r Hk Hfail Hr Hs; [lia|].
  rewrite details_attempts_S. cbn zeta.
  destruct k as [|k].
  - unfold answer in Hr. cbn in Hr. rewrite Hr, Hs. reflexivity.
  - destruct (Hfail 0%nat ltac:(lia)) as [r0 [Hr0 Hs0]].
    unfold answer in Hr0. cbn in Hr0. rewrite Hr0.
    destruct (Z.eqb_spec (status_code r0) 200) as [E|_]; [contradiction|].
    rewrite (IH k _ r); [reflexivity | lia | | | exact Hs].
    + intros j Hj. unfold failing. rewrite answer_shift. apply Hfail. lia.
    + rewrite answer_shift. exact Hr.
Qed.

Lemma details_attempts_gets (n : nat) : forall h,
  count_gets (snd (details_attempts n url hd e h)) <= Z.of_nat n.
Proof.
  induction n as [|n IH]; intros h; [cbn; lia|].
  rewrite details_attempts_S. cbn zeta.
  destruct (http e (h ++ [g])%list) as [r|]; [|unfold count_gets; cbn; lia].
  destruct (status_code r =? 200); [unfold count_gets; cbn; lia|].
  specialize (IH (h ++ [g; EvSleep 1200])%list).
  destruct (details_attempts n url hd e (h ++ [g; EvSleep 1200])%list) as [o tr].
  unfold count_gets in *. cbn in *. lia.
Qed.

(** The loop never ends on fuel: it is a [for] over a range. *)
Lemma details_attempts_returns (n : nat) : forall h,
  fst (details_attempts n url hd e h) <> Diverge
  /\ fst (details_attempts n url hd e h) <> Halt.
Proof.
  induction n as [|n IH]; intros h; [cbn; split; discriminate|].
  rewrite details_attempts_S. cbn zeta.
  destruct (http e (h ++ [g])%list) as [r|]; [|cbn; split; discriminate].
  destruct (status_code r =? 200).
  - unfold resp_json. destruct (json r); cbn; split; discriminate.
  - specialize (IH (h ++ [g; EvSleep 1200])%list).
    destruct (details_attempts n url hd e (h ++ [g; EvSleep 1200])%list) as [o tr].
    exact IH.
Qed.
End DetailsAttempts.

(** An attempt whose request gets no response ends the loop with the
    transport's exception: no pause follows and the attempts that are left
    are not used. *)
Lemma details_attempts_transport (url : string) (hd : headers) (e : env) (n : nat) :
  forall k h,
    (k < n)%nat ->
    (forall j, (j < k)%nat -> failing url hd e h j) ->
    answer url hd e h k = None ->
    details_attempts n url hd e h
    = (Raise RequestException, (failed_attempts (EvGet url hd) k ++ [EvGet url hd])%list).
Proof.
  induction n as [|n IH]; intros k h Hk Hfail Hr; [lia|].
  rewrite details_attempts_S. cbn zeta.
  destruct k as [|k].
  - unfold answer in Hr. cbn in Hr. rewrite Hr. reflexivity.
  - destruct (Hfail 0%nat ltac:(lia)) as [r0 [Hr0 Hs0]].
    unfold answer in Hr0. cbn in Hr0. rewrite Hr0.
    destruct (Z.eqb_spec (status_code r0) 200) as [E|_]; [contradiction|].
    rewrite (IH k); [reflexivity | lia | |].
    + intros j Hj. unfold failing. rewrite answer_shift. apply Hfail. lia.
    + rewrite answer_shift. exact Hr.
Qed.

(** C4, as claimed, fails on an attempt that fails without an HTTP
    response.  [requests.get] then raises (a timeout, a refused connection)
    and no handler surrounds the call, so the exception leaves the details
    client at that attempt: here the only request sent gets no response, two
    attempts are left unused, and the result is the exception, not the empty
    dict. *)
Lemma details_failure_raises :
  http (mock_env [])
    [EvGet (PLACES_DETAILS_URL_TPL (VStr "p1")) (details_headers "key")] = None
  /\ get_detailed_info_v1 "key" (VStr "p1") default_retries (mock_env []) []
     = (Raise RequestException,
        [EvGet (PLACES_DETAILS_URL_TPL (VStr "p1")) (details_headers "key")])
  /\ get_detailed_info_v1 "key" (VStr "p1") default_retries (mock_env []) []
     <> (Ok (VDict []), failed_attempts
           (EvGet (PLACES_DETAILS_URL_TPL (VStr "p1")) (details_headers "key")) 3).
Proof. split; [reflexivity | split; [reflexivity | discriminate]]. Qed.

(** C4, amended. With its default of three attempts the details client
    sends at most three requests; when attempt [k] is the first to be
    answered with status 200 it returns that response's parsed body at once,
    having paused 1.2 s after each of the [k] attempts before it, all
    answered with another status; when all three attempts are answered with
    a status other than 200 it returns the empty dict, as a value and not as
    an exception; and when attempt [k] is the first whose request gets no
    response at all, the exception of the HTTP library is raised at that
    attempt, without a pause and without the attempts that are left. *)
Theorem details_client_retries (e : env) (h : list event) (api_key : string) (place_id : pyval) :
  let url := PLACES_DETAILS_URL_TPL place_id in
  let hd := details_headers api_key in
  let g := EvGet url hd in
  let result := get_detailed_info_v1 api_key place_id default_retries e h in
  count_gets (snd result) <= 3
  /\ (forall k r,
        (k < 3)%nat ->
        (forall j, (j < k)%nat -> failing url hd e h j) ->
        answer url hd e h k = Some r -> status_code r = 200 ->
        result = (resp_json r, (failed_attempts g k ++ [g])%list))
  /\ ((forall j, (j < 3)%nat -> failing url hd e h j) ->
      result = (Ok (VDict []), failed_attempts g 3))
  /\ (forall k,
        (k < 3)%nat ->
        (forall j, (j < k)%nat -> failing url hd e h j) ->
        answer url hd e h k = None ->
        result = (Raise RequestException, (failed_attempts g k ++ [g])%list)).
Proof.
  cbn zeta. unfold get_detailed_info_v1, default_retries.
  change (Z.to_nat 3) with 3%nat. repeat split.
  - apply (details_attempts_gets _ _ _ 3).
  - intros k r Hk Hfail Hr Hs. now apply details_attempts_first_ok.
  - intros Hfail. now apply details_attempts_all_fail.
  - intros k Hk Hfail Hr. now apply details_attempts_transport.
Qed.

Lemma details_client_retries_witness :
  get_detailed_info_v1 "key" (VStr "p1") default_retries
    (mock_env [http_error 500; http_error 503; ok_json (VDict [("id", VStr "p1")])]) []
  = (Ok (VDict [("id", VStr "p1")]),
     let g := EvGet (PLACES_DETAILS_URL_TPL (VStr "p1")) (details_headers "key") in
     [g; EvSleep 1200; g; EvSleep 1200; g])
  /\ get_detailed_info_v1 "key" (VStr "p1") default_retries
       (mock_env [http_error 500; http_error 503; http_error 429]) []
     = (Ok (VDict []),
        let g := EvGet (PLACES_DETAILS_URL_TPL (VStr "p1")) (details_headers "key") in
        [g; EvSleep 1200; g; EvSleep 1200; g; EvSleep 1200])
  /\ get_detailed_info_v1 "key" (VStr "p1") default_retries
       (mock_env [http_error 500; http_error 503]) []
     = (Raise RequestException,
        let g := EvGet (PLACES_DETAILS_URL_TPL (VStr "p1")) (details_headers "key") in
        [g; EvSleep 1200; g; EvSleep 1200; g]).
Proof.
  split; [|split].
  - apply (proj1 (proj2 (details_client_retries
                           (mock_env [http_error 500; http_error 503;
                                      ok_json (VDict [("id", VStr "p1")])])
                           [] "key" (VStr "p1"))) 2%nat
                 (ok_json (VDict [("id", VStr "p1")]))).
    + lia.
    + intros [|[|j]] Hj.
      * exists (http_error 500). split; [reflexivity | discriminate].
      * exists (http_error 503). split; [reflexivity | discriminate].
      * lia.
    + reflexivity.
    + reflexivity.
  - apply (proj1 (proj2 (proj2 (details_client_retries
                           (mock_env [http_error 500; http_error 503; http_error 429])
                           [] "key" (VStr "p1"))))).
    intros [|[|[|j]]] Hj.
    + exists (http_error 500). split; [reflexivity | discriminate].
    + exists (http_error 503). split; [reflexivity | discriminate].
    + exists (http_error 429). split; [reflexivity | discriminate].
    + lia.
  - apply (proj2 (proj2 (proj2 (details_client_retries
                           (mock_env [http_error 500; http_error 503])
                           [] "key" (VStr "p1")))) 2%nat).
    + lia.
    + intros [|[|j]] Hj.
      * exists (http_error 500). split; [reflexivity | discriminate].
      * exists (http_error 503). split; [reflexivity | discriminate].
      * lia.
    + reflexivity.
Defined.

(** ** File export helper *)

(** C6. When neither spreadsheet engine works the export is the CSV text
    encoded as UTF-8 behind a byte-order mark, typed text/csv and named
    with the extension .csv.  The engines are tried in the fixed order
    openpyxl, xlsxwriter: the first one that works gives the file, and a
    failing one leaves nothing behind in the result. *)
Theorem export_fallback (bk : backends) (df : list dict) :
  let out := dataframe_to_excel_bytes bk df in
  (openpyxl bk df = None -> xlsxwriter bk df = None ->
   bytes out = (utf8_bom ++ list_byte_of_string (to_csv bk df))%list
   /\ mime out = "text/csv"
   /\ ends_with ".csv" (filename out) = true)
  /\ (forall buf, openpyxl bk df = Some buf ->
      out = {| bytes := buf; mime := XLSX_MIME; filename := "business_list.xlsx" |})
  /\ (forall buf, openpyxl bk df = None -> xlsxwriter bk df = Some buf ->
      out = {| bytes := buf; mime := XLSX_MIME; filename := "business_list.xlsx" |}).
Proof.
  cbn zeta. unfold dataframe_to_excel_bytes. split; [|split].
  - intros -> ->. repeat split.
  - intros buf ->. reflexivity.
  - intros buf -> ->. reflexivity.
Qed.

Lemma export_fallback_witness :
  let bk := {| openpyxl := fun _ => None; xlsxwriter := fun _ => None;
               to_csv := fun _ => "Name,Phone" |} in
  let out := dataframe_to_excel_bytes bk [] in
  bytes out = [Byte.xef; Byte.xbb; Byte.xbf; Byte.x4e; Byte.x61; Byte.x6d; Byte.x65;
               Byte.x2c; Byte.x50; Byte.x68; Byte.x6f; Byte.x6e; Byte.x65]
  /\ mime out = "text/csv"
  /\ ends_with ".csv" (filename out) = true.
Proof.
  exact (proj1 (export_fallback
                  {| openpyxl := fun _ => None; xlsxwriter := fun _ => None;
                     to_csv := fun _ => "Name,Phone" |} [])
               eq_refl eq_refl).
Defined.

(** ** Enrichment *)

Lemma details_attempts_trace (n : nat) (url : string) (hd : headers) (e : env) :
  forall h, Forall (fun ev => ev = EvGet url hd \/ ev = EvSleep 1200)
                   (snd (details_attempts n url hd e h)).
Proof.
  induction n as [|n IH]; intros h; [constructor|].
  rewrite details_attempts_S. cbn zeta.
  destruct (http e (h ++ [EvGet url hd])%list) as [r|];
    [|constructor; [now left | constructor]].
  destruct (status_code r =? 200); [constructor; [now left | constructor]|].
  specialize (IH (h ++ [EvGet url hd; EvSleep 1200])%list).
  destruct (details_attempts n url hd e (h ++ [EvGet url hd; EvSleep 1200])%list) as [o tr].
  cbn in *. constructor; [now left|]. constructor; [now right | exact IH].
Qed.

Lemma details_attempts_outcome (n : nat) (url : string) (hd : headers) (e : env) :
  forall h, transport_failure (fst (details_attempts n url hd e h)).
Proof.
  induction n as [|n IH]; intros h; [exact I|].
  rewrite details_attempts_S. cbn zeta.
  destruct (http e (h ++ [EvGet url hd])%list) as [r|]; [|cbn; auto].
  destruct (status_code r =? 200).
  - unfold resp_json. destruct (json r); cbn; auto.
  - specialize (IH (h ++ [EvGet url hd; EvSleep 1200])%list).
    destruct (details_attempts n url hd e (h ++ [EvGet url hd; EvSleep 1200])%list) as [o tr].
    exact IH.
Qed.

Lemma subscript_outcome (b : dict) (k : string) : lookup_failure (subscript b k).
Proof. unfold subscript. destruct (lookup k b); cbn; auto. Qed.

Lemma as_dict_outcome (v : pyval) : lookup_failure (as_dict v).
Proof. destruct v; cbn; auto. Qed.

Lemma detailed_record_outcome (d b : dict) (ts : string) :
  lookup_failure (detailed_record d b ts).
Proof.
  unfold detailed_record.
  destruct (as_dict (py_or (get d "displayName") (VDict []))) as [display|x| |] eqn:E;
    pose proof (as_dict_outcome (py_or (get d "displayName") (VDict []))) as HD;
    rewrite E in HD; cbn in *; auto.
  destruct (truthy (get display "text")); cbn;
    repeat match goal with
           | |- context [subscript b ?k] =>
               let H := fresh in
               pose proof (subscript_outcome b k) as H;
               destruct (subscript b k); cbn in *; auto
           end.
Qed.

Lemma enrich_post_raise (api_key : string) (e : env) (rest enriched0 : list dict)
    (x : exn) (tr : list event) :
  x <> ZeroDivisionError ->
  Forall progress_in_range tr -> Forall (details_only_for rest) tr ->
  enrich_post api_key e rest enriched0 (Raise x) tr.
Proof.
  intros Hx Hp Hd. unfold enrich_post. repeat split; try discriminate; auto.
  intros E. injection E as ->. contradiction.
Qed.

Lemma fraction_in_range (i total : Z) :
  1 <= i -> i <= total ->
  (0 < inject_Z i / inject_Z total /\ inject_Z i / inject_Z total <= 1)%Q.
Proof.
  intros Hi Ht. destruct total as [|p|p]; try lia.
  unfold Qdiv, Qinv, Qmult, Qlt, Qle, inject_Z. cbn. lia.
Qed.

Lemma details_only_for_cons (b : dict) (rest : list dict) (ev : event) :
  details_only_for rest ev -> details_only_for (b :: rest) ev.
Proof.
  destruct ev; cbn; auto.
  intros (b' & pid & Hin & Hpid & Hurl). exists b', pid. auto.
Qed.

Lemma enrich_loop_spec (api_key : string) (e : env) (total : Z) :
  forall rest i enriched0 h,
    1 <= i -> i + Z.of_nat (length rest) - 1 <= total ->
    wp (enrich_loop api_key total i rest enriched0) e h
       (enrich_post api_key e rest enriched0).
Proof.
  induction rest as [|b rest IH]; intros i enriched0 h Hi Htotal.
  - cbn. apply wp_ret. unfold enrich_post. repeat split; try discriminate; try constructor.
    intros enriched [= <-]. exists []. rewrite app_nil_r. split; [reflexivity | constructor].
  - cbn [enrich_loop]. apply wp_bind, wp_lift.
    pose proof (subscript_outcome b "place_id") as Hpid.
    destruct (subscript b "place_id") as [pid|x| |] eqn:Epid; cbn [wp_then]; try contradiction.
    2:{ apply enrich_post_raise; [destruct Hpid; subst; discriminate | constructor | constructor]. }
    apply wp_bind. unfold wp at 1.
    pose proof (details_attempts_trace (Z.to_nat default_retries)
                  (PLACES_DETAILS_URL_TPL pid) (details_headers api_key) e (h ++ [])%list) as Htr.
    pose proof (details_attempts_outcome (Z.to_nat default_retries)
                  (PLACES_DETAILS_URL_TPL pid) (details_headers api_key) e (h ++ [])%list) as Hout.
    fold (get_detailed_info_v1 api_key pid default_retries) in Htr, Hout.
    destruct (get_detailed_info_v1 api_key pid default_retries e (h ++ [])%list)
      as [o1 t1] eqn:E1.
    cbn [fst snd] in *.
    assert (Hp1 : Forall progress_in_range t1).
    { eapply Forall_impl; [|exact Htr]. intros ev [->| ->]; exact I. }
    assert (Hd1 : Forall (details_only_for (b :: rest)) t1).
    { eapply Forall_impl; [|exact Htr]. intros ev [->| ->]; cbn; [|exact I].
      exists b, pid. repeat split; auto. }
    destruct o1 as [dv|x| |]; cbn [wp_then]; try contradiction.
    2:{ apply enrich_post_raise; [destruct Hout; subst; discriminate | exact Hp1 | exact Hd1]. }
    apply wp_bind, wp_lift.
    pose proof (as_dict_outcome dv) as Hdv.
    destruct (as_dict dv) as [d|x| |] eqn:Ed; cbn [wp_then]; try contradiction.
    2:{ cbn [app]. rewrite app_nil_r.
        apply enrich_post_raise; [destruct Hdv; subst; discriminate | exact Hp1 | exact Hd1]. }
    apply wp_bind. unfold wp at 1, now. cbn [fst snd wp_then].
    apply wp_bind, wp_lift.
    set (ts := utcnow e _).
    pose proof (detailed_record_outcome d b ts) as Hrow.
    destruct (detailed_record d b ts) as [row|x| |] eqn:Erow; cbn [wp_then]; try contradiction.
    2:{ cbn [app]. rewrite !app_nil_r.
        apply enrich_post_raise; [destruct Hrow; subst; discriminate | exact Hp1 | exact Hd1]. }
    apply wp_bind, wp_lift. unfold truediv.
    cbn [length] in Htotal.
    destruct (Z.eqb_spec total 0) as [E0|_]; [lia|].
    cbn [ret Monad_outcome wp_then].
    apply wp_bind, wp_emit. cbn [wp_then].
    eapply wp_conseq; [|apply IH; lia].
    intros o t (H1 & H2 & H3 & H4 & H5 & H6).
    cbn [app].
    unfold enrich_post. repeat split; auto.
    + apply Forall_app. split; [exact Hp1|]. constructor; [|exact H4].
      apply fraction_in_range; lia.
    + apply Forall_app. split; [exact Hd1|]. constructor; [exact I|].
      eapply Forall_impl; [|exact H5]. apply details_only_for_cons.
    + intros enriched Eo. destruct (H6 enriched Eo) as (rows & -> & Hrows).
      exists (row :: rows). split; [rewrite <- app_assoc; reflexivity|].
      constructor; [|exact Hrows].
      destruct dv; try discriminate. injection Ed as ->.
      exists d, ts. split; [|exact Erow].
      exists pid, (h ++ [])%list, t1. auto.
Qed.

Lemma enrich_spec (api_key : string) (e : env) (raw_places : list dict) (h : list event) :
  wp (enrich_with_details_v1 api_key raw_places) e h (enrich_post api_key e raw_places []).
Proof.
  destruct raw_places as [|b rest] eqn:Eraw.
  - apply wp_ret. unfold enrich_post. repeat split; try discriminate; try constructor.
    intros enriched [= <-]. exists []. split; [reflexivity | constructor].
  - rewrite <- Eraw. unfold enrich_with_details_v1. rewrite Eraw at 1.
    apply wp_bind, wp_emit. cbn [wp_then]. apply wp_bind.
    eapply wp_conseq; [|apply enrich_loop_spec; subst; cbn [length]; lia].
    intros o t (H1 & H2 & H3 & H4 & H5 & H6).
    destruct o as [enriched|x| |]; cbn [wp_then]; try contradiction.
    + apply wp_bind, wp_emit. cbn [wp_then]. apply wp_ret. cbn [app].
      unfold enrich_post. repeat split; try discriminate.
      * constructor; [exact I|]. apply Forall_app. split; [exact H4|]. repeat constructor.
      * constructor; [exact I|]. apply Forall_app. split; [exact H5|]. repeat constructor.
      * intros enriched' [= <-]. apply H6. reflexivity.
    + cbn [app]. unfold enrich_post. repeat split; try discriminate; auto.
      * constructor; [exact I | exact H4].
      * constructor; [exact I | exact H5].
Qed.

(** C10. On the empty list the enrichment returns the empty list at once,
    with no event at all; on any list it never divides by zero, and every
    progress fraction it reports lies in (0, 1]. *)
Theorem enrich_progress_fraction (e : env) (h : list event) (api_key : string)
    (raw_places : list dict) :
  enrich_with_details_v1 api_key [] e h = (Ok [], [])
  /\ fst (enrich_with_details_v1 api_key raw_places e h) <> Raise ZeroDivisionError
  /\ Forall progress_in_range (snd (enrich_with_details_v1 api_key raw_places e h)).
Proof.
  split; [reflexivity|].
  pose proof (enrich_spec api_key e raw_places h) as H.
  unfold wp, enrich_post in H. tauto.
Qed.

Lemma detailed_record_fields (d b : dict) (ts : string) (row : dict) :
  detailed_record d b ts = Ok row ->
  get row "Phone"
  = py_or (get d "nationalPhoneNumber")
          (py_or (get d "internationalPhoneNumber") (VStr "N/A"))
  /\ get row "Website"
     = py_or (get d "websiteUri") (py_or (get b "website") (VStr "")).
Proof.
  unfold detailed_record.
  destruct (as_dict (py_or (get d "displayName") (VDict []))) as [display|x| |];
    cbn; try discriminate.
  destruct (truthy (get display "text")); cbn;
    repeat match goal with
           | |- context [subscript b ?k] => destruct (subscript b k); cbn; try discriminate
           end;
    intros [= <-]; split; reflexivity.
Qed.

(** A value picked by [or] with a string as last resort is never [None]:
    it is truthy, or it is that string. *)
Lemma py_or_not_none (a : pyval) (s : string) : py_or a (VStr s) <> VNone.
Proof.
  unfold py_or. destruct (truthy a) eqn:E; [|discriminate].
  intros ->. discriminate E.
Qed.

(** ** Places Text Search client *)

Lemma search_result_outcome (p : pyval) : lookup_failure (search_result p).
Proof.
  unfold search_result. destruct p; cbn; auto.
  pose proof (as_dict_outcome (py_or (get d "displayName") (VDict []))) as H.
  destruct (as_dict (py_or (get d "displayName") (VDict []))); cbn in *; auto.
Qed.

Lemma append_results_acc (ps : list pyval) : forall results,
  append_results results ps
  = match append_results [] ps with
    | Ok rows => Ok (results ++ rows)%list
    | Raise x => Raise x
    | Halt => Halt
    | Diverge => Diverge
    end.
Proof.
  induction ps as [|p ps IH]; intros results; cbn -[search_result].
  - rewrite app_nil_r. reflexivity.
  - destruct (search_result p) as [row|x| |]; cbn; try reflexivity.
    rewrite (IH (results ++ [row])%list), (IH [row]).
    destruct (append_results [] ps); cbn; try reflexivity.
    rewrite <- app_assoc. reflexivity.
Qed.

Lemma read_page_acc (results : list dict) (r : response) :
  read_page results r
  = match read_page [] r with
    | Ok rp => Ok ((results ++ fst rp)%list, snd rp)
    | Raise x => Raise x
    | Halt => Halt
    | Diverge => Diverge
    end.
Proof.
  unfold read_page. destruct (resp_json r) as [v|x| |]; cbn; try reflexivity.
  destruct (as_dict v) as [data|x| |]; cbn; try reflexivity.
  destruct (py_iter (get_default data "places" (VList []))) as [ps|x| |]; cbn; try reflexivity.
  rewrite (append_results_acc ps results).
  destruct (append_results [] ps); reflexivity.
Qed.

Lemma read_page_token (results : list dict) (r : response) (rp : list dict * pyval) :
  read_page results r = Ok rp ->
  exists data, json r = Some (VDict data) /\ snd rp = get data "nextPageToken".
Proof.
  unfold read_page, resp_json. destruct (json r) as [v|]; cbn; [|discriminate].
  destruct v; cbn; try discriminate.
  destruct (py_iter (get_default d "places" (VList []))) as [ps|x| |]; cbn; try discriminate.
  destruct (append_results results ps); cbn; try discriminate.
  intros [= <-]. exists d. auto.
Qed.

Lemma returns_bind {A B : Type} (m : outcome A) (f : A -> outcome B) :
  (m <> Halt /\ m <> Diverge) ->
  (forall a, f a <> Halt /\ f a <> Diverge) ->
  bind m f <> Halt /\ bind m f <> Diverge.
Proof.
  intros [H1 H2] Hf. destruct m; cbn; try contradiction; [apply Hf | split; discriminate].
Qed.

Lemma as_dict_returns (v : pyval) : as_dict v <> Halt /\ as_dict v <> Diverge.
Proof. destruct v; cbn; split; discriminate. Qed.

Lemma py_iter_returns (v : pyval) : py_iter v <> Halt /\ py_iter v <> Diverge.
Proof. destruct v; cbn; split; discriminate. Qed.

Lemma resp_json_returns (r : response) : resp_json r <> Halt /\ resp_json r <> Diverge.
Proof. unfold resp_json. destruct (json r); cbn; split; discriminate. Qed.

Lemma search_result_returns (p : pyval) :
  search_result p <> Halt /\ search_result p <> Diverge.
Proof.
  unfold search_result. apply returns_bind; [apply as_dict_returns|]. intros pd.
  apply returns_bind; [apply as_dict_returns|]. intros display. cbn. split; discriminate.
Qed.

Lemma append_results_returns (ps : list pyval) : forall results,
  append_results results ps <> Halt /\ append_results results ps <> Diverge.
Proof.
  induction ps as [|p ps IH]; intros results; cbn [append_results].
  - cbn. split; discriminate.
  - apply returns_bind; [apply search_result_returns|]. intros row. apply IH.
Qed.

Lemma read_page_returns (results : list dict) (r : response) :
  read_page results r <> Halt /\ read_page results r <> Diverge.
Proof.
  unfold read_page.
  apply returns_bind; [apply resp_json_returns|]. intros v.
  apply returns_bind; [apply as_dict_returns|]. intros data.
  apply returns_bind; [apply py_iter_returns|]. intros ps.
  apply returns_bind; [apply append_results_returns|]. intros rs.
  cbn. split; discriminate.
Qed.

Section FetchLoop.
Variables (e : env) (hd : headers) (payload : search_body) (max_pages : Z).

Lemma responses_of_page (h : list event) (tok : pyval) (r : response) (tr : list event) :
  http e (h ++ [page_request hd payload tok])%list = Some r ->
  responses_of e h (page_request hd payload tok :: tr)
  = r :: responses_of e (h ++ [page_request hd payload tok])%list tr.
Proof. intros Hr. cbn. rewrite Hr. reflexivity. Qed.

Lemma rows_of_response_ok (r : response) (rp : list dict * pyval) :
  status_code r = 200 -> read_page [] r = Ok rp -> rows_of_response r = fst rp.
Proof. intros Es Erp. unfold rows_of_response. rewrite Es, Erp. reflexivity. Qed.

Lemma rows_of_response_error (r : response) :
  status_code r <> 200 -> rows_of_response r = [].
Proof.
  intros Es. unfold rows_of_response.
  destruct (Z.eqb_spec (status_code r) 200); [contradiction | reflexivity].
Qed.

Lemma fetch_loop_spec : forall fuel results n tok h,
  (1 <= fuel)%nat -> max_pages - n <= Z.of_nat fuel ->
  wp (fetch_loop fuel hd payload max_pages results n tok) e h
     (fetch_post e hd payload max_pages h results n tok).
Proof.
  induction fuel as [|fuel IH]; intros results n tok h Hf Hm; [lia|].
  cbn [fetch_loop]. cbn zeta. apply wp_bind. unfold requests_post.
  fold (page_request hd payload tok). set (req := page_request hd payload tok).
  assert (Hreq : is_post req = true /\ is_get req = false) by (split; reflexivity).
  apply wp_send.
  - intros r Hr. cbn [wp_then].
    destruct (Z.eqb_spec (status_code r) 200) as [Es|Es]; cbn [negb].
    + apply wp_bind, wp_lift. rewrite read_page_acc.
      pose proof (read_page_returns [] r) as [Hh Hd].
      destruct (read_page [] r) as [rp|x| |] eqn:Erp; cbn [wp_then]; try contradiction.
      * cbn [fst snd]. destruct (read_page_token _ _ _ Erp) as (data & Hjson & Htok).
        assert (Epage : read_page [] r = Ok (fst rp, get data "nextPageToken"))
          by (rewrite Erp, <- Htok; destruct rp; reflexivity).
        destruct (negb (truthy (snd rp)) || (max_pages <=? n + 1)) eqn:Estop.
        -- apply wp_ret. cbn [app]. unfold fetch_post. repeat split; try discriminate.
           ++ apply (pg_last e hd payload max_pages h n tok r data (fst rp) Hr Es Hjson Epage).
              apply orb_true_iff in Estop as [Et|Em].
              ** left. apply negb_true_iff in Et. rewrite <- Htok. exact Et.
              ** right. apply Z.leb_le in Em. exact Em.
           ++ unfold count_posts. cbn. lia.
           ++ repeat constructor.
           ++ intros rs [= <-]. unfold req. rewrite (responses_of_page _ _ r _ Hr).
              cbn [responses_of flat_map]. rewrite app_nil_r.
              rewrite (rows_of_response_ok r rp Es Erp). reflexivity.
        -- apply orb_false_iff in Estop as [Et Em].
           apply negb_false_iff in Et. apply Z.leb_gt in Em.
           apply wp_bind. unfold sleep. apply wp_emit. cbn [wp_then].
           match goal with
           | |- wp _ _ ?hh _ =>
               replace hh with (h ++ [req; EvSleep 1000])%list
                 by (rewrite ?app_nil_r, <- ?app_assoc; reflexivity)
           end.
           eapply wp_conseq; [|apply IH; lia].
           intros o t (H1 & H2 & H3 & H4 & H5 & H6). cbn [app].
           unfold fetch_post.
           split; [exact H1|]. split; [exact H2|]. split; [|split; [|split]].
           ++ apply (pg_next e hd payload max_pages h n tok r data (fst rp) t Hr Es Hjson
                             Epage); [rewrite <- Htok; exact Et | lia|].
              rewrite <- Htok. exact H3.
           ++ unfold count_posts in *. cbn [filter length]. destruct Hreq as [-> _].
              cbn [filter length is_post]. lia.
           ++ constructor; [apply Hreq|]. constructor; [reflexivity | exact H5].
           ++ intros rs Ers. rewrite (H6 rs Ers). unfold req.
              rewrite (responses_of_page _ _ r _ Hr). cbn [responses_of is_post app flat_map].
              rewrite (rows_of_response_ok r rp Es Erp).
              rewrite <- !app_assoc. cbn [app]. reflexivity.
      * cbn [app]. unfold fetch_post. repeat split; try discriminate.
        -- exact (pg_unreadable e hd payload max_pages h n tok r x Hr Es Erp).
        -- unfold count_posts. cbn. lia.
        -- repeat constructor.
    + apply wp_bind. unfold st_message. apply wp_emit. cbn [wp_then].
      apply wp_ret. cbn [app]. unfold fetch_post. repeat split; try discriminate.
      * exact (pg_error e hd payload max_pages h n tok r Hr Es).
      * unfold count_posts. cbn. lia.
      * repeat constructor.
      * intros rs [= <-]. unfold req. rewrite (responses_of_page _ _ r _ Hr).
        cbn [responses_of flat_map is_post app]. rewrite (rows_of_response_error r Es).
        rewrite app_nil_r. reflexivity.
  - intros Hr. unfold fetch_post. repeat split; try discriminate.
    + exact (pg_no_response e hd payload max_pages h n tok Hr).
    + unfold count_posts. cbn. lia.
    + repeat constructor.
Qed.
End FetchLoop.

Lemma float_of_int_cases (n : Z) :
  (exists q, float_of_int n = Ok q) \/ float_of_int n = Raise OverflowError.
Proof.
  unfold float_of_int.
  destruct (SpecFloat.binary_normalize 53 1024 n 0 false); cbn; eauto.
Qed.

(** The search is the conversion of the radius followed by the loop. *)
Lemma fetch_businesses_v1_eq (api_key query : string) (lat lng : Q) (radius_m max_pages : Z)
    (e : env) (h : list event) :
  fetch_businesses_v1 api_key query lat lng radius_m max_pages e h
  = match float_of_int radius_m with
    | Ok _ =>
        fetch_loop (Z.to_nat (Z.max 1 max_pages)) (text_search_headers api_key)
                   (search_payload query lat lng radius_m None) max_pages [] 0 VNone e h
    | _ => (Raise OverflowError, [])
    end.
Proof.
  unfold fetch_businesses_v1, search_payload, float_value. cbn [bind Monad_M lift].
  destruct (float_of_int_cases radius_m) as [[q ->]| ->]; [|reflexivity].
  rewrite app_nil_r.
  destruct (fetch_loop _ _ _ _ _ _ _ e h) as [o t]. reflexivity.
Qed.

Lemma fetch_spec (e : env) (h : list event) (api_key query : string) (lat lng : Q)
    (radius_m max_pages : Z) :
  wp (fetch_businesses_v1 api_key query lat lng radius_m max_pages) e h
     (fun o tr =>
        o <> Diverge /\ o <> Halt
        /\ search_post e api_key query lat lng radius_m max_pages h o tr
        /\ count_posts tr <= Z.max 1 max_pages
        /\ Forall (fun ev => is_get ev = false) tr
        /\ forall rs, o = Ok rs ->
             rs = flat_map rows_of_response (responses_of e h tr)).
Proof.
  unfold wp, search_post. rewrite fetch_businesses_v1_eq.
  destruct (float_of_int_cases radius_m) as [[q ->]| ->].
  - pose proof (fetch_loop_spec e (text_search_headers api_key)
                  (search_payload query lat lng radius_m None) max_pages
                  (Z.to_nat (Z.max 1 max_pages)) [] 0 VNone h) as H.
    unfold wp in H. destruct H as (H1 & H2 & H3 & H4 & H5 & H6); [lia | lia|].
    rewrite Z.sub_0_r in H4.
    split; [exact H1|]. split; [exact H2|]. split; [|split; [exact H4|split; [exact H5|exact H6]]].
    unfold fetch_post. rewrite Z.sub_0_r. auto 10.
  - cbn. repeat split; try discriminate; try constructor.
    unfold count_posts. cbn. lia.
Qed.

Lemma fetch_loop_S (fuel : nat) (hd : headers) (payload : search_body) (max_pages : Z)
    (results : list dict) (n : Z) (tok : pyval) (e : env) (h : list event) :
  fetch_loop (S fuel) hd payload max_pages results n tok e h =
  let req := page_request hd payload tok in
  match http e (h ++ [req])%list with
  | None => (Raise RequestException, [req])
  | Some r =>
      if negb (status_code r =? 200) then (Ok results, [req; search_error_message r])
      else
        match read_page [] r with
        | Ok rp =>
            if negb (truthy (snd rp)) || (max_pages <=? n + 1)
            then (Ok (results ++ fst rp)%list, [req])
            else
              let (o, tr) := fetch_loop fuel hd payload max_pages (results ++ fst rp)%list
                                        (n + 1) (snd rp) e (h ++ [req; EvSleep 1000])%list in
              (o, req :: EvSleep 1000 :: tr)
        | Raise x => (Raise x, [req])
        | Halt => (Halt, [req])
        | Diverge => (Diverge, [req])
        end
  end.
Proof.
  cbn [fetch_loop]. cbn zeta. unfold requests_post, send, page_request.
  cbn [bind Monad_M].
  destruct (http e _) as [r|]; [|reflexivity].
  destruct (status_code r =? 200); cbn [negb].
  - rewrite read_page_acc. destruct (read_page [] r) as [rp|x| |]; try reflexivity.
    cbn [lift fst snd bind Monad_M ret].
    destruct (negb (truthy (snd rp)) || (max_pages <=? n + 1)); [reflexivity|].
    unfold sleep, emit. cbn [app]. rewrite app_nil_r, <- app_assoc. cbn [app].
    destruct (fetch_loop fuel hd payload max_pages (results ++ fst rp)%list (n + 1) (snd rp) e _)
      as [o tr].
    destruct o; reflexivity.
  - reflexivity.
Qed.

(** One turn of the loop on a page that can be read. *)
Lemma fetch_loop_page (fuel : nat) (hd : headers) (payload : search_body) (max_pages : Z)
    (results : list dict) (n : Z) (tok : pyval) (e : env) (h : list event)
    (rows : list dict) (tok' : pyval) :
  page_answer e h (page_request hd payload tok) rows tok' ->
  fetch_loop (S fuel) hd payload max_pages results n tok e h =
  let req := page_request hd payload tok in
  if negb (truthy tok') || (max_pages <=? n + 1)
  then (Ok (results ++ rows)%list, [req])
  else
    let (o, tr) := fetch_loop fuel hd payload max_pages (results ++ rows)%list
                              (n + 1) tok' e (h ++ [req; EvSleep 1000])%list in
    (o, req :: EvSleep 1000 :: tr).
Proof.
  intros (r & data & Hr & Es & _ & _ & Hread). rewrite fetch_loop_S. cbn zeta.
  rewrite Hr, Es, Hread. reflexivity.
Qed.

Lemma page_request_token (hd : headers) (query : string) (lat lng : Q) (radius_m : Z)
    (tok : pyval) :
  truthy tok = true ->
  page_request hd (search_payload query lat lng radius_m None) tok
  = EvPost PLACES_TEXT_URL hd (search_payload query lat lng radius_m (Some tok)).
Proof. intros H. unfold page_request. rewrite H. reflexivity. Qed.

(** C2. When the radius converts to a float, the search always ends and
    its events are exactly a pagination that starts with a request without
    page token: after a page that was read, the search goes on, one second
    later and with the token of that page, exactly when the page carries a
    token and fewer than [max_pages] pages have been fetched.  So at most
    [max_pages] requests are sent (one, if [max_pages] is below one), and
    the result is the concatenation, in the order of the responses, of the
    SearchResults of each page.  In particular, answers with the tokens A,
    B, none give exactly three requests and the rows of the three pages in
    order when [max_pages] is at least 3, and with [max_pages] = 2 the search
    stops after the second request whatever token the second page carries. *)
Theorem fetch_pagination (e : env) (h : list event) (api_key query : string) (lat lng : Q)
    (radius_m max_pages : Z) (radius_f : Q) :
  float_of_int radius_m = Ok radius_f ->
  let hd := text_search_headers api_key in
  let payload := search_payload query lat lng radius_m None in
  let request tok := EvPost PLACES_TEXT_URL hd (search_payload query lat lng radius_m tok) in
  let search := fetch_businesses_v1 api_key query lat lng radius_m in
  (fst (search max_pages e h) <> Diverge
   /\ pagination e hd payload max_pages h 0 VNone (snd (search max_pages e h))
   /\ page_request hd payload VNone = request None
   /\ radius payload = radius_f
   /\ count_posts (snd (search max_pages e h)) <= Z.max 1 max_pages
   /\ forall results,
        fst (search max_pages e h) = Ok results ->
        results = flat_map rows_of_response (responses_of e h (snd (search max_pages e h))))
  /\ (forall tA tB tC rows1 rows2 rows3,
        3 <= max_pages ->
        truthy tA = true -> truthy tB = true -> truthy tC = false ->
        page_answer e h (request None) rows1 tA ->
        page_answer e (h ++ [request None; EvSleep 1000])%list (request (Some tA)) rows2 tB ->
        page_answer e (h ++ [request None; EvSleep 1000; request (Some tA); EvSleep 1000])%list
                    (request (Some tB)) rows3 tC ->
        search max_pages e h
        = (Ok (rows1 ++ rows2 ++ rows3)%list,
           [ request None; EvSleep 1000; request (Some tA); EvSleep 1000;
             request (Some tB) ]))
  /\ (forall tA tB rows1 rows2,
        truthy tA = true ->
        page_answer e h (request None) rows1 tA ->
        page_answer e (h ++ [request None; EvSleep 1000])%list (request (Some tA)) rows2 tB ->
        search 2 e h
        = (Ok (rows1 ++ rows2)%list, [ request None; EvSleep 1000; request (Some tA) ])).
Proof.
  intros Hf hd payload request search.
  assert (Hreq : forall tok, truthy tok = true ->
                             page_request hd payload tok = request (Some tok))
    by (intros tok; apply page_request_token).
  assert (Hsearch : forall m,
            search m e h
            = fetch_loop (Z.to_nat (Z.max 1 m)) hd payload m [] 0 VNone e h)
    by (intros m; unfold search; rewrite fetch_businesses_v1_eq, Hf; reflexivity).
  split; [|split].
  - pose proof (fetch_spec e h api_key query lat lng radius_m max_pages) as H.
    unfold wp, search_post in H. rewrite Hf in H. unfold fetch_post in H.
    destruct H as (H1 & _ & (_ & _ & H3 & _) & H4 & _ & H6).
    split; [exact H1|]. split; [exact H3|]. split; [reflexivity|].
    split; [unfold payload, search_payload, float_value; rewrite Hf; reflexivity|].
    split; [exact H4 | exact H6].
  - intros tA tB tC rows1 rows2 rows3 Hm HA HB HC P1 P2 P3. rewrite Hsearch.
    destruct (Z.to_nat (Z.max 1 max_pages)) as [|[|[|fuel]]] eqn:Efuel; try lia.
    rewrite <- (Hreq tA HA) in P2, P3. rewrite <- (Hreq tB HB) in P3.
    rewrite (fetch_loop_page (S (S fuel)) hd payload max_pages [] 0 VNone e h rows1 tA P1).
    cbn zeta. rewrite HA. destruct (Z.leb_spec max_pages (0 + 1)) as [Hle|_]; [lia|].
    cbn [negb orb].
    rewrite (fetch_loop_page (S fuel) hd payload max_pages ([] ++ rows1)%list (0 + 1) tA e
               (h ++ [page_request hd payload VNone; EvSleep 1000])%list rows2 tB P2).
    cbn zeta. rewrite HB. destruct (Z.leb_spec max_pages (0 + 1 + 1)) as [Hle|_]; [lia|].
    cbn [negb orb]. rewrite <- (app_assoc h). cbn [app].
    rewrite (fetch_loop_page fuel hd payload max_pages (rows1 ++ rows2)%list (0 + 1 + 1) tB e
               (h ++ [page_request hd payload VNone; EvSleep 1000;
                      page_request hd payload tA; EvSleep 1000])%list rows3 tC P3).
    cbn zeta. rewrite HC. cbn [negb orb]. rewrite (Hreq tA HA), (Hreq tB HB), <- app_assoc.
    reflexivity.
  - intros tA tB rows1 rows2 HA P1 P2. rewrite Hsearch.
    change (Z.to_nat (Z.max 1 2)) with 2%nat.
    rewrite <- (Hreq tA HA) in P2.
    rewrite (fetch_loop_page 1 hd payload 2 [] 0 VNone e h rows1 tA P1).
    cbn zeta. rewrite HA. change (2 <=? 0 + 1) with false. cbn [negb orb].
    rewrite (fetch_loop_page 0 hd payload 2 ([] ++ rows1)%list (0 + 1) tA e
               (h ++ [page_request hd payload VNone; EvSleep 1000])%list rows2 tB P2).
    cbn zeta. change (2 <=? 0 + 1 + 1) with true. rewrite orb_true_r.
    rewrite (Hreq tA HA). reflexivity.
Qed.

Lemma py_or_prefers (a b : pyval) (fallback : string) :
  prefers (py_or a (py_or b (VStr fallback))) a b fallback.
Proof.
  unfold prefers, py_or. repeat split.
  - intros ->. reflexivity.
  - intros -> ->. reflexivity.
  - intros -> ->. reflexivity.
Qed.

Lemma search_result_website (p : pyval) (row : dict) :
  search_result p = Ok row ->
  exists pd, p = VDict pd /\ get row "website" = py_or (get pd "websiteUri") (VStr "").
Proof.
  unfold search_result. destruct p; cbn; try discriminate.
  destruct (as_dict (py_or (get d "displayName") (VDict []))); cbn; try discriminate.
  intros [= <-]. exists d. split; reflexivity.
Qed.

Lemma append_results_entries (ps : list pyval) : forall results rows,
  append_results results ps = Ok rows ->
  forall row, In row rows ->
    In row results \/ exists p, In p ps /\ search_result p = Ok row.
Proof.
  induction ps as [|p ps IH]; intros results rows; cbn -[search_result].
  - intros [= <-] row Hin. now left.
  - destruct (search_result p) as [row0|x| |] eqn:Ep; cbn; try discriminate.
    intros Hrows row Hin. destruct (IH _ _ Hrows row Hin) as [Hr|(p' & Hp' & Hrow)].
    + apply in_app_or in Hr as [Hr|[<-|[]]]; [now left|].
      right. exists p. split; [now left | exact Ep].
    + right. exists p'. split; [now right | exact Hrow].
Qed.

Lemma rows_of_response_entries (r : response) (row : dict) :
  In row (rows_of_response r) ->
  exists pd, place_of_response r pd
             /\ get row "website" = py_or (get pd "websiteUri") (VStr "").
Proof.
  unfold rows_of_response. destruct (status_code r =? 200); [|intros []].
  unfold read_page, resp_json. destruct (json r) as [v|] eqn:Ej; cbn; [|intros []].
  destruct v; cbn; try (intros []).
  destruct (py_iter (get_default d "places" (VList []))) as [ps|x| |] eqn:Eps; cbn;
    try (intros []).
  destruct (append_results [] ps) as [rows|x| |] eqn:Erows; cbn; try (intros []).
  intros Hin. destruct (append_results_entries _ _ _ Erows row Hin) as [[]|(p & Hp & Hrow)].
  destruct (search_result_website _ _ Hrow) as (pd & -> & Hw).
  exists pd. split; [|exact Hw]. exists d, ps. auto.
Qed.

(** C5. The website of a record is never [None].  In a SearchResult it is
    the website of the place in the search response when that is present,
    and the empty text otherwise; in a DetailedRecord it is the website of
    the details response when present, else the one of the SearchResult when
    present, else the empty text. *)
Theorem website_never_none (e : env) (h : list event) (api_key query : string) (lat lng : Q)
    (radius_m max_pages : Z) (raw_places : list dict) :
  (forall results,
     fst (fetch_businesses_v1 api_key query lat lng radius_m max_pages e h) = Ok results ->
     Forall (fun row =>
               get row "website" <> VNone
               /\ exists r pd,
                    In r (responses_of e h
                            (snd (fetch_businesses_v1 api_key query lat lng radius_m
                                                      max_pages e h)))
                    /\ place_of_response r pd
                    /\ defaults_to (get row "website") (get pd "websiteUri") "")
            results)
  /\ (forall enriched,
        fst (enrich_with_details_v1 api_key raw_places e h) = Ok enriched ->
        Forall2 (fun b row =>
                   get row "Website" <> VNone
                   /\ exists d, details_answer api_key e b d
                                /\ prefers (get row "Website") (get d "websiteUri")
                                           (get b "website") "")
                raw_places enriched).
Proof.
  split.
  - intros results E.
    pose proof (fetch_spec e h api_key query lat lng radius_m max_pages) as H.
    unfold wp, fetch_post in H. destruct H as (_ & _ & _ & _ & _ & H6).
    rewrite (H6 results E). cbn [app]. apply Forall_forall. intros row Hin.
    apply in_flat_map in Hin as (r & Hr & Hrow).
    destruct (rows_of_response_entries r row Hrow) as (pd & Hpd & Hw).
    split; [rewrite Hw; apply py_or_not_none|].
    exists r, pd. split; [exact Hr|]. split; [exact Hpd|].
    rewrite Hw. unfold defaults_to, py_or. split; intros ->; reflexivity.
  - intros enriched E.
    pose proof (enrich_spec api_key e raw_places h) as H.
    unfold wp, enrich_post in H. destruct H as (_ & _ & _ & _ & _ & H6).
    destruct (H6 enriched E) as (rows & -> & Hrows). cbn [app].
    eapply Forall2_impl; [|exact Hrows].
    intros b row (d & ts & Hd & Hrow).
    destruct (detailed_record_fields d b ts row Hrow) as [_ Hw].
    split.
    + rewrite Hw. unfold py_or at 1.
      destruct (truthy (get d "websiteUri")) eqn:Et; [|apply py_or_not_none].
      intros F. rewrite F in Et. discriminate Et.
    + exists d. split; [exact Hd|]. rewrite Hw. apply py_or_prefers.
Qed.

(** C3. Every record the enrichment returns carries as Phone the national
    number of its details response when present, else the international
    number when present, else the text N/A. *)
Theorem enriched_phone (e : env) (h : list event) (api_key : string)
    (raw_places enriched : list dict) (tr : list event) :
  enrich_with_details_v1 api_key raw_places e h = (Ok enriched, tr) ->
  Forall2 (fun b row =>
             exists d, details_answer api_key e b d
                       /\ prefers (get row "Phone") (get d "nationalPhoneNumber")
                                  (get d "internationalPhoneNumber") "N/A")
          raw_places enriched.
Proof.
  intros E.
  pose proof (wp_run _ _ _ _ _ _ (enrich_spec api_key e raw_places h) E) as H.
  destruct H as (_ & _ & _ & _ & _ & H6).
  destruct (H6 enriched eq_refl) as (rows & -> & Hrows). cbn [app].
  eapply Forall2_impl; [|exact Hrows].
  intros b row (d & ts & Hd & Hrow).
  destruct (detailed_record_fields d b ts row Hrow) as [Hp _].
  exists d. split; [exact Hd|]. rewrite Hp. apply py_or_prefers.
Qed.

Lemma enriched_phone_witness :
  exists enriched,
    Forall2 (fun b row =>
               exists d, details_answer "key" (mock_env scenario_details) b d
                         /\ prefers (get row "Phone") (get d "nationalPhoneNumber")
                                    (get d "internationalPhoneNumber") "N/A")
            no_site_rows enriched
    /\ map (fun row => get row "Phone") enriched
       = [VStr "011-123"; VStr "+27-11-456"; VStr "N/A"].
Proof.
  eexists. split.
  - eapply (enriched_phone (mock_env scenario_details) [] "key" no_site_rows).
    vm_compute. reflexivity.
  - reflexivity.
Defined.

Lemma website_never_none_witness :
  (exists results,
     Forall (fun row => get row "website" <> VNone) results
     /\ map (fun row => get row "website") results
        = [VStr ""; VStr "https://two.example"; VStr ""; VStr "https://four.example"; VStr ""])
  /\ (exists enriched,
        Forall2 (fun _ row => get row "Website" <> VNone) no_site_rows enriched
        /\ map (fun row => get row "Website") enriched = [VStr ""; VStr ""; VStr ""]).
Proof.
  split.
  - eexists. split.
    + eapply Forall_impl;
        [|eapply (proj1 (website_never_none (mock_env scenario_pages) [] "key" "plumber"
                           0 0 1000 3 [])); vm_compute; reflexivity].
      intros row [H _]. exact H.
    + reflexivity.
  - eexists. split.
    + eapply Forall2_impl;
        [|eapply (proj2 (website_never_none (mock_env scenario_details) [] "key" "plumber"
                           0 0 1000 3 no_site_rows)); vm_compute; reflexivity].
      intros b row [H _]. exact H.
    + reflexivity.
Defined.

Lemma fetch_pagination_witness :
  let request tok :=
    EvPost PLACES_TEXT_URL (text_search_headers "key")
           (search_payload "plumber" 0 0 1000 tok) in
  float_of_int 1000 = Ok (inject_Z 1000)
  /\ fetch_businesses_v1 "key" "plumber" 0 0 1000 3 (mock_env scenario_pages) []
     = (Ok [ search_row "p1" "One" ""; search_row "p2" "Two" "https://two.example";
             search_row "p3" "Three" "";
             search_row "p4" "Four" "https://four.example"; search_row "p5" "Five" "" ],
        [ request None; EvSleep 1000; request (Some (VStr "A")); EvSleep 1000;
          request (Some (VStr "B")) ])
  /\ fetch_businesses_v1 "key" "plumber" 0 0 1000 2 (mock_env scenario_pages) []
     = (Ok [ search_row "p1" "One" ""; search_row "p2" "Two" "https://two.example";
             search_row "p3" "Three" "" ],
        [ request None; EvSleep 1000; request (Some (VStr "A")) ]).
Proof.
  cbn zeta. split; [reflexivity|].
  pose proof (fetch_pagination (mock_env scenario_pages) [] "key" "plumber" 0 0 1000 3
                (inject_Z 1000) eq_refl) as H.
  cbn zeta in H. destruct H as (_ & H3 & H2). split.
  - apply (H3 (VStr "A") (VStr "B") VNone
              [ search_row "p1" "One" ""; search_row "p2" "Two" "https://two.example" ]
              [ search_row "p3" "Three" "" ]
              [ search_row "p4" "Four" "https://four.example"; search_row "p5" "Five" "" ]);
      try reflexivity; try lia; eexists; eexists; repeat split; reflexivity.
  - apply (H2 (VStr "A") (VStr "B")
              [ search_row "p1" "One" ""; search_row "p2" "Two" "https://two.example" ]
              [ search_row "p3" "Three" "" ]);
      try reflexivity; eexists; eexists; repeat split; reflexivity.
Defined.

(** ** The run *)

Lemma no_get_details_only_for (places : list dict) (tr : list event) :
  Forall (fun ev => is_get ev = false) tr -> Forall (details_only_for places) tr.
Proof.
  apply Forall_impl. intros ev H. destruct ev; cbn in *; auto. discriminate H.
Qed.

Ltac trace_ok :=
  cbn [app];
  repeat first [ assumption
               | apply Forall_nil
               | apply Forall_cons; [exact I|]
               | apply Forall_app; split ].

Lemma run_post_prefix (api_key : string) (only_no_website : bool) (e : env)
    (places : list dict) (o : outcome (list dict)) (pre t : list event) :
  Forall (details_only_for (kept only_no_website places)) pre ->
  run_post api_key only_no_website e places o t ->
  run_post api_key only_no_website e places o (pre ++ t)%list.
Proof.
  intros Hpre (H1 & H2 & H3). unfold run_post. repeat split; auto.
  apply Forall_app. auto.
Qed.

Lemma run_spec (e : env) (h : list event) (api_key query : string) (lat lng : Q)
    (radius_m max_pages : Z) (only_no_website : bool) :
  wp (run api_key query lat lng radius_m max_pages only_no_website) e h
     (run_post api_key only_no_website e
               (searched e h api_key query lat lng radius_m max_pages)).
Proof.
  unfold run, st_message. apply wp_bind.
  destruct (String.eqb api_key "") eqn:Ek.
  { apply wp_bind, wp_emit. cbn [wp_then]. unfold wp, st_stop. cbn [fst snd].
    unfold run_post. repeat split; try discriminate. trace_ok. }
  apply wp_ret. cbn [wp_then]. rewrite app_nil_r. apply wp_bind.
  pose proof (fetch_spec e h api_key query lat lng radius_m max_pages) as Hf.
  unfold searched. unfold wp in Hf |- *.
  destruct (fetch_businesses_v1 api_key query lat lng radius_m max_pages e h)
    as [o1 t1] eqn:Ef.
  cbn [fst snd] in *. destruct Hf as (F1 & F2 & _ & _ & F5 & _).
  assert (T1 : forall ps, Forall (details_only_for ps) t1)
    by (intros ps; apply no_get_details_only_for; exact F5).
  destruct o1 as [places|x| |]; cbn [wp_then]; try contradiction.
  2:{ unfold run_post. repeat split; try discriminate. apply T1. }
  fold (wp (A := list dict)). cbn [app].
  apply wp_bind, wp_emit. cbn [wp_then]. apply wp_bind.
  assert (Htail : forall hk,
            wp
              ((fun places_no_site : list dict =>
                 _ <- match places_no_site with
                      | [] =>
                          _ <- emit (EvMessage Warning
                                 "No places without websites were found for the given search.");;
                          st_stop
                      | _ :: _ => ret tt
                      end;;
                 enriched <- enrich_with_details_v1 api_key places_no_site;;
                 _ <- emit (EvMessage Subheader "Preview");;
                 _ <- emit (EvDataframe (final only_no_website enriched));;
                 bk <- installed;;
                 _ <- emit (EvDownload "📥 Download results"
                              (dataframe_to_excel_bytes bk (final only_no_website enriched)));;
                 _ <- emit (EvMessage Caption
                       "If no Excel engine is installed, a CSV is provided. Install openpyxl or xlsxwriter for XLSX.");;
                 ret (final only_no_website enriched))
                 (kept only_no_website places))
              e hk (run_post api_key only_no_website e places)).
  { intros hk. cbn beta. set (ks := kept only_no_website places) in *.
    assert (Eks : kept only_no_website places = ks) by reflexivity.
    apply wp_bind. destruct ks as [|b rest].
    { apply wp_bind, wp_emit. cbn [wp_then]. unfold wp, st_stop. cbn [fst snd].
      unfold run_post. rewrite Eks. repeat split; try discriminate. trace_ok. }
    apply wp_ret. cbn [wp_then]. apply wp_bind.
    pose proof (enrich_spec api_key e (b :: rest) (hk ++ [])%list) as He.
    unfold wp in He |- *.
    destruct (enrich_with_details_v1 api_key (b :: rest) e (hk ++ [])%list)
      as [o2 t2] eqn:Een.
    cbn [fst snd] in *. destruct He as (E1 & E2 & E3 & E4 & E5 & E6).
    destruct o2 as [enriched|x| |]; cbn [wp_then]; try contradiction.
    2:{ unfold run_post. rewrite Eks. repeat split; try discriminate. trace_ok. }
    fold (wp (A := list dict)).
    apply wp_bind, wp_emit. cbn [wp_then]. apply wp_bind, wp_emit. cbn [wp_then].
    apply wp_bind. unfold wp at 1, installed. cbn [fst snd wp_then].
    apply wp_bind, wp_emit. cbn [wp_then]. apply wp_bind, wp_emit. cbn [wp_then].
    apply wp_ret. unfold run_post. rewrite Eks. repeat split; try discriminate.
    - trace_ok.
    - intros df [= <-]. exists (hk ++ [])%list, enriched, t2. auto. }
  destruct only_no_website.
  - apply wp_bind, wp_emit. cbn [wp_then]. apply wp_ret. cbn [wp_then].
    eapply wp_conseq; [|exact (Htail _)].
    intros o t Hpost. cbn beta.
    apply run_post_prefix; [apply T1|].
    apply (run_post_prefix api_key true e places o [_]); [trace_ok|].
    apply (run_post_prefix api_key true e places o ([_] ++ [])%list); [trace_ok | exact Hpost].
  - apply wp_ret. cbn [wp_then].
    eapply wp_conseq; [|exact (Htail _)].
    intros o t Hpost. cbn beta.
    apply run_post_prefix; [apply T1|].
    apply (run_post_prefix api_key false e places o [_]); [trace_ok|].
    apply (run_post_prefix api_key false e places o []); [trace_ok | exact Hpost].
Qed.

(** The end-to-end scenario: five places found, two of them with a
    website; three records come out, one of them without any phone. *)
Example run_scenario :
  exists df tr,
    run "key" "plumber" 0 0 1000 3 true scenario_env [] = (Ok df, tr)
    /\ map (fun row => get row "Place ID") df = [VStr "p1"; VStr "p3"; VStr "p5"]
    /\ map (fun row => get row "Phone") df = [VStr "011-123"; VStr "+27-11-456"; VStr "N/A"]
    /\ count_posts tr = 3 /\ count_gets tr = 3.
Proof. eexists. eexists. split; [vm_compute; reflexivity|]. repeat split. Qed.

(** C7, as claimed, fails: with "only no-website" requested, a record
    whose details give the website as N/A is in the final table. *)
Lemma website_na_is_kept :
  exists df row,
    fst (run "key" "plumber" 0 0 1000 3 true na_env []) = Ok df
    /\ In row df
    /\ get row "Website" = VStr "N/A".
Proof.
  eexists. eexists. split; [vm_compute; reflexivity|].
  split; [left; reflexivity | reflexivity].
Qed.

(** C7, amended. With "only no-website" requested, the final table is the
    enrichment of the pre-filtered places without the records whose Website
    the predicate takes for a real site, whatever the pre-filter said of
    their SearchResults; a record whose Website is the text N/A counts as
    having no site and stays. *)
Theorem post_filter_drops_sites (e : env) (h : list event) (api_key query : string)
    (lat lng : Q) (radius_m max_pages : Z) (df : list dict) :
  fst (run api_key query lat lng radius_m max_pages true e h) = Ok df ->
  exists h' enriched t,
    enrich_with_details_v1 api_key
      (kept true (searched e h api_key query lat lng radius_m max_pages)) e h'
    = (Ok enriched, t)
    /\ df = filter (fun row => negb (has_site (get row "Website"))) enriched
    /\ (forall row, In row df <-> In row enriched /\ has_site (get row "Website") = false)
    /\ (forall row, In row enriched -> get row "Website" = VStr "N/A" -> In row df).
Proof.
  intros E.
  pose proof (run_spec e h api_key query lat lng radius_m max_pages true) as H.
  unfold wp, run_post in H. destruct H as (_ & _ & H3).
  destruct (H3 df E) as (h' & enriched & t & He & Hdf).
  exists h', enriched, t. split; [exact He|]. split; [exact Hdf|].
  assert (Hin : forall row, In row df <-> In row enriched /\ has_site (get row "Website") = false).
  { intros row. rewrite Hdf. unfold final. rewrite filter_In, negb_true_iff. reflexivity. }
  split; [exact Hin|].
  intros row Hrow Hna. apply Hin. split; [exact Hrow|]. rewrite Hna. reflexivity.
Qed.

Lemma post_filter_drops_sites_witness :
  let df := match fst (run "key" "plumber" 0 0 1000 3 true na_env []) with
            | Ok df => df
            | _ => []
            end in
  exists h' enriched t,
    enrich_with_details_v1 "key"
      (kept true (searched na_env [] "key" "plumber" 0 0 1000 3)) na_env h'
    = (Ok enriched, t)
    /\ df = filter (fun row => negb (has_site (get row "Website"))) enriched
    /\ (forall row, In row df <-> In row enriched /\ has_site (get row "Website") = false)
    /\ (forall row, In row enriched -> get row "Website" = VStr "N/A" -> In row df).
Proof.
  cbn zeta. apply (post_filter_drops_sites na_env [] "key" "plumber" 0 0 1000 3).
  vm_compute. reflexivity.
Defined.

(** C8, as claimed, fails: without "only no-website" a place that the
    predicate takes to have a website is sent to the details client. *)
Lemma site_reaches_details :
  exists p,
    In p (searched site_env [] "key" "plumber" 0 0 1000 3)
    /\ has_site (get p "website") = true
    /\ In (EvGet (PLACES_DETAILS_URL_TPL (get p "place_id")) (details_headers "key"))
          (snd (run "key" "plumber" 0 0 1000 3 false site_env [])).
Proof.
  exists (search_row "p2" "Two" "https://two.example").
  split; [left; reflexivity|]. split; [reflexivity|].
  vm_compute. tauto.
Qed.

(** C8, amended. Both filter passes depend on the request for "only
    no-website".  With it, the only details requests of a run are for
    places that the search returned and that the predicate takes to have no
    website: the pre-filter comes before the details phase.  Without it, the
    final table is the enrichment of all the places the search returned. *)
Theorem prefilter_when_requested (e : env) (h : list event) (api_key query : string)
    (lat lng : Q) (radius_m max_pages : Z) :
  let places := searched e h api_key query lat lng radius_m max_pages in
  (forall url hd,
     In (EvGet url hd) (snd (run api_key query lat lng radius_m max_pages true e h)) ->
     exists p pid,
       In p places /\ has_site (get p "website") = false
       /\ subscript p "place_id" = Ok pid /\ url = PLACES_DETAILS_URL_TPL pid)
  /\ (forall df,
        fst (run api_key query lat lng radius_m max_pages false e h) = Ok df ->
        exists h' t, enrich_with_details_v1 api_key places e h' = (Ok df, t)).
Proof.
  cbn zeta. split.
  - intros url hd Hin.
    pose proof (run_spec e h api_key query lat lng radius_m max_pages true) as H.
    unfold wp, run_post in H. destruct H as (_ & H2 & _).
    rewrite Forall_forall in H2. specialize (H2 _ Hin). cbn in H2.
    destruct H2 as (p & pid & Hp & Hpid & Hurl).
    apply filter_In in Hp as [Hp Hsite]. apply negb_true_iff in Hsite.
    exists p, pid. auto.
  - intros df E.
    pose proof (run_spec e h api_key query lat lng radius_m max_pages false) as H.
    unfold wp, run_post in H. destruct H as (_ & _ & H3).
    destruct (H3 df E) as (h' & enriched & t & He & Hdf).
    exists h', t. rewrite Hdf. exact He.
Qed.

Lemma prefilter_when_requested_witness :
  (exists p pid,
     In p (searched scenario_env [] "key" "plumber" 0 0 1000 3)
     /\ has_site (get p "website") = false
     /\ subscript p "place_id" = Ok pid
     /\ PLACES_DETAILS_URL_TPL (VStr "p3") = PLACES_DETAILS_URL_TPL pid)
  /\ (let df := match fst (run "key" "plumber" 0 0 1000 3 false site_env []) with
                | Ok df => df
                | _ => []
                end in
      exists h' t,
        enrich_with_details_v1 "key" (searched site_env [] "key" "plumber" 0 0 1000 3)
                               site_env h'
        = (Ok df, t)).
Proof.
  split.
  - apply (proj1 (prefilter_when_requested scenario_env [] "key" "plumber" 0 0 1000 3)
                 (PLACES_DETAILS_URL_TPL (VStr "p3")) (details_headers "key")).
    vm_compute. tauto.
  - cbn zeta.
    apply (proj2 (prefilter_when_requested site_env [] "key" "plumber" 0 0 1000 3)).
    vm_compute. reflexivity.
Defined.

(* ===================================================================== *)
(** * Further properties of the code                                     *)
(* ===================================================================== *)

(** ** More on strings and on [has_site] *)

(** X1. The predicate does not look at letter case: a text, its upper-case
    form and its lower-case form are classified alike. *)
Theorem has_site_case_blind (s : string) :
  has_site (VStr (upper s)) = has_site (VStr s)
  /\ has_site (VStr (lower s)) = has_site (VStr s).
Proof.
  split.
  - unfold upper. rewrite flat_map_concat_map. apply has_site_images, upper_images.
  - unfold lower. destruct (lower_images (chars s) []) as (imgs & -> & H).
    exact (has_site_images _ _ H).
Qed.

(** X2. The predicate does not look at surrounding white space: blanks
    before and after a text do not change its classification. *)
Theorem has_site_trim_blind (pre s post : string) :
  all_space pre = true -> all_space post = true ->
  has_site (VStr (pre ++ s ++ post)) = has_site (VStr s).
Proof.
  intros Hpre Hpost. destruct (starts_cont s) eqn:Es.
  - rewrite (has_site_dirty pre (s ++ post) Hpre).
    + symmetry. exact (has_site_dirty "" s eq_refl Es).
    + rewrite starts_cont_app. destruct s; [discriminate | exact Es].
  - rewrite !has_site_str, (strip_app_blank _ _ _ Es Hpre Hpost). reflexivity.
Qed.

Lemma has_site_trim_blind_witness :
  has_site (VStr ("  " ++ "n/a" ++ String "009" " ")) = has_site (VStr "n/a")
  /\ has_site (VStr ((nbsp ++ " ") ++ "https://x.example" ++ nbsp))
     = has_site (VStr "https://x.example").
Proof. split; apply has_site_trim_blind; reflexivity. Defined.

(** X3. A text whose trimmed form has more than four characters, as any
    URL has, is always classified as a website. *)
Theorem has_site_long_text (s : string) :
  (4 < len (strip s))%nat -> has_site (VStr s) = true.
Proof.
  unfold len. rewrite chars_strip, has_site_chars. intros Hlen.
  destruct (trim (chars s)) as [|c r] eqn:E; [cbn in Hlen; lia|]. cbn [null negb andb].
  apply negb_true_iff, not_true_iff_false. rewrite mem_string_In. intros Hin.
  pose proof (sentinels_plain _ Hin) as Hp. rewrite plain_upper in Hp.
  pose proof (sentinels_short _ Hin) as Hs. unfold ascii_upper in Hs.
  rewrite map_bytes_length, plain_length in Hs; [lia| |exact Hp].
  rewrite <- E. apply canonical_chunks, trim_canonical, chars_canonical.
Qed.

Lemma has_site_long_text_witness :
  has_site (VStr " http://x.co ") = true /\ has_site (VStr "ñandú") = true.
Proof. split; apply has_site_long_text; vm_compute; lia. Defined.

(** ** More on the Text Search client *)

Lemma search_result_exn (p : pyval) (x : exn) :
  search_result p = Raise x -> x = AttributeError.
Proof.
  unfold search_result. destruct p; cbn; try (intros [= <-]; reflexivity).
  destruct (py_or (get d "displayName") (VDict [])); cbn;
    try (intros [= <-]; reflexivity); discriminate.
Qed.

Lemma append_results_exn (ps : list pyval) (x : exn) : forall results,
  append_results results ps = Raise x -> x = AttributeError.
Proof.
  induction ps as [|p ps IH]; intros results; cbn -[search_result]; [discriminate|].
  destruct (search_result p) as [row|z| |] eqn:Ep; cbn; try discriminate.
  - apply IH.
  - intros [= <-]. exact (search_result_exn p z Ep).
Qed.

Lemma py_iter_exn (v : pyval) (x : exn) : py_iter v = Raise x -> x = TypeError.
Proof. destruct v; cbn; try discriminate; intros [= <-]; reflexivity. Qed.

Lemma read_page_exn (results : list dict) (r : response) (x : exn) :
  read_page results r = Raise x ->
  x = JSONDecodeError \/ x = AttributeError \/ x = TypeError.
Proof.
  unfold read_page, resp_json. destruct (json r) as [v|]; cbn; [|intros [= <-]; auto].
  destruct v; cbn; try (intros [= <-]; auto).
  destruct (py_iter (get_default d "places" (VList []))) as [ps|y| |] eqn:Eps; cbn;
    try discriminate.
  - destruct (append_results results ps) as [rs|y| |] eqn:Ers; cbn; try discriminate.
    intros [= <-]. right; left. exact (append_results_exn ps y results Ers).
  - intros [= <-]. right; right. exact (py_iter_exn _ _ Eps).
Qed.

Lemma search_result_keys (p : pyval) (row : dict) :
  search_result p = Ok row -> keys row = search_keys.
Proof.
  unfold search_result. destruct p; cbn; try discriminate.
  destruct (as_dict (py_or (get d "displayName") (VDict []))); cbn; try discriminate.
  intros [= <-]. reflexivity.
Qed.

Lemma rows_of_response_keys (r : response) (row : dict) :
  In row (rows_of_response r) -> keys row = search_keys.
Proof.
  unfold rows_of_response. destruct (status_code r =? 200); [|intros []].
  unfold read_page, resp_json. destruct (json r) as [v|]; cbn; [|intros []].
  destruct v; cbn; try (intros []).
  destruct (py_iter (get_default d "places" (VList []))) as [ps|x| |]; cbn; try (intros []).
  destruct (append_results [] ps) as [rows|x| |] eqn:Erows; cbn; try (intros []).
  intros Hin. destruct (append_results_entries _ _ _ Erows row Hin) as [[]|(p & _ & Hrow)].
  exact (search_result_keys p row Hrow).
Qed.

Section FetchLoopMore.
Variables (e : env) (hd : headers) (payload : search_body) (max_pages : Z).

Lemma page_request_event (tok : pyval) : search_event hd payload (page_request hd payload tok).
Proof. unfold page_request. cbn. destruct (truthy tok); cbn; repeat split. Qed.

Lemma fetch_loop_events : forall fuel results n tok h,
  Forall (search_event hd payload)
         (snd (fetch_loop fuel hd payload max_pages results n tok e h)).
Proof.
  induction fuel as [|fuel IH]; intros results n tok h; [constructor|].
  rewrite fetch_loop_S. cbn zeta.
  pose proof (page_request_event tok) as Hreq.
  assert (Hone : Forall (search_event hd payload) [page_request hd payload tok])
    by (constructor; [exact Hreq | constructor]).
  destruct (http e _) as [r|]; [|exact Hone].
  destruct (negb (status_code r =? 200)).
  { constructor; [exact Hreq|]. constructor; [reflexivity | constructor]. }
  destruct (read_page [] r) as [rp|x| |]; try exact Hone.
  destruct (negb (truthy (snd rp)) || (max_pages <=? n + 1)); [exact Hone|].
  specialize (IH (results ++ fst rp)%list (n + 1) (snd rp)
                 (h ++ [page_request hd payload tok; EvSleep 1000])%list).
  destruct (fetch_loop fuel hd payload max_pages _ _ _ e _) as [o tr].
  cbn [snd] in *. constructor; [exact Hreq|]. constructor; [reflexivity | exact IH].
Qed.

Lemma fetch_loop_exn : forall fuel results n tok h x,
  fst (fetch_loop fuel hd payload max_pages results n tok e h) = Raise x -> loop_exn x.
Proof.
  induction fuel as [|fuel IH]; intros results n tok h x; [discriminate|].
  rewrite fetch_loop_S. cbn zeta.
  destruct (http e _) as [r|]; [|intros [= <-]; left; reflexivity].
  destruct (negb (status_code r =? 200)); [discriminate|].
  destruct (read_page [] r) as [rp|y| |] eqn:Erp; try discriminate.
  - destruct (negb (truthy (snd rp)) || (max_pages <=? n + 1)); [discriminate|].
    specialize (IH (results ++ fst rp)%list (n + 1) (snd rp)
                   (h ++ [page_request hd payload tok; EvSleep 1000])%list x).
    destruct (fetch_loop fuel hd payload max_pages _ _ _ e _) as [o tr]. exact IH.
  - intros [= <-]. right. exact (read_page_exn _ _ _ Erp).
Qed.

End FetchLoopMore.

Lemma fetch_loop_exact (e : env) (hd : headers) (payload : search_body) (max_pages : Z) :
  always_more e ->
  forall fuel results n tok h,
    (1 <= fuel)%nat -> max_pages - n <= Z.of_nat fuel ->
    exists rs tr,
      fetch_loop fuel hd payload max_pages results n tok e h = (Ok rs, tr)
      /\ count_posts tr = Z.max 1 (max_pages - n).
Proof.
  intros Hmore. induction fuel as [|fuel IH]; intros results n tok h Hf Hm; [lia|].
  rewrite fetch_loop_S. cbn zeta.
  destruct (Hmore (h ++ [page_request hd payload tok])%list) as (r & rp & -> & Hs & -> & Ht).
  rewrite Hs, Ht. cbn [Z.eqb negb orb Pos.eqb].
  destruct (Z.leb_spec max_pages (n + 1)) as [Hle|Hgt].
  - eexists. eexists. split; [reflexivity|]. unfold count_posts. cbn. lia.
  - destruct (IH (results ++ fst rp)%list (n + 1) (snd rp)
                 (h ++ [page_request hd payload tok; EvSleep 1000])%list)
      as (rs & tr & -> & Hc); [lia | lia |].
    exists rs. eexists. split; [reflexivity|].
    unfold count_posts in *. cbn [filter is_post page_request length]. lia.
Qed.

Lemma pagination_head (e : env) (hd : headers) (payload : search_body) (max_pages : Z)
    (h : list event) (n : Z) (tok : pyval) (tr : list event) :
  pagination e hd payload max_pages h n tok tr ->
  exists rest, tr = page_request hd payload tok :: rest.
Proof. intros H. inversion H; subst; eexists; reflexivity. Qed.


Lemma fetch_events (e : env) (h : list event) (api_key query : string) (lat lng : Q)
    (radius_m max_pages : Z) :
  Forall (search_event (text_search_headers api_key)
                       (search_payload query lat lng radius_m None))
         (snd (fetch_businesses_v1 api_key query lat lng radius_m max_pages e h)).
Proof.
  rewrite fetch_businesses_v1_eq.
  destruct (float_of_int_cases radius_m) as [[q ->]| ->]; [apply fetch_loop_events|].
  constructor.
Qed.

Lemma fetch_exn (e : env) (h : list event) (api_key query : string) (lat lng : Q)
    (radius_m max_pages : Z) (x : exn) :
  fst (fetch_businesses_v1 api_key query lat lng radius_m max_pages e h) = Raise x ->
  search_exn x.
Proof.
  rewrite fetch_businesses_v1_eq.
  destruct (float_of_int_cases radius_m) as [[q ->]| ->].
  - intros Hx. right. exact (fetch_loop_exn _ _ _ _ _ _ _ _ _ _ Hx).
  - intros [= <-]. now left.
Qed.

(** X4. Every SearchResult the search returns has exactly the seven keys
    name, address, rating, user_ratings_total, business_status, place_id and
    website, in this order. *)
Theorem fetch_results_schema (e : env) (h : list event) (api_key query : string)
    (lat lng : Q) (radius_m max_pages : Z) (results : list dict) :
  fst (fetch_businesses_v1 api_key query lat lng radius_m max_pages e h) = Ok results ->
  Forall (fun row => keys row = search_keys) results.
Proof.
  intros E.
  pose proof (fetch_spec e h api_key query lat lng radius_m max_pages) as H.
  unfold wp, fetch_post in H. destruct H as (_ & _ & _ & _ & _ & H6).
  rewrite (H6 results E). cbn [app]. apply Forall_forall. intros row Hin.
  apply in_flat_map in Hin as (r & _ & Hrow). exact (rows_of_response_keys r row Hrow).
Qed.

Lemma fetch_results_schema_witness :
  Forall (fun row => keys row = search_keys)
         (match fst (fetch_businesses_v1 "key" "plumber" 0 0 1000 3
                       (mock_env scenario_pages) []) with
          | Ok results => results
          | _ => []
          end).
Proof.
  apply (fetch_results_schema (mock_env scenario_pages) [] "key" "plumber" 0 0 1000 3).
  vm_compute. reflexivity.
Defined.

(** X5. Whatever the answers, a search only ever does three things: it
    posts to the Text Search URL, always with the same headers (which hold
    the caller's API key) and the same query, centre, radius and page size of
    20; it pauses for one second; it shows an error message. *)
Theorem fetch_requests_uniform (e : env) (h : list event) (api_key query : string)
    (lat lng : Q) (radius_m max_pages : Z) :
  Forall (search_event (text_search_headers api_key)
                       (search_payload query lat lng radius_m None))
         (snd (fetch_businesses_v1 api_key query lat lng radius_m max_pages e h))
  /\ In ("X-Goog-Api-Key", api_key) (text_search_headers api_key)
  /\ pageSize (search_payload query lat lng radius_m None) = 20.
Proof.
  split; [apply fetch_events|]. split; [right; left; reflexivity | reflexivity].
Qed.




Lemma slider_radius_exact (k : Z) :
  1 <= k <= 500 -> float_of_int (100 * k) = Ok (inject_Z (100 * k)).
Proof.
  intros Hk.
  assert (A : forallb (fun i => match float_of_int (100 * Z.of_nat i) with
                                | Ok q => (Qnum q =? 100 * Z.of_nat i)
                                          && (Qden q =? 1)%positive
                                | _ => false
                                end) (seq 1 500) = true) by (vm_compute; reflexivity).
  rewrite forallb_forall in A. specialize (A (Z.to_nat k)).
  rewrite Z2Nat.id in A by lia.
  assert (B : In (Z.to_nat k) (seq 1 500)) by (apply in_seq; lia).
  specialize (A B).
  destruct (float_of_int (100 * k)) as [[qn qd]|x| |]; try discriminate A.
  apply andb_true_iff in A as [A1 A2]. apply Pos.eqb_eq in A2. apply Z.eqb_eq in A1.
  cbn [Qnum Qden] in A1, A2. subst. reflexivity.
Qed.

(** X7. When the radius is too large for a float, the search raises
    OverflowError and sends nothing; the radii the slider offers (100 to
    50000 in steps of 100) all convert exactly.  When the radius converts,
    the search sends at least one request, also when [max_pages] is zero or
    negative, in which case it sends exactly one; and when every answer is a
    readable 200 carrying a page token, it sends exactly [max_pages]
    requests (one, if [max_pages] is below one) and returns a value. *)
Theorem fetch_request_count (e : env) (h : list event) (api_key query : string)
    (lat lng : Q) (radius_m max_pages : Z) :
  let search := fetch_businesses_v1 api_key query lat lng radius_m max_pages e h in
  (float_of_int radius_m = Raise OverflowError -> search = (Raise OverflowError, []))
  /\ (forall k, 1 <= k <= 500 -> float_of_int (100 * k) = Ok (inject_Z (100 * k)))
  /\ (forall radius_f,
        float_of_int radius_m = Ok radius_f ->
        1 <= count_posts (snd search)
        /\ (max_pages <= 1 -> count_posts (snd search) = 1)
        /\ (always_more e ->
            count_posts (snd search) = Z.max 1 max_pages /\ exists rs, fst search = Ok rs)).
Proof.
  cbn zeta. split; [|split; [exact slider_radius_exact|]].
  - intros Eq. rewrite fetch_businesses_v1_eq, Eq. reflexivity.
  - intros q Eq.
    pose proof (fetch_spec e h api_key query lat lng radius_m max_pages) as H.
    unfold wp, search_post in H. rewrite Eq in H. unfold fetch_post in H.
    destruct H as (_ & _ & (_ & _ & H3 & _) & H4 & _ & _).
    assert (Hone : 1 <= count_posts
                          (snd (fetch_businesses_v1 api_key query lat lng radius_m
                                                    max_pages e h))).
    { destruct (pagination_head _ _ _ _ _ _ _ _ H3) as (rest & ->).
      unfold count_posts. cbn [filter is_post page_request length]. lia. }
    split; [exact Hone|]. split; [lia|].
    intros Hmore. rewrite fetch_businesses_v1_eq, Eq.
    destruct (fetch_loop_exact e (text_search_headers api_key)
                (search_payload query lat lng radius_m None) max_pages Hmore
                (Z.to_nat (Z.max 1 max_pages)) [] 0 VNone h) as (rs & tr & -> & Hc);
      [lia | lia |].
    cbn [fst snd]. split; [lia | exists rs; reflexivity].
Qed.

Lemma endless_env_always_more : always_more endless_env.
Proof.
  intros h. eexists. eexists. split; [reflexivity|]. split; [reflexivity|].
  split; reflexivity.
Qed.

Lemma fetch_request_count_witness :
  count_posts (snd (fetch_businesses_v1 "key" "plumber" 0 0 1000 0 endless_env [])) = 1
  /\ count_posts (snd (fetch_businesses_v1 "key" "plumber" 0 0 1000 3 endless_env [])) = 3
  /\ fetch_businesses_v1 "key" "plumber" 0 0 (2 ^ 1024) 3 endless_env []
     = (Raise OverflowError, [])
  /\ float_of_int 50000 = Ok (inject_Z 50000).
Proof.
  split; [|split; [|split]].
  - apply (proj1 (proj2 (proj2 (proj2 (fetch_request_count endless_env [] "key" "plumber"
                                         0 0 1000 0))
                               (inject_Z 1000) eq_refl))).
    lia.
  - apply (proj1 (proj2 (proj2 (proj2 (proj2 (fetch_request_count endless_env [] "key"
                                                "plumber" 0 0 1000 3))
                                      (inject_Z 1000) eq_refl))
                        endless_env_always_more)).
  - apply (proj1 (fetch_request_count endless_env [] "key" "plumber" 0 0 (2 ^ 1024) 3)).
    vm_compute. reflexivity.
  - apply (proj1 (proj2 (fetch_request_count endless_env [] "key" "plumber" 0 0 1000 3)) 500).
    lia.
Defined.

(** ** More on the Place Details client *)

(** X8. For any number of retries the details client sends at most that
    many requests, all of them the same GET, with 1.2 s pauses and nothing
    else; with zero or negative retries it sends none and returns the empty
    dict; and when every attempt is answered with a status other than 200 it
    returns the empty dict after exactly that many attempts. *)
Theorem details_any_retries (e : env) (h : list event) (api_key : string) (place_id : pyval)
    (retries : Z) :
  let url := PLACES_DETAILS_URL_TPL place_id in
  let hd := details_headers api_key in
  let result := get_detailed_info_v1 api_key place_id retries e h in
  count_gets (snd result) <= Z.max 0 retries
  /\ Forall (fun ev => ev = EvGet url hd \/ ev = EvSleep 1200) (snd result)
  /\ (retries <= 0 -> result = (Ok (VDict []), []))
  /\ ((forall j, (j < Z.to_nat retries)%nat -> failing url hd e h j) ->
      result = (Ok (VDict []), failed_attempts (EvGet url hd) (Z.to_nat retries))).
Proof.
  cbn zeta. unfold get_detailed_info_v1. repeat split.
  - pose proof (details_attempts_gets (PLACES_DETAILS_URL_TPL place_id)
                  (details_headers api_key) e (Z.to_nat retries) h). lia.
  - apply details_attempts_trace.
  - intros Hr. replace (Z.to_nat retries) with 0%nat by lia. reflexivity.
  - intros Hfail. now apply details_attempts_all_fail.
Qed.

Lemma details_any_retries_witness :
  get_detailed_info_v1 "key" (VStr "p1") (-1) (mock_env []) [] = (Ok (VDict []), [])
  /\ get_detailed_info_v1 "key" (VStr "p1") 2 (mock_env [http_error 500; http_error 502]) []
     = (Ok (VDict []),
        failed_attempts (EvGet (PLACES_DETAILS_URL_TPL (VStr "p1")) (details_headers "key")) 2).
Proof.
  split.
  - apply (proj1 (proj2 (proj2 (details_any_retries (mock_env []) [] "key" (VStr "p1") (-1))))).
    lia.
  - apply (proj2 (proj2 (proj2 (details_any_retries
                                  (mock_env [http_error 500; http_error 502]) []
                                  "key" (VStr "p1") 2)))).
    intros [|[|j]] Hj.
    + exists (http_error 500). split; [reflexivity | discriminate].
    + exists (http_error 502). split; [reflexivity | discriminate].
    + cbn in Hj. lia.
Defined.

(** X9. A failure of the transport is not retried: when the request of an
    attempt gets no response at all, the details client raises the
    transport's exception at once, without the pause and without using the
    attempts that are left. *)
Theorem details_transport_failure (e : env) (h : list event) (api_key : string)
    (place_id : pyval) (retries : Z) (k : nat) :
  let url := PLACES_DETAILS_URL_TPL place_id in
  let hd := details_headers api_key in
  (k < Z.to_nat retries)%nat ->
  (forall j, (j < k)%nat -> failing url hd e h j) ->
  answer url hd e h k = None ->
  get_detailed_info_v1 api_key place_id retries e h
  = (Raise RequestException, (failed_attempts (EvGet url hd) k ++ [EvGet url hd])%list).
Proof. cbn zeta. intros Hk Hfail Hr. now apply details_attempts_transport. Qed.

Lemma details_transport_failure_witness :
  get_detailed_info_v1 "key" (VStr "p1") 3 (mock_env [http_error 500]) []
  = (Raise RequestException,
     let g := EvGet (PLACES_DETAILS_URL_TPL (VStr "p1")) (details_headers "key") in
     [g; EvSleep 1200; g]).
Proof.
  apply (details_transport_failure (mock_env [http_error 500]) [] "key" (VStr "p1") 3 1).
  - cbn. lia.
  - intros [|j] Hj; [|lia]. exists (http_error 500). split; [reflexivity | discriminate].
  - reflexivity.
Defined.

(** ** More on the enrichment *)

Lemma enrich_loop_cons (api_key : string) (total i : Z) (b : dict) (rest enriched : list dict)
    (e : env) (h : list event) :
  enrich_loop api_key total i (b :: rest) enriched e h =
  match subscript b "place_id" with
  | Ok pid =>
      let (o1, t1) := get_detailed_info_v1 api_key pid default_retries e h in
      match o1 with
      | Ok dv =>
          match enrich_step i total b dv (utcnow e (h ++ t1)%list) with
          | Ok rq =>
              let ev := EvProgress (snd rq) (progress_caption i total) in
              let (o2, t2) := enrich_loop api_key total (i + 1) rest (enriched ++ [fst rq])%list
                                          e (h ++ t1 ++ [ev])%list in
              (o2, (t1 ++ ev :: t2)%list)
          | Raise x => (Raise x, t1)
          | Halt => (Halt, t1)
          | Diverge => (Diverge, t1)
          end
      | Raise x => (Raise x, t1)
      | Halt => (Halt, t1)
      | Diverge => (Diverge, t1)
      end
  | Raise x => (Raise x, [])
  | Halt => (Halt, [])
  | Diverge => (Diverge, [])
  end.
Proof.
  cbn [enrich_loop]. cbn [bind Monad_M lift].
  destruct (subscript b "place_id") as [pid|x| |]; try reflexivity.
  rewrite app_nil_r.
  destruct (get_detailed_info_v1 api_key pid default_retries e h) as [o1 t1].
  destruct o1 as [dv|x| |]; try reflexivity.
  unfold enrich_step, now. cbn [bind Monad_outcome ret].
  destruct (as_dict dv) as [d|x| |]; cbn [app]; rewrite ?app_nil_r; try reflexivity.
  destruct (detailed_record d b (utcnow e (h ++ t1)%list)) as [row|x| |];
    cbn [app]; rewrite ?app_nil_r; try reflexivity.
  destruct (truediv i total) as [q|x| |]; cbn [app]; rewrite ?app_nil_r; try reflexivity.
  unfold emit. cbn [fst snd app]. rewrite <- !app_assoc. cbn [app].
  destruct (enrich_loop api_key total (i + 1) rest (enriched ++ [row])%list e _) as [o2 t2].
  destruct o2; reflexivity.
Qed.

Lemma lookup_in_keys (k : string) (d : dict) :
  In k (keys d) -> exists v, lookup k d = Some v.
Proof.
  induction d as [|[k' v'] d IH]; cbn; [intros []|].
  destruct (String.eqb_spec k' k) as [->|Hne]; [eexists; reflexivity|].
  intros [E|Hin]; [contradiction | exact (IH Hin)].
Qed.

Lemma subscript_search_key (b : dict) (k : string) :
  keys b = search_keys -> In k search_keys -> subscript b k = Ok (get b k).
Proof.
  intros Hb Hk. rewrite <- Hb in Hk. destruct (lookup_in_keys k b Hk) as [v Hv].
  unfold subscript, get, get_default. rewrite Hv. reflexivity.
Qed.

Lemma details_call_facts (api_key : string) (pid : pyval) (e : env) (h : list event) :
  let result := get_detailed_info_v1 api_key pid default_retries e h in
  Forall (enrich_event api_key) (snd result)
  /\ count_gets (snd result) <= 3
  /\ filter is_progress (snd result) = []
  /\ transport_failure (fst result).
Proof.
  cbn zeta. unfold get_detailed_info_v1.
  pose proof (details_attempts_trace (Z.to_nat default_retries) (PLACES_DETAILS_URL_TPL pid)
                (details_headers api_key) e h) as Htr.
  repeat split.
  - eapply Forall_impl; [|exact Htr]. intros ev [->| ->]; cbn; [|reflexivity].
    split; [reflexivity | eexists; reflexivity].
  - exact (details_attempts_gets _ _ e 3 h).
  - induction Htr as [|ev tr [->| ->] _ IH]; cbn; auto.
  - apply details_attempts_outcome.
Qed.

Lemma enrich_step_ok (i total : Z) (b : dict) (dv : pyval) (ts : string) (rq : dict * Q) :
  enrich_step i total b dv ts = Ok rq ->
  snd rq = (inject_Z i / inject_Z total)%Q
  /\ exists d, dv = VDict d /\ detailed_record d b ts = Ok (fst rq).
Proof.
  unfold enrich_step, truediv. destruct dv; cbn -[detailed_record]; try discriminate.
  destruct (detailed_record d b ts) as [row|x| |] eqn:Erow; cbn -[detailed_record];
    try discriminate.
  destruct (total =? 0); cbn -[detailed_record]; [discriminate|].
  intros [= <-]. split; [reflexivity|]. exists d. split; [reflexivity | exact Erow].
Qed.

Lemma detailed_record_exn (d b : dict) (ts : string) (x : exn) :
  keys b = search_keys -> detailed_record d b ts = Raise x -> x = AttributeError.
Proof.
  intros Hb. unfold detailed_record.
  rewrite !(subscript_search_key b _ Hb) by (cbn; tauto).
  destruct (py_or (get d "displayName") (VDict [])); cbn;
    try (intros [= <-]; reflexivity).
  destruct (truthy (get d0 "text")); cbn; discriminate.
Qed.

Lemma enrich_step_exn (i total : Z) (b : dict) (dv : pyval) (ts : string) (x : exn) :
  total <> 0 -> keys b = search_keys ->
  enrich_step i total b dv ts = Raise x -> x = AttributeError.
Proof.
  intros Ht Hb. unfold enrich_step, truediv.
  destruct dv; cbn -[detailed_record]; try (intros [= <-]; reflexivity).
  destruct (detailed_record d b ts) as [row|y| |] eqn:Erow; cbn; try discriminate.
  - destruct (Z.eqb_spec total 0); [contradiction | discriminate].
  - intros [= <-]. exact (detailed_record_exn d b ts y Hb Erow).
Qed.

Lemma count_gets_app (t1 t2 : list event) :
  count_gets (t1 ++ t2) = count_gets t1 + count_gets t2.
Proof. unfold count_gets. rewrite filter_app, length_app. lia. Qed.

Lemma enrich_loop_more (api_key : string) (e : env) (total : Z) :
  forall rest i enriched h,
    let result := enrich_loop api_key total i rest enriched e h in
    Forall (enrich_event api_key) (snd result)
    /\ count_gets (snd result) <= 3 * Z.of_nat (length rest)
    /\ (forall rs, fst result = Ok rs ->
        filter is_progress (snd result) = progress_updates total i (length rest))
    /\ (total <> 0 -> Forall (fun b => keys b = search_keys) rest ->
        forall x, fst result = Raise x -> enrich_exn x).
Proof.
  induction rest as [|b rest IH]; intros i enriched h; cbn zeta.
  { cbn. repeat split; try constructor; try lia; try discriminate. }
  rewrite enrich_loop_cons.
  assert (Hnil : Forall (enrich_event api_key) []) by constructor.
  assert (Hlen : 0 <= 3 * Z.of_nat (length (b :: rest))) by lia.
  destruct (subscript b "place_id") as [pid|x| |] eqn:Epid.
  2-4: cbn [fst snd]; repeat split; try assumption; try discriminate.
  2:{ intros Ht Hall y [= <-]. apply Forall_cons_iff in Hall as [Hb _].
      rewrite (subscript_search_key b _ Hb) in Epid by (cbn; tauto). discriminate. }
  pose proof (details_call_facts api_key pid e h) as (D1 & D2 & D3 & D4).
  destruct (get_detailed_info_v1 api_key pid default_retries e h) as [o1 t1].
  cbn [fst snd] in D1, D2, D3, D4. cbn [length] in *.
  destruct o1 as [dv|x| |]; cbn [transport_failure] in D4; try contradiction.
  2:{ cbn [fst snd]. repeat split; try assumption; try discriminate; [lia|].
      intros _ _ y [= <-]. destruct D4 as [->| ->]; [left | right; left]; reflexivity. }
  destruct (enrich_step i total b dv (utcnow e (h ++ t1)%list)) as [rq|x| |] eqn:Estep.
  - cbn zeta. destruct (enrich_step_ok _ _ _ _ _ _ Estep) as (Hq & _).
    specialize (IH (i + 1) (enriched ++ [fst rq])%list
                   (h ++ t1 ++ [EvProgress (snd rq) (progress_caption i total)])%list).
    cbn zeta in IH.
    destruct (enrich_loop api_key total (i + 1) rest (enriched ++ [fst rq])%list e _)
      as [o2 t2].
    cbn [fst snd] in *. destruct IH as (I1 & I2 & I3 & I4). repeat split.
    + apply Forall_app. split; [exact D1|]. constructor; [exact I | exact I1].
    + rewrite count_gets_app. unfold count_gets in *. cbn [filter is_get length]. lia.
    + intros rs Ers. rewrite filter_app, D3. cbn [app filter is_progress progress_updates].
      rewrite (I3 rs Ers), Hq. reflexivity.
    + intros Ht Hall x Ex. apply Forall_cons_iff in Hall as [Hb Hrest].
      exact (I4 Ht Hrest x Ex).
  - cbn [fst snd]. repeat split; try assumption; try discriminate; [lia|].
    intros Ht Hall y [= <-]. apply Forall_cons_iff in Hall as [Hb _].
    right; right. exact (enrich_step_exn _ _ _ _ _ _ Ht Hb Estep).
  - cbn [fst snd]. repeat split; try assumption; try discriminate. lia.
  - cbn [fst snd]. repeat split; try assumption; try discriminate. lia.
Qed.

Lemma enrich_eq (api_key : string) (b : dict) (rest : list dict) (e : env) (h : list event) :
  enrich_with_details_v1 api_key (b :: rest) e h =
  let start := EvProgressNew 0 "Fetching place details…" in
  let (o, t) := enrich_loop api_key (Z.of_nat (length (b :: rest))) 1 (b :: rest) []
                            e (h ++ [start])%list in
  match o with
  | Ok enriched => (Ok enriched, (start :: t ++ [EvProgressEmpty])%list)
  | Raise x => (Raise x, start :: t)
  | Halt => (Halt, start :: t)
  | Diverge => (Diverge, start :: t)
  end.
Proof.
  unfold enrich_with_details_v1. cbn [bind Monad_M emit]. cbn zeta.
  destruct (enrich_loop api_key (Z.of_nat (length (b :: rest))) 1 (b :: rest) [] e _)
    as [o t].
  destruct o; cbn [app]; rewrite ?app_nil_r; reflexivity.
Qed.

Lemma detailed_record_shape (d b : dict) (ts : string) (row : dict) :
  detailed_record d b ts = Ok row ->
  keys row = record_keys
  /\ get row "Phone (national)" <> VNone /\ get row "Phone (intl)" <> VNone
  /\ exists pid, subscript b "place_id" = Ok pid
                 /\ get row "Place ID" = get_default d "id" pid.
Proof.
  unfold detailed_record.
  destruct (as_dict (py_or (get d "displayName") (VDict []))) as [display|x| |];
    cbn; try discriminate.
  destruct (truthy (get display "text")); cbn;
    repeat match goal with
           | |- context [subscript b ?k] => destruct (subscript b k); cbn; try discriminate
           end;
    intros [= <-]; (split; [reflexivity|]);
    (split; [apply py_or_not_none|]); (split; [apply py_or_not_none|]);
    eexists; split; reflexivity.
Qed.

(** X10. When the enrichment returns, it returns one record per place, in
    the order of the places.  Each record has the twelve columns Name,
    Address, Rating, User Ratings, Business Status, Phone (national),
    Phone (intl), Phone, Website, Google Maps URL, Place ID, Fetched At, in
    this order; its two phone-format columns are never [None]; and its
    Place ID is the id of the details response, or the place id of the
    SearchResult when the response has none. *)
Theorem enriched_records_shape (e : env) (h : list event) (api_key : string)
    (raw_places enriched : list dict) :
  fst (enrich_with_details_v1 api_key raw_places e h) = Ok enriched ->
  length enriched = length raw_places
  /\ Forall2 (fun b row =>
                keys row = record_keys
                /\ get row "Phone (national)" <> VNone /\ get row "Phone (intl)" <> VNone
                /\ exists d pid,
                     details_answer api_key e b d
                     /\ subscript b "place_id" = Ok pid
                     /\ get row "Place ID" = get_default d "id" pid)
             raw_places enriched.
Proof.
  intros E.
  pose proof (enrich_spec api_key e raw_places h) as H.
  unfold wp, enrich_post in H. destruct H as (_ & _ & _ & _ & _ & H6).
  destruct (H6 enriched E) as (rows & -> & Hrows). cbn [app].
  split; [symmetry; exact (Forall2_length Hrows)|].
  eapply Forall2_impl; [|exact Hrows].
  intros b row (d & ts & Hd & Hrow).
  destruct (detailed_record_shape d b ts row Hrow) as (K & N1 & N2 & pid & Hpid & Hid).
  repeat split; auto. exists d, pid. auto.
Qed.

Lemma enriched_records_shape_witness :
  let enriched := match fst (enrich_with_details_v1 "key" no_site_rows
                               (mock_env scenario_details) []) with
                  | Ok rows => rows
                  | _ => []
                  end in
  length enriched = 3%nat
  /\ map (fun row => get row "Place ID") enriched = [VStr "p1"; VStr "p3"; VStr "p5"].
Proof.
  cbn zeta. split.
  - apply (enriched_records_shape (mock_env scenario_details) [] "key" no_site_rows).
    vm_compute. reflexivity.
  - reflexivity.
Defined.

Lemma enrich_more (api_key : string) (e : env) (raw_places : list dict) (h : list event) :
  let result := enrich_with_details_v1 api_key raw_places e h in
  Forall (enrich_event api_key) (snd result)
  /\ count_gets (snd result) <= 3 * Z.of_nat (length raw_places)
  /\ (forall rs, fst result = Ok rs ->
      filter is_progress (snd result)
      = match raw_places with
        | [] => []
        | _ => (EvProgressNew 0 "Fetching place details…"
                :: progress_updates (Z.of_nat (length raw_places)) 1 (length raw_places)
                ++ [EvProgressEmpty])%list
        end)
  /\ (Forall (fun b => keys b = search_keys) raw_places ->
      forall x, fst result = Raise x -> enrich_exn x).
Proof.
  cbn zeta. destruct raw_places as [|b rest].
  { cbn. repeat split; try constructor; try lia; discriminate. }
  rewrite enrich_eq. cbn zeta.
  pose proof (enrich_loop_more api_key e (Z.of_nat (length (b :: rest))) (b :: rest) 1 []
                (h ++ [EvProgressNew 0 "Fetching place details…"])%list) as H.
  cbn zeta in H.
  destruct (enrich_loop api_key (Z.of_nat (length (b :: rest))) 1 (b :: rest) [] e _) as [o t].
  cbn [fst snd] in H. destruct H as (H1 & H2 & H3 & H4).
  assert (Hn : Z.of_nat (length (b :: rest)) <> 0) by (cbn [length]; lia).
  destruct o as [enriched|x| |]; cbn [fst snd]; repeat split; try discriminate.
  - constructor; [exact I|]. apply Forall_app. split; [exact H1 | repeat constructor].
  - unfold count_gets in *. cbn [filter is_get]. rewrite filter_app, length_app.
    cbn [filter is_get length] in *. lia.
  - intros rs [= <-]. cbn [filter is_progress]. rewrite filter_app, (H3 enriched eq_refl).
    reflexivity.
  - constructor; [exact I | exact H1].
  - unfold count_gets in *. cbn [filter is_get]. exact H2.
  - intros Hall y [= <-]. exact (H4 Hn Hall x eq_refl).
  - constructor; [exact I | exact H1].
  - unfold count_gets in *. cbn [filter is_get]. exact H2.
  - constructor; [exact I | exact H1].
  - unfold count_gets in *. cbn [filter is_get]. exact H2.
Qed.

(** X11. When the enrichment of [n] places returns, the progress bar has
    been created at zero, updated exactly [n] times with the fractions 1/n,
    2/n, ..., n/n in this order, and emptied at the end; for no place at all
    there is no progress bar. *)
Theorem enrich_progress_sequence (e : env) (h : list event) (api_key : string)
    (raw_places enriched : list dict) :
  fst (enrich_with_details_v1 api_key raw_places e h) = Ok enriched ->
  filter is_progress (snd (enrich_with_details_v1 api_key raw_places e h))
  = match raw_places with
    | [] => []
    | _ => (EvProgressNew 0 "Fetching place details…"
            :: progress_updates (Z.of_nat (length raw_places)) 1 (length raw_places)
            ++ [EvProgressEmpty])%list
    end.
Proof.
  intros E.
  exact (proj1 (proj2 (proj2 (enrich_more api_key e raw_places h))) enriched E).
Qed.

Lemma enrich_progress_sequence_witness :
  filter is_progress (snd (enrich_with_details_v1 "key" no_site_rows
                             (mock_env scenario_details) []))
  = [ EvProgressNew 0 "Fetching place details…";
      EvProgress (inject_Z 1 / inject_Z 3) (progress_caption 1 3);
      EvProgress (inject_Z 2 / inject_Z 3) (progress_caption 2 3);
      EvProgress (inject_Z 3 / inject_Z 3) (progress_caption 3 3);
      EvProgressEmpty ].
Proof.
  eapply (enrich_progress_sequence (mock_env scenario_details) [] "key" no_site_rows).
  vm_compute. reflexivity.
Defined.

(** X12. An enrichment costs at most three details requests per place.
    All it ever does is send GET requests for place details with the
    details headers (which hold the caller's API key), pause for 1.2 s and
    drive the progress bar: it sends no search request and shows no
    message. *)
Theorem enrich_cost (e : env) (h : list event) (api_key : string) (raw_places : list dict) :
  count_gets (snd (enrich_with_details_v1 api_key raw_places e h))
  <= 3 * Z.of_nat (length raw_places)
  /\ Forall (enrich_event api_key) (snd (enrich_with_details_v1 api_key raw_places e h))
  /\ In ("X-Goog-Api-Key", api_key) (details_headers api_key).
Proof.
  pose proof (enrich_more api_key e raw_places h) as (H1 & H2 & _).
  split; [exact H2|]. split; [exact H1 | left; reflexivity].
Qed.

Lemma detailed_record_degraded (b : dict) (ts : string) :
  keys b = search_keys -> detailed_record [] b ts = Ok (degraded_record b ts).
Proof.
  intros Hb. unfold detailed_record.
  rewrite !(subscript_search_key b _ Hb) by (cbn; tauto). reflexivity.
Qed.

Lemma details_down_call (api_key : string) (pid : pyval) (e : env) (h : list event) :
  details_down e ->
  get_detailed_info_v1 api_key pid default_retries e h
  = (Ok (VDict []),
     failed_attempts (EvGet (PLACES_DETAILS_URL_TPL pid) (details_headers api_key)) 3).
Proof.
  intros Hdown. unfold get_detailed_info_v1, default_retries.
  apply (details_attempts_all_fail _ _ e 3). intros j _. apply Hdown.
Qed.

Lemma enrich_loop_down (api_key : string) (e : env) (total : Z) :
  details_down e -> total <> 0 ->
  forall rest i enriched h,
    Forall (fun b => keys b = search_keys) rest ->
    exists rows tr,
      enrich_loop api_key total i rest enriched e h = (Ok (enriched ++ rows)%list, tr)
      /\ Forall2 (fun b row => exists ts, row = degraded_record b ts) rest rows
      /\ count_gets tr = 3 * Z.of_nat (length rest).
Proof.
  intros Hdown Ht. induction rest as [|b rest IH]; intros i enriched h Hall.
  - exists [], []. rewrite app_nil_r. repeat split. constructor.
  - apply Forall_cons_iff in Hall as [Hb Hrest].
    rewrite enrich_loop_cons, (subscript_search_key b _ Hb) by (cbn; tauto).
    rewrite (details_down_call api_key _ e h Hdown).
    unfold enrich_step, truediv. cbn [as_dict bind Monad_outcome ret].
    rewrite (detailed_record_degraded b _ Hb).
    destruct (Z.eqb_spec total 0) as [E|_]; [contradiction|].
    cbn [bind Monad_outcome ret fst snd]. cbn zeta.
    match goal with
    | |- context [enrich_loop api_key total (i + 1) rest ?en e ?hh] =>
        destruct (IH (i + 1) en hh Hrest) as (rows & tr & -> & Hrows & Hc)
    end.
    eexists (_ :: rows). eexists. split; [rewrite <- app_assoc; reflexivity|].
    split; [constructor; [eexists; reflexivity | exact Hrows]|].
    rewrite count_gets_app. unfold count_gets in *.
    cbn [failed_attempts filter is_get length]. lia.
Qed.

(** X13. When the details service only answers with HTTP errors, the
    enrichment of SearchResults still returns: every place costs exactly
    three requests and gets a record made of its search data alone, with
    empty phone formats, Phone N/A, Google Maps URL N/A, its own place id and
    its own website (or the empty text). *)
Theorem enrich_details_down (e : env) (h : list event) (api_key : string)
    (raw_places : list dict) :
  details_down e ->
  Forall (fun b => keys b = search_keys) raw_places ->
  exists enriched tr,
    enrich_with_details_v1 api_key raw_places e h = (Ok enriched, tr)
    /\ Forall2 (fun b row => exists ts, row = degraded_record b ts) raw_places enriched
    /\ count_gets tr = 3 * Z.of_nat (length raw_places).
Proof.
  intros Hdown Hall. destruct raw_places as [|b rest].
  { exists [], []. repeat split. constructor. }
  rewrite enrich_eq. cbn zeta.
  destruct (enrich_loop_down api_key e (Z.of_nat (length (b :: rest))) Hdown
              ltac:(cbn [length]; lia) (b :: rest) 1 []
              (h ++ [EvProgressNew 0 "Fetching place details…"])%list Hall)
    as (rows & tr & -> & Hrows & Hc).
  exists rows. eexists. split; [reflexivity|]. split; [exact Hrows|].
  unfold count_gets in *. cbn [filter is_get]. rewrite filter_app, length_app.
  cbn [filter is_get length] in *. lia.
Qed.

Lemma down_env_details_down : details_down down_env.
Proof. intros h. exists (http_error 503). split; [reflexivity | discriminate]. Qed.

Lemma enrich_details_down_witness :
  exists enriched tr,
    enrich_with_details_v1 "key" no_site_rows down_env [] = (Ok enriched, tr)
    /\ Forall2 (fun b row => exists ts, row = degraded_record b ts) no_site_rows enriched
    /\ count_gets tr = 3 * Z.of_nat (length no_site_rows).
Proof.
  apply (enrich_details_down down_env [] "key" no_site_rows down_env_details_down).
  repeat constructor.
Defined.

(** ** More on the run *)

Lemma run_eq (api_key query : string) (lat lng : Q) (radius_m max_pages : Z)
    (only_no_website : bool) (e : env) (h : list event) :
  run api_key query lat lng radius_m max_pages only_no_website e h =
  if String.eqb api_key ""
  then (Halt, [EvMessage Error "Please add your Google Maps API key."])
  else
    let (o1, t1) := fetch_businesses_v1 api_key query lat lng radius_m max_pages e h in
    match o1 with
    | Ok places =>
        let msgs := run_messages only_no_website places in
        match kept only_no_website places with
        | [] => (Halt, (t1 ++ msgs ++ [no_places_warning])%list)
        | _ :: _ =>
            let (o2, t2) := enrich_with_details_v1 api_key (kept only_no_website places)
                                                   e (h ++ t1 ++ msgs)%list in
            match o2 with
            | Ok enriched =>
                (Ok (final only_no_website enriched),
                 (t1 ++ msgs ++ t2 ++ delivery e (final only_no_website enriched))%list)
            | Raise x => (Raise x, (t1 ++ msgs ++ t2)%list)
            | Halt => (Halt, (t1 ++ msgs ++ t2)%list)
            | Diverge => (Diverge, (t1 ++ msgs ++ t2)%list)
            end
        end
    | Raise x => (Raise x, t1)
    | Halt => (Halt, t1)
    | Diverge => (Diverge, t1)
    end.
Proof.
  unfold run, st_message, emit, st_stop, installed. cbn [bind Monad_M ret].
  destruct (String.eqb api_key ""); [reflexivity|].
  cbn [app]. rewrite app_nil_r.
  destruct (fetch_businesses_v1 api_key query lat lng radius_m max_pages e h) as [o1 t1].
  destruct o1 as [places|x| |]; try reflexivity.
  unfold run_messages, kept, final.
  destruct only_no_website; cbn [app]; rewrite ?app_nil_r.
  - set (ks := filter _ places).
    destruct ks as [|b rest]; [reflexivity|].
    cbn [app]. rewrite ?app_nil_r, <- ?app_assoc. cbn [app].
    destruct (enrich_with_details_v1 api_key (b :: rest) e _) as [o2 t2].
    destruct o2; cbn [app]; rewrite ?app_nil_r; reflexivity.
  - destruct places as [|b rest]; [reflexivity|].
    cbn [app]. rewrite ?app_nil_r, <- ?app_assoc. cbn [app].
    destruct (enrich_with_details_v1 api_key (b :: rest) e _) as [o2 t2].
    destruct o2; cbn [app]; rewrite ?app_nil_r; reflexivity.
Qed.

Lemma fetch_keys (e : env) (h : list event) (api_key query : string) (lat lng : Q)
    (radius_m max_pages : Z) (results : list dict) :
  fst (fetch_businesses_v1 api_key query lat lng radius_m max_pages e h) = Ok results ->
  Forall (fun row => keys row = search_keys) results.
Proof.
  intros E.
  pose proof (fetch_spec e h api_key query lat lng radius_m max_pages) as H.
  unfold wp, fetch_post in H. destruct H as (_ & _ & _ & _ & _ & H6).
  rewrite (H6 results E). cbn [app]. apply Forall_forall. intros row Hin.
  apply in_flat_map in Hin as (r & _ & Hrow). exact (rows_of_response_keys r row Hrow).
Qed.

Lemma kept_keys (only_no_website : bool) (places : list dict) :
  Forall (fun row => keys row = search_keys) places ->
  Forall (fun row => keys row = search_keys) (kept only_no_website places).
Proof.
  intros H. destruct only_no_website; cbn; [|exact H].
  rewrite Forall_forall in *. intros row Hin. apply filter_In in Hin as [Hin _]. auto.
Qed.

Lemma run_shape_holds (api_key query : string) (lat lng : Q) (radius_m max_pages : Z)
    (only_no_website : bool) (e : env) (h : list event) :
  run_shape api_key query lat lng radius_m max_pages only_no_website e h
            (run api_key query lat lng radius_m max_pages only_no_website e h).
Proof.
  rewrite run_eq.
  destruct (String.eqb_spec api_key "") as [Ek|Ek]; [apply run_no_key; exact Ek|].
  pose proof (fetch_spec e h api_key query lat lng radius_m max_pages) as Hf.
  unfold wp, fetch_post in Hf. destruct Hf as (F1 & F2 & _).
  assert (Fev : Forall (search_event (text_search_headers api_key)
                                     (search_payload query lat lng radius_m None))
                       (snd (fetch_businesses_v1 api_key query lat lng radius_m max_pages e h)))
    by apply fetch_events.
  assert (Fex : forall x,
             fst (fetch_businesses_v1 api_key query lat lng radius_m max_pages e h) = Raise x ->
             search_exn x)
    by (intros x; apply fetch_exn).
  pose proof (fetch_keys e h api_key query lat lng radius_m max_pages) as Fk.
  destruct (fetch_businesses_v1 api_key query lat lng radius_m max_pages e h)
    as [o1 t1] eqn:Ef.
  cbn [fst snd] in *.
  destruct o1 as [places|x| |]; try contradiction.
  2:{ apply run_search_failed; [exact Ek | exact Ef | exact (Fex x eq_refl) | exact Fev]. }
  cbn zeta. specialize (Fk places eq_refl).
  destruct (kept only_no_website places) as [|b rest] eqn:Ek2.
  { apply (run_nothing_left _ _ _ _ _ _ _ _ _ places t1);
      [exact Ek | exact Ef | exact Fev | exact Ek2]. }
  rewrite <- Ek2.
  assert (Hne : kept only_no_website places <> []) by (rewrite Ek2; discriminate).
  set (hh := (h ++ t1 ++ run_messages only_no_website places)%list).
  pose proof (enrich_spec api_key e (kept only_no_website places) hh) as He.
  unfold wp, enrich_post in He. destruct He as (_ & E2 & E3 & _ & _ & E6).
  pose proof (enrich_more api_key e (kept only_no_website places) hh) as (M1 & _ & _ & M4).
  destruct (enrich_with_details_v1 api_key (kept only_no_website places) e hh)
    as [o2 t2] eqn:Een.
  cbn [fst snd] in *.
  destruct o2 as [enriched|x| |]; try contradiction.
  - apply (run_done _ _ _ _ _ _ _ _ _ places t1 enriched t2);
      [exact Ek | exact Ef | exact Fev | exact Hne | exact Een | | exact M1].
    destruct (E6 enriched eq_refl) as (rows & -> & Hrows). cbn [app].
    symmetry. exact (Forall2_length Hrows).
  - apply (run_enrich_failed _ _ _ _ _ _ _ _ _ places t1 x t2);
      [exact Ek | exact Ef | exact Fev | exact Hne | exact Een | | exact M1].
    apply (M4 (kept_keys _ _ Fk) x eq_refl).
Qed.

Lemma search_event_facts (api_key : string) (payload : search_body) (tr : list event) :
  Forall (search_event (text_search_headers api_key) payload) tr ->
  Forall (fun ev => is_get ev = false) tr
  /\ filter is_delivery tr = []
  /\ Forall (carries_key api_key) tr.
Proof.
  induction 1 as [|ev tr Hev _ (I1 & I2 & I3)]; [repeat split; constructor|].
  destruct ev; cbn in Hev; try contradiction; repeat split; cbn; auto; try (constructor; auto).
  - destruct Hev as (_ & -> & _). right; left; reflexivity.
  - exact I.
  - exact I.
Qed.

Lemma enrich_event_facts (api_key : string) (tr : list event) :
  Forall (enrich_event api_key) tr ->
  Forall (fun ev => is_post ev = false) tr
  /\ filter is_delivery tr = []
  /\ Forall (carries_key api_key) tr.
Proof.
  induction 1 as [|ev tr Hev _ (I1 & I2 & I3)]; [repeat split; constructor|].
  destruct ev; cbn in Hev; try contradiction; repeat split; cbn; auto;
    try (constructor; auto); try exact I.
  destruct Hev as (-> & _). left; reflexivity.
Qed.

Lemma run_messages_facts (api_key : string) (only_no_website : bool) (places : list dict) :
  let msgs := run_messages only_no_website places in
  Forall (fun ev => is_post ev = false) msgs
  /\ Forall (fun ev => is_get ev = false) msgs
  /\ filter is_delivery msgs = []
  /\ Forall (carries_key api_key) msgs.
Proof.
  cbn zeta. unfold run_messages. destruct only_no_website; cbn; repeat split;
    repeat constructor.
Qed.

Lemma filter_none {A : Type} (f : A -> bool) (l : list A) :
  Forall (fun x => f x = false) l -> filter f l = [].
Proof. induction 1 as [|x l Hx _ IH]; cbn; [|rewrite Hx]; auto. Qed.

Ltac run_cases api_key query lat lng radius_m max_pages only e h :=
  let H := fresh "Hshape" in
  let res := fresh "res" in
  let E := fresh "Eres" in
  pose proof (run_shape_holds api_key query lat lng radius_m max_pages only e h) as H;
  remember (run api_key query lat lng radius_m max_pages only e h) as res eqn:E;
  destruct H; clear E; cbn [fst snd].

(** X14. A run stops the script in exactly two cases: when the API key is
    empty, and when the search returned and no place is left to enrich.  A
    stopped run has sent no details request and has shown neither table nor
    download; with an empty key it has done nothing but show the error. *)
Theorem run_stops (api_key query : string) (lat lng : Q) (radius_m max_pages : Z)
    (only_no_website : bool) (e : env) (h : list event) :
  let result := run api_key query lat lng radius_m max_pages only_no_website e h in
  (fst result = Halt <->
     api_key = ""
     \/ exists places,
          fst (fetch_businesses_v1 api_key query lat lng radius_m max_pages e h) = Ok places
          /\ kept only_no_website places = [])
  /\ (fst result = Halt ->
      count_gets (snd result) = 0 /\ filter is_delivery (snd result) = [])
  /\ (api_key = "" ->
      result = (Halt, [EvMessage Error "Please add your Google Maps API key."])).
Proof.
  cbn zeta.
  run_cases api_key query lat lng radius_m max_pages only_no_website e h.
  - repeat split; auto.
  - match goal with Hf : fetch_businesses_v1 _ _ _ _ _ _ _ _ = _ |- _ => rewrite Hf end.
    cbn [fst]. repeat split; try discriminate; try contradiction.
    intros [E|(places & E & _)]; [contradiction | discriminate].
  - match goal with Hf : fetch_businesses_v1 _ _ _ _ _ _ _ _ = _ |- _ => rewrite Hf end.
    cbn [fst].
    match goal with Hs : Forall (search_event _ _) _ |- _ =>
      destruct (search_event_facts _ _ _ Hs) as (S1 & S2 & _) end.
    destruct (run_messages_facts api_key only_no_website places) as (_ & M2 & M3 & _).
    repeat split; try contradiction.
    + intros _. right. exists places. auto.
    + unfold count_gets. rewrite !filter_app.
      rewrite (filter_none _ _ S1), (filter_none _ _ M2). reflexivity.
    + rewrite !filter_app, S2, M3. reflexivity.
  - match goal with Hf : fetch_businesses_v1 _ _ _ _ _ _ _ _ = _ |- _ => rewrite Hf end.
    cbn [fst]. repeat split; try discriminate; try contradiction.
    intros [E|(ps & [= <-] & E)]; contradiction.
  - match goal with Hf : fetch_businesses_v1 _ _ _ _ _ _ _ _ = _ |- _ => rewrite Hf end.
    cbn [fst]. repeat split; try discriminate; try contradiction.
    intros [E|(ps & [= <-] & E)]; contradiction.
Qed.

Lemma run_stops_witness :
  (count_gets (snd (run "key" "plumber" 0 0 1000 3 true site_env [])) = 0
   /\ filter is_delivery (snd (run "key" "plumber" 0 0 1000 3 true site_env [])) = [])
  /\ run "" "plumber" 0 0 1000 3 true site_env []
     = (Halt, [EvMessage Error "Please add your Google Maps API key."]).
Proof.
  split.
  - apply (proj1 (proj2 (run_stops "key" "plumber" 0 0 1000 3 true site_env []))).
    vm_compute. reflexivity.
  - apply (proj2 (proj2 (run_stops "" "plumber" 0 0 1000 3 true site_env []))). reflexivity.
Defined.


(** X16. In every run the search requests come before the details
    requests: the events split into a first part without any GET and a
    second part without any POST.  And every request of the run, of
    either kind, carries the API key in its headers. *)
Theorem run_phases (api_key query : string) (lat lng : Q) (radius_m max_pages : Z)
    (only_no_website : bool) (e : env) (h : list event) :
  let tr := snd (run api_key query lat lng radius_m max_pages only_no_website e h) in
  (exists t1 t2,
     tr = (t1 ++ t2)%list
     /\ Forall (fun ev => is_get ev = false) t1
     /\ Forall (fun ev => is_post ev = false) t2)
  /\ Forall (carries_key api_key) tr.
Proof.
  cbn zeta.
  run_cases api_key query lat lng radius_m max_pages only_no_website e h;
    try match goal with Hs : Forall (search_event _ _) _ |- _ =>
          destruct (search_event_facts _ _ _ Hs) as (S1 & _ & S3) end;
    try match goal with Hs : Forall (enrich_event _) _ |- _ =>
          destruct (enrich_event_facts _ _ Hs) as (N1 & _ & N3) end;
    try destruct (run_messages_facts api_key only_no_website places) as (M1 & _ & _ & M4).
  - split; [exists [], [EvMessage Error "Please add your Google Maps API key."]|];
      repeat split; repeat constructor.
  - split; [exists t1, []|]; repeat split; auto. symmetry. apply app_nil_r.
  - split; [eexists t1, _; split; [reflexivity|]; split; [exact S1|]|].
    + apply Forall_app. split; [exact M1 | repeat constructor].
    + repeat (apply Forall_app; split); auto. repeat constructor.
  - split; [eexists t1, _; split; [reflexivity|]; split; [exact S1|]|].
    + apply Forall_app. split; [exact M1 | exact N1].
    + repeat (apply Forall_app; split); auto.
  - split; [eexists t1, _; split; [reflexivity|]; split; [exact S1|]|].
    + repeat (apply Forall_app; split); auto. repeat constructor.
    + repeat (apply Forall_app; split); auto. repeat constructor.
Qed.

(** X17. The table is shown and the file is offered exactly when the run
    completes, and then once each, as the last thing but the caption: the
    rows shown are the rows returned, and the file is the export of these
    same rows by the installed engines. *)
Theorem run_delivery (api_key query : string) (lat lng : Q) (radius_m max_pages : Z)
    (only_no_website : bool) (e : env) (h : list event) :
  let result := run api_key query lat lng radius_m max_pages only_no_website e h in
  (forall df, fst result = Ok df ->
     exists pre, snd result = (pre ++ delivery e df)%list /\ filter is_delivery pre = [])
  /\ ((forall df, fst result <> Ok df) -> filter is_delivery (snd result) = []).
Proof.
  cbn zeta.
  run_cases api_key query lat lng radius_m max_pages only_no_website e h;
    try match goal with Hs : Forall (search_event _ _) _ |- _ =>
          destruct (search_event_facts _ _ _ Hs) as (_ & S2 & _) end;
    try match goal with Hs : Forall (enrich_event _) _ |- _ =>
          destruct (enrich_event_facts _ _ Hs) as (_ & N2 & _) end;
    try destruct (run_messages_facts api_key only_no_website places) as (_ & _ & M3 & _);
    (split; [intros df E; try discriminate E | intros Hno]);
    rewrite ?filter_app, ?S2, ?M3, ?N2; try reflexivity.
  - injection E as <-.
    exists (t1 ++ run_messages only_no_website places ++ t2)%list.
    split; [rewrite <- !app_assoc; reflexivity|].
    rewrite !filter_app, S2, M3, N2. reflexivity.
  - exfalso. exact (Hno _ eq_refl).
Qed.

Lemma run_delivery_witness :
  let result := run "key" "plumber" 0 0 1000 3 true scenario_env [] in
  let df := match fst result with Ok df => df | _ => [] end in
  exists pre, snd result = (pre ++ delivery scenario_env df)%list
              /\ filter is_delivery pre = [].
Proof.
  cbn zeta.
  apply (proj1 (run_delivery "key" "plumber" 0 0 1000 3 true scenario_env [])).
  vm_compute. reflexivity.
Defined.

(** X18. A run that completes had at least one place to enrich, and its
    table has at most as many rows as places were enriched, which are at
    most as many as the search returned; without the "only no-website"
    request the table has exactly one row per place found. *)
Theorem run_sizes (api_key query : string) (lat lng : Q) (radius_m max_pages : Z)
    (only_no_website : bool) (e : env) (h : list event) (df : list dict) :
  let places := searched e h api_key query lat lng radius_m max_pages in
  fst (run api_key query lat lng radius_m max_pages only_no_website e h) = Ok df ->
  kept only_no_website places <> []
  /\ (length df <= length (kept only_no_website places) <= length places)%nat
  /\ (only_no_website = false -> length df = length places).
Proof.
  cbn zeta. unfold searched.
  run_cases api_key query lat lng radius_m max_pages only_no_website e h;
    intros E; try discriminate E.
  match goal with Hf : fetch_businesses_v1 _ _ _ _ _ _ _ _ = _ |- _ => rewrite Hf end.
  cbn [fst]. injection E as <-.
  match goal with Hl : length enriched = _ |- _ => rename Hl into Hlen end.
  split; [assumption|].
  destruct only_no_website; cbn [final kept] in *.
  - pose proof (filter_length_le (fun row => negb (has_site (get row "Website"))) enriched).
    pose proof (filter_length_le (fun p => negb (has_site (get p "website"))) places).
    split; [lia | discriminate].
  - split; [lia | intros _; exact Hlen].
Qed.

Lemma run_sizes_witness :
  let df := match fst (run "key" "plumber" 0 0 1000 3 true scenario_env []) with
            | Ok df => df
            | _ => []
            end in
  let places := searched scenario_env [] "key" "plumber" 0 0 1000 3 in
  kept true places <> []
  /\ (length df <= length (kept true places) <= length places)%nat
  /\ (true = false -> length df = length places).
Proof.
  cbn zeta. apply (run_sizes "key" "plumber" 0 0 1000 3 true scenario_env []).
  vm_compute. reflexivity.
Defined.


(** ** Login and API key *)

(** ** The case of ASCII letters *)

Lemma text_starts (s : string) : is_text s = true -> starts_cont s = false.
Proof.
  unfold is_text. intros H. pose proof (chars_starts s) as Hs.
  destruct (chars s) as [|c cs]; [subst; reflexivity|]. destruct Hs as [<- _].
  cbn in H. apply andb_true_iff in H as [Hc _]. unfold decodes in Hc.
  destruct (code_point c) as [n|] eqn:E; [|discriminate].
  exact (proj1 (clean_starts _ (code_point_clean _ _ E))).
Qed.

Lemma is_cont_upper (b : ascii) : is_cont (ascii_upper_char b) = is_cont b.
Proof. each_ascii b; reflexivity. Qed.

Lemma starts_cont_upper (s : string) : starts_cont (ascii_upper s) = starts_cont s.
Proof. destruct s; [reflexivity|]. cbn. apply is_cont_upper. Qed.

Lemma chars_upper (s : string) : chars (ascii_upper s) = map ascii_upper (chars s).
Proof.
  induction s as [|b r IH]; [reflexivity|].
  change (ascii_upper (String b r)) with (String (ascii_upper_char b) (ascii_upper r)).
  rewrite !chars_cons, IH. destruct (chars r) as [|c cs]; [reflexivity|].
  cbn [map]. rewrite starts_cont_upper. destruct (starts_cont c); reflexivity.
Qed.

Lemma byte_same_for_lower (b : ascii) :
  decodes (String b "") = true ->
  same_for_lower (String b "") (String (ascii_upper_char b) "") = true.
Proof. each_ascii b; vm_compute; intros H; first [reflexivity | discriminate H]. Qed.

Lemma high_upper (c : string) (n : N) :
  code_point c = Some n -> (0x80 <= n)%N -> ascii_upper c = c.
Proof.
  assert (G : forall b, (0x80 <= N_of_ascii b)%N -> ascii_upper_char b = b).
  { intros b Hb. unfold ascii_upper_char.
    destruct (N.leb_spec 0x61 (N_of_ascii b)); destruct (N.leb_spec (N_of_ascii b) 0x7A);
      cbn [andb]; try reflexivity; lia. }
  intros H Hn.
  destruct (code_point_cases _ _ H)
    as [(a & -> & -> & Ha)|[(a & b & -> & Ha & Hb & _)|[(a & b & d & -> & Ha & Hb & Hd & _)
        |(a & b & d & e & -> & Ha & Hb & Hd & He & _)]]];
    rewrite ?is_cont_range in *; [lia| | |];
    unfold ascii_upper; cbn [map_bytes]; rewrite !G by lia; reflexivity.
Qed.

Lemma alike_upper (c : string) : decodes c = true -> alike c (ascii_upper c).
Proof.
  unfold decodes. destruct (code_point c) as [n|] eqn:E; [|discriminate]. intros _.
  destruct (N.ltb_spec n 0x80) as [Hn|Hn].
  - pose proof (code_point_ascii _ _ E Hn) as ->.
    assert (D : decodes (String (ascii_of_N n) "") = true) by (unfold decodes; rewrite E; reflexivity).
    pose proof (byte_same_for_lower _ D) as H. unfold same_for_lower in H.
    change (ascii_upper (String (ascii_of_N n) ""))
      with (String (ascii_upper_char (ascii_of_N n)) "").
    repeat (apply andb_true_iff in H; destruct H as [H ?]).
    repeat match goal with X : Bool.eqb _ _ = true |- _ => apply Bool.eqb_prop in X end.
    repeat split; try assumption.
    destruct (map_char to_lower (String (ascii_of_N n) "")) as [|x [|? ?]]; try discriminate;
      destruct (map_char to_lower (String (ascii_upper_char (ascii_of_N n)) "")) as [|y [|? ?]];
      try discriminate.
    match goal with X : String.eqb _ _ = true |- _ => apply String.eqb_eq in X; subst end.
    reflexivity.
  - rewrite (high_upper _ _ E Hn). repeat split.
Qed.

Lemma Forall2_weaken {A B : Type} (P Q : A -> B -> Prop) (l : list A) (l' : list B) :
  (forall a b, P a b -> Q a b) -> Forall2 P l l' -> Forall2 Q l l'.
Proof. intros H. induction 1; constructor; auto. Qed.

Lemma Forall2_rev {A B : Type} (P : A -> B -> Prop) (l : list A) (l' : list B) :
  Forall2 P l l' -> Forall2 P (rev l) (rev l').
Proof.
  induction 1 as [|a b l l' H _ IH]; [constructor|]. cbn.
  apply Forall2_app; [exact IH | constructor; [exact H | constructor]].
Qed.

Lemma drop_while_alike_all (p : string -> bool) (l l' : list string) :
  (forall c d, alike c d -> p d = p c) ->
  Forall2 alike l l' -> Forall2 alike (drop_while p l) (drop_while p l').
Proof.
  intros Hp. induction 1 as [|c d l l' H Hl IH]; [constructor|]. cbn. rewrite (Hp _ _ H).
  destruct (p c); [exact IH|]. constructor; assumption.
Qed.

Lemma trim_alike (l l' : list string) : Forall2 alike l l' -> Forall2 alike (trim l) (trim l').
Proof.
  intros H. unfold trim. apply Forall2_rev.
  apply drop_while_alike_all; [intros c d A; exact (proj1 A)|]. apply Forall2_rev.
  apply drop_while_alike_all; [intros c d A; exact (proj1 A) | exact H].
Qed.

Lemma at_word_end_alike (b b' a a' : list string) :
  Forall2 alike b b' -> Forall2 alike a a' -> at_word_end b' a' = at_word_end b a.
Proof.
  intros Hb Ha. unfold at_word_end.
  assert (Ig : forall c d, alike c d -> is_case_ignorable d = is_case_ignorable c)
    by (intros c d A; exact (proj1 (proj2 (proj2 A)))).
  pose proof (drop_while_alike_all _ _ _ Ig Hb) as Db.
  pose proof (drop_while_alike_all _ _ _ Ig Ha) as Da.
  destruct Db as [|c d ? ? Hc _]; [reflexivity|].
  rewrite (proj1 (proj2 Hc)). f_equal.
  destruct Da as [|x y ? ? Hx _]; [reflexivity|]. rewrite (proj1 (proj2 Hx)). reflexivity.
Qed.

Lemma lower_chars_alike (cs cs' : list string) :
  Forall2 alike cs cs' -> forall b b',
  Forall2 alike b b' -> lower_chars b' cs' = lower_chars b cs.
Proof.
  induction 1 as [|c d cs cs' H Hrest IH]; intros b b' Hb; [reflexivity|].
  cbn [lower_chars]. rewrite (IH (c :: b) (d :: b')) by (constructor; assumption).
  destruct H as (_ & _ & _ & H4 & H5). rewrite H4, H5, (at_word_end_alike _ _ _ _ Hb Hrest).
  reflexivity.
Qed.

Lemma chars_alike (s : string) :
  is_text s = true -> Forall2 alike (chars s) (chars (ascii_upper s)).
Proof.
  unfold is_text. rewrite chars_upper. intros H.
  induction (chars s) as [|c cs IH]; [constructor|]. cbn in H.
  apply andb_true_iff in H as [Hc Hcs]. cbn [map].
  constructor; [exact (alike_upper c Hc) | exact (IH Hcs)].
Qed.

(** Lower-casing after trimming does not see the case of ASCII letters. *)
Lemma lower_strip_upper (s : string) :
  is_text s = true -> lower (strip (ascii_upper s)) = lower (strip s).
Proof.
  intros H. unfold lower. rewrite !chars_strip. f_equal.
  apply lower_chars_alike; [|constructor]. apply trim_alike, chars_alike. exact H.
Qed.

Lemma normalize_username_text (t : string) :
  normalize_username (VStr t) = Ok (lower (strip t)).
Proof.
  unfold normalize_username, py_or. cbn [truthy].
  destruct (String.eqb_spec t "") as [->|_]; reflexivity.
Qed.

Lemma normalize_username_normal (v : pyval) (k : string) :
  normalize_username v = Ok k -> lower k = k /\ strip k = k.
Proof.
  assert (G : forall s, lower (lower (strip s)) = lower (strip s)
                        /\ strip (lower (strip s)) = lower (strip s))
    by (intros s; split; [apply lower_idem | apply strip_lower_strip]).
  unfold normalize_username. destruct (py_or v (VStr "")); cbn; try discriminate.
  intros [= <-]. apply G.
Qed.


Lemma keys_dict_set_in (k : string) (v : pyval) (d : dict) :
  In k (keys d) -> keys (dict_set k v d) = keys d.
Proof.
  induction d as [|[k' v'] d IH]; cbn [keys map fst dict_set In]; [intros []|].
  destruct (String.eqb_spec k' k) as [->|Hne]; [reflexivity|].
  intros [E|Hin]; [contradiction|]. cbn [map fst]. f_equal. exact (IH Hin).
Qed.

Lemma keys_dict_set_out (k : string) (v : pyval) (d : dict) :
  ~ In k (keys d) -> keys (dict_set k v d) = (keys d ++ [k])%list.
Proof.
  induction d as [|[k' v'] d IH]; cbn [keys map fst dict_set In app]; [reflexivity|].
  intros Hout. destruct (String.eqb_spec k' k) as [->|Hne]; [exfalso; auto|].
  cbn [map fst]. f_equal. apply IH. auto.
Qed.


(** The invariant of the credentials under construction: no key twice,
    every key lower-case and trimmed. *)
Lemma credentials_usernames_inv (users : list pyval) : forall acc creds,
  NoDup (keys acc) -> Forall (fun k => lower k = k /\ strip k = k) (keys acc) ->
  credentials_usernames acc users = Ok creds ->
  NoDup (keys creds) /\ Forall (fun k => lower k = k /\ strip k = k) (keys creds).
Proof.
  induction users as [|u users IH]; intros acc creds Hnd Hnorm; cbn [credentials_usernames].
  - intros [= <-]. auto.
  - destruct (as_dict u) as [ud|x| |]; cbn [bind Monad_outcome]; try discriminate.
    destruct (truthy (get ud "username") && truthy (get ud "password")); [|apply IH; auto].
    destruct (subscript ud "username") as [raw|x| |]; cbn [bind Monad_outcome];
      try discriminate.
    destruct (normalize_username raw) as [k|x| |] eqn:Ek; cbn [bind Monad_outcome];
      try discriminate.
    destruct (subscript ud "name") as [nm|x| |]; cbn [bind Monad_outcome]; try discriminate.
    destruct (subscript ud "password") as [pw|x| |]; cbn [bind Monad_outcome];
      try discriminate.
    destruct (in_dec string_dec k (keys acc)) as [Hin|Hout].
    { apply IH; rewrite (keys_dict_set_in _ _ _ Hin); auto. }
    apply IH; rewrite (keys_dict_set_out _ _ _ Hout).
    + apply NoDup_app; [exact Hnd | repeat constructor; intros [] |].
      intros a Ha [<-|[]]. contradiction.
    + apply Forall_app. split; [exact Hnorm|].
      constructor; [exact (normalize_username_normal raw k Ek) | constructor].
Qed.

(** X19. The login names built from the secrets are always in normal
    form, lower-case and without surrounding blanks, and no name occurs
    twice among them. *)
Theorem credentials_normalized (users : list pyval) (creds : dict) :
  credentials_usernames [] users = Ok creds ->
  NoDup (keys creds) /\ Forall (fun k => lower k = k /\ strip k = k) (keys creds).
Proof. apply credentials_usernames_inv; constructor. Qed.

Lemma credentials_normalized_witness :
  exists creds,
    credentials_usernames [] example_users = Ok creds
    /\ keys creds = ["bob"]
    /\ NoDup (keys creds) /\ Forall (fun k => lower k = k /\ strip k = k) (keys creds).
Proof.
  eexists. split; [reflexivity|]. split; [reflexivity|].
  apply (credentials_normalized example_users). reflexivity.
Defined.




(** X21. A username is normalised by trimming and lower-casing: two
    spellings of a text that differ only in surrounding white space, or
    only in the case of ASCII letters, name the same login, and normalising
    twice changes nothing more.  Beyond ASCII the case of a letter can
    matter: the upper-case form of "straße" is another login. *)
Theorem username_normal_form (pre s post : string) :
  is_text s = true -> all_space pre = true -> all_space post = true ->
  normalize_username (VStr (pre ++ s ++ post)) = normalize_username (VStr s)
  /\ normalize_username (VStr (ascii_upper s)) = normalize_username (VStr s)
  /\ (forall k, normalize_username (VStr s) = Ok k -> normalize_username (VStr k) = Ok k)
  /\ normalize_username (VStr (upper "straße")) <> normalize_username (VStr "straße").
Proof.
  intros Ht Hpre Hpost. rewrite !normalize_username_text. repeat split.
  - rewrite (strip_app_blank _ _ _ (text_starts _ Ht) Hpre Hpost). reflexivity.
  - rewrite (lower_strip_upper _ Ht). reflexivity.
  - intros k [= <-]. rewrite normalize_username_text, strip_lower_strip, lower_idem.
    reflexivity.
  - vm_compute. discriminate.
Qed.

Lemma username_normal_form_witness :
  normalize_username (VStr ((" " ++ nbsp) ++ "Éric" ++ " "))
  = normalize_username (VStr "Éric")
  /\ normalize_username (VStr (ascii_upper "Éric")) = normalize_username (VStr "Éric")
  /\ (forall k, normalize_username (VStr "Éric") = Ok k ->
      normalize_username (VStr k) = Ok k)
  /\ normalize_username (VStr (upper "straße")) <> normalize_username (VStr "straße").
Proof. apply username_normal_form; reflexivity. Defined.

Lemma require_login_eq (hst : host) (e : env) (h : list event) :
  require_login hst e h =
  match login_inputs hst with
  | Ok (credentials, cookie_name, cookie_key, expiry) =>
      let '(name, auth_status, username) :=
        login hst credentials cookie_name cookie_key expiry in
      match auth_status with
      | VBool false => (Halt, [EvMessage Error "Username/password is incorrect"])
      | VNone => (Halt, [EvMessage Info "Please log in to continue."])
      | _ => (Ok tt, [EvMessage Caption ("Signed in as **" ++ str name ++ "**")])
      end
  | Raise x => (Raise x, [])
  | Halt => (Halt, [])
  | Diverge => (Diverge, [])
  end.
Proof.
  unfold require_login, login_inputs. cbn [bind Monad_M Monad_outcome lift ret].
  destruct (read_secrets hst) as [all|x| |]; try reflexivity.
  destruct (subscript all "auth") as [cfg|x| |]; try reflexivity.
  destruct (subscript_value cfg "users") as [users|x| |]; try reflexivity.
  destruct (py_iter users) as [items|x| |]; try reflexivity.
  destruct (credentials_usernames [] items) as [usernames|x| |]; try reflexivity.
  destruct (subscript_value cfg "cookie_name") as [cn|x| |]; try reflexivity.
  destruct (subscript_value cfg "cookie_key") as [ck|x| |]; try reflexivity.
  destruct (as_dict cfg) as [d|x| |]; try reflexivity.
  destruct (login hst _ cn ck _) as [[name status] user].
  destruct status as [|[|]| | | |]; reflexivity.
Qed.

Lemma bind_stops {A B : Type} (m : M A) (rest : A -> M B) (e : env) (h : list event) :
  (forall a, fst (m e h) <> Ok a) ->
  snd (bind m rest e h) = snd (m e h) /\ forall b, fst (bind m rest e h) <> Ok b.
Proof.
  intros Hno. cbn [bind Monad_M]. destruct (m e h) as [o t]. cbn [fst snd] in *.
  destruct o as [a|x| |]; [exfalso; exact (Hno a eq_refl)| | |];
    split; try reflexivity; discriminate.
Qed.

(** X22. The script gets past [require_login] only when the authenticator
    reports a status that is neither [False] nor [None], and then all the
    function has done is show who is signed in.  In every other case
    (wrong password, not logged in yet, secrets that cannot be read or are
    malformed) whatever code follows [require_login()] is not run.  The
    function itself never sends a request. *)
Theorem login_gate (hst : host) (e : env) (h : list event) :
  let result := require_login hst e h in
  Forall (fun ev => is_request ev = false) (snd result)
  /\ (fst result = Ok tt ->
      exists credentials cookie_name cookie_key expiry name auth_status username,
        login hst credentials cookie_name cookie_key expiry = (name, auth_status, username)
        /\ auth_status <> VBool false /\ auth_status <> VNone
        /\ snd result = [EvMessage Caption ("Signed in as **" ++ str name ++ "**")])
  /\ (fst result <> Ok tt ->
      forall (A : Type) (rest : unit -> M A),
        snd (bind (require_login hst) rest e h) = snd result
        /\ forall a, fst (bind (require_login hst) rest e h) <> Ok a).
Proof.
  cbn zeta. split; [|split].
  - rewrite require_login_eq.
    destruct (login_inputs hst) as [[[[creds cn] ck] ex]|x| |]; try constructor.
    destruct (login hst creds cn ck ex) as [[name status] user].
    destruct status as [|[|]| | | |]; repeat constructor.
  - rewrite require_login_eq.
    destruct (login_inputs hst) as [[[[creds cn] ck] ex]|x| |]; try discriminate.
    destruct (login hst creds cn ck ex) as [[name status] user] eqn:El.
    intros E. exists creds, cn, ck, ex, name, status, user.
    destruct status as [|[|]| | | |]; try discriminate E;
      (split; [exact El|]); repeat split; discriminate.
  - intros Hno A rest. apply bind_stops. intros []. exact Hno.
Qed.

Lemma login_gate_witness :
  (exists credentials cookie_name cookie_key expiry name auth_status username,
     login (example_host (VBool true)) credentials cookie_name cookie_key expiry
     = (name, auth_status, username)
     /\ auth_status <> VBool false /\ auth_status <> VNone
     /\ snd (require_login (example_host (VBool true)) (mock_env []) [])
        = [EvMessage Caption ("Signed in as **" ++ str name ++ "**")])
  /\ (snd (bind (require_login (example_host (VBool false)))
                (fun _ => fetch_businesses_v1 "key" "plumber" 0 0 1000 3)
                (mock_env scenario_pages) [])
      = snd (require_login (example_host (VBool false)) (mock_env scenario_pages) [])
      /\ forall a, fst (bind (require_login (example_host (VBool false)))
                             (fun _ => fetch_businesses_v1 "key" "plumber" 0 0 1000 3)
                             (mock_env scenario_pages) []) <> Ok a).
Proof.
  split.
  - apply (proj1 (proj2 (login_gate (example_host (VBool true)) (mock_env []) []))).
    reflexivity.
  - apply (proj2 (proj2 (login_gate (example_host (VBool false)) (mock_env scenario_pages) []))).
    discriminate.
Defined.

(** X23. A non-empty key in the environment variable wins over the secrets
    and over what is typed; the typed key is used only when no key was
    loaded; a key without a source label is always the empty text; and
    secrets that cannot be read never make the function raise: it then
    answers as if they held no key. *)
Theorem api_key_priority (hst : host) :
  (forall key,
     getenv hst "GOOGLE_MAPS_API_KEY" = Some key -> key <> "" ->
     get_maps_api_key hst = (VStr key, Some "(loaded from environment)")
     /\ sidebar_api_key hst = VStr key)
  /\ (snd (get_maps_api_key hst) = None ->
      fst (get_maps_api_key hst) = VStr "" /\ sidebar_api_key hst = VStr (typed_key hst))
  /\ (truthy (fst (get_maps_api_key hst)) = true ->
      sidebar_api_key hst = fst (get_maps_api_key hst))
  /\ (forall x,
        secrets hst = inl x ->
        get_maps_api_key hst
        = match getenv hst "GOOGLE_MAPS_API_KEY" with
          | Some key => if String.eqb key "" then (VStr "", None)
                        else (VStr key, Some "(loaded from environment)")
          | None => (VStr "", None)
          end).
Proof.
  assert (Henv : forall key,
             getenv hst "GOOGLE_MAPS_API_KEY" = Some key -> key <> "" ->
             get_maps_api_key hst = (VStr key, Some "(loaded from environment)")).
  { intros key Hk Hne. unfold get_maps_api_key. rewrite Hk.
    destruct (String.eqb_spec key ""); [contradiction | reflexivity]. }
  assert (Hnone : snd (get_maps_api_key hst) = None -> fst (get_maps_api_key hst) = VStr "").
  { unfold get_maps_api_key, read_secrets.
    destruct (getenv hst "GOOGLE_MAPS_API_KEY") as [key|];
      [destruct (String.eqb key ""); cbn [negb]|];
      try discriminate; destruct (secrets hst) as [x|s]; cbn; try reflexivity;
      destruct (lookup "GOOGLE_MAPS_API_KEY" s); cbn; try discriminate; reflexivity. }
  split; [|split; [|split]].
  - intros key Hk Hne. split; [exact (Henv key Hk Hne)|].
    unfold sidebar_api_key. rewrite (Henv key Hk Hne). cbn [truthy].
    destruct (String.eqb_spec key ""); [contradiction | reflexivity].
  - intros Hs. split; [exact (Hnone Hs)|].
    unfold sidebar_api_key. specialize (Hnone Hs).
    destruct (get_maps_api_key hst) as [v lbl]. cbn [fst] in Hnone. subst v. reflexivity.
  - unfold sidebar_api_key. destruct (get_maps_api_key hst) as [v lbl]. cbn [fst].
    intros ->. reflexivity.
  - intros x Hx. unfold get_maps_api_key, read_secrets. rewrite Hx.
    destruct (getenv hst "GOOGLE_MAPS_API_KEY") as [key|]; [|reflexivity].
    destruct (String.eqb key ""); reflexivity.
Qed.

Lemma api_key_priority_witness :
  let hst := {| getenv := fun _ => Some "env-key";
                secrets := inl KeyError;
                login := fun _ _ _ _ => (VNone, VNone, VNone);
                typed_key := "typed" |} in
  (get_maps_api_key hst = (VStr "env-key", Some "(loaded from environment)")
   /\ sidebar_api_key hst = VStr "env-key")
  /\ (fst (get_maps_api_key (example_host VNone)) = VStr ""
      /\ sidebar_api_key (example_host VNone) = VStr "typed").
Proof.
  cbn zeta. split.
  - apply (proj1 (api_key_priority _) "env-key"); [reflexivity | discriminate].
  - apply (proj1 (proj2 (api_key_priority (example_host VNone)))). reflexivity.
Defined.
